(** * Command scheduler of the XRT 2018.2 kernel drivers

    Shallow embedding of the command scheduler of
    [driver/xclng/drm/xocl/subdev/mb_scheduler.c] (module [Xocl], PCIe
    devices) and of [driver/zynq/kernel2/drm/zocl/sched_exec.c] (module
    [Zocl], MPSoC devices), with the properties of the scheduler that the
    specification states.

    Conventions.
    - A [u32] is a [Z] in [0, 2^32); wrap-around is written out with [u32].
    - A C array is a list; reading or writing outside the list is the
      [Fault OutOfBounds] result, dereferencing a missing object is
      [Fault NullPointer], dividing by zero is [Fault DivideByZero].
    - Stateful code is a function [world -> result (A * world)].
    - A pointer to a command, a buffer object or a client is a key ([nat])
      of the corresponding finite map of the world.
    - MMIO writes are appended to the [mmio] trace of the world, with the
      address given relative to the mapped base of the device. *)

From Stdlib Require Import ZArith List Lia Bool.
From stdpp Require Import base option list gmap.
Import ListNotations.
Local Open Scope Z_scope.

(** ** Results and the state-and-fault monad *)

Inductive fault : Type := OutOfBounds | DivideByZero | NullPointer.

Inductive result (A : Type) : Type :=
| Ok (a : A)
| Fault (f : fault).
Arguments Ok {A} a.
Arguments Fault {A} f.

Definition M (S A : Type) : Type := S -> result (A * S).

Definition ret {S A : Type} (a : A) : M S A := fun s => Ok (a, s).

Definition bind {S A B : Type} (m : M S A) (k : A -> M S B) : M S B :=
  fun s => match m s with
           | Ok (a, s') => k a s'
           | Fault f => Fault f
           end.

Definition lift {S A : Type} (r : result A) : M S A :=
  fun s => match r with Ok a => Ok (a, s) | Fault f => Fault f end.

Definition gets {S A : Type} (f : S -> A) : M S A := fun s => Ok (f s, s).

Definition modify {S : Type} (f : S -> S) : M S unit := fun s => Ok (tt, f s).

Notation "x <- c ;; k" := (bind c (fun x => k))
  (at level 100, c at level 99, right associativity).
Notation "c ;;; k" := (bind c (fun _ => k))
  (at level 100, right associativity).

(** [for_each l f] runs [f] on the elements of [l] in order: a C [for]
    loop whose index values are the elements of [l]. *)
Fixpoint for_each {S A : Type} (l : list A) (f : A -> M S unit) : M S unit :=
  match l with
  | [] => ret tt
  | x :: l' => f x ;;; for_each l' f
  end.

(** ** 32-bit words and arrays *)

Definition u32 (x : Z) : Z := x mod 2 ^ 32.

(** Modelled from the spec: the macros [XOCL_U32_MASK] and [U32_MASK] are
    declared in headers that are not under src/; the bitmaps are "32-bit
    words", so the mask is the word with all 32 bits set. *)
Definition U32_MASK : Z := 4294967295.

Definition arr_get {A : Type} (a : list A) (i : Z) : result A :=
  if 0 <=? i then
    match a !! Z.to_nat i with
    | Some x => Ok x
    | None => Fault OutOfBounds
    end
  else Fault OutOfBounds.

Definition arr_set {A : Type} (a : list A) (i : Z) (x : A) : result (list A) :=
  if (0 <=? i) && (i <? Z.of_nat (length a))
  then Ok (<[Z.to_nat i := x]> a)
  else Fault OutOfBounds.

(** The lowest position in [0, 32) at which [mask] has bit value [b]. *)
Definition first_bit (b : bool) (mask : Z) : option Z :=
  find (fun i => Bool.eqb (Z.testbit mask i) b) (seqZ 0 32).

(** The kernel's [ffs]: one plus the position of the least significant set
    bit, 0 for a zero word. *)
Definition ffs (mask : Z) : Z :=
  match first_bit true mask with Some i => i + 1 | None => 0 end.

(** The kernel's [ffz]: the position of the least significant zero bit.
    It is undefined for the all-ones word, where this model returns 32;
    both callers exclude that word before the call. *)
Definition ffz (mask : Z) : Z :=
  match first_bit false mask with Some i => i | None => 32 end.

(** ffs_or_neg_one() - Find first set bit in a 32 bit mask (an [int]). *)
Definition ffs_or_neg_one (mask : Z) : Z :=
  if mask =? 0 then -1 else ffs mask - 1.

(** ffz_or_neg_one() - First zero bit in bit mask (an [int]). *)
Definition ffz_or_neg_one (mask : Z) : Z :=
  if mask =? U32_MASK then -1 else ffz mask.

(** cu_mask_idx() - CU mask index for a given cu index. *)
Definition cu_mask_idx (cu_idx : Z) : Z := Z.shiftr cu_idx 5.

(** cu_idx_in_mask() - CU idx within its mask. *)
Definition cu_idx_in_mask (cu_idx : Z) : Z :=
  u32 (cu_idx - u32 (Z.shiftl (cu_mask_idx cu_idx) 5)).

(** cu_idx_from_mask() - global idx of the CU at [cu_idx] in mask [mask_idx]. *)
Definition cu_idx_from_mask (cu_idx mask_idx : Z) : Z :=
  u32 (cu_idx + u32 (Z.shiftl mask_idx 5)).

(** slot_mask_idx() - Slot mask idx index for a given slot_idx. *)
Definition slot_mask_idx (slot_idx : Z) : Z := Z.shiftr slot_idx 5.

(** slot_idx_in_mask() - Index of slot within the mask that contains it. *)
Definition slot_idx_in_mask (slot_idx : Z) : Z :=
  u32 (slot_idx - u32 (Z.shiftl (slot_mask_idx slot_idx) 5)).

(** slot_idx_from_mask_idx() - global idx of the slot at [slot_idx] in mask
    [mask_idx]. *)
Definition slot_idx_from_mask_idx (slot_idx mask_idx : Z) : Z :=
  u32 (slot_idx + u32 (Z.shiftl mask_idx 5)).

(** The value of an [unsigned int] returned through an [int]. *)
Definition to_int (x : Z) : Z :=
  if u32 x <? 2 ^ 31 then u32 x else u32 x - 2 ^ 32.

(** [atomic_inc] and [atomic_dec] on an [atomic_t], an [int] that wraps
    around, [atomic64_inc] on an [atomic64_t], and [++] on an
    [unsigned long]. *)
Definition atomic_inc (v : Z) : Z := to_int (v + 1).

Definition atomic_dec (v : Z) : Z := to_int (v - 1).

Definition atomic64_inc (v : Z) : Z :=
  let x := (v + 1) mod 2 ^ 64 in
  if x <? 2 ^ 63 then x else x - 2 ^ 64.

Definition ulong_inc (v : Z) : Z := (v + 1) mod 2 ^ 64.

(** Modelled from the spec: the array bounds are macros of headers that are
    not under src/ ("slot_status[4]", "cu_status[4]", "submitted_cmds[128]",
    "cu_addr_map[128]", "up to MAX_CHAIN=8"). *)
Definition MAX_SLOTS : Z := 128.
Definition MAX_CUS : Z := 128.
Definition MAX_U32_SLOT_MASKS : Z := 4.
Definition MAX_U32_CU_MASKS : Z := 4.
Definition MAX_DEPS : Z := 8.

(** An MMIO write: [iowrite32(val, base + addr)]. *)
Inductive io : Type := iowrite32 (val addr : Z).

(** ** Commands states and packets, common to the two drivers *)

(** The command states of [enum ert_cmd_state] (xocl); the zocl driver
    names them [CMD_STATE_NEW] and so on. *)
Inductive ert_cmd_state : Type :=
| ERT_CMD_STATE_NEW
| ERT_CMD_STATE_QUEUED
| ERT_CMD_STATE_RUNNING
| ERT_CMD_STATE_COMPLETED
| ERT_CMD_STATE_ERROR
| ERT_CMD_STATE_ABORT.

Definition state_eqb (a b : ert_cmd_state) : bool :=
  match a, b with
  | ERT_CMD_STATE_NEW, ERT_CMD_STATE_NEW
  | ERT_CMD_STATE_QUEUED, ERT_CMD_STATE_QUEUED
  | ERT_CMD_STATE_RUNNING, ERT_CMD_STATE_RUNNING
  | ERT_CMD_STATE_COMPLETED, ERT_CMD_STATE_COMPLETED
  | ERT_CMD_STATE_ERROR, ERT_CMD_STATE_ERROR
  | ERT_CMD_STATE_ABORT, ERT_CMD_STATE_ABORT => true
  | _, _ => false
  end.

(** A command packet: the named fields of the header word and the words
    that follow it ([packet->data], as far as the buffer object reaches).
    The views [ert_start_kernel_cmd] and [ert_configure_cmd] are read
    through the accessors below. *)
Record ert_packet : Type := {
  pkt_state : ert_cmd_state;
  pkt_extra_cu_masks : Z;
  pkt_count : Z;
  pkt_opcode : Z;
  pkt_type : Z;
  pkt_data : list Z
}.


Definition set_pkt_state (st : ert_cmd_state) (p : ert_packet) : ert_packet :=
  {| pkt_state := st; pkt_extra_cu_masks := pkt_extra_cu_masks p;
     pkt_count := pkt_count p; pkt_opcode := pkt_opcode p;
     pkt_type := pkt_type p; pkt_data := pkt_data p |}.

Definition set_pkt_data (d : list Z) (p : ert_packet) : ert_packet :=
  {| pkt_state := pkt_state p; pkt_extra_cu_masks := pkt_extra_cu_masks p;
     pkt_count := pkt_count p; pkt_opcode := pkt_opcode p;
     pkt_type := pkt_type p; pkt_data := d |}.

Definition rbind {A B : Type} (r : result A) (k : A -> result B) : result B :=
  match r with Ok a => k a | Fault f => Fault f end.

Notation "x <~ c ;; k" := (rbind c (fun x => k))
  (at level 100, c at level 99, right associativity).

(** Modelled from the spec: the configure view of a packet
    ([struct ert_configure_cmd], [struct configure_cmd]) is declared in
    headers that are not under src/.  "CONFIGURE payload (words):
    slot_size, num_cus, cu_shift, cu_base_addr, features{...},
    cu_addr[num_cus]": the five words after the header, then [data]. *)
Definition cfg_slot_size (p : ert_packet) : result Z := arr_get (pkt_data p) 0.
Definition cfg_num_cus (p : ert_packet) : result Z := arr_get (pkt_data p) 1.
Definition cfg_cu_shift (p : ert_packet) : result Z := arr_get (pkt_data p) 2.
Definition cfg_cu_base_addr (p : ert_packet) : result Z := arr_get (pkt_data p) 3.
Definition cfg_features (p : ert_packet) : result Z := arr_get (pkt_data p) 4.
Definition cfg_data (p : ert_packet) (i : Z) : result Z := arr_get (pkt_data p) (5 + i).

(** Modelled from the spec: the start-kernel view of a packet
    ([struct ert_start_kernel_cmd], [struct start_kernel_cmd]) is declared
    in headers that are not under src/.  "extra_cu_masks:2 in header; then
    1 + extra_cu_masks CU-mask words; then the register map": the word
    after the header is the mandatory CU mask and [data] starts after it,
    so that [data + extra_cu_masks] is the first word of the register map. *)
Definition sk_data (p : ert_packet) (i : Z) : result Z := arr_get (pkt_data p) (1 + i).

(** The bit [1 << pos] of a status word; [pos] is below 32 at every use. *)
Definition bit (pos : Z) : Z := Z.shiftl 1 pos.

(** ** The bitmap allocator, on the arrays

    [acquire_slot_idx], [release_slot_idx] and [get_free_cu] read the same
    in the two drivers, up to the place the arrays and bounds are taken
    from; each driver applies the functions below to its exec core. *)

(** The loop of acquire_slot_idx() over the mask indices [idxs]; the result
    is the returned [int] and the new [slot_status]. *)
Fixpoint acquire_slot_idx_on (num_slots : Z) (slot_status : list Z) (idxs : list Z)
  : result (Z * list Z) :=
  match idxs with
  | [] => Ok (-1, slot_status)
  | mask_idx :: rest =>
      mask <~ arr_get slot_status mask_idx ;;
      let slot_idx := u32 (ffz_or_neg_one mask) in
      if (slot_idx =? u32 (-1))
         || (num_slots <=? slot_idx_from_mask_idx slot_idx mask_idx)
      then acquire_slot_idx_on num_slots slot_status rest
      else
        st <~ arr_set slot_status mask_idx (Z.lxor mask (bit slot_idx)) ;;
        Ok (to_int (slot_idx_from_mask_idx slot_idx mask_idx), st)
  end.

(** release_slot_idx() on [slot_status]. *)
Definition release_slot_idx_on (slot_status : list Z) (slot_idx : Z) : result (list Z) :=
  let mask_idx := slot_mask_idx slot_idx in
  let pos := slot_idx_in_mask slot_idx in
  mask <~ arr_get slot_status mask_idx ;;
  arr_set slot_status mask_idx (Z.lxor mask (bit pos)).

(** The loop of get_free_cu() over the mask indices [idxs], on the words
    [data] of the packet; the result is the returned [int] and the new
    [cu_status]. *)
Fixpoint get_free_cu_on (data cu_status : list Z) (idxs : list Z)
  : result (Z * list Z) :=
  match idxs with
  | [] => Ok (-1, cu_status)
  | mask_idx :: rest =>
      cmd_mask <~ arr_get data mask_idx ;;
      busy_mask <~ arr_get cu_status mask_idx ;;
      let cu_idx := ffs_or_neg_one (Z.lxor (Z.lor cmd_mask busy_mask) busy_mask) in
      if 0 <=? cu_idx then
        st <~ arr_set cu_status mask_idx (Z.lxor busy_mask (bit cu_idx)) ;;
        Ok (to_int (cu_idx_from_mask cu_idx mask_idx), st)
      else get_free_cu_on data cu_status rest
  end.

(** The loop of configure_cu() over the register map indices [idxs]: the
    write of word [data[extra_cu_masks + i]] of the start-kernel view to
    the address [addr_of i]. *)
Fixpoint regmap_writes (p : ert_packet) (addr_of : Z -> Z) (idxs : list Z)
  : result (list io) :=
  match idxs with
  | [] => Ok []
  | i :: rest =>
      v <~ sk_data p (pkt_extra_cu_masks p + i) ;;
      ws <~ regmap_writes p addr_of rest ;;
      Ok (iowrite32 v (addr_of i) :: ws)
  end.

(** configure_cu() as the list of its writes: the register map without its
    first word, then the start of the CU at [addr_of 0]. *)
Definition configure_cu_on (p : ert_packet) (size : Z) (addr_of : Z -> Z)
  : result (list io) :=
  ws <~ regmap_writes p addr_of (seqZ 1 (size - 1)) ;;
  Ok (ws ++ [iowrite32 1 (addr_of 0)]).

(** * The xocl scheduler: mb_scheduler.c *)

Module Xocl.

(** What the scheduler takes from [ert.h] and the device headers, which are
    not under src/: the opcodes and command types, the command queue
    geometry, the register addresses, the positions of the feature bits in
    the fifth word of a configure command, and the packing of the header
    word. *)
Class ert_h : Type := {
  ERT_START_CU : Z;
  ERT_START_KERNEL : Z;
  ERT_CONFIGURE : Z;
  ERT_WRITE : Z;
  ERT_KDS_LOCAL : Z;
  ERT_CQ_SIZE : Z;
  ERT_CQ_BASE_ADDR : Z;
  ERT_STATUS_REGISTER_ADDR : Z;
  ERT_CQ_STATUS_REGISTER_ADDR : Z;
  cfg_ert_bit : Z;
  cfg_polling_bit : Z;
  cfg_cq_int_bit : Z;
  cfg_cdma_bit : Z;
  cfg_dsa52_bit : Z;
  pkt_header : ert_packet -> Z
}.

Inductive sched_ops : Type := mb_ops | penguin_ops.

(** struct exec_core: Core data structure for command execution on a
    device.  The atomics [sr0] .. [sr3] are plain words: the model runs the
    worker alone. *)
Record exec_core : Type := {
  submitted_cmds : list (option nat);
  num_slots : Z;
  num_cus : Z;
  cu_shift_offset : Z;
  cu_base_addr : Z;
  polling_mode : Z;
  cq_interrupt : Z;
  configured : bool;
  cu_addr_map : list Z;
  slot_status : list Z;
  num_slot_masks : Z;
  cu_status : list Z;
  num_cu_masks : Z;
  sr0 : Z;
  sr1 : Z;
  sr2 : Z;
  sr3 : Z;
  ops : sched_ops
}.

(** struct xocl_cmd: Command data used by scheduler.  [chain] is the
    storage of the union of [chain] and [deps]: eight pointers, to commands
    once the command is queued, to buffer objects before. *)
Record xocl_cmd : Type := {
  bo : nat;
  client : nat;
  state : ert_cmd_state;
  id : Z;
  cu_idx : Z;
  slot_idx : Z;
  chain_count : Z;
  wait_count : Z;
  chain : list (option nat);
  packet : ert_packet
}.

(** struct client_ctx, as far as the scheduler uses it. *)
Record client_ctx : Type := {
  trigger : Z;
  abort : Z;
  outstanding_execs : Z
}.

(** The feature ROM of the device: [xocl_mb_sched_on], [xocl_cdma_on] and
    [xocl_dsa_version]. *)
Record feature_rom : Type := {
  mb_sched_on : bool;
  cdma_on : bool;
  dsa_version : Z
}.

(** The state the scheduler works on: the exec core of the device, the
    command objects, [metadata.active] of the buffer objects, the clients
    and the context list of the device, the scheduler ([error], [poll],
    [command_queue]), the free and pending lists, the counters of the
    device, the number of times the clients that wait on
    [exec->poll_wait_queue] have been woken up, the MMIO writes made so far
    and the values the registers of the device read as.  The scheduler
    thread's own wait queue is not part of the state: the model runs the
    loop of the thread. *)
Record world : Type := {
  exec : exec_core;
  cmds : gmap nat xocl_cmd;
  bo_active : gmap nat (option nat);
  clients : gmap nat client_ctx;
  ctx_list : list nat;
  sched_error : Z;
  sched_poll : Z;
  command_queue : list nat;
  free_cmds : list nat;
  pending_cmds : list nat;
  num_pending : Z;
  cmd_count : Z;
  xdev_outstanding_execs : Z;
  xdev_total_execs : Z;
  poll_wakeups : nat;
  mmio : list io;
  regs : Z -> Z;
  rom : feature_rom
}.

Definition set_exec (f : exec_core -> exec_core) (w : world) : world :=
  {| exec := f (exec w); cmds := cmds w; bo_active := bo_active w;
     clients := clients w; ctx_list := ctx_list w;
     sched_error := sched_error w; sched_poll := sched_poll w;
     command_queue := command_queue w; free_cmds := free_cmds w;
     pending_cmds := pending_cmds w; num_pending := num_pending w;
     cmd_count := cmd_count w;
     xdev_outstanding_execs := xdev_outstanding_execs w;
     xdev_total_execs := xdev_total_execs w;
     poll_wakeups := poll_wakeups w;
     mmio := mmio w; regs := regs w; rom := rom w |}.

Definition set_cmds (f : gmap nat xocl_cmd -> gmap nat xocl_cmd) (w : world) : world :=
  {| exec := exec w; cmds := f (cmds w); bo_active := bo_active w;
     clients := clients w; ctx_list := ctx_list w;
     sched_error := sched_error w; sched_poll := sched_poll w;
     command_queue := command_queue w; free_cmds := free_cmds w;
     pending_cmds := pending_cmds w; num_pending := num_pending w;
     cmd_count := cmd_count w;
     xdev_outstanding_execs := xdev_outstanding_execs w;
     xdev_total_execs := xdev_total_execs w;
     poll_wakeups := poll_wakeups w;
     mmio := mmio w; regs := regs w; rom := rom w |}.

Definition set_bo_active (f : gmap nat (option nat) -> gmap nat (option nat)) (w : world) : world :=
  {| exec := exec w; cmds := cmds w; bo_active := f (bo_active w);
     clients := clients w; ctx_list := ctx_list w;
     sched_error := sched_error w; sched_poll := sched_poll w;
     command_queue := command_queue w; free_cmds := free_cmds w;
     pending_cmds := pending_cmds w; num_pending := num_pending w;
     cmd_count := cmd_count w;
     xdev_outstanding_execs := xdev_outstanding_execs w;
     xdev_total_execs := xdev_total_execs w;
     poll_wakeups := poll_wakeups w;
     mmio := mmio w; regs := regs w; rom := rom w |}.

Definition set_clients (f : gmap nat client_ctx -> gmap nat client_ctx) (w : world) : world :=
  {| exec := exec w; cmds := cmds w; bo_active := bo_active w;
     clients := f (clients w); ctx_list := ctx_list w;
     sched_error := sched_error w; sched_poll := sched_poll w;
     command_queue := command_queue w; free_cmds := free_cmds w;
     pending_cmds := pending_cmds w; num_pending := num_pending w;
     cmd_count := cmd_count w;
     xdev_outstanding_execs := xdev_outstanding_execs w;
     xdev_total_execs := xdev_total_execs w;
     poll_wakeups := poll_wakeups w;
     mmio := mmio w; regs := regs w; rom := rom w |}.

Definition set_sched_error (v : Z) (w : world) : world :=
  {| exec := exec w; cmds := cmds w; bo_active := bo_active w;
     clients := clients w; ctx_list := ctx_list w;
     sched_error := v; sched_poll := sched_poll w;
     command_queue := command_queue w; free_cmds := free_cmds w;
     pending_cmds := pending_cmds w; num_pending := num_pending w;
     cmd_count := cmd_count w;
     xdev_outstanding_execs := xdev_outstanding_execs w;
     xdev_total_execs := xdev_total_execs w;
     poll_wakeups := poll_wakeups w;
     mmio := mmio w; regs := regs w; rom := rom w |}.

Definition set_sched_poll (f : Z -> Z) (w : world) : world :=
  {| exec := exec w; cmds := cmds w; bo_active := bo_active w;
     clients := clients w; ctx_list := ctx_list w;
     sched_error := sched_error w; sched_poll := f (sched_poll w);
     command_queue := command_queue w; free_cmds := free_cmds w;
     pending_cmds := pending_cmds w; num_pending := num_pending w;
     cmd_count := cmd_count w;
     xdev_outstanding_execs := xdev_outstanding_execs w;
     xdev_total_execs := xdev_total_execs w;
     poll_wakeups := poll_wakeups w;
     mmio := mmio w; regs := regs w; rom := rom w |}.

(** The three lists a command object moves between, the counter of the
    pending list and the counter behind the command ids. *)
Definition set_lists (queue free pending : list nat) (npending count : Z) (w : world) : world :=
  {| exec := exec w; cmds := cmds w; bo_active := bo_active w;
     clients := clients w; ctx_list := ctx_list w;
     sched_error := sched_error w; sched_poll := sched_poll w;
     command_queue := queue; free_cmds := free;
     pending_cmds := pending; num_pending := npending;
     cmd_count := count;
     xdev_outstanding_execs := xdev_outstanding_execs w;
     xdev_total_execs := xdev_total_execs w;
     poll_wakeups := poll_wakeups w;
     mmio := mmio w; regs := regs w; rom := rom w |}.

Definition set_xdev_execs (outstanding total : Z) (w : world) : world :=
  {| exec := exec w; cmds := cmds w; bo_active := bo_active w;
     clients := clients w; ctx_list := ctx_list w;
     sched_error := sched_error w; sched_poll := sched_poll w;
     command_queue := command_queue w; free_cmds := free_cmds w;
     pending_cmds := pending_cmds w; num_pending := num_pending w;
     cmd_count := cmd_count w;
     xdev_outstanding_execs := outstanding;
     xdev_total_execs := total;
     poll_wakeups := poll_wakeups w;
     mmio := mmio w; regs := regs w; rom := rom w |}.

Definition set_mmio (f : list io -> list io) (w : world) : world :=
  {| exec := exec w; cmds := cmds w; bo_active := bo_active w;
     clients := clients w; ctx_list := ctx_list w;
     sched_error := sched_error w; sched_poll := sched_poll w;
     command_queue := command_queue w; free_cmds := free_cmds w;
     pending_cmds := pending_cmds w; num_pending := num_pending w;
     cmd_count := cmd_count w;
     xdev_outstanding_execs := xdev_outstanding_execs w;
     xdev_total_execs := xdev_total_execs w;
     poll_wakeups := poll_wakeups w;
     mmio := f (mmio w); regs := regs w; rom := rom w |}.

Definition set_poll_wakeups (f : nat -> nat) (w : world) : world :=
  {| exec := exec w; cmds := cmds w; bo_active := bo_active w;
     clients := clients w; ctx_list := ctx_list w;
     sched_error := sched_error w; sched_poll := sched_poll w;
     command_queue := command_queue w; free_cmds := free_cmds w;
     pending_cmds := pending_cmds w; num_pending := num_pending w;
     cmd_count := cmd_count w;
     xdev_outstanding_execs := xdev_outstanding_execs w;
     xdev_total_execs := xdev_total_execs w;
     poll_wakeups := f (poll_wakeups w);
     mmio := mmio w; regs := regs w; rom := rom w |}.

(** Field updates of the exec core, of a command and of a client. *)

Definition set_submitted_cmds (v : list (option nat)) (r : exec_core) : exec_core :=
  {| submitted_cmds := v; num_slots := num_slots r; num_cus := num_cus r;
     cu_shift_offset := cu_shift_offset r; cu_base_addr := cu_base_addr r;
     polling_mode := polling_mode r; cq_interrupt := cq_interrupt r;
     configured := configured r; cu_addr_map := cu_addr_map r;
     slot_status := slot_status r; num_slot_masks := num_slot_masks r;
     cu_status := cu_status r; num_cu_masks := num_cu_masks r; sr0 := sr0 r;
     sr1 := sr1 r; sr2 := sr2 r; sr3 := sr3 r; ops := ops r |}.

Definition set_num_slots (v : Z) (r : exec_core) : exec_core :=
  {| submitted_cmds := submitted_cmds r; num_slots := v;
     num_cus := num_cus r; cu_shift_offset := cu_shift_offset r;
     cu_base_addr := cu_base_addr r; polling_mode := polling_mode r;
     cq_interrupt := cq_interrupt r; configured := configured r;
     cu_addr_map := cu_addr_map r; slot_status := slot_status r;
     num_slot_masks := num_slot_masks r; cu_status := cu_status r;
     num_cu_masks := num_cu_masks r; sr0 := sr0 r; sr1 := sr1 r;
     sr2 := sr2 r; sr3 := sr3 r; ops := ops r |}.

Definition set_num_cus (v : Z) (r : exec_core) : exec_core :=
  {| submitted_cmds := submitted_cmds r; num_slots := num_slots r;
     num_cus := v; cu_shift_offset := cu_shift_offset r;
     cu_base_addr := cu_base_addr r; polling_mode := polling_mode r;
     cq_interrupt := cq_interrupt r; configured := configured r;
     cu_addr_map := cu_addr_map r; slot_status := slot_status r;
     num_slot_masks := num_slot_masks r; cu_status := cu_status r;
     num_cu_masks := num_cu_masks r; sr0 := sr0 r; sr1 := sr1 r;
     sr2 := sr2 r; sr3 := sr3 r; ops := ops r |}.

Definition set_cu_shift_offset (v : Z) (r : exec_core) : exec_core :=
  {| submitted_cmds := submitted_cmds r; num_slots := num_slots r;
     num_cus := num_cus r; cu_shift_offset := v;
     cu_base_addr := cu_base_addr r; polling_mode := polling_mode r;
     cq_interrupt := cq_interrupt r; configured := configured r;
     cu_addr_map := cu_addr_map r; slot_status := slot_status r;
     num_slot_masks := num_slot_masks r; cu_status := cu_status r;
     num_cu_masks := num_cu_masks r; sr0 := sr0 r; sr1 := sr1 r;
     sr2 := sr2 r; sr3 := sr3 r; ops := ops r |}.

Definition set_cu_base_addr (v : Z) (r : exec_core) : exec_core :=
  {| submitted_cmds := submitted_cmds r; num_slots := num_slots r;
     num_cus := num_cus r; cu_shift_offset := cu_shift_offset r;
     cu_base_addr := v; polling_mode := polling_mode r;
     cq_interrupt := cq_interrupt r; configured := configured r;
     cu_addr_map := cu_addr_map r; slot_status := slot_status r;
     num_slot_masks := num_slot_masks r; cu_status := cu_status r;
     num_cu_masks := num_cu_masks r; sr0 := sr0 r; sr1 := sr1 r;
     sr2 := sr2 r; sr3 := sr3 r; ops := ops r |}.

Definition set_polling_mode (v : Z) (r : exec_core) : exec_core :=
  {| submitted_cmds := submitted_cmds r; num_slots := num_slots r;
     num_cus := num_cus r; cu_shift_offset := cu_shift_offset r;
     cu_base_addr := cu_base_addr r; polling_mode := v;
     cq_interrupt := cq_interrupt r; configured := configured r;
     cu_addr_map := cu_addr_map r; slot_status := slot_status r;
     num_slot_masks := num_slot_masks r; cu_status := cu_status r;
     num_cu_masks := num_cu_masks r; sr0 := sr0 r; sr1 := sr1 r;
     sr2 := sr2 r; sr3 := sr3 r; ops := ops r |}.

Definition set_cq_interrupt (v : Z) (r : exec_core) : exec_core :=
  {| submitted_cmds := submitted_cmds r; num_slots := num_slots r;
     num_cus := num_cus r; cu_shift_offset := cu_shift_offset r;
     cu_base_addr := cu_base_addr r; polling_mode := polling_mode r;
     cq_interrupt := v; configured := configured r;
     cu_addr_map := cu_addr_map r; slot_status := slot_status r;
     num_slot_masks := num_slot_masks r; cu_status := cu_status r;
     num_cu_masks := num_cu_masks r; sr0 := sr0 r; sr1 := sr1 r;
     sr2 := sr2 r; sr3 := sr3 r; ops := ops r |}.

Definition set_configured (v : bool) (r : exec_core) : exec_core :=
  {| submitted_cmds := submitted_cmds r; num_slots := num_slots r;
     num_cus := num_cus r; cu_shift_offset := cu_shift_offset r;
     cu_base_addr := cu_base_addr r; polling_mode := polling_mode r;
     cq_interrupt := cq_interrupt r; configured := v;
     cu_addr_map := cu_addr_map r; slot_status := slot_status r;
     num_slot_masks := num_slot_masks r; cu_status := cu_status r;
     num_cu_masks := num_cu_masks r; sr0 := sr0 r; sr1 := sr1 r;
     sr2 := sr2 r; sr3 := sr3 r; ops := ops r |}.

Definition set_cu_addr_map (v : list Z) (r : exec_core) : exec_core :=
  {| submitted_cmds := submitted_cmds r; num_slots := num_slots r;
     num_cus := num_cus r; cu_shift_offset := cu_shift_offset r;
     cu_base_addr := cu_base_addr r; polling_mode := polling_mode r;
     cq_interrupt := cq_interrupt r; configured := configured r;
     cu_addr_map := v; slot_status := slot_status r;
     num_slot_masks := num_slot_masks r; cu_status := cu_status r;
     num_cu_masks := num_cu_masks r; sr0 := sr0 r; sr1 := sr1 r;
     sr2 := sr2 r; sr3 := sr3 r; ops := ops r |}.

Definition set_slot_status (v : list Z) (r : exec_core) : exec_core :=
  {| submitted_cmds := submitted_cmds r; num_slots := num_slots r;
     num_cus := num_cus r; cu_shift_offset := cu_shift_offset r;
     cu_base_addr := cu_base_addr r; polling_mode := polling_mode r;
     cq_interrupt := cq_interrupt r; configured := configured r;
     cu_addr_map := cu_addr_map r; slot_status := v;
     num_slot_masks := num_slot_masks r; cu_status := cu_status r;
     num_cu_masks := num_cu_masks r; sr0 := sr0 r; sr1 := sr1 r;
     sr2 := sr2 r; sr3 := sr3 r; ops := ops r |}.

Definition set_num_slot_masks (v : Z) (r : exec_core) : exec_core :=
  {| submitted_cmds := submitted_cmds r; num_slots := num_slots r;
     num_cus := num_cus r; cu_shift_offset := cu_shift_offset r;
     cu_base_addr := cu_base_addr r; polling_mode := polling_mode r;
     cq_interrupt := cq_interrupt r; configured := configured r;
     cu_addr_map := cu_addr_map r; slot_status := slot_status r;
     num_slot_masks := v; cu_status := cu_status r;
     num_cu_masks := num_cu_masks r; sr0 := sr0 r; sr1 := sr1 r;
     sr2 := sr2 r; sr3 := sr3 r; ops := ops r |}.

Definition set_cu_status (v : list Z) (r : exec_core) : exec_core :=
  {| submitted_cmds := submitted_cmds r; num_slots := num_slots r;
     num_cus := num_cus r; cu_shift_offset := cu_shift_offset r;
     cu_base_addr := cu_base_addr r; polling_mode := polling_mode r;
     cq_interrupt := cq_interrupt r; configured := configured r;
     cu_addr_map := cu_addr_map r; slot_status := slot_status r;
     num_slot_masks := num_slot_masks r; cu_status := v;
     num_cu_masks := num_cu_masks r; sr0 := sr0 r; sr1 := sr1 r;
     sr2 := sr2 r; sr3 := sr3 r; ops := ops r |}.

Definition set_num_cu_masks (v : Z) (r : exec_core) : exec_core :=
  {| submitted_cmds := submitted_cmds r; num_slots := num_slots r;
     num_cus := num_cus r; cu_shift_offset := cu_shift_offset r;
     cu_base_addr := cu_base_addr r; polling_mode := polling_mode r;
     cq_interrupt := cq_interrupt r; configured := configured r;
     cu_addr_map := cu_addr_map r; slot_status := slot_status r;
     num_slot_masks := num_slot_masks r; cu_status := cu_status r;
     num_cu_masks := v; sr0 := sr0 r; sr1 := sr1 r; sr2 := sr2 r;
     sr3 := sr3 r; ops := ops r |}.

Definition set_sr0 (v : Z) (r : exec_core) : exec_core :=
  {| submitted_cmds := submitted_cmds r; num_slots := num_slots r;
     num_cus := num_cus r; cu_shift_offset := cu_shift_offset r;
     cu_base_addr := cu_base_addr r; polling_mode := polling_mode r;
     cq_interrupt := cq_interrupt r; configured := configured r;
     cu_addr_map := cu_addr_map r; slot_status := slot_status r;
     num_slot_masks := num_slot_masks r; cu_status := cu_status r;
     num_cu_masks := num_cu_masks r; sr0 := v; sr1 := sr1 r; sr2 := sr2 r;
     sr3 := sr3 r; ops := ops r |}.

Definition set_sr1 (v : Z) (r : exec_core) : exec_core :=
  {| submitted_cmds := submitted_cmds r; num_slots := num_slots r;
     num_cus := num_cus r; cu_shift_offset := cu_shift_offset r;
     cu_base_addr := cu_base_addr r; polling_mode := polling_mode r;
     cq_interrupt := cq_interrupt r; configured := configured r;
     cu_addr_map := cu_addr_map r; slot_status := slot_status r;
     num_slot_masks := num_slot_masks r; cu_status := cu_status r;
     num_cu_masks := num_cu_masks r; sr0 := sr0 r; sr1 := v; sr2 := sr2 r;
     sr3 := sr3 r; ops := ops r |}.

Definition set_sr2 (v : Z) (r : exec_core) : exec_core :=
  {| submitted_cmds := submitted_cmds r; num_slots := num_slots r;
     num_cus := num_cus r; cu_shift_offset := cu_shift_offset r;
     cu_base_addr := cu_base_addr r; polling_mode := polling_mode r;
     cq_interrupt := cq_interrupt r; configured := configured r;
     cu_addr_map := cu_addr_map r; slot_status := slot_status r;
     num_slot_masks := num_slot_masks r; cu_status := cu_status r;
     num_cu_masks := num_cu_masks r; sr0 := sr0 r; sr1 := sr1 r; sr2 := v;
     sr3 := sr3 r; ops := ops r |}.

Definition set_sr3 (v : Z) (r : exec_core) : exec_core :=
  {| submitted_cmds := submitted_cmds r; num_slots := num_slots r;
     num_cus := num_cus r; cu_shift_offset := cu_shift_offset r;
     cu_base_addr := cu_base_addr r; polling_mode := polling_mode r;
     cq_interrupt := cq_interrupt r; configured := configured r;
     cu_addr_map := cu_addr_map r; slot_status := slot_status r;
     num_slot_masks := num_slot_masks r; cu_status := cu_status r;
     num_cu_masks := num_cu_masks r; sr0 := sr0 r; sr1 := sr1 r;
     sr2 := sr2 r; sr3 := v; ops := ops r |}.

Definition set_ops (v : sched_ops) (r : exec_core) : exec_core :=
  {| submitted_cmds := submitted_cmds r; num_slots := num_slots r;
     num_cus := num_cus r; cu_shift_offset := cu_shift_offset r;
     cu_base_addr := cu_base_addr r; polling_mode := polling_mode r;
     cq_interrupt := cq_interrupt r; configured := configured r;
     cu_addr_map := cu_addr_map r; slot_status := slot_status r;
     num_slot_masks := num_slot_masks r; cu_status := cu_status r;
     num_cu_masks := num_cu_masks r; sr0 := sr0 r; sr1 := sr1 r;
     sr2 := sr2 r; sr3 := sr3 r; ops := v |}.

Definition set_bo (v : nat) (r : xocl_cmd) : xocl_cmd :=
  {| bo := v; client := client r; state := state r; id := id r;
     cu_idx := cu_idx r; slot_idx := slot_idx r;
     chain_count := chain_count r; wait_count := wait_count r;
     chain := chain r; packet := packet r |}.

Definition set_client (v : nat) (r : xocl_cmd) : xocl_cmd :=
  {| bo := bo r; client := v; state := state r; id := id r;
     cu_idx := cu_idx r; slot_idx := slot_idx r;
     chain_count := chain_count r; wait_count := wait_count r;
     chain := chain r; packet := packet r |}.

Definition set_state (v : ert_cmd_state) (r : xocl_cmd) : xocl_cmd :=
  {| bo := bo r; client := client r; state := v; id := id r;
     cu_idx := cu_idx r; slot_idx := slot_idx r;
     chain_count := chain_count r; wait_count := wait_count r;
     chain := chain r; packet := packet r |}.

Definition set_id (v : Z) (r : xocl_cmd) : xocl_cmd :=
  {| bo := bo r; client := client r; state := state r; id := v;
     cu_idx := cu_idx r; slot_idx := slot_idx r;
     chain_count := chain_count r; wait_count := wait_count r;
     chain := chain r; packet := packet r |}.

Definition set_cu_idx (v : Z) (r : xocl_cmd) : xocl_cmd :=
  {| bo := bo r; client := client r; state := state r; id := id r;
     cu_idx := v; slot_idx := slot_idx r; chain_count := chain_count r;
     wait_count := wait_count r; chain := chain r; packet := packet r |}.

Definition set_slot_idx (v : Z) (r : xocl_cmd) : xocl_cmd :=
  {| bo := bo r; client := client r; state := state r; id := id r;
     cu_idx := cu_idx r; slot_idx := v; chain_count := chain_count r;
     wait_count := wait_count r; chain := chain r; packet := packet r |}.

Definition set_chain_count (v : Z) (r : xocl_cmd) : xocl_cmd :=
  {| bo := bo r; client := client r; state := state r; id := id r;
     cu_idx := cu_idx r; slot_idx := slot_idx r; chain_count := v;
     wait_count := wait_count r; chain := chain r; packet := packet r |}.

Definition set_wait_count (v : Z) (r : xocl_cmd) : xocl_cmd :=
  {| bo := bo r; client := client r; state := state r; id := id r;
     cu_idx := cu_idx r; slot_idx := slot_idx r;
     chain_count := chain_count r; wait_count := v; chain := chain r;
     packet := packet r |}.

Definition set_chain (v : list (option nat)) (r : xocl_cmd) : xocl_cmd :=
  {| bo := bo r; client := client r; state := state r; id := id r;
     cu_idx := cu_idx r; slot_idx := slot_idx r;
     chain_count := chain_count r; wait_count := wait_count r; chain := v;
     packet := packet r |}.

Definition set_packet (v : ert_packet) (r : xocl_cmd) : xocl_cmd :=
  {| bo := bo r; client := client r; state := state r; id := id r;
     cu_idx := cu_idx r; slot_idx := slot_idx r;
     chain_count := chain_count r; wait_count := wait_count r;
     chain := chain r; packet := v |}.

Definition set_trigger (v : Z) (r : client_ctx) : client_ctx :=
  {| trigger := v; abort := abort r;
     outstanding_execs := outstanding_execs r |}.

Definition set_outstanding_execs (v : Z) (r : client_ctx) : client_ctx :=
  {| trigger := trigger r; abort := abort r; outstanding_execs := v |}.


Section Scheduler.
Context {abi : ert_h}.

(** *** Access to the objects of the world *)

Definition the_cmd (p : nat) : M world xocl_cmd :=
  fun w => match cmds w !! p with
           | Some c => Ok (c, w)
           | None => Fault NullPointer
           end.

Definition upd_cmd (p : nat) (f : xocl_cmd -> xocl_cmd) : M world unit :=
  c <- the_cmd p ;;
  modify (set_cmds (fun m => <[p := f c]> m)).

Definition the_client (k : nat) : M world client_ctx :=
  fun w => match clients w !! k with
           | Some c => Ok (c, w)
           | None => Fault NullPointer
           end.

Definition upd_client (k : nat) (f : client_ctx -> client_ctx) : M world unit :=
  c <- the_client k ;;
  modify (set_clients (fun m => <[k := f c]> m)).

(** [bo->metadata.active] of the buffer object [b]. *)
Definition the_active (b : nat) : M world (option nat) :=
  fun w => match bo_active w !! b with
           | Some a => Ok (a, w)
           | None => Fault NullPointer
           end.

Definition set_active (b : nat) (a : option nat) : M world unit :=
  _ <- the_active b ;;
  modify (set_bo_active (fun m => <[b := a]> m)).

Definition upd_exec (f : exec_core -> exec_core) : M world unit :=
  modify (set_exec f).

(** [iowrite32(val, exec->base + addr)]. *)
Definition do_iowrite32 (val addr : Z) : M world unit :=
  modify (set_mmio (fun t => t ++ [iowrite32 val addr])).

(** [ioread32(exec->base + addr)]. *)
Definition do_ioread32 (addr : Z) : M world Z := gets (fun w => regs w addr).

(** The macro sched_error_on(exec,expr,msg). *)
Definition sched_error_on (expr : bool) : M world bool :=
  if expr then modify (set_sched_error 1) ;;; ret true else ret false.

(** *** Packet accessors *)

(** opcode() - Command opcode. *)
Definition opcode (xcmd : xocl_cmd) : Z := pkt_opcode (packet xcmd).

(** type() - Command type. *)
Definition type (xcmd : xocl_cmd) : Z := pkt_type (packet xcmd).

(** payload_size() - Command payload size. *)
Definition payload_size (xcmd : xocl_cmd) : Z := pkt_count (packet xcmd).

(** packet_size() - Command packet size. *)
Definition packet_size (xcmd : xocl_cmd) : Z := u32 (payload_size xcmd + 1).

(** cu_masks() - Number of command packet cu_masks. *)
Definition cu_masks (xcmd : xocl_cmd) : Z :=
  if negb (opcode xcmd =? ERT_START_KERNEL) then 0
  else u32 (1 + pkt_extra_cu_masks (packet xcmd)).

(** regmap_size() - Size of regmap is payload size (n) minus the number of
    cu_masks. *)
Definition regmap_size (xcmd : xocl_cmd) : Z :=
  u32 (payload_size xcmd - cu_masks xcmd).

(** set_cmd_int_state() - Set internal command state used by scheduler
    only. *)
Definition set_cmd_int_state (p : nat) (st : ert_cmd_state) : M world unit :=
  upd_cmd p (set_state st).

(** set_cmd_state() - Set both internal and external state of a command. *)
Definition set_cmd_state (p : nat) (st : ert_cmd_state) : M world unit :=
  upd_cmd p (fun c => set_packet (set_pkt_state st (packet c)) (set_state st c)).

(** update_cmd_state(): a command that is not running turns to abort when
    its client is aborting. *)
Definition update_cmd_state (p : nat) : M world ert_cmd_state :=
  c <- the_cmd p ;;
  (if state_eqb (state c) ERT_CMD_STATE_RUNNING then ret tt
   else
     cl <- the_client (client c) ;;
     if negb (abort cl =? 0) then set_cmd_state p ERT_CMD_STATE_ABORT
     else ret tt) ;;;
  c' <- the_cmd p ;;
  ret (state c').

(** *** Free list and pending list *)

Definition remove (p : nat) (l : list nat) : list nat :=
  filter (fun q => q <> p) l.

(** get_free_xocl_cmd() - Get a free command object: the head of the free
    list, or a new object, whose pointer is a key the world does not use;
    the fields of a new object are those [add_cmd] does not set. *)
Definition get_free_xocl_cmd (blank : xocl_cmd) : M world nat :=
  w <- gets (fun w => w) ;;
  p <- match free_cmds w with
       | p :: rest =>
           modify (set_lists (command_queue w) rest (pending_cmds w)
                     (num_pending w) (cmd_count w)) ;;;
           ret p
       | [] =>
           let p := fresh (dom (cmds w)) in
           modify (set_cmds (fun m => <[p := blank]> m)) ;;;
           ret p
       end ;;
  w' <- gets (fun w => w) ;;
  upd_cmd p (set_id (cmd_count w')) ;;;
  modify (set_lists (command_queue w') (free_cmds w') (pending_cmds w')
            (num_pending w') (ulong_inc (cmd_count w'))) ;;;
  ret p.

(** recycle_cmd() - recycle a command objects: [list_move_tail] takes the
    object off the list it is on and appends it to the free list. *)
Definition recycle_cmd (p : nat) : M world Z :=
  w <- gets (fun w => w) ;;
  modify (set_lists (remove p (command_queue w)) (remove p (free_cmds w) ++ [p])
            (remove p (pending_cmds w)) (num_pending w) (cmd_count w)) ;;;
  ret 0.

(** cleanup_exec(): recycle the command and count it off the device and
    the client.  The reference count of the buffer object belongs to the
    memory subsystem and is not modelled. *)
Definition cleanup_exec (p : nat) : M world unit :=
  c <- the_cmd p ;;
  recycle_cmd p ;;;
  w <- gets (fun w => w) ;;
  modify (set_xdev_execs (atomic_dec (xdev_outstanding_execs w)) (xdev_total_execs w)) ;;;
  upd_client (client c) (fun cl => set_outstanding_execs (atomic_dec (outstanding_execs cl)) cl).

(** add_cmd() - Add a new command to pending list. *)
Definition add_cmd (blank : xocl_cmd) (cl : nat) (b : nat) (pkt : ert_packet)
    (deps : list nat) : M world Z :=
  p <- get_free_xocl_cmd blank ;;
  c <- the_cmd p ;;
  _ <- the_client cl ;;
  upd_client cl (fun x => set_outstanding_execs (atomic_inc (outstanding_execs x)) x) ;;;
  let numdeps := Z.of_nat (length deps) in
  let stored := (map Some deps ++ drop (length deps) (chain c)) in
  (if numdeps <=? MAX_DEPS then ret tt else lift (Fault OutOfBounds)) ;;;
  upd_cmd p (fun _ =>
    {| bo := b; client := cl; state := state c; id := id c;
       cu_idx := -1; slot_idx := -1; chain_count := 0; wait_count := numdeps;
       chain := stored; packet := pkt |}) ;;;
  set_cmd_state p ERT_CMD_STATE_NEW ;;;
  w <- gets (fun w => w) ;;
  modify (set_lists (command_queue w) (free_cmds w) (pending_cmds w ++ [p])
            (atomic_inc (num_pending w)) (cmd_count w)) ;;;
  modify (set_xdev_execs (atomic_inc (xdev_outstanding_execs w))
            (atomic64_inc (xdev_total_execs w))) ;;;
  ret 0.

(** *** Configuration and register writes *)

(** A one-bit field of a word, read and written. *)
Definition bitfield (w pos : Z) : Z := Z.b2z (Z.testbit w pos).

Definition with_bitfield (w pos : Z) (v : bool) : Z :=
  if v then Z.setbit w pos else Z.clearbit w pos.

(** The body of the loop of configure() over the compute units:
    [exec->cu_addr_map[i] = cfg->data[i]]. *)
Definition configure_cu_addr (cfg : ert_packet) (i : Z) : M world unit :=
  v <- lift (cfg_data cfg i) ;;
  e <- gets exec ;;
  m <- lift (arr_set (cu_addr_map e) i v) ;;
  upd_exec (set_cu_addr_map m).

(** The block of configure() for a device with a CDMA engine: one more
    compute unit, at 0x250000, counted in the packet and in the core
    ([exec->num_cus = ++cfg->num_cus]). *)
Definition configure_cdma (p : nat) (cfg : ert_packet) (cfg_ncus : Z) : M world unit :=
  e <- gets exec ;;
  m <- lift (arr_set (cu_addr_map e) (num_cus e) 2424832) ;;
  upd_exec (set_cu_addr_map m) ;;;
  let n := u32 (cfg_ncus + 1) in
  d <- lift (arr_set (pkt_data cfg) 1 n) ;;
  upd_cmd p (fun c => set_packet (set_pkt_data d (packet c)) c) ;;;
  upd_exec (set_num_cus n).

(** The block of configure() that selects the back-end: the embedded
    scheduler when the device has one ([ert]) and the command asks for it,
    with the DSA and CDMA bits written back to the packet; the software
    back-end otherwise. *)
Definition configure_mode (p : nat) (cfg : ert_packet) (ert cdma : bool) (dsa : Z)
  : M world unit :=
  if ert then
    feat <- lift (cfg_features cfg) ;;
    if negb (bitfield feat cfg_ert_bit =? 0) then
      upd_exec (set_ops mb_ops) ;;;
      upd_exec (set_polling_mode (bitfield feat cfg_polling_bit)) ;;;
      upd_exec (set_cq_interrupt (bitfield feat cfg_cq_int_bit)) ;;;
      let feat' := with_bitfield (with_bitfield feat cfg_dsa52_bit (52 <=? dsa))
                     cfg_cdma_bit cdma in
      c <- the_cmd p ;;
      d <- lift (arr_set (pkt_data (packet c)) 4 feat') ;;
      upd_cmd p (fun c => set_packet (set_pkt_data d (packet c)) c)
    else
      upd_exec (set_ops penguin_ops) ;;;
      upd_exec (set_polling_mode 1)
  else
    upd_exec (set_ops penguin_ops) ;;;
    upd_exec (set_polling_mode 1).

(** configure() - Configure the scheduler from user space command.
    Return: 0 on success, 1 on failure. *)
Definition configure (p : nat) : M world Z :=
  xcmd <- the_cmd p ;;
  w <- gets (fun w => w) ;;
  let ert := mb_sched_on (rom w) in
  let cdma := cdma_on (rom w) in
  let dsa := dsa_version (rom w) in
  err <- sched_error_on (negb (opcode xcmd =? ERT_CONFIGURE)) ;;
  if err then ret 1
  else if configured (exec w) then ret 1
  else
    let cfg := packet xcmd in
    cfg_ncus <- lift (cfg_num_cus cfg) ;;
    if negb (pkt_count cfg =? u32 (5 + cfg_ncus)) then ret 1
    else
      ssz <- lift (cfg_slot_size cfg) ;;
      (if ssz =? 0 then lift (Fault DivideByZero) else ret tt) ;;;
      upd_exec (set_num_slots (ERT_CQ_SIZE / ssz)) ;;;
      upd_exec (set_num_cus cfg_ncus) ;;;
      shift <- lift (cfg_cu_shift cfg) ;;
      upd_exec (set_cu_shift_offset shift) ;;;
      cubase <- lift (cfg_cu_base_addr cfg) ;;
      upd_exec (set_cu_base_addr cubase) ;;;
      upd_exec (fun e => set_num_cu_masks (u32 (Z.shiftr (u32 (num_cus e - 1)) 5 + 1)) e) ;;;
      upd_exec (fun e => set_num_slot_masks (u32 (Z.shiftr (u32 (num_slots e - 1)) 5 + 1)) e) ;;;
      for_each (seqZ 0 cfg_ncus) (configure_cu_addr cfg) ;;;
      (if cdma then configure_cdma p cfg cfg_ncus else ret tt) ;;;
      configure_mode p cfg ert cdma dsa ;;;
      upd_exec (set_configured true) ;;;
      ret 0.

(** exec_write() - Execute a write command: the pairs [(addr, val)] at the
    even indices below [count - 1]. *)
Definition exec_write (p : nat) : M world Z :=
  xcmd <- the_cmd p ;;
  let cmd := packet xcmd in
  for_each (map (fun k => 2 * k) (seqZ 0 ((u32 (pkt_count cmd - 1) + 1) / 2)))
    (fun idx =>
       addr <- lift (arr_get (pkt_data cmd) idx) ;;
       val <- lift (arr_get (pkt_data cmd) (idx + 1)) ;;
       do_iowrite32 val addr) ;;;
  ret 0.

(** *** Slots and compute units *)

(** acquire_slot_idx() - Acquire a slot index if available.  Update slot
    status to busy so it cannot be reacquired. *)
Definition acquire_slot_idx : M world Z :=
  e <- gets exec ;;
  r <- lift (acquire_slot_idx_on (num_slots e) (slot_status e)
               (seqZ 0 (num_slot_masks e))) ;;
  upd_exec (set_slot_status (snd r)) ;;;
  ret (fst r).

(** release_slot_idx() - Release a slot index. *)
Definition release_slot_idx (slot_idx : Z) : M world unit :=
  e <- gets exec ;;
  st <- lift (release_slot_idx_on (slot_status e) slot_idx) ;;
  upd_exec (set_slot_status st).

(** get_cu_idx() - Get index of CU executing command at idx. *)
Definition get_cu_idx (cmd_idx : Z) : M world Z :=
  e <- gets exec ;;
  q <- lift (arr_get (submitted_cmds e) cmd_idx) ;;
  match q with
  | None => sched_error_on true ;;; ret (u32 (-1))
  | Some q => sched_error_on false ;;; xcmd <- the_cmd q ;; ret (u32 (cu_idx xcmd))
  end.

(** cu_done() - Check status of CU. *)
Definition cu_done (cu_idx : Z) : M world bool :=
  e <- gets exec ;;
  cu_addr <- lift (arr_get (cu_addr_map e) cu_idx) ;;
  v <- do_ioread32 cu_addr ;;
  if negb (Z.land v 2 =? 0) then
    let mask_idx := cu_mask_idx cu_idx in
    let pos := cu_idx_in_mask cu_idx in
    m <- lift (arr_get (cu_status e) mask_idx) ;;
    st <- lift (arr_set (cu_status e) mask_idx (Z.lxor m (bit pos))) ;;
    upd_exec (set_cu_status st) ;;;
    ret true
  else ret false.

(** get_free_cu() - get index of first available CU per command cu mask. *)
Definition get_free_cu (p : nat) : M world Z :=
  xcmd <- the_cmd p ;;
  e <- gets exec ;;
  let num_masks := to_int (cu_masks xcmd) in
  r <- lift (get_free_cu_on (pkt_data (packet xcmd)) (cu_status e)
               (seqZ 0 num_masks)) ;;
  upd_exec (set_cu_status (snd r)) ;;;
  ret (fst r).

(** configure_cu() - transfer command register map to specified CU and
    start the CU. *)
Definition configure_cu (p : nat) (cu_idx : Z) : M world unit :=
  xcmd <- the_cmd p ;;
  e <- gets exec ;;
  cu_addr <- lift (arr_get (cu_addr_map e) (u32 cu_idx)) ;;
  let size := regmap_size xcmd in
  ws <- lift (configure_cu_on (packet xcmd) size
                (fun i => cu_addr + u32 (Z.shiftl i 2))) ;;
  modify (set_mmio (fun t => t ++ ws)).

(** *** The two back-ends: submit *)

(** mb_submit() - Submit a command the embedded scheduler command queue. *)
Definition mb_submit (p : nat) : M world bool :=
  s <- acquire_slot_idx ;;
  upd_cmd p (set_slot_idx s) ;;;
  if s <? 0 then ret false
  else
    xcmd <- the_cmd p ;;
    if type xcmd =? ERT_KDS_LOCAL then ret true
    else
      e <- gets exec ;;
      (if num_slots e =? 0 then lift (Fault DivideByZero) else ret tt) ;;;
      let slot_addr := u32 (ERT_CQ_BASE_ADDR + u32 (s * (ERT_CQ_SIZE / num_slots e))) in
      for_each (seqZ 0 (u32 (packet_size xcmd - 1))) (fun i =>
        v <- lift (arr_get (pkt_data (packet xcmd)) i) ;;
        do_iowrite32 v (slot_addr + 4 + 4 * i)) ;;;
      do_iowrite32 (pkt_header (packet xcmd)) slot_addr ;;;
      (if negb (cq_interrupt e =? 0) then
         let cq_int_addr :=
           u32 (ERT_CQ_STATUS_REGISTER_ADDR + u32 (Z.shiftl (slot_mask_idx s) 2)) in
         let mask := bit (slot_idx_in_mask s) in
         do_iowrite32 mask cq_int_addr
       else ret tt) ;;;
      ret true.

(** penguin_submit() - penguin submit of a command. *)
Definition penguin_submit (p : nat) : M world bool :=
  xcmd <- the_cmd p ;;
  if (opcode xcmd =? ERT_CONFIGURE) || (type xcmd =? ERT_KDS_LOCAL) then
    s <- acquire_slot_idx ;;
    upd_cmd p (set_slot_idx s) ;;;
    ret true
  else if negb (opcode xcmd =? ERT_START_CU) then ret false
  else
    cu <- get_free_cu p ;;
    upd_cmd p (set_cu_idx cu) ;;;
    if cu <? 0 then ret false
    else
      s <- acquire_slot_idx ;;
      upd_cmd p (set_slot_idx s) ;;;
      if s <? 0 then ret false
      else
        configure_cu p cu ;;;
        ret true.

(** [xcmd->exec->ops->submit(xcmd)]. *)
Definition submit (p : nat) : M world bool :=
  e <- gets exec ;;
  match ops e with
  | mb_ops => mb_submit p
  | penguin_ops => penguin_submit p
  end.

(** *** Queued to running *)

(** queued_to_running() - Move a command from queued to running state if
    possible.  Return: true if command was submitted to device. *)
Definition queued_to_running (p : nat) : M world bool :=
  xcmd <- the_cmd p ;;
  if negb (wait_count xcmd =? 0) then ret false
  else
    failed <- (if opcode xcmd =? ERT_CONFIGURE
               then r <- configure p ;; ret (negb (r =? 0))
               else ret false) ;;
    if failed then set_cmd_state p ERT_CMD_STATE_ERROR ;;; ret false
    else
      failed <- (if opcode xcmd =? ERT_WRITE
                 then r <- exec_write p ;; ret (negb (r =? 0))
                 else ret false) ;;
      if failed then set_cmd_state p ERT_CMD_STATE_ERROR ;;; ret false
      else
        ok <- submit p ;;
        if ok then
          set_cmd_int_state p ERT_CMD_STATE_RUNNING ;;;
          e <- gets exec ;;
          (if negb (polling_mode e =? 0)
           then modify (set_sched_poll (fun n => u32 (n + 1)))
           else ret tt) ;;;
          xcmd' <- the_cmd p ;;
          sc <- lift (arr_set (submitted_cmds e) (slot_idx xcmd') (Some p)) ;;
          upd_exec (set_submitted_cmds sc) ;;;
          ret true
        else ret false.

(** *** Dependencies *)

(** The loop of chain_dependencies() over the dependency indices; the
    result is the value the function returns. *)
Fixpoint chain_dependencies_loop (p : nat) (idxs : list Z) : M world Z :=
  match idxs with
  | [] => ret 0
  | didx :: rest =>
      xcmd <- the_cmd p ;;
      d <- lift (arr_get (chain xcmd) didx) ;;
      match d with
      | None => lift (Fault NullPointer)
      | Some dbo =>
          chain_to <- the_active dbo ;;
          cleared <- lift (arr_set (chain xcmd) didx None) ;;
          upd_cmd p (set_chain cleared) ;;;
          match chain_to with
          | None =>
              upd_cmd p (fun c => set_wait_count (u32 (wait_count c - 1)) c) ;;;
              chain_dependencies_loop p rest
          | Some q =>
              qc <- the_cmd q ;;
              if MAX_DEPS <=? chain_count qc then ret 1
              else
                ch <- lift (arr_set (chain qc) (chain_count qc) (Some p)) ;;
                upd_cmd q (fun c => set_chain_count (u32 (chain_count qc + 1))
                                      (set_chain ch c)) ;;;
                chain_dependencies_loop p rest
          end
      end
  end.

(** chain_dependencies() - Chain this command to its dependencies. *)
Definition chain_dependencies (p : nat) : M world Z :=
  xcmd <- the_cmd p ;;
  let dcount := to_int (wait_count xcmd) in
  chain_dependencies_loop p (seqZ 0 dcount).

(** The loop of trigger_chain(): [n] bounds the number of iterations; every
    iteration takes one off [chain_count], which nothing else writes, so
    the initial [chain_count] is enough. *)
Fixpoint trigger_chain_loop (n : nat) (p : nat) : M world unit :=
  match n with
  | O => ret tt
  | S n' =>
      xcmd <- the_cmd p ;;
      if chain_count xcmd =? 0 then ret tt
      else
        let cc := u32 (chain_count xcmd - 1) in
        upd_cmd p (set_chain_count cc) ;;;
        t <- lift (arr_get (chain xcmd) cc) ;;
        match t with
        | None => lift (Fault NullPointer)
        | Some trigger =>
            tc <- the_cmd trigger ;;
            sched_error_on (wait_count tc <=? 0) ;;;
            let wc := u32 (wait_count tc - 1) in
            upd_cmd trigger (set_wait_count wc) ;;;
            (if wc =? 0 then queued_to_running trigger ;;; ret tt else ret tt) ;;;
            trigger_chain_loop n' p
        end
  end.

(** trigger_chain() - Trigger the execution of any commands chained to
    argument command. *)
Definition trigger_chain (p : nat) : M world Z :=
  xcmd <- the_cmd p ;;
  trigger_chain_loop (Z.to_nat (chain_count xcmd)) p ;;;
  ret 0.

(** *** Completion *)

(** notify_host() - Notify user space that a command is complete: the
    trigger counter of every client of the device goes up by one, and the
    clients that wait on [exec->poll_wait_queue] are woken up. *)
Definition notify_host (p : nat) : M world unit :=
  l <- gets ctx_list ;;
  for_each l (fun k => upd_client k (fun cl => set_trigger (atomic_inc (trigger cl)) cl)) ;;;
  modify (set_poll_wakeups S).

(** mark_cmd_complete() - Move a command to complete state. *)
Definition mark_cmd_complete (p : nat) : M world unit :=
  xcmd <- the_cmd p ;;
  e <- gets exec ;;
  sc <- lift (arr_set (submitted_cmds e) (slot_idx xcmd) None) ;;
  upd_exec (set_submitted_cmds sc) ;;;
  set_cmd_state p ERT_CMD_STATE_COMPLETED ;;;
  (if negb (polling_mode e =? 0)
   then modify (set_sched_poll (fun n => u32 (n - 1)))
   else ret tt) ;;;
  release_slot_idx (u32 (slot_idx xcmd)) ;;;
  notify_host p ;;;
  set_active (bo xcmd) None ;;;
  trigger_chain p ;;;
  ret tt.

(** mark_mask_complete() - Move all commands in mask to complete state. *)
Definition mark_mask_complete (mask mask_idx : Z) : M world unit :=
  if mask =? 0 then ret tt
  else
    for_each (seqZ 0 32) (fun bit_idx =>
      if Z.testbit mask bit_idx then
        e <- gets exec ;;
        q <- lift (arr_get (submitted_cmds e) (u32 (Z.shiftl mask_idx 5) + bit_idx)) ;;
        match q with
        | None => lift (Fault NullPointer)
        | Some q => mark_cmd_complete q
        end
      else ret tt).

(** The atomic exchange [atomic_xchg(&exec->srN, 0)] of mb_query(), for the
    status register [n] of the command; the result is the old value. *)
Definition xchg_sr (n : Z) : M world Z :=
  e <- gets exec ;;
  if n =? 0 then upd_exec (set_sr0 0) ;;; ret (sr0 e)
  else if n =? 1 then upd_exec (set_sr1 0) ;;; ret (sr1 e)
  else if n =? 2 then upd_exec (set_sr2 0) ;;; ret (sr2 e)
  else if n =? 3 then upd_exec (set_sr3 0) ;;; ret (sr3 e)
  else ret 0.

(** mb_query() - Check command status of argument command. *)
Definition mb_query (p : nat) : M world unit :=
  xcmd <- the_cmd p ;;
  e <- gets exec ;;
  let cmd_mask_idx := slot_mask_idx (u32 (slot_idx xcmd)) in
  if type xcmd =? ERT_KDS_LOCAL then mark_cmd_complete p
  else
    pending <- (if negb (polling_mode e =? 0) then ret true
                else old <- xchg_sr cmd_mask_idx ;; ret (negb (old =? 0))) ;;
    if pending then
      let csr_addr := u32 (ERT_STATUS_REGISTER_ADDR + u32 (Z.shiftl cmd_mask_idx 2)) in
      mask <- do_ioread32 csr_addr ;;
      if negb (mask =? 0) then mark_mask_complete mask cmd_mask_idx else ret tt
    else ret tt.

(** penguin_query() - Check command status of argument command. *)
Definition penguin_query (p : nat) : M world unit :=
  xcmd <- the_cmd p ;;
  let opc := opcode xcmd in
  done <- (if (type xcmd =? ERT_KDS_LOCAL) || (opc =? ERT_CONFIGURE) then ret true
           else if opc =? ERT_START_CU then
             cu <- get_cu_idx (u32 (slot_idx xcmd)) ;;
             cu_done cu
           else ret false) ;;
  if done then mark_cmd_complete p else ret tt.

(** [xcmd->exec->ops->query(xcmd)]. *)
Definition query (p : nat) : M world unit :=
  e <- gets exec ;;
  match ops e with
  | mb_ops => mb_query p
  | penguin_ops => penguin_query p
  end.

(** running_to_complete() - Check status of running commands. *)
Definition running_to_complete (p : nat) : M world unit := query p.

(** complete_to_free() - Recycle a complete command objects. *)
Definition complete_to_free (p : nat) : M world unit := cleanup_exec p.

Definition error_to_free (p : nat) : M world unit :=
  notify_host p ;;;
  complete_to_free p.

Definition abort_to_free (p : nat) : M world unit := complete_to_free p.

(** *** The worker *)

(** scheduler_queue_cmds() - Queue any pending commands.  The model has one
    scheduler, so every pending command is its own. *)
Definition scheduler_queue_cmds : M world unit :=
  l <- gets pending_cmds ;;
  for_each l (fun p =>
    w <- gets (fun w => w) ;;
    modify (set_lists (command_queue w ++ [p]) (free_cmds w)
              (remove p (pending_cmds w)) (num_pending w) (cmd_count w)) ;;;
    xcmd <- the_cmd p ;;
    failed <- (if negb (wait_count xcmd =? 0)
               then r <- chain_dependencies p ;; ret (negb (r =? 0))
               else ret false) ;;
    (if failed then set_cmd_state p ERT_CMD_STATE_ERROR
     else set_cmd_int_state p ERT_CMD_STATE_QUEUED) ;;;
    set_active (bo xcmd) (Some p) ;;;
    w' <- gets (fun w => w) ;;
    modify (set_lists (command_queue w') (free_cmds w') (pending_cmds w')
              (atomic_dec (num_pending w')) (cmd_count w'))).

(** [if (xcmd->state == st) step(xcmd);] of scheduler_iterate_cmds(). *)
Definition when_state (p : nat) (st : ert_cmd_state) (step : nat -> M world unit)
  : M world unit :=
  xcmd <- the_cmd p ;;
  if state_eqb (state xcmd) st then step p else ret tt.

(** The body of the loop of scheduler_iterate_cmds(), in its two halves:
    the command is advanced (abort check, queued to running, running to
    complete), then retired when it has reached a final state. *)
Definition advance_cmd (p : nat) : M world unit :=
  update_cmd_state p ;;;
  when_state p ERT_CMD_STATE_QUEUED (fun p => queued_to_running p ;;; ret tt) ;;;
  when_state p ERT_CMD_STATE_RUNNING running_to_complete.

Definition retire_cmd (p : nat) : M world unit :=
  when_state p ERT_CMD_STATE_COMPLETED complete_to_free ;;;
  when_state p ERT_CMD_STATE_ERROR error_to_free ;;;
  when_state p ERT_CMD_STATE_ABORT abort_to_free.

(** scheduler_iterate_cmds() - Iterate all commands in scheduler command
    queue.  [list_for_each_safe] reads the successor before the body runs
    and the body takes only its own command off the queue, so the loop
    visits the commands that are on the queue when it starts. *)
Definition scheduler_iterate_cmds : M world unit :=
  l <- gets command_queue ;;
  for_each l (fun p => advance_cmd p ;;; retire_cmd p).

(** scheduler_loop() - Run one loop of the scheduler, once the wait is
    over and the scheduler is not asked to stop. *)
Definition scheduler_loop : M world unit :=
  scheduler_queue_cmds ;;;
  scheduler_iterate_cmds.

(** add_exec_buffer(): Entry point for exec buffer. *)
Definition add_exec_buffer (blank : xocl_cmd) (cl : nat) (b : nat)
    (pkt : ert_packet) (deps : list nat) : M world Z :=
  add_cmd blank cl b pkt deps.

(** *** Reset, probe and clients *)

(** The exec state reset_exec() writes. *)
Definition reset_exec_core : exec_core :=
  {| submitted_cmds := replicate (Z.to_nat MAX_SLOTS) None;
     num_slots := 16; num_cus := 0; cu_shift_offset := 0; cu_base_addr := 0;
     polling_mode := 1; cq_interrupt := 0; configured := false;
     cu_addr_map := replicate (Z.to_nat MAX_CUS) 0;
     slot_status := replicate (Z.to_nat MAX_U32_SLOT_MASKS) 0;
     num_slot_masks := 1;
     cu_status := replicate (Z.to_nat MAX_U32_CU_MASKS) 0;
     num_cu_masks := 0;
     sr0 := 0; sr1 := 0; sr2 := 0; sr3 := 0;
     ops := penguin_ops |}.

(** reset_exec() - Reset the scheduler: the stale commands of the device
    are cleaned up and the exec state is reset. *)
Definition reset_exec : M world unit :=
  pending <- gets pending_cmds ;;
  for_each pending cleanup_exec ;;;
  queued <- gets command_queue ;;
  for_each queued cleanup_exec ;;;
  upd_exec (fun _ => reset_exec_core).

(** The world mb_scheduler_probe() and init_scheduler_thread() leave, for a
    device with the feature ROM [r] whose registers read as [rd]. *)
Definition mb_scheduler_probe (r : feature_rom) (rd : Z -> Z) : world :=
  {| exec := reset_exec_core; cmds := ∅; bo_active := ∅; clients := ∅;
     ctx_list := []; sched_error := 0; sched_poll := 0;
     command_queue := []; free_cmds := []; pending_cmds := [];
     num_pending := 0; cmd_count := 0;
     xdev_outstanding_execs := 0; xdev_total_execs := 0;
     poll_wakeups := 0%nat; mmio := []; regs := rd; rom := r |}.

(** create_client(): a new client, linked to the context list of the
    device; the first client of the device resets the exec core.  The
    result is the pointer to the client. *)
Definition create_client : M world nat :=
  w <- gets (fun w => w) ;;
  let k := fresh (dom (clients w)) in
  modify (set_clients (fun m =>
    <[k := {| trigger := 0; abort := 0; outstanding_execs := 0 |}]> m)) ;;;
  modify (fun w =>
    {| exec := exec w; cmds := cmds w; bo_active := bo_active w;
       clients := clients w; ctx_list := ctx_list w ++ [k];
       sched_error := sched_error w; sched_poll := sched_poll w;
       command_queue := command_queue w; free_cmds := free_cmds w;
       pending_cmds := pending_cmds w; num_pending := num_pending w;
       cmd_count := cmd_count w;
       xdev_outstanding_execs := xdev_outstanding_execs w;
       xdev_total_execs := xdev_total_execs w;
       poll_wakeups := poll_wakeups w;
       mmio := mmio w; regs := regs w; rom := rom w |}) ;;;
  (if Nat.eqb (length (ctx_list w)) 0 then reset_exec else ret tt) ;;;
  ret k.

(** poll_client(): the poll entry of the client [k].  A positive trigger
    counter is taken down by one and the result is [POLLIN], the constant
    of <linux/poll.h>, a parameter here; otherwise the result is 0.
    [poll_wait] registers the file on [exec->poll_wait_queue] for the
    kernel and changes nothing of the scheduler. *)
Definition poll_client (POLLIN : Z) (k : nat) : M world Z :=
  client <- the_client k ;;
  let counter := trigger client in
  if 0 <? counter then
    upd_client k (fun cl => set_trigger (atomic_dec (trigger cl)) cl) ;;;
    ret (u32 POLLIN)
  else ret 0.

(** A buffer object the memory subsystem hands to the scheduler: no command
    is active on it. *)
Definition new_bo (b : nat) : M world unit :=
  modify (set_bo_active (fun m => <[b := None]> m)).

(** The memory [kmalloc] returns for a command object: [add_cmd] writes
    every field but the eight pointers of [chain]. *)
Definition kmalloc_cmd : xocl_cmd :=
  {| bo := 0%nat; client := 0%nat; state := ERT_CMD_STATE_NEW; id := 0;
     cu_idx := 0; slot_idx := 0; chain_count := 0; wait_count := 0;
     chain := replicate 8 None;
     packet := {| pkt_state := ERT_CMD_STATE_NEW; pkt_extra_cu_masks := 0;
                  pkt_count := 0; pkt_opcode := 0; pkt_type := 0;
                  pkt_data := [] |} |}.

End Scheduler.

(** Modelled from the spec: the value of a state of [enum ert_cmd_state],
    which the header word of a packet holds in its four low bits ("Header
    word: { state:4, custom:8, count:11, opcode:5, type:4 }"); the values
    are the ones of the 2018.2 release, where a new command has the
    state 1. *)
Definition ert_cmd_state_value (st : ert_cmd_state) : Z :=
  match st with
  | ERT_CMD_STATE_NEW => 1
  | ERT_CMD_STATE_QUEUED => 2
  | ERT_CMD_STATE_RUNNING => 3
  | ERT_CMD_STATE_COMPLETED => 4
  | ERT_CMD_STATE_ERROR => 5
  | ERT_CMD_STATE_ABORT => 6
  end.

(** Modelled from the spec: an instance of the header, to run the scheduler
    on concrete commands.  "Opcodes: CONFIGURE=0x2, START_KERNEL=0x0";
    [ERT_START_CU] has the value of [ERT_START_KERNEL], because cu_masks()
    counts CU masks for the opcode [ERT_START_KERNEL] only and
    penguin_submit() starts the opcode [ERT_START_CU] only; "CQ_SIZE=128 k";
    the header word packs the state, the extra CU masks (the two high bits
    of the custom field), the count, the opcode and the type, from the low
    bits up; the other values are the ones of the 2018.2 release.  No
    property below depends on this instance: each is proved for every
    header. *)
Definition ert_h_2018_2 : ert_h :=
  {| ERT_START_CU := 0; ERT_START_KERNEL := 0; ERT_CONFIGURE := 2;
     ERT_WRITE := 5; ERT_KDS_LOCAL := 1;
     ERT_CQ_SIZE := 131072; ERT_CQ_BASE_ADDR := 1638400;
     ERT_STATUS_REGISTER_ADDR := 1572864;
     ERT_CQ_STATUS_REGISTER_ADDR := 1572952;
     cfg_ert_bit := 0; cfg_polling_bit := 1; cfg_cq_int_bit := 4;
     cfg_cdma_bit := 5; cfg_dsa52_bit := 31;
     pkt_header := fun p =>
       Z.lor (Z.shiftl (pkt_type p) 28)
         (Z.lor (Z.shiftl (pkt_opcode p) 23)
            (Z.lor (Z.shiftl (pkt_count p) 12)
               (Z.lor (Z.shiftl (pkt_extra_cu_masks p) 10)
                  (ert_cmd_state_value (pkt_state p))))) |}.

End Xocl.

(** * The worker of the xocl scheduler, by the function that starts a command *)

(** The functions of mb_scheduler.c through which the worker reaches
    queued_to_running(), with that call taken as the parameter [start]:
    each function below is the function of the same name of [Xocl], word
    for word, but for [start] where the source calls queued_to_running()
    and for the functions of this section where it calls one of them.
    With [Xocl.queued_to_running] for [start] they are the functions of
    [Xocl]. *)
Module XoclWorker.
Import Xocl.

Section WithStart.
Context {abi : ert_h}.
Variable start : nat -> M world bool.

(** The loop of trigger_chain(), as [Xocl.trigger_chain_loop]. *)
Fixpoint trigger_chain_loop (n : nat) (p : nat) : M world unit :=
  match n with
  | O => ret tt
  | S n' =>
      xcmd <- the_cmd p ;;
      if chain_count xcmd =? 0 then ret tt
      else
        let cc := u32 (chain_count xcmd - 1) in
        upd_cmd p (set_chain_count cc) ;;;
        t <- lift (arr_get (chain xcmd) cc) ;;
        match t with
        | None => lift (Fault NullPointer)
        | Some trigger =>
            tc <- the_cmd trigger ;;
            sched_error_on (wait_count tc <=? 0) ;;;
            let wc := u32 (wait_count tc - 1) in
            upd_cmd trigger (set_wait_count wc) ;;;
            (if wc =? 0 then start trigger ;;; ret tt else ret tt) ;;;
            trigger_chain_loop n' p
        end
  end.

(** trigger_chain() - Trigger the execution of any commands chained to
    argument command. *)
Definition trigger_chain (p : nat) : M world Z :=
  xcmd <- the_cmd p ;;
  trigger_chain_loop (Z.to_nat (chain_count xcmd)) p ;;;
  ret 0.

(** mark_cmd_complete() - Move a command to complete state. *)
Definition mark_cmd_complete (p : nat) : M world unit :=
  xcmd <- the_cmd p ;;
  e <- gets exec ;;
  sc <- lift (arr_set (submitted_cmds e) (slot_idx xcmd) None) ;;
  upd_exec (set_submitted_cmds sc) ;;;
  set_cmd_state p ERT_CMD_STATE_COMPLETED ;;;
  (if negb (polling_mode e =? 0)
   then modify (set_sched_poll (fun n => u32 (n - 1)))
   else ret tt) ;;;
  release_slot_idx (u32 (slot_idx xcmd)) ;;;
  notify_host p ;;;
  set_active (bo xcmd) None ;;;
  trigger_chain p ;;;
  ret tt.

(** mark_mask_complete() - Move all commands in mask to complete state. *)
Definition mark_mask_complete (mask mask_idx : Z) : M world unit :=
  if mask =? 0 then ret tt
  else
    for_each (seqZ 0 32) (fun bit_idx =>
      if Z.testbit mask bit_idx then
        e <- gets exec ;;
        q <- lift (arr_get (submitted_cmds e) (u32 (Z.shiftl mask_idx 5) + bit_idx)) ;;
        match q with
        | None => lift (Fault NullPointer)
        | Some q => mark_cmd_complete q
        end
      else ret tt).

(** mb_query() - Check command status of argument command. *)
Definition mb_query (p : nat) : M world unit :=
  xcmd <- the_cmd p ;;
  e <- gets exec ;;
  let cmd_mask_idx := slot_mask_idx (u32 (slot_idx xcmd)) in
  if type xcmd =? ERT_KDS_LOCAL then mark_cmd_complete p
  else
    pending <- (if negb (polling_mode e =? 0) then ret true
                else old <- xchg_sr cmd_mask_idx ;; ret (negb (old =? 0))) ;;
    if pending then
      let csr_addr := u32 (ERT_STATUS_REGISTER_ADDR + u32 (Z.shiftl cmd_mask_idx 2)) in
      mask <- do_ioread32 csr_addr ;;
      if negb (mask =? 0) then mark_mask_complete mask cmd_mask_idx else ret tt
    else ret tt.

(** penguin_query() - Check command status of argument command. *)
Definition penguin_query (p : nat) : M world unit :=
  xcmd <- the_cmd p ;;
  let opc := opcode xcmd in
  done <- (if (type xcmd =? ERT_KDS_LOCAL) || (opc =? ERT_CONFIGURE) then ret true
           else if opc =? ERT_START_CU then
             cu <- get_cu_idx (u32 (slot_idx xcmd)) ;;
             cu_done cu
           else ret false) ;;
  if done then mark_cmd_complete p else ret tt.

(** [xcmd->exec->ops->query(xcmd)]. *)
Definition query (p : nat) : M world unit :=
  e <- gets exec ;;
  match ops e with
  | mb_ops => mb_query p
  | penguin_ops => penguin_query p
  end.

(** running_to_complete() - Check status of running commands. *)
Definition running_to_complete (p : nat) : M world unit := query p.

(** The first half of the body of the loop of scheduler_iterate_cmds(),
    as [Xocl.advance_cmd]. *)
Definition advance_cmd (p : nat) : M world unit :=
  update_cmd_state p ;;;
  when_state p ERT_CMD_STATE_QUEUED (fun p => start p ;;; ret tt) ;;;
  when_state p ERT_CMD_STATE_RUNNING running_to_complete.

(** scheduler_iterate_cmds() - Iterate all commands in scheduler command
    queue. *)
Definition scheduler_iterate_cmds : M world unit :=
  l <- gets command_queue ;;
  for_each l (fun p => advance_cmd p ;;; retire_cmd p).

(** scheduler_loop() - Run one loop of the scheduler. *)
Definition scheduler_loop : M world unit :=
  scheduler_queue_cmds ;;;
  scheduler_iterate_cmds.

End WithStart.

End XoclWorker.

(** * The zocl scheduler: sched_exec.c *)

Module Zocl.

(** The command states, under the names of [enum cmd_state]. *)
Definition CMD_STATE_NEW : ert_cmd_state := ERT_CMD_STATE_NEW.
Definition CMD_STATE_QUEUED : ert_cmd_state := ERT_CMD_STATE_QUEUED.
Definition CMD_STATE_RUNNING : ert_cmd_state := ERT_CMD_STATE_RUNNING.
Definition CMD_STATE_COMPLETED : ert_cmd_state := ERT_CMD_STATE_COMPLETED.

(** What the scheduler takes from [sched_exec.h] and the device headers,
    which are not under src/: the opcodes, the size of the command queue,
    the registers of the embedded scheduler and the positions of the
    feature bits in the fifth word of a configure command. *)
Class sched_exec_h : Type := {
  OP_START_CU : Z;
  OP_START_KERNEL : Z;
  OP_CONFIGURE : Z;
  OP_STOP : Z;
  OP_ABORT : Z;
  CQ_SIZE : Z;
  ERT_CQ_SLOT_SIZE_REG : Z;
  ERT_CU_OFFSET_REG : Z;
  ERT_CQ_NUM_OF_SLOTS_REG : Z;
  ERT_CU_BASE_ADDR_REG : Z;
  ERT_CQ_BASE_ADDR_REG : Z;
  ERT_NUM_OF_CU_REG : Z;
  ERT_CU_DMA_ENABLE : Z;
  ERT_HOST_INT_ENABLE : Z;
  cfg_ert_bit : Z;
  cfg_polling_bit : Z;
  cfg_cq_int_bit : Z;
  cfg_cu_dma_bit : Z;
  cfg_cu_isr_bit : Z
}.

Inductive sched_ops : Type := penguin_ops | ps_ert_ops.

(** struct sched_exec_core, as far as the scheduler uses it. *)
Record sched_exec_core : Type := {
  submitted_cmds : list (option nat);
  num_slots : Z;
  num_cus : Z;
  cu_shift_offset : Z;
  cu_base_addr : Z;
  polling_mode : Z;
  cq_interrupt : Z;
  cu_dma : Z;
  cu_isr : Z;
  configured : Z;
  slot_status : list Z;
  num_slot_masks : Z;
  cu_status : list Z;
  num_cu_masks : Z;
  ops : sched_ops
}.

(** struct sched_cmd, as far as the scheduler uses it. *)
Record sched_cmd : Type := {
  state : ert_cmd_state;
  cu_idx : Z;
  slot_idx : Z;
  cq_slot_idx : Z;
  packet : ert_packet
}.

(** The state the scheduler works on: the exec core of the device, the
    command objects, whether the device has the embedded scheduler
    ([zdev->ert]), the scheduler ([error], [poll], [command_queue]), the
    pending list, the writes made to the registers of the compute units
    ([mmio], relative to [zdev->regs]) and to the registers of the embedded
    scheduler ([ert_hw], relative to [ert->hw_ioremap]). *)
Record world : Type := {
  exec : sched_exec_core;
  cmds : gmap nat sched_cmd;
  ert : bool;
  sched_error : Z;
  sched_poll : Z;
  command_queue : list nat;
  pending_cmds : list nat;
  mmio : list io;
  ert_hw : list io
}.

(** Field updates of the exec core, of a command and of the world. *)

Definition set_submitted_cmds (v : list (option nat)) (r : sched_exec_core) : sched_exec_core :=
  {| submitted_cmds := v; num_slots := num_slots r; num_cus := num_cus r;
     cu_shift_offset := cu_shift_offset r; cu_base_addr := cu_base_addr r;
     polling_mode := polling_mode r; cq_interrupt := cq_interrupt r;
     cu_dma := cu_dma r; cu_isr := cu_isr r; configured := configured r;
     slot_status := slot_status r; num_slot_masks := num_slot_masks r;
     cu_status := cu_status r; num_cu_masks := num_cu_masks r;
     ops := ops r |}.

Definition set_num_slots (v : Z) (r : sched_exec_core) : sched_exec_core :=
  {| submitted_cmds := submitted_cmds r; num_slots := v;
     num_cus := num_cus r; cu_shift_offset := cu_shift_offset r;
     cu_base_addr := cu_base_addr r; polling_mode := polling_mode r;
     cq_interrupt := cq_interrupt r; cu_dma := cu_dma r; cu_isr := cu_isr r;
     configured := configured r; slot_status := slot_status r;
     num_slot_masks := num_slot_masks r; cu_status := cu_status r;
     num_cu_masks := num_cu_masks r; ops := ops r |}.

Definition set_num_cus (v : Z) (r : sched_exec_core) : sched_exec_core :=
  {| submitted_cmds := submitted_cmds r; num_slots := num_slots r;
     num_cus := v; cu_shift_offset := cu_shift_offset r;
     cu_base_addr := cu_base_addr r; polling_mode := polling_mode r;
     cq_interrupt := cq_interrupt r; cu_dma := cu_dma r; cu_isr := cu_isr r;
     configured := configured r; slot_status := slot_status r;
     num_slot_masks := num_slot_masks r; cu_status := cu_status r;
     num_cu_masks := num_cu_masks r; ops := ops r |}.

Definition set_cu_shift_offset (v : Z) (r : sched_exec_core) : sched_exec_core :=
  {| submitted_cmds := submitted_cmds r; num_slots := num_slots r;
     num_cus := num_cus r; cu_shift_offset := v;
     cu_base_addr := cu_base_addr r; polling_mode := polling_mode r;
     cq_interrupt := cq_interrupt r; cu_dma := cu_dma r; cu_isr := cu_isr r;
     configured := configured r; slot_status := slot_status r;
     num_slot_masks := num_slot_masks r; cu_status := cu_status r;
     num_cu_masks := num_cu_masks r; ops := ops r |}.

Definition set_cu_base_addr (v : Z) (r : sched_exec_core) : sched_exec_core :=
  {| submitted_cmds := submitted_cmds r; num_slots := num_slots r;
     num_cus := num_cus r; cu_shift_offset := cu_shift_offset r;
     cu_base_addr := v; polling_mode := polling_mode r;
     cq_interrupt := cq_interrupt r; cu_dma := cu_dma r; cu_isr := cu_isr r;
     configured := configured r; slot_status := slot_status r;
     num_slot_masks := num_slot_masks r; cu_status := cu_status r;
     num_cu_masks := num_cu_masks r; ops := ops r |}.

Definition set_polling_mode (v : Z) (r : sched_exec_core) : sched_exec_core :=
  {| submitted_cmds := submitted_cmds r; num_slots := num_slots r;
     num_cus := num_cus r; cu_shift_offset := cu_shift_offset r;
     cu_base_addr := cu_base_addr r; polling_mode := v;
     cq_interrupt := cq_interrupt r; cu_dma := cu_dma r; cu_isr := cu_isr r;
     configured := configured r; slot_status := slot_status r;
     num_slot_masks := num_slot_masks r; cu_status := cu_status r;
     num_cu_masks := num_cu_masks r; ops := ops r |}.

Definition set_cq_interrupt (v : Z) (r : sched_exec_core) : sched_exec_core :=
  {| submitted_cmds := submitted_cmds r; num_slots := num_slots r;
     num_cus := num_cus r; cu_shift_offset := cu_shift_offset r;
     cu_base_addr := cu_base_addr r; polling_mode := polling_mode r;
     cq_interrupt := v; cu_dma := cu_dma r; cu_isr := cu_isr r;
     configured := configured r; slot_status := slot_status r;
     num_slot_masks := num_slot_masks r; cu_status := cu_status r;
     num_cu_masks := num_cu_masks r; ops := ops r |}.

Definition set_cu_dma (v : Z) (r : sched_exec_core) : sched_exec_core :=
  {| submitted_cmds := submitted_cmds r; num_slots := num_slots r;
     num_cus := num_cus r; cu_shift_offset := cu_shift_offset r;
     cu_base_addr := cu_base_addr r; polling_mode := polling_mode r;
     cq_interrupt := cq_interrupt r; cu_dma := v; cu_isr := cu_isr r;
     configured := configured r; slot_status := slot_status r;
     num_slot_masks := num_slot_masks r; cu_status := cu_status r;
     num_cu_masks := num_cu_masks r; ops := ops r |}.

Definition set_cu_isr (v : Z) (r : sched_exec_core) : sched_exec_core :=
  {| submitted_cmds := submitted_cmds r; num_slots := num_slots r;
     num_cus := num_cus r; cu_shift_offset := cu_shift_offset r;
     cu_base_addr := cu_base_addr r; polling_mode := polling_mode r;
     cq_interrupt := cq_interrupt r; cu_dma := cu_dma r; cu_isr := v;
     configured := configured r; slot_status := slot_status r;
     num_slot_masks := num_slot_masks r; cu_status := cu_status r;
     num_cu_masks := num_cu_masks r; ops := ops r |}.

Definition set_configured (v : Z) (r : sched_exec_core) : sched_exec_core :=
  {| submitted_cmds := submitted_cmds r; num_slots := num_slots r;
     num_cus := num_cus r; cu_shift_offset := cu_shift_offset r;
     cu_base_addr := cu_base_addr r; polling_mode := polling_mode r;
     cq_interrupt := cq_interrupt r; cu_dma := cu_dma r; cu_isr := cu_isr r;
     configured := v; slot_status := slot_status r;
     num_slot_masks := num_slot_masks r; cu_status := cu_status r;
     num_cu_masks := num_cu_masks r; ops := ops r |}.

Definition set_slot_status (v : list Z) (r : sched_exec_core) : sched_exec_core :=
  {| submitted_cmds := submitted_cmds r; num_slots := num_slots r;
     num_cus := num_cus r; cu_shift_offset := cu_shift_offset r;
     cu_base_addr := cu_base_addr r; polling_mode := polling_mode r;
     cq_interrupt := cq_interrupt r; cu_dma := cu_dma r; cu_isr := cu_isr r;
     configured := configured r; slot_status := v;
     num_slot_masks := num_slot_masks r; cu_status := cu_status r;
     num_cu_masks := num_cu_masks r; ops := ops r |}.

Definition set_num_slot_masks (v : Z) (r : sched_exec_core) : sched_exec_core :=
  {| submitted_cmds := submitted_cmds r; num_slots := num_slots r;
     num_cus := num_cus r; cu_shift_offset := cu_shift_offset r;
     cu_base_addr := cu_base_addr r; polling_mode := polling_mode r;
     cq_interrupt := cq_interrupt r; cu_dma := cu_dma r; cu_isr := cu_isr r;
     configured := configured r; slot_status := slot_status r;
     num_slot_masks := v; cu_status := cu_status r;
     num_cu_masks := num_cu_masks r; ops := ops r |}.

Definition set_cu_status (v : list Z) (r : sched_exec_core) : sched_exec_core :=
  {| submitted_cmds := submitted_cmds r; num_slots := num_slots r;
     num_cus := num_cus r; cu_shift_offset := cu_shift_offset r;
     cu_base_addr := cu_base_addr r; polling_mode := polling_mode r;
     cq_interrupt := cq_interrupt r; cu_dma := cu_dma r; cu_isr := cu_isr r;
     configured := configured r; slot_status := slot_status r;
     num_slot_masks := num_slot_masks r; cu_status := v;
     num_cu_masks := num_cu_masks r; ops := ops r |}.

Definition set_num_cu_masks (v : Z) (r : sched_exec_core) : sched_exec_core :=
  {| submitted_cmds := submitted_cmds r; num_slots := num_slots r;
     num_cus := num_cus r; cu_shift_offset := cu_shift_offset r;
     cu_base_addr := cu_base_addr r; polling_mode := polling_mode r;
     cq_interrupt := cq_interrupt r; cu_dma := cu_dma r; cu_isr := cu_isr r;
     configured := configured r; slot_status := slot_status r;
     num_slot_masks := num_slot_masks r; cu_status := cu_status r;
     num_cu_masks := v; ops := ops r |}.

Definition set_ops (v : sched_ops) (r : sched_exec_core) : sched_exec_core :=
  {| submitted_cmds := submitted_cmds r; num_slots := num_slots r;
     num_cus := num_cus r; cu_shift_offset := cu_shift_offset r;
     cu_base_addr := cu_base_addr r; polling_mode := polling_mode r;
     cq_interrupt := cq_interrupt r; cu_dma := cu_dma r; cu_isr := cu_isr r;
     configured := configured r; slot_status := slot_status r;
     num_slot_masks := num_slot_masks r; cu_status := cu_status r;
     num_cu_masks := num_cu_masks r; ops := v |}.

Definition set_state (v : ert_cmd_state) (r : sched_cmd) : sched_cmd :=
  {| state := v; cu_idx := cu_idx r; slot_idx := slot_idx r;
     cq_slot_idx := cq_slot_idx r; packet := packet r |}.

Definition set_cu_idx (v : Z) (r : sched_cmd) : sched_cmd :=
  {| state := state r; cu_idx := v; slot_idx := slot_idx r;
     cq_slot_idx := cq_slot_idx r; packet := packet r |}.

Definition set_slot_idx (v : Z) (r : sched_cmd) : sched_cmd :=
  {| state := state r; cu_idx := cu_idx r; slot_idx := v;
     cq_slot_idx := cq_slot_idx r; packet := packet r |}.

Definition with_exec (v : sched_exec_core) (r : world) : world :=
  {| exec := v; cmds := cmds r; ert := ert r; sched_error := sched_error r;
     sched_poll := sched_poll r; command_queue := command_queue r;
     pending_cmds := pending_cmds r; mmio := mmio r; ert_hw := ert_hw r |}.

Definition with_cmds (v : gmap nat sched_cmd) (r : world) : world :=
  {| exec := exec r; cmds := v; ert := ert r; sched_error := sched_error r;
     sched_poll := sched_poll r; command_queue := command_queue r;
     pending_cmds := pending_cmds r; mmio := mmio r; ert_hw := ert_hw r |}.

Definition with_sched_error (v : Z) (r : world) : world :=
  {| exec := exec r; cmds := cmds r; ert := ert r; sched_error := v;
     sched_poll := sched_poll r; command_queue := command_queue r;
     pending_cmds := pending_cmds r; mmio := mmio r; ert_hw := ert_hw r |}.

Definition with_sched_poll (v : Z) (r : world) : world :=
  {| exec := exec r; cmds := cmds r; ert := ert r;
     sched_error := sched_error r; sched_poll := v;
     command_queue := command_queue r; pending_cmds := pending_cmds r;
     mmio := mmio r; ert_hw := ert_hw r |}.

Definition with_mmio (v : list io) (r : world) : world :=
  {| exec := exec r; cmds := cmds r; ert := ert r;
     sched_error := sched_error r; sched_poll := sched_poll r;
     command_queue := command_queue r; pending_cmds := pending_cmds r;
     mmio := v; ert_hw := ert_hw r |}.

Definition with_ert_hw (v : list io) (r : world) : world :=
  {| exec := exec r; cmds := cmds r; ert := ert r;
     sched_error := sched_error r; sched_poll := sched_poll r;
     command_queue := command_queue r; pending_cmds := pending_cmds r;
     mmio := mmio r; ert_hw := v |}.


Section Scheduler.
Context {abi : sched_exec_h}.

Definition the_cmd (p : nat) : M world sched_cmd :=
  fun w => match cmds w !! p with
           | Some c => Ok (c, w)
           | None => Fault NullPointer
           end.

Definition upd_cmd (p : nat) (f : sched_cmd -> sched_cmd) : M world unit :=
  c <- the_cmd p ;;
  modify (fun w => with_cmds (<[p := f c]> (cmds w)) w).

Definition upd_exec (f : sched_exec_core -> sched_exec_core) : M world unit :=
  modify (fun w => with_exec (f (exec w)) w).

(** A write to a register of the embedded scheduler:
    [iowrite32(val, ert_hw + reg)]. *)
Definition ert_hw_write (val reg : Z) : M world unit :=
  modify (fun w => with_ert_hw (ert_hw w ++ [iowrite32 val reg]) w).

(** The macro sched_error_on(exec, expr, msg). *)
Definition sched_error_on (expr : bool) : M world bool :=
  if expr then modify (with_sched_error 1) ;;; ret true else ret false.

(** opcode() - Command opcode. *)
Definition opcode (cmd : sched_cmd) : Z := pkt_opcode (packet cmd).

(** payload_size() - Command payload size. *)
Definition payload_size (cmd : sched_cmd) : Z := pkt_count (packet cmd).

(** packet_size() - Command packet size. *)
Definition packet_size (cmd : sched_cmd) : Z := u32 (payload_size cmd + 1).

(** cu_masks() - Number of command packet cu_masks. *)
Definition cu_masks (cmd : sched_cmd) : Z :=
  if negb (opcode cmd =? OP_START_KERNEL) then 0
  else u32 (1 + pkt_extra_cu_masks (packet cmd)).

(** regmap_size() - Size of regmap. *)
Definition regmap_size (cmd : sched_cmd) : Z :=
  u32 (payload_size cmd - cu_masks cmd).

(** cu_idx_to_offset() - Convert CU idx into address offset. *)
Definition cu_idx_to_offset (e : sched_exec_core) (cu_idx : Z) : Z :=
  u32 (Z.shiftl cu_idx (cu_shift_offset e)).

(** slot_size() - slot size per device configuration. *)
Definition slot_size : M world Z :=
  e <- gets exec ;;
  if num_slots e =? 0 then lift (Fault DivideByZero)
  else ret (CQ_SIZE / num_slots e).

(** set_cmd_int_state() - Set internal command state used by scheduler
    only. *)
Definition set_cmd_int_state (p : nat) (st : ert_cmd_state) : M world unit :=
  upd_cmd p (set_state st).

Definition bitfield (w pos : Z) : Z := Z.b2z (Z.testbit w pos).

(** setup_ert_hw() - Setup Embedded Hardware HW IP. *)
Definition setup_ert_hw : M world unit :=
  e <- gets exec ;;
  sz <- slot_size ;;
  ert_hw_write (sz / 4) ERT_CQ_SLOT_SIZE_REG ;;;
  ert_hw_write (cu_shift_offset e) ERT_CU_OFFSET_REG ;;;
  ert_hw_write (num_slots e) ERT_CQ_NUM_OF_SLOTS_REG ;;;
  ert_hw_write (2172649472 / 4) ERT_CU_BASE_ADDR_REG ;;;
  ert_hw_write (2149122048 / 4) ERT_CQ_BASE_ADDR_REG ;;;
  ert_hw_write (num_cus e) ERT_NUM_OF_CU_REG ;;;
  ert_hw_write (cu_dma e) ERT_CU_DMA_ENABLE ;;;
  if polling_mode e =? 0 then ert_hw_write 1 ERT_HOST_INT_ENABLE
  else ert_hw_write 0 ERT_HOST_INT_ENABLE.

(** configure() - Configure the scheduler from user space command.
    Return: 0 on success, 1 on failure. *)
Definition configure (p : nat) : M world Z :=
  cmd <- the_cmd p ;;
  w <- gets (fun w => w) ;;
  err <- sched_error_on (negb (opcode cmd =? OP_CONFIGURE)) ;;
  if err then ret 1
  else if negb (bool_decide (pending_cmds w = [])) then ret 1
  else if negb (Nat.eqb (length (command_queue w)) 1) then ret 1
  else
    let cfg := packet cmd in
    if negb (configured (exec w) =? 0) then ret 1
    else
      ssz <- lift (cfg_slot_size cfg) ;;
      (if ssz =? 0 then lift (Fault DivideByZero) else ret tt) ;;;
      upd_exec (set_num_slots (CQ_SIZE / ssz)) ;;;
      ncus <- lift (cfg_num_cus cfg) ;;
      upd_exec (set_num_cus ncus) ;;;
      shift <- lift (cfg_cu_shift cfg) ;;
      upd_exec (set_cu_shift_offset shift) ;;;
      cubase <- lift (cfg_cu_base_addr cfg) ;;
      upd_exec (set_cu_base_addr cubase) ;;;
      upd_exec (fun e => set_num_cu_masks (u32 (Z.shiftr (u32 (num_cus e - 1)) 5 + 1)) e) ;;;
      (if negb (ert w) then
         feat <- lift (cfg_features cfg) ;;
         if negb (bitfield feat cfg_ert_bit =? 0) then ret tt
         else
           upd_exec (set_ops penguin_ops) ;;;
           upd_exec (set_polling_mode 1) ;;;
           upd_exec (set_configured 1)
       else
         feat <- lift (cfg_features cfg) ;;
         upd_exec (set_ops ps_ert_ops) ;;;
         upd_exec (set_polling_mode (bitfield feat cfg_polling_bit)) ;;;
         upd_exec (set_cq_interrupt (bitfield feat cfg_cq_int_bit)) ;;;
         upd_exec (set_cu_dma (bitfield feat cfg_cu_dma_bit)) ;;;
         upd_exec (set_cu_isr (bitfield feat cfg_cu_isr_bit)) ;;;
         setup_ert_hw ;;;
         upd_exec (set_configured 1)) ;;;
      ret 0.

(** acquire_slot_idx() - Acquire a slot index if available. *)
Definition acquire_slot_idx : M world Z :=
  e <- gets exec ;;
  r <- lift (acquire_slot_idx_on (num_slots e) (slot_status e)
               (seqZ 0 (num_slot_masks e))) ;;
  upd_exec (set_slot_status (snd r)) ;;;
  ret (fst r).

(** release_slot_idx() - Release a slot index. *)
Definition release_slot_idx (slot_idx : Z) : M world unit :=
  e <- gets exec ;;
  st <- lift (release_slot_idx_on (slot_status e) slot_idx) ;;
  upd_exec (set_slot_status st).

(** get_free_cu() - get index of first available CU per command cu mask.
    The loop runs over the CU masks of the device. *)
Definition get_free_cu (p : nat) : M world Z :=
  cmd <- the_cmd p ;;
  e <- gets exec ;;
  r <- lift (get_free_cu_on (pkt_data (packet cmd)) (cu_status e)
               (seqZ 0 (num_cu_masks e))) ;;
  upd_exec (set_cu_status (snd r)) ;;;
  ret (fst r).

(** configure_cu() - transfer command register map to specified CU and
    start the CU.  [virt_addr] is [zdev->regs] plus the offset of the CU in
    bytes, and [virt_addr[i]] is the word at four times [i] from it. *)
Definition configure_cu (p : nat) (cu_idx : Z) : M world unit :=
  cmd <- the_cmd p ;;
  e <- gets exec ;;
  let size := regmap_size cmd in
  let virt_addr := cu_idx_to_offset e (u32 cu_idx) in
  ws <- lift (configure_cu_on (packet cmd) size (fun i => virt_addr + 4 * i)) ;;
  modify (fun w => with_mmio (mmio w ++ ws) w).

(** ert_configure_cu() - transfer command register map to specified CU and
    start the CU. *)
Definition ert_configure_cu (p : nat) (cu_idx : Z) : M world unit :=
  cmd <- the_cmd p ;;
  e <- gets exec ;;
  let size := regmap_size cmd in
  let virt_addr := cu_idx_to_offset e (u32 cu_idx) in
  ws <- lift (configure_cu_on (packet cmd) size (fun i => virt_addr + 4 * i)) ;;
  modify (fun w => with_mmio (mmio w ++ ws) w).

(** penguin_submit() - penguin submit of a command. *)
Definition penguin_submit (p : nat) : M world bool :=
  cmd <- the_cmd p ;;
  if opcode cmd =? OP_CONFIGURE then
    s <- acquire_slot_idx ;;
    upd_cmd p (set_slot_idx s) ;;;
    ret true
  else if negb (opcode cmd =? OP_START_CU) then ret false
  else
    cu <- get_free_cu p ;;
    upd_cmd p (set_cu_idx cu) ;;;
    if cu <? 0 then ret false
    else
      s <- acquire_slot_idx ;;
      upd_cmd p (set_slot_idx s) ;;;
      if s <? 0 then ret false
      else
        configure_cu p cu ;;;
        ret true.

(** ps_ert_submit() - PS ERT submit of a command. *)
Definition ps_ert_submit (p : nat) : M world bool :=
  cmd <- the_cmd p ;;
  if opcode cmd =? OP_CONFIGURE then
    s <- acquire_slot_idx ;;
    upd_cmd p (set_slot_idx s) ;;;
    ret true
  else if negb (opcode cmd =? OP_START_CU) then ret false
  else
    cu <- get_free_cu p ;;
    upd_cmd p (set_cu_idx cu) ;;;
    if cu <? 0 then ret false
    else
      s <- acquire_slot_idx ;;
      upd_cmd p (set_slot_idx s) ;;;
      if s <? 0 then ret false
      else
        ert_configure_cu p cu ;;;
        ret true.

(** [zdev->exec->ops->submit(cmd)]. *)
Definition submit (p : nat) : M world bool :=
  e <- gets exec ;;
  match ops e with
  | penguin_ops => penguin_submit p
  | ps_ert_ops => ps_ert_submit p
  end.

(** queued_to_running() - Move a command from queued to running state if
    possible.  The value of configure() is not looked at. *)
Definition queued_to_running (p : nat) : M world bool :=
  cmd <- the_cmd p ;;
  (if opcode cmd =? OP_CONFIGURE then configure p ;;; ret tt else ret tt) ;;;
  ok <- submit p ;;
  if ok then
    set_cmd_int_state p CMD_STATE_RUNNING ;;;
    w <- gets (fun w => w) ;;
    (if ert w || negb (polling_mode (exec w) =? 0)
     then modify (fun w => with_sched_poll (u32 (sched_poll w + 1)) w)
     else ret tt) ;;;
    cmd' <- the_cmd p ;;
    sc <- lift (arr_set (submitted_cmds (exec w)) (slot_idx cmd') (Some p)) ;;
    upd_exec (set_submitted_cmds sc) ;;;
    ret true
  else ret false.

(** The world sched_init_exec() leaves, for a device with ([e] true) or
    without the embedded scheduler; [devm_kzalloc] zeroes the fields the
    function does not write. *)
Definition sched_init_exec (e : bool) : world :=
  {| exec :=
       {| submitted_cmds := replicate (Z.to_nat MAX_SLOTS) None;
          num_slots := 16; num_cus := 0; cu_shift_offset := 0;
          cu_base_addr := 0; polling_mode := 1; cq_interrupt := 0;
          cu_dma := 0; cu_isr := 0; configured := 0;
          slot_status := replicate (Z.to_nat MAX_U32_SLOT_MASKS) 0;
          num_slot_masks := 1;
          cu_status := replicate (Z.to_nat MAX_U32_CU_MASKS) 0;
          num_cu_masks := 0;
          ops := penguin_ops |};
     cmds := ∅; ert := e; sched_error := 0; sched_poll := 0;
     command_queue := []; pending_cmds := []; mmio := []; ert_hw := [] |}.

End Scheduler.

(** Modelled from the spec: an instance of the header, to run the scheduler
    on concrete commands.  "Opcodes: CONFIGURE=0x2, START_KERNEL=0x0";
    [OP_START_CU] has the value of [OP_START_KERNEL], as cu_masks() and
    penguin_submit() together require; "CQ_SIZE=128 k"; the other values
    are the ones of the 2018.2 release.  No property below depends on this
    instance: each is proved for every header. *)
Definition sched_exec_h_2018_2 : sched_exec_h :=
  {| OP_START_CU := 0; OP_START_KERNEL := 0; OP_CONFIGURE := 2;
     OP_STOP := 3; OP_ABORT := 4; CQ_SIZE := 131072;
     ERT_CQ_SLOT_SIZE_REG := 0; ERT_CU_OFFSET_REG := 4;
     ERT_CQ_NUM_OF_SLOTS_REG := 8; ERT_CU_BASE_ADDR_REG := 12;
     ERT_CQ_BASE_ADDR_REG := 16; ERT_NUM_OF_CU_REG := 20;
     ERT_CU_DMA_ENABLE := 24; ERT_HOST_INT_ENABLE := 256;
     cfg_ert_bit := 0; cfg_polling_bit := 1; cfg_cq_int_bit := 4;
     cfg_cu_dma_bit := 2; cfg_cu_isr_bit := 3 |}.

End Zocl.

(** * The zocl scheduler: completion and the worker *)

Module ZoclWorker.

(** The device the worker of the zocl scheduler runs on: the state [sched]
    of the part above, the compute unit registers as they read ([regs], by
    byte offset from [zdev->regs]), the trigger counters of the client
    contexts and the list of the contexts of the device
    ([exec->ctx_list]), the wake-ups of [exec->poll_wait_queue], the free
    list and [num_pending]. *)
Record device : Type := {
  sched : Zocl.world;
  regs : Z -> Z;
  triggers : gmap nat Z;
  ctx_list : list nat;
  poll_wakeups : nat;
  free_cmds : list nat;
  num_pending : Z
}.

Definition set_sched (v : Zocl.world) (d : device) : device :=
  {| sched := v; regs := regs d; triggers := triggers d; ctx_list := ctx_list d;
     poll_wakeups := poll_wakeups d; free_cmds := free_cmds d;
     num_pending := num_pending d |}.

Definition set_triggers (v : gmap nat Z) (d : device) : device :=
  {| sched := sched d; regs := regs d; triggers := v; ctx_list := ctx_list d;
     poll_wakeups := poll_wakeups d; free_cmds := free_cmds d;
     num_pending := num_pending d |}.

Definition set_poll_wakeups (v : nat) (d : device) : device :=
  {| sched := sched d; regs := regs d; triggers := triggers d; ctx_list := ctx_list d;
     poll_wakeups := v; free_cmds := free_cmds d; num_pending := num_pending d |}.

Definition set_free_cmds (v : list nat) (d : device) : device :=
  {| sched := sched d; regs := regs d; triggers := triggers d; ctx_list := ctx_list d;
     poll_wakeups := poll_wakeups d; free_cmds := v; num_pending := num_pending d |}.

Definition set_num_pending (v : Z) (d : device) : device :=
  {| sched := sched d; regs := regs d; triggers := triggers d; ctx_list := ctx_list d;
     poll_wakeups := poll_wakeups d; free_cmds := free_cmds d; num_pending := v |}.

(** The two lists of [Zocl.world], written. *)
Definition with_lists (queue pending : list nat) (w : Zocl.world) : Zocl.world :=
  {| Zocl.exec := Zocl.exec w; Zocl.cmds := Zocl.cmds w; Zocl.ert := Zocl.ert w;
     Zocl.sched_error := Zocl.sched_error w; Zocl.sched_poll := Zocl.sched_poll w;
     Zocl.command_queue := queue; Zocl.pending_cmds := pending;
     Zocl.mmio := Zocl.mmio w; Zocl.ert_hw := Zocl.ert_hw w |}.

(** A computation of the part above, run on the device. *)
Definition on {A : Type} (m : M Zocl.world A) : M device A :=
  fun d => match m (sched d) with
           | Ok (a, w) => Ok (a, set_sched w d)
           | Fault f => Fault f
           end.

Section Worker.
Context {abi : Zocl.sched_exec_h}.

(** [ERT_STATUS_REG], of a header that is not under src/. *)
Variable ERT_STATUS_REG : Z.

(** set_cmd_state() - Set both internal and external state of a command. *)
Definition set_cmd_state (p : nat) (st : ert_cmd_state) : M device unit :=
  on (Zocl.upd_cmd p (fun c =>
    {| Zocl.state := st; Zocl.cu_idx := Zocl.cu_idx c; Zocl.slot_idx := Zocl.slot_idx c;
       Zocl.cq_slot_idx := Zocl.cq_slot_idx c;
       Zocl.packet := set_pkt_state st (Zocl.packet c) |})).

(** get_cu_idx() - Get index of CU executing command at idx. *)
Definition get_cu_idx (cmd_idx : Z) : M device Z :=
  e <- on (gets Zocl.exec) ;;
  q <- lift (arr_get (Zocl.submitted_cmds e) cmd_idx) ;;
  match q with
  | None => on (Zocl.sched_error_on true) ;;; ret (u32 (-1))
  | Some q => on (Zocl.sched_error_on false) ;;; cmd <- on (Zocl.the_cmd q) ;;
              ret (u32 (Zocl.cu_idx cmd))
  end.

(** cu_done() - Check status of CU: the word at the offset of the compute
    unit from [zdev->regs] is read. *)
Definition cu_done (cu_idx : Z) : M device bool :=
  e <- on (gets Zocl.exec) ;;
  v <- gets (fun d => regs d (Zocl.cu_idx_to_offset e cu_idx)) ;;
  if negb (Z.land v 2 =? 0) then
    let mask_idx := cu_mask_idx cu_idx in
    let pos := cu_idx_in_mask cu_idx in
    m <- lift (arr_get (Zocl.cu_status e) mask_idx) ;;
    st <- lift (arr_set (Zocl.cu_status e) mask_idx (Z.lxor m (bit pos))) ;;
    on (Zocl.upd_exec (Zocl.set_cu_status st)) ;;;
    ret true
  else ret false.

(** ert_cu_done() - Check status of CU in ERT way. *)
Definition ert_cu_done (cu_idx : Z) : M device bool :=
  e <- on (gets Zocl.exec) ;;
  v <- gets (fun d => regs d (Zocl.cu_idx_to_offset e cu_idx)) ;;
  if negb (Z.land v 2 =? 0) then
    let mask_idx := cu_mask_idx cu_idx in
    let pos := cu_idx_in_mask cu_idx in
    m <- lift (arr_get (Zocl.cu_status e) mask_idx) ;;
    st <- lift (arr_set (Zocl.cu_status e) mask_idx (Z.lxor m (bit pos))) ;;
    on (Zocl.upd_exec (Zocl.set_cu_status st)) ;;;
    ret true
  else ret false.

(** notify_host() - Notify user space that a command is complete: without
    the embedded scheduler the trigger counter of every context of the
    device goes up by one and the clients are woken up; with it, the bit
    of the slot of the command in the command queue is written to the
    status register of the embedded scheduler. *)
Definition notify_host (p : nat) : M device unit :=
  w <- on (gets (fun w => w)) ;;
  if negb (Zocl.ert w) then
    l <- gets ctx_list ;;
    for_each l (fun k =>
      d <- gets (fun d => d) ;;
      match triggers d !! k with
      | None => lift (Fault NullPointer)
      | Some t => modify (set_triggers (<[k := atomic_inc t]> (triggers d)))
      end) ;;;
    modify (fun d => set_poll_wakeups (S (poll_wakeups d)) d)
  else
    cmd <- on (Zocl.the_cmd p) ;;
    let cmd_mask_idx := slot_mask_idx (u32 (Zocl.cq_slot_idx cmd)) in
    let csr_offset := u32 (ERT_STATUS_REG + u32 (Z.shiftl cmd_mask_idx 2)) in
    let pos := slot_idx_in_mask (u32 (Zocl.cq_slot_idx cmd)) in
    on (Zocl.ert_hw_write (bit pos) csr_offset).

(** mark_cmd_complete() - Move a command to complete state. *)
Definition mark_cmd_complete (p : nat) : M device unit :=
  cmd <- on (Zocl.the_cmd p) ;;
  e <- on (gets Zocl.exec) ;;
  sc <- lift (arr_set (Zocl.submitted_cmds e) (Zocl.slot_idx cmd) None) ;;
  on (Zocl.upd_exec (Zocl.set_submitted_cmds sc)) ;;;
  set_cmd_state p Zocl.CMD_STATE_COMPLETED ;;;
  w <- on (gets (fun w => w)) ;;
  (if Zocl.ert w || negb (Zocl.polling_mode (Zocl.exec w) =? 0)
   then on (modify (fun w => Zocl.with_sched_poll (u32 (Zocl.sched_poll w - 1)) w))
   else ret tt) ;;;
  on (Zocl.release_slot_idx (u32 (Zocl.slot_idx cmd))) ;;;
  notify_host p.

(** penguin_query() - Check command status of argument command. *)
Definition penguin_query (p : nat) : M device unit :=
  cmd <- on (Zocl.the_cmd p) ;;
  let opc := Zocl.opcode cmd in
  done <- (if opc =? Zocl.OP_CONFIGURE then ret true
           else if opc =? Zocl.OP_START_CU then
             cu <- get_cu_idx (u32 (Zocl.slot_idx cmd)) ;;
             cu_done cu
           else ret false) ;;
  if done then mark_cmd_complete p else ret tt.

(** ps_ert_query() - Check command status of argument command. *)
Definition ps_ert_query (p : nat) : M device unit :=
  cmd <- on (Zocl.the_cmd p) ;;
  let opc := Zocl.opcode cmd in
  done <- (if opc =? Zocl.OP_CONFIGURE then ret true
           else if opc =? Zocl.OP_START_CU then
             cu <- get_cu_idx (u32 (Zocl.slot_idx cmd)) ;;
             ert_cu_done cu
           else ret false) ;;
  if done then mark_cmd_complete p else ret tt.

(** running_to_complete() - Check status of running commands:
    [zdev->exec->ops->query(cmd)]. *)
Definition running_to_complete (p : nat) : M device unit :=
  e <- on (gets Zocl.exec) ;;
  match Zocl.ops e with
  | Zocl.penguin_ops => penguin_query p
  | Zocl.ps_ert_ops => ps_ert_query p
  end.

(** recycle_cmd() - recycle a command objects: [list_move_tail] takes the
    object off the list it is on and appends it to the free list. *)
Definition recycle_cmd (p : nat) : M device Z :=
  on (modify (fun w => with_lists (Xocl.remove p (Zocl.command_queue w))
                         (Xocl.remove p (Zocl.pending_cmds w)) w)) ;;;
  modify (fun d => set_free_cmds (Xocl.remove p (free_cmds d) ++ [p]) d) ;;;
  ret 0.

(** complete_to_free() - Recycle a complete command objects.
    [cmd->free_buffer(cmd)] gives the buffer of the command back to the
    memory subsystem, which is not modelled. *)
Definition complete_to_free (p : nat) : M device unit :=
  _ <- on (Zocl.the_cmd p) ;;
  recycle_cmd p ;;;
  ret tt.

(** add_cmd() - Add a new command to the pending list. *)
Definition add_cmd (p : nat) : M device Z :=
  on (Zocl.upd_cmd p (Zocl.set_cu_idx (-1))) ;;;
  on (Zocl.upd_cmd p (Zocl.set_slot_idx (-1))) ;;;
  set_cmd_state p Zocl.CMD_STATE_NEW ;;;
  on (modify (fun w => with_lists (Zocl.command_queue w) (Zocl.pending_cmds w ++ [p]) w)) ;;;
  modify (fun d => set_num_pending (atomic_inc (num_pending d)) d) ;;;
  ret 0.

(** scheduler_queue_cmds() - Queue any pending commands.  The model has one
    scheduler, so every pending command is its own. *)
Definition scheduler_queue_cmds : M device unit :=
  l <- on (gets Zocl.pending_cmds) ;;
  for_each l (fun p =>
    on (modify (fun w => with_lists (Zocl.command_queue w ++ [p])
                           (Xocl.remove p (Zocl.pending_cmds w)) w)) ;;;
    on (Zocl.set_cmd_int_state p Zocl.CMD_STATE_QUEUED) ;;;
    modify (fun d => set_num_pending (atomic_dec (num_pending d)) d)).

(** [if (cmd->state == st) step(cmd);] of scheduler_iterate_cmds(). *)
Definition when_state (p : nat) (st : ert_cmd_state) (step : nat -> M device unit)
  : M device unit :=
  cmd <- on (Zocl.the_cmd p) ;;
  if state_eqb (Zocl.state cmd) st then step p else ret tt.

(** scheduler_iterate_cmds() - Iterate all commands in scheduler command
    queue.  [list_for_each_safe] reads the successor before the body runs
    and the body takes only its own command off the queue, so the loop
    visits the commands that are on the queue when it starts. *)
Definition scheduler_iterate_cmds : M device unit :=
  l <- on (gets Zocl.command_queue) ;;
  for_each l (fun p =>
    when_state p Zocl.CMD_STATE_QUEUED
      (fun p => on (Zocl.queued_to_running p) ;;; ret tt) ;;;
    when_state p Zocl.CMD_STATE_RUNNING running_to_complete ;;;
    when_state p Zocl.CMD_STATE_COMPLETED complete_to_free).

End Worker.

End ZoclWorker.

(** * Vocabulary of the properties and sample states *)

(** The bit of a status bitmap for the slot or compute unit [n]: bit
    [n mod 32] of the word [n / 32]. *)
Definition status_bit (status : list Z) (n : Z) : bool :=
  match status !! Z.to_nat (n / 32) with
  | Some w => Z.testbit w (n mod 32)
  | None => false
  end.

(** A device without embedded scheduler and without CDMA engine, and one
    with a CDMA engine. *)
Definition rom_plain : Xocl.feature_rom :=
  {| Xocl.mb_sched_on := false; Xocl.cdma_on := false; Xocl.dsa_version := 51 |}.

Definition rom_cdma : Xocl.feature_rom :=
  {| Xocl.mb_sched_on := false; Xocl.cdma_on := true; Xocl.dsa_version := 52 |}.

(** The xocl scheduler after the probe of a plain device whose registers
    read as zero, and the zocl scheduler after its initialisation on a
    device without embedded scheduler. *)
Definition xocl_boot : Xocl.world := Xocl.mb_scheduler_probe rom_plain (fun _ => 0).

Definition zocl_boot : Zocl.world := Zocl.sched_init_exec false.

(** The register map of a packet whose payload starts with [cu_masks] CU
    masks: "then the register map of regmap_size = count - cu_masks
    words". *)
Definition regmap (pkt : ert_packet) (cu_masks : Z) : list Z :=
  take (Z.to_nat (pkt_count pkt - cu_masks)) (drop (Z.to_nat cu_masks) (pkt_data pkt)).

(** The writes that start a compute unit at [cu_addr] with the words [ws]
    for its registers 1, 2, ...: word [k] of [ws] goes to
    [cu_addr + 4 * (k + 1)], in increasing order, and the value 1 goes to
    [cu_addr] last. *)
Definition cu_start_writes (cu_addr : Z) (ws : list Z) : list io :=
  imap (fun k v => iowrite32 v (cu_addr + 4 * (Z.of_nat k + 1))) ws
  ++ [iowrite32 1 cu_addr].

(** The fields of a packet a driver can rely on: the widths of the
    bit-fields of the header. *)
Definition packet_fields_ok (pkt : ert_packet) : Prop :=
  0 <= pkt_count pkt < 2 ^ 11 /\ 0 <= pkt_extra_cu_masks pkt < 4.

(** A configure packet and a start packet, with the opcodes of the sample
    headers. *)
Definition configure_packet (slot_size cu_shift cu_base features : Z) (cus : list Z)
  : ert_packet :=
  {| pkt_state := ERT_CMD_STATE_NEW; pkt_extra_cu_masks := 0;
     pkt_count := 5 + Z.of_nat (length cus); pkt_opcode := 2; pkt_type := 0;
     pkt_data := [slot_size; Z.of_nat (length cus); cu_shift; cu_base; features] ++ cus |}.

Definition start_packet (cu_mask : Z) (extra_masks regs : list Z) : ert_packet :=
  {| pkt_state := ERT_CMD_STATE_NEW;
     pkt_extra_cu_masks := Z.of_nat (length extra_masks);
     pkt_count := 1 + Z.of_nat (length extra_masks) + Z.of_nat (length regs);
     pkt_opcode := 0; pkt_type := 0;
     pkt_data := cu_mask :: extra_masks ++ regs |}.

(** The world a computation leaves; the start world when it faults. *)
Definition after {S A : Type} (m : M S A) (s : S) : S :=
  match m s with Ok (_, s') => s' | Fault _ => s end.

(** Scenario 1 of the spec on the xocl scheduler: a client configures the
    device with one compute unit at 0x10000 and slots of 4096 bytes. *)
Definition xocl_configured : Xocl.world :=
  after
    (cl <- Xocl.create_client ;;
     Xocl.new_bo 0 ;;;
     Xocl.add_exec_buffer Xocl.kmalloc_cmd cl 0
       (configure_packet 4096 16 0 0 [65536]) [] ;;;
     Xocl.scheduler_loop (abi := Xocl.ert_h_2018_2))
    xocl_boot.

(** Scenario 2 of the spec on the xocl scheduler, before and after the
    worker has looked at the queue: a start command for compute unit 0 with
    the register map [0, 0xAA, 0xBB]. *)
Definition xocl_queued : Xocl.world :=
  after
    (Xocl.new_bo 1 ;;;
     Xocl.add_exec_buffer Xocl.kmalloc_cmd 0 1 (start_packet 1 [] [0; 170; 187]) [] ;;;
     Xocl.scheduler_queue_cmds)
    xocl_configured.

Definition xocl_started : Xocl.world :=
  after (Xocl.scheduler_iterate_cmds (abi := Xocl.ert_h_2018_2)) xocl_queued.

(** The zocl scheduler with a start command for compute unit 0 on its
    queue, on a device configured with two CU masks (33 compute units,
    64 KiB apart). *)
Definition zocl_queued : Zocl.world :=
  Zocl.with_cmds
    {[ 0%nat := {| Zocl.state := ERT_CMD_STATE_QUEUED; Zocl.cu_idx := -1;
                   Zocl.slot_idx := -1; Zocl.cq_slot_idx := 0;
                   Zocl.packet := start_packet 1 [] [0; 170; 187] |} ]}
    (Zocl.with_exec
       (Zocl.set_configured 1
          (Zocl.set_num_cu_masks 2
             (Zocl.set_num_cus 33
                (Zocl.set_cu_shift_offset 16 (Zocl.exec zocl_boot)))))
       zocl_boot).

(** The start command of scenario 2 once it is queued, as the xocl and the
    zocl scheduler hold it. *)
Definition xocl_start_cmd : Xocl.xocl_cmd :=
  {| Xocl.bo := 1%nat; Xocl.client := 0%nat; Xocl.state := ERT_CMD_STATE_QUEUED;
     Xocl.id := 1; Xocl.cu_idx := -1; Xocl.slot_idx := -1;
     Xocl.chain_count := 0; Xocl.wait_count := 0;
     Xocl.chain := replicate 8 None;
     Xocl.packet := start_packet 1 [] [0; 170; 187] |}.

Definition zocl_start_cmd : Zocl.sched_cmd :=
  {| Zocl.state := ERT_CMD_STATE_QUEUED; Zocl.cu_idx := -1;
     Zocl.slot_idx := -1; Zocl.cq_slot_idx := 0;
     Zocl.packet := start_packet 1 [] [0; 170; 187] |}.

(** The candidates of get_free_cu() in one mask word: the compute units the
    command names that are not busy, [(cmd_mask | busy_mask) ^ busy_mask]. *)
Definition candidates (cmd_mask busy_mask : Z) : Z :=
  Z.lxor (Z.lor cmd_mask busy_mask) busy_mask.

(** What get_free_cu() is to return on the first [n] words of [data] and of
    [cu_status]: the compute unit of the lowest candidate bit [i] of the
    first word [k] that has a candidate, with its busy bit set in
    [cu_status]; or -1 and [cu_status] as it is when no word has one. *)
Inductive free_cu (data cu_status : list Z) (n : Z) : Z -> list Z -> Prop :=
| free_cu_found (k i cmd_mask busy_mask : Z) :
    0 <= k < n ->
    data !! Z.to_nat k = Some cmd_mask ->
    cu_status !! Z.to_nat k = Some busy_mask ->
    (forall j c b, 0 <= j < k ->
       data !! Z.to_nat j = Some c -> cu_status !! Z.to_nat j = Some b ->
       candidates c b = 0) ->
    0 <= i < 32 ->
    Z.testbit (candidates cmd_mask busy_mask) i = true ->
    (forall j, 0 <= j < i -> Z.testbit (candidates cmd_mask busy_mask) j = false) ->
    free_cu data cu_status n (i + 32 * k)
      (<[Z.to_nat k := Z.setbit busy_mask i]> cu_status)
| free_cu_none :
    (forall j c b, 0 <= j < n ->
       data !! Z.to_nat j = Some c -> cu_status !! Z.to_nat j = Some b ->
       candidates c b = 0) ->
    free_cu data cu_status n (-1) cu_status.

(** The words of an array are 32-bit words. *)
Definition words (a : list Z) : Prop := Forall (fun x => 0 <= x < 2 ^ 32) a.

(** The zocl scheduler on a device configured with 65 compute units, hence
    three CU masks, with compute unit 0 busy, and the start command of
    scenario 2 on its queue: a command that carries one CU mask, for
    compute unit 0, and the register map [0, 0xAA, 0xBB]. *)
Definition zocl_three_masks : Zocl.world :=
  Zocl.with_exec
    (Zocl.set_cu_status [1; 0; 0; 0]
       (Zocl.set_num_cu_masks 3 (Zocl.set_num_cus 65 (Zocl.exec zocl_queued))))
    zocl_queued.

(** The xocl scheduler on a device configured with 17 compute units and 16
    slots (slots of 8192 bytes in a command queue of 128 KiB). *)
Definition xocl_17_cus : Xocl.world :=
  after
    (cl <- Xocl.create_client ;;
     Xocl.new_bo 0 ;;;
     Xocl.add_exec_buffer Xocl.kmalloc_cmd cl 0
       (configure_packet 8192 16 0 0 (map (fun k => 65536 * (k + 1)) (seqZ 0 17))) [] ;;;
     Xocl.scheduler_loop (abi := Xocl.ert_h_2018_2))
    xocl_boot.

(** The client submits a start command for compute unit [k], in the
    buffer object [k + 1]. *)
Definition submit_start (k : Z) : M Xocl.world unit :=
  Xocl.new_bo (Z.to_nat k + 1) ;;;
  Xocl.add_exec_buffer Xocl.kmalloc_cmd 0 (Z.to_nat k + 1)
    (start_packet (2 ^ k) [] [0; 170]) [] ;;;
  ret tt.

(** Sixteen start commands, for the compute units 0 to 15, are running and
    hold the sixteen slots; the compute units have not finished (the
    registers read as zero). *)
Definition xocl_slots_full : Xocl.world :=
  after
    (for_each (seqZ 0 16) submit_start ;;;
     Xocl.scheduler_loop (abi := Xocl.ert_h_2018_2))
    xocl_17_cus.

(** A seventeenth start command, for the free compute unit 16, is submitted
    and queued. *)
Definition xocl_17th_queued : Xocl.world :=
  after (submit_start 16 ;;; Xocl.scheduler_queue_cmds) xocl_slots_full.

(** The same situation in the zocl scheduler: the sixteen slots and the
    compute units 0 to 15 are busy and a start command for compute unit 16
    is queued. *)
Definition zocl_slots_full : Zocl.world :=
  Zocl.with_cmds
    {[ 0%nat := {| Zocl.state := ERT_CMD_STATE_QUEUED; Zocl.cu_idx := -1;
                   Zocl.slot_idx := -1; Zocl.cq_slot_idx := 0;
                   Zocl.packet := start_packet (2 ^ 16) [] [0; 170] |} ]}
    (Zocl.with_exec
       (Zocl.set_slot_status [65535; 0; 0; 0]
          (Zocl.set_cu_status [65535; 0; 0; 0]
             (Zocl.set_num_cu_masks 1
                (Zocl.set_num_cus 17 (Zocl.exec zocl_queued)))))
       zocl_queued).

(** The zocl scheduler configured for 128 slots, which leaves
    [num_slot_masks] at the 1 of sched_init_exec(), with the slots 0 to
    31 busy. *)
Definition zocl_first_word_busy : Zocl.world :=
  Zocl.with_exec
    (Zocl.set_slot_status [4294967295; 0; 0; 0]
       (Zocl.set_num_slots 128 (Zocl.exec zocl_boot)))
    zocl_boot.

(** The xocl scheduler after the first client of a device (started as
    [boot]) has submitted the packet [pkt] and the worker has queued it;
    the command is the object 0, equal to [queued_cmd pkt]. *)
Definition xocl_submitted (boot : Xocl.world) (pkt : ert_packet) : Xocl.world :=
  after
    (cl <- Xocl.create_client ;;
     Xocl.new_bo 0 ;;;
     Xocl.add_exec_buffer Xocl.kmalloc_cmd cl 0 pkt [] ;;;
     Xocl.scheduler_queue_cmds)
    boot.

Definition queued_cmd (pkt : ert_packet) : Xocl.xocl_cmd :=
  {| Xocl.bo := 0%nat; Xocl.client := 0%nat; Xocl.state := ERT_CMD_STATE_QUEUED;
     Xocl.id := 0; Xocl.cu_idx := -1; Xocl.slot_idx := -1;
     Xocl.chain_count := 0; Xocl.wait_count := 0;
     Xocl.chain := replicate 8 None; Xocl.packet := pkt |}.

(** The xocl scheduler after the probe of a device with a CDMA engine. *)
Definition xocl_cdma_boot : Xocl.world := Xocl.mb_scheduler_probe rom_cdma (fun _ => 0).

(** A configure packet for 129 compute units, one more than [cu_addr_map]
    has entries; its count, 134, is 5 + 129. *)
Definition configure_129 : ert_packet :=
  configure_packet 4096 16 0 0 (replicate 129 65536).

(** [keeps obs m]: when [m] returns, the observation [obs] of the state is
    what it was. *)
Definition keeps {S T A : Type} (obs : S -> T) (m : M S A) : Prop :=
  forall s a s', m s = Ok (a, s') -> obs s' = obs s.

(** The observations queued_to_running(p) keeps: the wait counts of all
    commands, the states of the commands other than [p], and the clients,
    the wake-ups of the hosts, the lists and the buffer objects. *)
Definition obs_wait (w : Xocl.world) : gmap nat Z := Xocl.wait_count <$> Xocl.cmds w.

Definition obs_others (p : nat) (w : Xocl.world) : gmap nat ert_cmd_state :=
  delete p (Xocl.state <$> Xocl.cmds w).


(** Scenario 3 of the spec on the xocl scheduler: while the start command
    of scenario 2 runs (object 0, on the buffer object 1), a second command
    that depends on it is submitted and queued (object 1, on the buffer
    object 2); it waits for one command. *)
Definition xocl_dependent : Xocl.world :=
  after
    (Xocl.new_bo 2 ;;;
     Xocl.add_exec_buffer Xocl.kmalloc_cmd 0 2 (start_packet 1 [] [0; 204]) [1%nat] ;;;
     Xocl.scheduler_queue_cmds)
    xocl_started.

Definition xocl_dependent_cmd : Xocl.xocl_cmd :=
  {| Xocl.bo := 2%nat; Xocl.client := 0%nat; Xocl.state := ERT_CMD_STATE_QUEUED;
     Xocl.id := 2; Xocl.cu_idx := -1; Xocl.slot_idx := -1;
     Xocl.chain_count := 0; Xocl.wait_count := 1;
     Xocl.chain := replicate 8 None;
     Xocl.packet := start_packet 1 [] [0; 204] |}.

(** The configuration of the zocl exec core: every field but the bitmaps
    and the table of the submitted commands. *)
Definition zocl_configuration (e : Zocl.sched_exec_core) :=
  (Zocl.num_slots e, Zocl.num_cus e, Zocl.cu_shift_offset e, Zocl.cu_base_addr e,
   Zocl.num_cu_masks e, Zocl.num_slot_masks e, Zocl.polling_mode e,
   Zocl.cq_interrupt e, Zocl.cu_dma e, Zocl.cu_isr e, Zocl.configured e, Zocl.ops e).

(** A queued configure command of the zocl scheduler. *)
Definition zocl_configure_cmd (pkt : ert_packet) : Zocl.sched_cmd :=
  {| Zocl.state := ERT_CMD_STATE_QUEUED; Zocl.cu_idx := -1; Zocl.slot_idx := -1;
     Zocl.cq_slot_idx := 0; Zocl.packet := pkt |}.

(** The zocl scheduler with the configure command of scenario 1 alone on
    its queue (object 0), and the exec core once the worker has started
    that command. *)
Definition zocl_first_configure : Zocl.world :=
  {| Zocl.exec := Zocl.exec zocl_boot;
     Zocl.cmds := {[ 0%nat := zocl_configure_cmd (configure_packet 4096 16 0 0 [65536]) ]};
     Zocl.ert := false; Zocl.sched_error := 0; Zocl.sched_poll := 0;
     Zocl.command_queue := [0%nat]; Zocl.pending_cmds := [];
     Zocl.mmio := []; Zocl.ert_hw := [] |}.

Definition zocl_configured_core : Zocl.sched_exec_core :=
  Zocl.exec (after (Zocl.queued_to_running (abi := Zocl.sched_exec_h_2018_2) 0)
               zocl_first_configure).

(** The zocl scheduler after the first configure command has completed and
    its slot is free again, with a second configure command, for two
    compute units and slots of 8192 bytes, alone on the queue (object 1). *)
Definition zocl_second_configure : Zocl.world :=
  {| Zocl.exec :=
       Zocl.set_slot_status [0; 0; 0; 0]
         (Zocl.set_submitted_cmds (replicate (Z.to_nat MAX_SLOTS) None)
            zocl_configured_core);
     Zocl.cmds :=
       {[ 1%nat := zocl_configure_cmd (configure_packet 8192 16 0 0 [65536; 131072]) ]};
     Zocl.ert := false; Zocl.sched_error := 0; Zocl.sched_poll := 0;
     Zocl.command_queue := [1%nat]; Zocl.pending_cmds := [];
     Zocl.mmio := []; Zocl.ert_hw := [] |}.

(** The xocl scheduler after scenario 1, when the same client has submitted
    a second configure command, which the worker has queued (object 0
    again, taken from the free list; buffer object 3). *)
Definition xocl_second_configure : Xocl.world :=
  after
    (Xocl.new_bo 3 ;;;
     Xocl.add_exec_buffer Xocl.kmalloc_cmd 0 3
       (configure_packet 8192 16 0 0 [65536; 131072]) [] ;;;
     Xocl.scheduler_queue_cmds)
    xocl_configured.

(** The second configure command on the queue of [xocl_second_configure]. *)
Definition xocl_second_cmd : Xocl.xocl_cmd :=
  {| Xocl.bo := 3%nat; Xocl.client := 0%nat; Xocl.state := ERT_CMD_STATE_QUEUED;
     Xocl.id := 1; Xocl.cu_idx := -1; Xocl.slot_idx := -1;
     Xocl.chain_count := 0; Xocl.wait_count := 0;
     Xocl.chain := replicate 8 None;
     Xocl.packet := configure_packet 8192 16 0 0 [65536; 131072] |}.

(** What notify_host() shows to the hosts: the clients that wait on the
    poll queue of the device have been woken up once, and the trigger
    counter of every client on the context list is one up. *)
Definition notified (w w' : Xocl.world) : Prop :=
  Xocl.poll_wakeups w' = S (Xocl.poll_wakeups w) /\
  forall k, k ∈ Xocl.ctx_list w ->
    Xocl.trigger <$> Xocl.clients w' !! k
    = (fun cl => atomic_inc (Xocl.trigger cl)) <$> Xocl.clients w !! k.

(** No host has been notified: no wake-up, and every trigger counter is
    what it was. *)
Definition not_notified (w w' : Xocl.world) : Prop :=
  Xocl.poll_wakeups w' = Xocl.poll_wakeups w /\
  forall k, Xocl.trigger <$> Xocl.clients w' !! k = Xocl.trigger <$> Xocl.clients w !! k.

(** The command object [p] has been moved to the tail of the free list. *)
Definition recycled (p : nat) (w w' : Xocl.world) : Prop :=
  Xocl.free_cmds w' = Xocl.remove p (Xocl.free_cmds w) ++ [p] /\
  Xocl.command_queue w' = Xocl.remove p (Xocl.command_queue w) /\
  Xocl.pending_cmds w' = Xocl.remove p (Xocl.pending_cmds w).

(** The clients after the loop of notify_host() over the list [l]. *)
Definition triggered (l : list nat) (m : gmap nat Xocl.client_ctx)
  : gmap nat Xocl.client_ctx :=
  foldl (fun m k => alter (fun cl => Xocl.set_trigger (atomic_inc (Xocl.trigger cl)) cl) k m)
        m l.





(** The command object [p] of the world [w]. *)
Definition xocl_cmd_at (p : nat) (w : Xocl.world) : Xocl.xocl_cmd :=
  default Xocl.kmalloc_cmd (Xocl.cmds w !! p).

(** The slot bitmap of an exec core as acquire_slot_idx() needs it: 32-bit
    words, at least as many as the core counts slot masks, and a slot
    count that is an [unsigned int]. *)
Definition slots_ok (num_slots num_slot_masks : Z) (slot_status : list Z) : Prop :=
  words slot_status /\ 0 <= num_slots < 2 ^ 32 /\
  0 <= num_slot_masks <= Z.of_nat (length slot_status) /\
  Z.of_nat (length slot_status) <= 2 ^ 26.

(** What acquire_slot_idx() returns on the first [n] words of
    [slot_status], the words its loop looks at: the lowest free slot among
    the slots of these words that the device has (the slots below
    [32 * n] and below [num_slots]), with its bit set in the new bitmap,
    or -1 and the bitmap as it is when every one of these slots is busy.
    A slot from [32 * n] on is not looked at, free or not. *)
Definition acquired (num_slots n : Z) (st : list Z) (r : Z) (st' : list Z) : Prop :=
  (r = -1 /\ st' = st /\
   forall i, 0 <= i < 32 * n -> i < num_slots -> status_bit st i = true) \/
  (0 <= r < num_slots /\ r < 32 * n /\ status_bit st r = false /\
   (forall i, 0 <= i < r -> status_bit st i = true) /\
   length st' = length st /\
   forall i, 0 <= i -> status_bit st' i = if i =? r then true else status_bit st i).

(** The register writes a write command asks for: its payload read as
    pairs of an address and a value; a last word without a partner is not
    used. *)
Fixpoint write_pairs (data : list Z) : list io :=
  match data with
  | addr :: val :: rest => iowrite32 val addr :: write_pairs rest
  | _ => []
  end.

(** The writes of mb_submit() for a command in the slot [s] of a command
    queue, the slot starting at [slot_addr]: the payload words go to the
    words after the first of the slot, in increasing order, then the header
    goes to the first word, and last, when the device is configured with
    [cq_interrupt], the bit of the slot goes to the command queue status
    register of the slot, at [cq_int_addr]. *)
Definition cq_slot_writes (slot_addr header : Z) (payload : list Z)
    (cq_interrupt : bool) (cq_int_addr s : Z) : list io :=
  imap (fun k v => iowrite32 v (slot_addr + 4 + 4 * Z.of_nat k)) payload
  ++ [iowrite32 header slot_addr]
  ++ (if cq_interrupt then [iowrite32 (2 ^ (s mod 32)) cq_int_addr] else []).

(** A device with an embedded scheduler, and the xocl scheduler on it when
    its first client has configured it for the embedded scheduler, with
    interrupts to the command queue (features 0x11) and slots of 4096
    bytes, and has then submitted a start command, which the worker has
    queued (object 0 again; buffer object 1). *)
Definition rom_ert : Xocl.feature_rom :=
  {| Xocl.mb_sched_on := true; Xocl.cdma_on := false; Xocl.dsa_version := 51 |}.

Definition xocl_ert_queued : Xocl.world :=
  after
    (cl <- Xocl.create_client ;;
     Xocl.new_bo 0 ;;;
     Xocl.add_exec_buffer Xocl.kmalloc_cmd cl 0
       (configure_packet 4096 16 0 17 [65536]) [] ;;;
     Xocl.scheduler_loop (abi := Xocl.ert_h_2018_2) ;;;
     Xocl.mark_cmd_complete (abi := Xocl.ert_h_2018_2) 0 ;;;
     Xocl.scheduler_iterate_cmds (abi := Xocl.ert_h_2018_2) ;;;
     Xocl.new_bo 1 ;;;
     Xocl.add_exec_buffer Xocl.kmalloc_cmd cl 1 (start_packet 1 [] [0; 170; 187]) [] ;;;
     Xocl.scheduler_queue_cmds)
    (Xocl.mb_scheduler_probe rom_ert (fun _ => 0)).

(** The zocl scheduler of a device with the embedded scheduler, with a
    configure command alone on its queue (object 0) that asks for slots of
    4096 bytes, one compute unit and CU DMA (features 0x4). *)
Definition zocl_ert_first_configure : Zocl.world :=
  {| Zocl.exec := Zocl.exec (Zocl.sched_init_exec true);
     Zocl.cmds := {[ 0%nat := zocl_configure_cmd (configure_packet 4096 16 0 4 [65536]) ]};
     Zocl.ert := true; Zocl.sched_error := 0; Zocl.sched_poll := 0;
     Zocl.command_queue := [0%nat]; Zocl.pending_cmds := [];
     Zocl.mmio := []; Zocl.ert_hw := [] |}.

(** The dependent command of scenario 3 as add_exec_buffer() leaves it:
    pending, before the worker queues and chains it. *)
Definition xocl_dependent_pending : Xocl.world :=
  after
    (Xocl.new_bo 2 ;;;
     Xocl.add_exec_buffer Xocl.kmalloc_cmd 0 2 (start_packet 1 [] [0; 204]) [1%nat])
    xocl_started.

(** The pending commands [l] of the world [w] can be queued as they are:
    each is listed once, waits for no command, and is on a buffer object
    of its own that the scheduler knows. *)
Definition pending_ready (w : Xocl.world) (l : list nat) : Prop :=
  NoDup l /\
  (forall p, p ∈ l ->
     exists c, Xocl.cmds w !! p = Some c /\ Xocl.wait_count c = 0 /\
               is_Some (Xocl.bo_active w !! Xocl.bo c)) /\
  (forall p q c c', p ∈ l -> q ∈ l ->
     Xocl.cmds w !! p = Some c -> Xocl.cmds w !! q = Some c' ->
     Xocl.bo c = Xocl.bo c' -> p = q).

(** What scheduler_queue_cmds() leaves alone. *)
Definition obs_queueing (w : Xocl.world) :=
  (Xocl.exec w, Xocl.clients w, Xocl.ctx_list w, Xocl.sched_error w, Xocl.sched_poll w,
   Xocl.free_cmds w, Xocl.cmd_count w, Xocl.poll_wakeups w, Xocl.mmio w).

(** The world [w'] has the commands [l], pending in [w], on the tail of
    the command queue in their order, in the internal state queued and
    active on their buffer objects. *)
Definition queued_in_order (l : list nat) (w w' : Xocl.world) : Prop :=
  Xocl.command_queue w' = Xocl.command_queue w ++ l /\
  Xocl.pending_cmds w' = [] /\
  Xocl.num_pending w' = Xocl.num_pending w - Z.of_nat (length l) /\
  (forall p c, p ∈ l -> Xocl.cmds w !! p = Some c ->
     Xocl.cmds w' !! p = Some (Xocl.set_state ERT_CMD_STATE_QUEUED c) /\
     Xocl.bo_active w' !! Xocl.bo c = Some (Some p)) /\
  (forall p, p ∉ l -> Xocl.cmds w' !! p = Xocl.cmds w !! p) /\
  (forall b, (forall p c, p ∈ l -> Xocl.cmds w !! p = Some c -> Xocl.bo c <> b) ->
     Xocl.bo_active w' !! b = Xocl.bo_active w !! b) /\
  obs_queueing w' = obs_queueing w.

(** Two start commands without dependencies, submitted while the start
    command of scenario 2 runs: pending, before the worker queues them. *)
Definition xocl_two_pending : Xocl.world :=
  after
    (Xocl.new_bo 2 ;;;
     Xocl.add_exec_buffer Xocl.kmalloc_cmd 0 2 (start_packet 1 [] [0; 204]) [] ;;;
     Xocl.new_bo 3 ;;;
     Xocl.add_exec_buffer Xocl.kmalloc_cmd 0 3 (start_packet 1 [] [0; 221]) [])
    xocl_started.

(** Scenario 2 on a device whose registers read as 2, so that the control
    register of every compute unit shows AP_DONE: the start command is on
    the queue. *)
Definition xocl_done_queued : Xocl.world :=
  after
    (cl <- Xocl.create_client ;;
     Xocl.new_bo 0 ;;;
     Xocl.add_exec_buffer Xocl.kmalloc_cmd cl 0
       (configure_packet 4096 16 0 0 [65536]) [] ;;;
     Xocl.scheduler_loop (abi := Xocl.ert_h_2018_2) ;;;
     Xocl.new_bo 1 ;;;
     Xocl.add_exec_buffer Xocl.kmalloc_cmd 0 1 (start_packet 1 [] [0; 170; 187]) [] ;;;
     Xocl.scheduler_queue_cmds)
    (Xocl.mb_scheduler_probe rom_plain (fun _ => 2)).

(** The commands a device holds are in order: every command object is on
    one list, once, and the commands still pending or queued are known,
    with their clients. *)
Definition lists_ok (w : Xocl.world) : Prop :=
  NoDup (Xocl.pending_cmds w ++ Xocl.command_queue w ++ Xocl.free_cmds w) /\
  forall p, p ∈ Xocl.pending_cmds w ++ Xocl.command_queue w ->
    exists c, Xocl.cmds w !! p = Some c /\ is_Some (Xocl.clients w !! Xocl.client c).

(** The device of [xocl_two_pending] once its only client has left the
    context list with its three commands outstanding, one of them running
    on the queue and two pending: destroy_client() has given up waiting
    for them and has unlinked the client ([list_del]); the client object
    is not freed yet. *)
Definition xocl_stale : Xocl.world :=
  let w := xocl_two_pending in
  {| Xocl.exec := Xocl.exec w; Xocl.cmds := Xocl.cmds w;
     Xocl.bo_active := Xocl.bo_active w; Xocl.clients := Xocl.clients w;
     Xocl.ctx_list := [];
     Xocl.sched_error := Xocl.sched_error w; Xocl.sched_poll := Xocl.sched_poll w;
     Xocl.command_queue := Xocl.command_queue w; Xocl.free_cmds := Xocl.free_cmds w;
     Xocl.pending_cmds := Xocl.pending_cmds w; Xocl.num_pending := Xocl.num_pending w;
     Xocl.cmd_count := Xocl.cmd_count w;
     Xocl.xdev_outstanding_execs := Xocl.xdev_outstanding_execs w;
     Xocl.xdev_total_execs := Xocl.xdev_total_execs w;
     Xocl.poll_wakeups := Xocl.poll_wakeups w;
     Xocl.mmio := Xocl.mmio w; Xocl.regs := Xocl.regs w; Xocl.rom := Xocl.rom w |}.

(** The client create_client() makes. *)
Definition new_client : Xocl.client_ctx :=
  {| Xocl.trigger := 0; Xocl.abort := 0; Xocl.outstanding_execs := 0 |}.

(** The command add_cmd() makes of the object [old], for the client [cl],
    the buffer object [b] with the packet [pkt] and the dependencies
    [deps], with the identifier [n]: the dependencies are copied over the
    first entries of [chain], the other entries are those of [old]. *)
Definition added_cmd (old : Xocl.xocl_cmd) (n : Z) (cl b : nat) (pkt : ert_packet)
    (deps : list nat) : Xocl.xocl_cmd :=
  {| Xocl.bo := b; Xocl.client := cl; Xocl.state := ERT_CMD_STATE_NEW; Xocl.id := n;
     Xocl.cu_idx := -1; Xocl.slot_idx := -1; Xocl.chain_count := 0;
     Xocl.wait_count := Z.of_nat (length deps);
     Xocl.chain := map Some deps ++ drop (length deps) (Xocl.chain old);
     Xocl.packet := set_pkt_state ERT_CMD_STATE_NEW pkt |}.

(** The trigger counters of the zocl contexts after the loop of
    notify_host() over the list [l]. *)
Definition zocl_triggered (l : list nat) (m : gmap nat Z) : gmap nat Z :=
  foldl (fun m k => alter atomic_inc k m) m l.

(** The zocl command [c] once it is completed, in the command and in its
    packet. *)
Definition zocl_completed (c : Zocl.sched_cmd) : Zocl.sched_cmd :=
  {| Zocl.state := ERT_CMD_STATE_COMPLETED; Zocl.cu_idx := Zocl.cu_idx c;
     Zocl.slot_idx := Zocl.slot_idx c; Zocl.cq_slot_idx := Zocl.cq_slot_idx c;
     Zocl.packet := set_pkt_state ERT_CMD_STATE_COMPLETED (Zocl.packet c) |}.

(** A zocl device without embedded scheduler after start-up, with one
    client context, and the same device with the embedded scheduler. *)
Definition zocl_device (w : Zocl.world) : ZoclWorker.device :=
  {| ZoclWorker.sched := w; ZoclWorker.regs := fun _ => 2;
     ZoclWorker.triggers := {[ 0%nat := 0 ]}; ZoclWorker.ctx_list := [0%nat];
     ZoclWorker.poll_wakeups := 0%nat; ZoclWorker.free_cmds := [];
     ZoclWorker.num_pending := 0 |}.

(** The zocl scheduler of [zocl_queued] once the start command runs. *)
Definition zocl_started : Zocl.world :=
  after (Zocl.queued_to_running (abi := Zocl.sched_exec_h_2018_2) 0) zocl_queued.

Definition zocl_started_cmd : Zocl.sched_cmd :=
  {| Zocl.state := ERT_CMD_STATE_RUNNING; Zocl.cu_idx := 0;
     Zocl.slot_idx := 0; Zocl.cq_slot_idx := 0;
     Zocl.packet := start_packet 1 [] [0; 170; 187] |}.

(** The zocl device once notify_host() has run for a command in the slot
    [cq] of the command queue. *)
Definition zocl_notified (ERT_STATUS_REG cq : Z) (d : ZoclWorker.device)
  : ZoclWorker.device :=
  if Zocl.ert (ZoclWorker.sched d) then
    ZoclWorker.set_sched
      (Zocl.with_ert_hw
         (Zocl.ert_hw (ZoclWorker.sched d) ++
          [iowrite32 (bit (cq mod 32)) (u32 (ERT_STATUS_REG + 4 * (cq / 32)))])
         (ZoclWorker.sched d)) d
  else
    ZoclWorker.set_poll_wakeups (S (ZoclWorker.poll_wakeups d))
      (ZoclWorker.set_triggers
         (zocl_triggered (ZoclWorker.ctx_list d) (ZoclWorker.triggers d)) d).

(** The zocl device once the command [p], which was [x], has left its slot:
    the command is completed, its slot of the table is empty, the poll
    count is down by one where the device counts, and [st] is the new
    slot bitmap. *)
Definition zocl_retired (p : nat) (x : Zocl.sched_cmd) (st : list Z)
    (d : ZoclWorker.device) : ZoclWorker.device :=
  let w := ZoclWorker.sched d in
  let e := Zocl.exec w in
  ZoclWorker.set_sched
    {| Zocl.exec :=
         Zocl.set_slot_status st
           (Zocl.set_submitted_cmds
              (<[Z.to_nat (Zocl.slot_idx x) := None]> (Zocl.submitted_cmds e)) e);
       Zocl.cmds := <[p := zocl_completed x]> (Zocl.cmds w);
       Zocl.ert := Zocl.ert w; Zocl.sched_error := Zocl.sched_error w;
       Zocl.sched_poll :=
         (if Zocl.ert w || negb (Zocl.polling_mode e =? 0)
          then u32 (Zocl.sched_poll w - 1) else Zocl.sched_poll w);
       Zocl.command_queue := Zocl.command_queue w;
       Zocl.pending_cmds := Zocl.pending_cmds w;
       Zocl.mmio := Zocl.mmio w; Zocl.ert_hw := Zocl.ert_hw w |} d.

(** The zocl device of [zocl_device] with the start command of
    [zocl_queued] on the queue. *)
Definition zocl_queued_device : ZoclWorker.device := zocl_device zocl_queued.

(** What the zocl scheduler_queue_cmds() leaves alone. *)
Definition zocl_obs_queueing (d : ZoclWorker.device) :=
  (Zocl.exec (ZoclWorker.sched d), Zocl.ert (ZoclWorker.sched d),
   Zocl.sched_error (ZoclWorker.sched d), Zocl.sched_poll (ZoclWorker.sched d),
   Zocl.mmio (ZoclWorker.sched d), Zocl.ert_hw (ZoclWorker.sched d),
   ZoclWorker.regs d, ZoclWorker.triggers d, ZoclWorker.ctx_list d,
   ZoclWorker.poll_wakeups d, ZoclWorker.free_cmds d).

(** The zocl device [d'] has the commands [l] of [d] on the tail of the
    command queue in their order and off the pending list, in the internal
    state queued, their packets as they were. *)
Definition zocl_queued_in_order (l : list nat) (d d' : ZoclWorker.device) : Prop :=
  Zocl.command_queue (ZoclWorker.sched d') = Zocl.command_queue (ZoclWorker.sched d) ++ l /\
  Zocl.pending_cmds (ZoclWorker.sched d')
  = list_difference (Zocl.pending_cmds (ZoclWorker.sched d)) l /\
  ZoclWorker.num_pending d' = ZoclWorker.num_pending d - Z.of_nat (length l) /\
  (forall p, Zocl.cmds (ZoclWorker.sched d') !! p
             = if bool_decide (p ∈ l)
               then Zocl.set_state ERT_CMD_STATE_QUEUED <$> Zocl.cmds (ZoclWorker.sched d) !! p
               else Zocl.cmds (ZoclWorker.sched d) !! p) /\
  zocl_obs_queueing d' = zocl_obs_queueing d.

(** A zocl device with two new commands on the pending list. *)
Definition zocl_two_pending : ZoclWorker.device :=
  ZoclWorker.set_num_pending 2
    (zocl_device
       (ZoclWorker.with_lists [] [1%nat; 2%nat]
          (Zocl.with_cmds
             {[ 1%nat := Zocl.set_state ERT_CMD_STATE_NEW zocl_start_cmd;
                2%nat := Zocl.set_state ERT_CMD_STATE_NEW zocl_start_cmd ]}
             zocl_queued))).

(** The command [p] of the zocl scheduler [w] is in the state completed. *)
Definition zocl_completed_on (w : Zocl.world) (p : nat) : bool :=
  match Zocl.cmds w !! p with
  | Some c => state_eqb (Zocl.state c) ERT_CMD_STATE_COMPLETED
  | None => false
  end.

(** A zocl device with a completed command, a command in the state abort
    and a second completed command on the command queue, and a command on
    the free list. *)
Definition zocl_three_settled : ZoclWorker.device :=
  ZoclWorker.set_free_cmds [7%nat]
    (zocl_device
       (ZoclWorker.with_lists [1%nat; 2%nat; 3%nat] []
          (Zocl.with_cmds
             {[ 1%nat := Zocl.set_state ERT_CMD_STATE_COMPLETED zocl_start_cmd;
                2%nat := Zocl.set_state ERT_CMD_STATE_ABORT zocl_start_cmd;
                3%nat := Zocl.set_state ERT_CMD_STATE_COMPLETED zocl_start_cmd ]}
             zocl_queued))).

(** The zocl device [d] once recycle_cmd() has run for the commands
    [done], in their order. *)
Definition zocl_recycled (done : list nat) (d : ZoclWorker.device) : ZoclWorker.device :=
  ZoclWorker.set_free_cmds (list_difference (ZoclWorker.free_cmds d) done ++ done)
    (ZoclWorker.set_sched
       (ZoclWorker.with_lists
          (list_difference (Zocl.command_queue (ZoclWorker.sched d)) done)
          (list_difference (Zocl.pending_cmds (ZoclWorker.sched d)) done)
          (ZoclWorker.sched d)) d).

(** What a pass of the zocl scheduler_iterate_cmds() over commands that
    are neither queued nor running leaves alone. *)
Definition zocl_obs_retiring (d : ZoclWorker.device) :=
  (Zocl.exec (ZoclWorker.sched d), Zocl.cmds (ZoclWorker.sched d),
   Zocl.ert (ZoclWorker.sched d), Zocl.sched_error (ZoclWorker.sched d),
   Zocl.sched_poll (ZoclWorker.sched d), Zocl.pending_cmds (ZoclWorker.sched d),
   Zocl.mmio (ZoclWorker.sched d), Zocl.ert_hw (ZoclWorker.sched d),
   ZoclWorker.regs d, ZoclWorker.triggers d, ZoclWorker.ctx_list d,
   ZoclWorker.poll_wakeups d, ZoclWorker.num_pending d).

(** The command the zocl add_cmd() makes of the command [c]. *)
Definition zocl_added_cmd (c : Zocl.sched_cmd) : Zocl.sched_cmd :=
  {| Zocl.state := ERT_CMD_STATE_NEW; Zocl.cu_idx := -1; Zocl.slot_idx := -1;
     Zocl.cq_slot_idx := Zocl.cq_slot_idx c;
     Zocl.packet := set_pkt_state ERT_CMD_STATE_NEW (Zocl.packet c) |}.

(** The zocl device of [zocl_two_pending] with a command object that is on
    no list. *)
Definition zocl_two_pending_one_new : ZoclWorker.device :=
  ZoclWorker.set_sched
    (Zocl.with_cmds
       (<[5%nat := zocl_started_cmd]> (Zocl.cmds (ZoclWorker.sched zocl_two_pending)))
       (ZoclWorker.sched zocl_two_pending))
    zocl_two_pending.

(** No command has entered the state running between the worlds [w] and
    [w']: every command that is running in [w'] is running in [w]. *)
Definition no_new_running (w w' : Xocl.world) : Prop :=
  forall q c', Xocl.cmds w' !! q = Some c' -> Xocl.state c' = ERT_CMD_STATE_RUNNING ->
    exists c, Xocl.cmds w !! q = Some c /\ Xocl.state c = ERT_CMD_STATE_RUNNING.

(** The computation [m] moves no command into the state running, from
    whatever world it is run. *)
Definition starts_nothing {A : Type} (m : M Xocl.world A) : Prop :=
  forall w a w', m w = Ok (a, w') -> no_new_running w w'.

(** The computations [m] and [m'] do the same from every world. *)
Definition same_run {S A : Type} (m m' : M S A) : Prop := forall s, m s = m' s.

(** The commands that the call of queued_to_running() for [p] between [w]
    and [w'] has moved into the state running were ready: there is no
    such command but [p], and [p] waited for no command, before the call
    and after it. *)
Definition started_ready (p : nat) (w w' : Xocl.world) : Prop :=
  forall q c', Xocl.cmds w' !! q = Some c' -> Xocl.state c' = ERT_CMD_STATE_RUNNING ->
    (exists c, Xocl.cmds w !! q = Some c /\ Xocl.state c = ERT_CMD_STATE_RUNNING) \/
    (q = p /\ Xocl.wait_count c' = 0 /\
     exists c, Xocl.cmds w !! p = Some c /\ Xocl.wait_count c = 0).

(** Scenario 3 of the spec on a device whose compute units read AP_DONE:
    the start command of scenario 2 runs (object 0, on the buffer
    object 1) and a second command that depends on it is queued and
    chained to it (object 1, on the buffer object 2); it waits for one
    command. *)
Definition xocl_chained : Xocl.world :=
  after
    (Xocl.queued_to_running (abi := Xocl.ert_h_2018_2) 0 ;;;
     Xocl.new_bo 2 ;;;
     Xocl.add_exec_buffer Xocl.kmalloc_cmd 0 2 (start_packet 1 [] [0; 204]) [1%nat] ;;;
     Xocl.scheduler_queue_cmds)
    xocl_done_queued.

(** * Properties *)

(** ** Words, bits and arrays *)

Lemma u32_small (x : Z) : 0 <= x < 2 ^ 32 -> u32 x = x.
Proof. intros Hx. unfold u32. apply Z.mod_small. exact Hx. Qed.

Lemma u32_range (x : Z) : 0 <= u32 x < 2 ^ 32.
Proof. unfold u32. apply Z.mod_pos_bound. lia. Qed.

Lemma to_int_small (x : Z) : 0 <= x < 2 ^ 31 -> to_int x = x.
Proof.
  intros Hx. unfold to_int. rewrite u32_small by lia.
  destruct (x <? 2 ^ 31) eqn:E; [reflexivity | apply Z.ltb_ge in E; lia].
Qed.

Lemma arr_get_lookup {A : Type} (a : list A) (i : Z) (x : A) :
  0 <= i -> a !! Z.to_nat i = Some x -> arr_get a i = Ok x.
Proof.
  intros Hi Hx. unfold arr_get.
  destruct (0 <=? i) eqn:E; [| apply Z.leb_gt in E; lia].
  rewrite Hx. reflexivity.
Qed.

Lemma arr_get_ok {A : Type} (a : list A) (i : Z) (x : A) :
  arr_get a i = Ok x -> 0 <= i < Z.of_nat (length a) /\ a !! Z.to_nat i = Some x.
Proof.
  unfold arr_get. destruct (0 <=? i) eqn:E; [| discriminate].
  apply Z.leb_le in E.
  destruct (a !! Z.to_nat i) eqn:L; [| discriminate].
  intros [= <-]. split; [| reflexivity].
  apply lookup_lt_Some in L. lia.
Qed.

Lemma arr_get_oob {A : Type} (a : list A) (i : Z) :
  Z.of_nat (length a) <= i -> arr_get a i = Fault OutOfBounds.
Proof.
  intros Hi. unfold arr_get. destruct (0 <=? i); [| reflexivity].
  rewrite (lookup_ge_None_2 a (Z.to_nat i)) by lia. reflexivity.
Qed.

Lemma arr_set_in {A : Type} (a : list A) (i : Z) (x : A) :
  0 <= i < Z.of_nat (length a) -> arr_set a i x = Ok (<[Z.to_nat i := x]> a).
Proof.
  intros [H0 H1]. unfold arr_set.
  destruct (0 <=? i) eqn:E0; [| apply Z.leb_gt in E0; lia].
  destruct (i <? Z.of_nat (length a)) eqn:E1; [| apply Z.ltb_ge in E1; lia].
  reflexivity.
Qed.

Lemma arr_set_oob {A : Type} (a : list A) (i : Z) (x : A) :
  Z.of_nat (length a) <= i -> arr_set a i x = Fault OutOfBounds.
Proof.
  intros Hi. unfold arr_set.
  destruct (i <? Z.of_nat (length a)) eqn:E1; [apply Z.ltb_lt in E1; lia |].
  rewrite andb_false_r. reflexivity.
Qed.

(** [find] on an interval of integers returns the least element that
    satisfies the test. *)
Lemma find_seqZ_Some (f : Z -> bool) (n : nat) (m i : Z) :
  find f (seqZ m (Z.of_nat n)) = Some i ->
  m <= i < m + Z.of_nat n /\ f i = true /\ forall j, m <= j < i -> f j = false.
Proof.
  revert m. induction n as [| n IH]; intros m.
  - discriminate.
  - rewrite Nat2Z.inj_succ, seqZ_cons by lia.
    replace (Z.pred (Z.succ (Z.of_nat n))) with (Z.of_nat n) by lia.
    cbn [find]. destruct (f m) eqn:Fm.
    + intros [= <-]. repeat split; [lia | lia | exact Fm | intros j Hj; lia].
    + intros Hfind. destruct (IH _ Hfind) as (Hr & Hi & Hmin).
      repeat split; [lia | lia | exact Hi |].
      intros j Hj. destruct (Z.eq_dec j m) as [-> | Hne]; [exact Fm |].
      apply Hmin. lia.
Qed.

Lemma find_seqZ_None (f : Z -> bool) (n : nat) (m : Z) :
  find f (seqZ m (Z.of_nat n)) = None ->
  forall j, m <= j < m + Z.of_nat n -> f j = false.
Proof.
  revert m. induction n as [| n IH]; intros m.
  - intros _ j Hj. lia.
  - rewrite Nat2Z.inj_succ, seqZ_cons by lia.
    replace (Z.pred (Z.succ (Z.of_nat n))) with (Z.of_nat n) by lia.
    cbn [find]. destruct (f m) eqn:Fm; [discriminate |].
    intros Hfind j Hj. destruct (Z.eq_dec j m) as [-> | Hne]; [exact Fm |].
    apply (IH _ Hfind). lia.
Qed.

Lemma first_bit_Some (b : bool) (mask i : Z) :
  first_bit b mask = Some i ->
  0 <= i < 32 /\ Z.testbit mask i = b /\
  forall j, 0 <= j < i -> Z.testbit mask j = negb b.
Proof.
  unfold first_bit. change 32 with (Z.of_nat 32). intros Hf.
  apply find_seqZ_Some in Hf. destruct Hf as (Hr & Hi & Hmin).
  split; [lia |]. split.
  - apply eqb_prop in Hi. exact Hi.
  - intros j Hj. specialize (Hmin j Hj). cbv beta in Hmin.
    destruct (Z.testbit mask j), b; simpl in *; congruence.
Qed.

Lemma first_bit_None (b : bool) (mask : Z) :
  first_bit b mask = None ->
  forall j, 0 <= j < 32 -> Z.testbit mask j = negb b.
Proof.
  unfold first_bit. change 32 with (Z.of_nat 32). intros Hf j Hj.
  pose proof (find_seqZ_None _ _ _ Hf j ltac:(lia)) as Hb. cbv beta in Hb.
  destruct (Z.testbit mask j), b; simpl in *; congruence.
Qed.

(** A word with no bit set below 32 is zero. *)
Lemma u32_no_bits (x : Z) :
  0 <= x < 2 ^ 32 -> (forall j, 0 <= j < 32 -> Z.testbit x j = false) -> x = 0.
Proof.
  intros Hx Hbits. apply Z.bits_inj'. intros j Hj.
  rewrite Z.bits_0. destruct (Z_lt_dec j 32) as [Hlt | Hge].
  - apply Hbits. lia.
  - destruct (Z.eq_dec x 0) as [-> | Hne]; [apply Z.bits_0 |].
    apply Z.bits_above_log2; [lia |].
    assert (Z.log2 x < 32) by (apply Z.log2_lt_pow2; lia). lia.
Qed.

(** ffs_or_neg_one() returns the position of the lowest set bit of a
    non-zero word, and -1 for the zero word. *)
Lemma ffs_or_neg_one_spec (mask : Z) :
  0 <= mask < 2 ^ 32 ->
  (mask = 0 /\ ffs_or_neg_one mask = -1) \/
  (exists i, ffs_or_neg_one mask = i /\ 0 <= i < 32 /\ Z.testbit mask i = true /\
             forall j, 0 <= j < i -> Z.testbit mask j = false).
Proof.
  intros Hm. unfold ffs_or_neg_one.
  destruct (mask =? 0) eqn:E.
  - left. apply Z.eqb_eq in E. auto.
  - right. apply Z.eqb_neq in E. unfold ffs.
    destruct (first_bit true mask) as [i |] eqn:F.
    + apply first_bit_Some in F. destruct F as (Hr & Hb & Hmin).
      exists i. repeat split; [lia | lia | lia | exact Hb | exact Hmin].
    + exfalso. apply E. apply u32_no_bits; [exact Hm |].
      intros j Hj. apply (first_bit_None _ _ F j Hj).
Qed.

Lemma testbit_bit (pos j : Z) :
  0 <= pos -> 0 <= j -> Z.testbit (bit pos) j = (j =? pos).
Proof.
  intros Hp Hj. unfold bit. rewrite Z.shiftl_1_l.
  destruct (j =? pos) eqn:E.
  - apply Z.eqb_eq in E. subst. apply Z.pow2_bits_true. assumption.
  - apply Z.eqb_neq in E. apply Z.pow2_bits_false. congruence.
Qed.

(** Toggling the bit [pos] of a word: the bit [pos] is inverted and the
    other bits stay. *)
Lemma testbit_toggle (w pos j : Z) :
  0 <= pos -> 0 <= j ->
  Z.testbit (Z.lxor w (bit pos)) j =
  if j =? pos then negb (Z.testbit w j) else Z.testbit w j.
Proof.
  intros Hp Hj. rewrite Z.lxor_spec, testbit_bit by assumption.
  destruct (j =? pos); [apply xorb_true_r | apply xorb_false_r].
Qed.

Lemma toggle_range (w pos : Z) :
  0 <= w < 2 ^ 32 -> 0 <= pos < 32 -> 0 <= Z.lxor w (bit pos) < 2 ^ 32.
Proof.
  intros Hw Hp.
  assert (Hb : 0 <= bit pos < 2 ^ 32).
  { unfold bit. rewrite Z.shiftl_1_l. split; [apply Z.pow_nonneg; lia |].
    apply Z.pow_lt_mono_r; lia. }
  assert (H0 : 0 <= Z.lxor w (bit pos)) by (apply Z.lxor_nonneg; lia).
  split; [exact H0 |].
  destruct (Z.eq_dec (Z.lxor w (bit pos)) 0) as [-> | Hne]; [lia |].
  apply Z.log2_lt_pow2; [lia |].
  destruct (Z.eq_dec w 0) as [-> | Hw0].
  - rewrite Z.lxor_0_l in *. apply Z.log2_lt_pow2; lia.
  - eapply Z.le_lt_trans; [apply Z.log2_lxor; lia |].
    apply Z.max_lub_lt; apply Z.log2_lt_pow2; try lia.
    unfold bit in *. rewrite Z.shiftl_1_l in *.
    assert (0 < 2 ^ pos) by (apply Z.pow_pos_nonneg; lia). lia.
Qed.

(** The index helpers on indices that fit the bitmaps. *)
Lemma mask_idx_small (i : Z) : 0 <= i -> Z.shiftr i 5 = i / 32.
Proof. intros _. rewrite Z.shiftr_div_pow2 by lia. reflexivity. Qed.

Lemma idx_in_mask_small (i : Z) :
  0 <= i < 2 ^ 32 -> slot_idx_in_mask i = i mod 32.
Proof.
  intros Hi. unfold slot_idx_in_mask, slot_mask_idx.
  rewrite mask_idx_small, Z.shiftl_mul_pow2 by lia.
  change (2 ^ 5) with 32.
  pose proof (Z.div_mod i 32 ltac:(lia)) as Hdm.
  pose proof (Z.mod_pos_bound i 32 ltac:(lia)) as Hmod.
  assert (0 <= i / 32) by (apply Z.div_pos; lia).
  rewrite (u32_small (i / 32 * 32)) by lia.
  rewrite u32_small by lia. lia.
Qed.

Lemma idx_from_mask_small (i k : Z) :
  0 <= i < 32 -> 0 <= k < 2 ^ 26 -> cu_idx_from_mask i k = i + 32 * k.
Proof.
  intros Hi Hk. unfold cu_idx_from_mask.
  rewrite Z.shiftl_mul_pow2 by lia. change (2 ^ 5) with 32.
  rewrite (u32_small (k * 32)) by lia. rewrite u32_small by lia. lia.
Qed.

(** ** release_slot_idx *)

Lemma idx_split (n i : Z) :
  0 <= n -> 0 <= i ->
  (n =? i) = (Z.to_nat (n / 32) =? Z.to_nat (i / 32))%nat && (n mod 32 =? i mod 32).
Proof.
  intros Hn Hi.
  pose proof (Z.div_mod n 32 ltac:(lia)). pose proof (Z.div_mod i 32 ltac:(lia)).
  assert (0 <= n / 32) by (apply Z.div_pos; lia).
  assert (0 <= i / 32) by (apply Z.div_pos; lia).
  destruct (n =? i) eqn:E.
  - apply Z.eqb_eq in E. subst. rewrite Nat.eqb_refl, Z.eqb_refl. reflexivity.
  - apply Z.eqb_neq in E. symmetry. apply andb_false_iff.
    destruct (Z.eq_dec (n / 32) (i / 32)) as [Hq | Hq].
    + right. apply Z.eqb_neq. lia.
    + left. apply Nat.eqb_neq. lia.
Qed.

Lemma release_slot_idx_on_toggles (st : list Z) (i : Z) :
  0 <= i < 32 * Z.of_nat (length st) -> i < 2 ^ 32 ->
  exists st',
    release_slot_idx_on st i = Ok st' /\ length st' = length st /\
    forall n, 0 <= n ->
      status_bit st' n = if n =? i then negb (status_bit st n) else status_bit st n.
Proof.
  intros Hi Hu.
  assert (Hk : 0 <= i / 32 < Z.of_nat (length st)).
  { split; [apply Z.div_pos; lia | apply Z.div_lt_upper_bound; lia]. }
  destruct (lookup_lt_is_Some_2 st (Z.to_nat (i / 32)) ltac:(lia)) as [w Hw].
  exists (<[Z.to_nat (i / 32) := Z.lxor w (bit (i mod 32))]> st).
  split; [| split].
  - unfold release_slot_idx_on, slot_mask_idx. rewrite mask_idx_small by lia.
    rewrite (arr_get_lookup _ _ w) by (lia || assumption). cbn [rbind].
    rewrite idx_in_mask_small by lia. apply arr_set_in. lia.
  - apply length_insert.
  - intros n Hn. unfold status_bit.
    pose proof (Z.mod_pos_bound n 32 ltac:(lia)) as Hnm.
    pose proof (Z.mod_pos_bound i 32 ltac:(lia)) as Him.
    rewrite (idx_split n i) by lia.
    destruct (Nat.eqb_spec (Z.to_nat (n / 32)) (Z.to_nat (i / 32))) as [Heq | Hne].
    + rewrite Heq, list_lookup_insert_eq by lia. rewrite Hw. cbn [andb].
      apply testbit_toggle; lia.
    + rewrite list_lookup_insert_ne by congruence. reflexivity.
Qed.

(** C6, as amended.  release_slot_idx(i), in the two drivers, inverts the
    bit of slot [i] in [slot_status] (bit [i mod 32] of word [i / 32]) and
    leaves every other bit as it is; the bit is cleared when the slot was
    busy. *)
Theorem release_slot_idx_toggles (xw : Xocl.world) (zw : Zocl.world) (i : Z) :
  0 <= i < 2 ^ 32 ->
  i < 32 * Z.of_nat (length (Xocl.slot_status (Xocl.exec xw))) ->
  i < 32 * Z.of_nat (length (Zocl.slot_status (Zocl.exec zw))) ->
  (exists st',
     Xocl.release_slot_idx i xw = Ok (tt, Xocl.set_exec (Xocl.set_slot_status st') xw) /\
     (forall n, 0 <= n ->
        status_bit st' n =
        if n =? i then negb (status_bit (Xocl.slot_status (Xocl.exec xw)) n)
        else status_bit (Xocl.slot_status (Xocl.exec xw)) n) /\
     (status_bit (Xocl.slot_status (Xocl.exec xw)) i = true -> status_bit st' i = false)) /\
  (exists st',
     Zocl.release_slot_idx i zw = Ok (tt, Zocl.with_exec (Zocl.set_slot_status st' (Zocl.exec zw)) zw) /\
     (forall n, 0 <= n ->
        status_bit st' n =
        if n =? i then negb (status_bit (Zocl.slot_status (Zocl.exec zw)) n)
        else status_bit (Zocl.slot_status (Zocl.exec zw)) n) /\
     (status_bit (Zocl.slot_status (Zocl.exec zw)) i = true -> status_bit st' i = false)).
Proof.
  intros Hi Hx Hz. split.
  - destruct (release_slot_idx_on_toggles (Xocl.slot_status (Xocl.exec xw)) i)
      as (st' & Hrel & _ & Hbits); [lia | lia |].
    exists st'. split; [| split].
    + unfold Xocl.release_slot_idx, bind, gets, lift, Xocl.upd_exec, modify.
      rewrite Hrel. reflexivity.
    + exact Hbits.
    + intros Hset. rewrite Hbits by lia. rewrite Z.eqb_refl, Hset. reflexivity.
  - destruct (release_slot_idx_on_toggles (Zocl.slot_status (Zocl.exec zw)) i)
      as (st' & Hrel & _ & Hbits); [lia | lia |].
    exists st'. split; [| split].
    + unfold Zocl.release_slot_idx, bind, gets, lift, Zocl.upd_exec, modify.
      rewrite Hrel. reflexivity.
    + exact Hbits.
    + intros Hset. rewrite Hbits by lia. rewrite Z.eqb_refl, Hset. reflexivity.
Qed.

(** C6, witness: slot 3 of the two schedulers after start-up. *)
Lemma release_slot_idx_toggles_witness :
  (0 <= 3 < 2 ^ 32) /\
  3 < 32 * Z.of_nat (length (Xocl.slot_status (Xocl.exec xocl_boot))) /\
  3 < 32 * Z.of_nat (length (Zocl.slot_status (Zocl.exec zocl_boot))) /\
  (exists st',
     Xocl.release_slot_idx 3 xocl_boot =
       Ok (tt, Xocl.set_exec (Xocl.set_slot_status st') xocl_boot)) /\
  (exists st',
     Zocl.release_slot_idx 3 zocl_boot =
       Ok (tt, Zocl.with_exec (Zocl.set_slot_status st' (Zocl.exec zocl_boot)) zocl_boot)).
Proof.
  assert (H1 : 0 <= 3 < 2 ^ 32) by lia.
  assert (H2 : 3 < 32 * Z.of_nat (length (Xocl.slot_status (Xocl.exec xocl_boot))))
    by reflexivity.
  assert (H3 : 3 < 32 * Z.of_nat (length (Zocl.slot_status (Zocl.exec zocl_boot))))
    by reflexivity.
  destruct (release_slot_idx_toggles xocl_boot zocl_boot 3 H1 H2 H3)
    as [(sx & Hx & _) (sz & Hz & _)].
  repeat split; try assumption; try lia; eauto.
Defined.

(** C6, counterexample to the claim as stated: after start-up slot 0 is
    free, and release_slot_idx(0) leaves its bit set, not cleared. *)
Lemma release_slot_idx_sets_free_slot :
  0 < Xocl.num_slots (Xocl.exec xocl_boot) /\
  status_bit (Xocl.slot_status (Xocl.exec xocl_boot)) 0 = false /\
  exists w',
    Xocl.release_slot_idx 0 xocl_boot = Ok (tt, w') /\
    Xocl.slot_status (Xocl.exec w') = [1; 0; 0; 0] /\
    status_bit (Xocl.slot_status (Xocl.exec w')) 0 = true.
Proof.
  split; [reflexivity |]. split; [reflexivity |].
  eexists. split; [vm_compute; reflexivity |]. split; reflexivity.
Qed.

(** ** configure_cu *)

Lemma regmap_writes_map (p : ert_packet) (addr_of : Z -> Z) (idxs : list Z) :
  (forall i, i ∈ idxs -> 0 <= 1 + (pkt_extra_cu_masks p + i) < Z.of_nat (length (pkt_data p))) ->
  regmap_writes p addr_of idxs =
  Ok (map (fun i => iowrite32
             (default 0 (pkt_data p !! Z.to_nat (1 + (pkt_extra_cu_masks p + i))))
             (addr_of i)) idxs).
Proof.
  induction idxs as [| i rest IH]; intros Hin.
  - reflexivity.
  - cbn [regmap_writes map]. unfold sk_data.
    assert (Hi : 0 <= 1 + (pkt_extra_cu_masks p + i) < Z.of_nat (length (pkt_data p)))
      by (apply Hin; left).
    destruct (lookup_lt_is_Some_2 (pkt_data p) (Z.to_nat (1 + (pkt_extra_cu_masks p + i)))
                ltac:(lia)) as [v Hv].
    rewrite (arr_get_lookup _ _ v) by (lia || assumption). cbn [rbind].
    rewrite IH by (intros j Hj; apply Hin; right; exact Hj).
    cbn [rbind]. rewrite Hv. reflexivity.
Qed.

(** On a packet that holds its [count] payload words, of which the first
    [1 + extra_cu_masks] are CU masks, configure_cu() writes the register
    map but for its first word, then the start bit. *)
Lemma configure_cu_on_writes (p : ert_packet) (cu_addr : Z) (addr_of : Z -> Z) :
  0 <= pkt_extra_cu_masks p ->
  1 + pkt_extra_cu_masks p <= pkt_count p ->
  pkt_count p <= Z.of_nat (length (pkt_data p)) ->
  (forall i, 0 <= i < pkt_count p -> addr_of i = cu_addr + 4 * i) ->
  configure_cu_on p (pkt_count p - (1 + pkt_extra_cu_masks p)) addr_of =
  Ok (cu_start_writes cu_addr (drop 1 (regmap p (1 + pkt_extra_cu_masks p)))).
Proof.
  intros Hextra Hcount Hlen Haddr. unfold configure_cu_on.
  set (n := pkt_count p - (1 + pkt_extra_cu_masks p)).
  rewrite regmap_writes_map.
  2:{ intros i Hi. apply elem_of_seqZ in Hi. lia. }
  cbn [rbind]. unfold cu_start_writes. rewrite Haddr by lia.
  rewrite Z.mul_0_r, Z.add_0_r. f_equal. f_equal.
  apply list_eq. intros k.
  rewrite list_lookup_fmap, list_lookup_imap, lookup_drop.
  unfold regmap. fold n.
  destruct (Z_lt_dec (Z.of_nat k) (n - 1)) as [Hk | Hk].
  - rewrite lookup_seqZ_lt by lia. cbn [fmap option_fmap option_map].
    rewrite lookup_take_lt by lia. rewrite lookup_drop.
    replace (Z.to_nat (1 + pkt_extra_cu_masks p) + (1 + k))%nat
      with (Z.to_nat (1 + (pkt_extra_cu_masks p + (1 + Z.of_nat k)))) by lia.
    destruct (lookup_lt_is_Some_2 (pkt_data p)
                (Z.to_nat (1 + (pkt_extra_cu_masks p + (1 + Z.of_nat k)))) ltac:(lia))
      as [v Hv].
    rewrite Hv. cbn. rewrite Haddr by lia. do 2 f_equal. lia.
  - rewrite lookup_seqZ_ge by lia. cbn [fmap option_fmap option_map].
    rewrite lookup_take_ge by lia. reflexivity.
Qed.

Lemma shiftl2_small (i : Z) : 0 <= i < 2 ^ 11 -> u32 (Z.shiftl i 2) = 4 * i.
Proof.
  intros Hi. rewrite Z.shiftl_mul_pow2 by lia. change (2 ^ 2) with 4.
  rewrite u32_small by lia. lia.
Qed.

Section ConfigureCu.
Context {xabi : Xocl.ert_h} {zabi : Zocl.sched_exec_h}.
Variables (xw : Xocl.world) (zw : Zocl.world) (p q : nat).
Variables (xc : Xocl.xocl_cmd) (zc : Zocl.sched_cmd) (c cu_addr : Z).

Hypothesis xcmd_at : Xocl.cmds xw !! p = Some xc.
Hypothesis zcmd_at : Zocl.cmds zw !! q = Some zc.
Hypothesis xopcode : Xocl.opcode xc = Xocl.ERT_START_KERNEL.
Hypothesis zopcode : Zocl.opcode zc = Zocl.OP_START_KERNEL.
Hypothesis xfields : packet_fields_ok (Xocl.packet xc).
Hypothesis zfields : packet_fields_ok (Zocl.packet zc).
Hypothesis xcount :
  Xocl.cu_masks xc <= pkt_count (Xocl.packet xc)
  <= Z.of_nat (length (pkt_data (Xocl.packet xc))).
Hypothesis zcount :
  Zocl.cu_masks zc <= pkt_count (Zocl.packet zc)
  <= Z.of_nat (length (pkt_data (Zocl.packet zc))).
Hypothesis cu_range : 0 <= c < 2 ^ 31.
Hypothesis cu_mapped : Xocl.cu_addr_map (Xocl.exec xw) !! Z.to_nat c = Some cu_addr.

Lemma xocl_cu_masks_start_kernel : Xocl.cu_masks xc = 1 + pkt_extra_cu_masks (Xocl.packet xc).
Proof.
  unfold Xocl.cu_masks. rewrite xopcode, Z.eqb_refl. cbn [negb].
  destruct xfields as [_ Hx]. apply u32_small. lia.
Qed.

Lemma zocl_cu_masks_start_kernel : Zocl.cu_masks zc = 1 + pkt_extra_cu_masks (Zocl.packet zc).
Proof.
  unfold Zocl.cu_masks. rewrite zopcode, Z.eqb_refl. cbn [negb].
  destruct zfields as [_ Hx]. apply u32_small. lia.
Qed.

(** C8.  For a start command (opcode [START_KERNEL], the opcode whose CU
    masks cu_masks() counts) that holds its payload, dispatched to the
    compute unit [c], the writes of configure_cu() are exactly: word [i] of
    the register map to [cu_addr(c) + 4 * i] for [i = 1 .. n - 1] in
    increasing order, then the value 1 to [cu_addr(c)]; the first word of
    the register map is dropped.  [cu_addr(c)] is [cu_addr_map[c]] in xocl
    and the offset [c << cu_shift_offset] from [regs] in zocl. *)
Theorem configure_cu_trace :
  Xocl.configure_cu p c xw =
    Ok (tt, Xocl.set_mmio
              (fun t => t ++ cu_start_writes cu_addr
                               (drop 1 (regmap (Xocl.packet xc) (Xocl.cu_masks xc))))
              xw) /\
  Zocl.configure_cu q c zw =
    Ok (tt, Zocl.with_mmio
              (Zocl.mmio zw ++
               cu_start_writes (Zocl.cu_idx_to_offset (Zocl.exec zw) c)
                 (drop 1 (regmap (Zocl.packet zc) (Zocl.cu_masks zc))))
              zw).
Proof.
  split.
  - pose proof xocl_cu_masks_start_kernel as Hm.
    destruct xfields as [Hc He].
    unfold Xocl.configure_cu, bind, Xocl.the_cmd, gets, lift, modify.
    rewrite xcmd_at. rewrite u32_small by lia.
    rewrite (arr_get_lookup _ _ cu_addr) by (lia || exact cu_mapped).
    unfold Xocl.regmap_size, Xocl.payload_size. rewrite Hm in *.
    rewrite u32_small by lia.
    rewrite (configure_cu_on_writes _ cu_addr); try lia.
    + reflexivity.
    + intros i Hi. rewrite shiftl2_small by lia. reflexivity.
  - pose proof zocl_cu_masks_start_kernel as Hm.
    destruct zfields as [Hc He].
    unfold Zocl.configure_cu, bind, Zocl.the_cmd, gets, lift, modify.
    rewrite zcmd_at. rewrite (u32_small c) by lia.
    unfold Zocl.regmap_size, Zocl.payload_size. rewrite Hm in *.
    rewrite u32_small by lia.
    rewrite (configure_cu_on_writes _ (Zocl.cu_idx_to_offset (Zocl.exec zw) c)); try lia.
    reflexivity.
Qed.

End ConfigureCu.

(** Goals on concrete states: evaluate and close. *)
Ltac concrete :=
  vm_compute; repeat split; try reflexivity; try (intro; discriminate).

(** C8, witness: the start command of scenario 2, with the register map
    [0, 0xAA, 0xBB]. *)
Lemma configure_cu_trace_witness :
  Xocl.cmds xocl_queued !! 0%nat = Some xocl_start_cmd /\
  Zocl.cmds zocl_queued !! 0%nat = Some zocl_start_cmd /\
  Xocl.configure_cu (abi := Xocl.ert_h_2018_2) 0 0 xocl_queued =
    Ok (tt, Xocl.set_mmio
              (fun t => t ++ [iowrite32 170 65540; iowrite32 187 65544; iowrite32 1 65536])
              xocl_queued) /\
  Zocl.configure_cu (abi := Zocl.sched_exec_h_2018_2) 0 0 zocl_queued =
    Ok (tt, Zocl.with_mmio
              (Zocl.mmio zocl_queued ++ [iowrite32 170 4; iowrite32 187 8; iowrite32 1 0])
              zocl_queued).
Proof.
  split; [reflexivity |]. split; [reflexivity |].
  apply (configure_cu_trace (xabi := Xocl.ert_h_2018_2) (zabi := Zocl.sched_exec_h_2018_2)
           xocl_queued zocl_queued 0%nat 0%nat xocl_start_cmd zocl_start_cmd 0 65536);
    concrete.
Defined.

(** ** get_free_cu *)

Lemma u32_bits_high (x j : Z) : 0 <= x < 2 ^ 32 -> 32 <= j -> Z.testbit x j = false.
Proof.
  intros Hx Hj. destruct (Z.eq_dec x 0) as [-> | Hne]; [apply Z.bits_0 |].
  apply Z.bits_above_log2; [lia |].
  assert (Z.log2 x < 32) by (apply Z.log2_lt_pow2; lia). lia.
Qed.

Lemma u32_of_bits (x : Z) :
  0 <= x -> (forall j, 32 <= j -> Z.testbit x j = false) -> 0 <= x < 2 ^ 32.
Proof.
  intros Hx Hbits. split; [exact Hx |].
  destruct (Z.eq_dec x 0) as [-> | Hne]; [lia |].
  apply Z.log2_lt_pow2; [lia |].
  destruct (Z_lt_dec (Z.log2 x) 32) as [Hlt | Hge]; [exact Hlt |].
  exfalso. pose proof (Z.bit_log2 x ltac:(lia)) as Hb.
  rewrite Hbits in Hb by lia. discriminate.
Qed.

Lemma candidates_range (c b : Z) :
  0 <= c < 2 ^ 32 -> 0 <= b < 2 ^ 32 -> 0 <= candidates c b < 2 ^ 32.
Proof.
  intros Hc Hb. unfold candidates. apply u32_of_bits.
  - apply Z.lxor_nonneg. split; intros _; [lia | apply Z.lor_nonneg; lia].
  - intros j Hj. rewrite Z.lxor_spec, Z.lor_spec.
    rewrite (u32_bits_high c j), (u32_bits_high b j) by lia. reflexivity.
Qed.

Lemma candidates_bit (c b i : Z) :
  Z.testbit (candidates c b) i = Z.testbit c i && negb (Z.testbit b i).
Proof.
  unfold candidates. rewrite Z.lxor_spec, Z.lor_spec.
  destruct (Z.testbit c i), (Z.testbit b i); reflexivity.
Qed.

Lemma toggle_clear_bit (b i : Z) :
  0 <= i -> Z.testbit b i = false -> Z.lxor b (bit i) = Z.setbit b i.
Proof.
  intros Hi Hb. apply Z.bits_inj'. intros j Hj.
  rewrite testbit_toggle, Z.setbit_eqb by lia.
  rewrite (Z.eqb_sym i j).
  destruct (j =? i) eqn:E; [| reflexivity].
  apply Z.eqb_eq in E. subst. rewrite Hb. reflexivity.
Qed.

Lemma words_lookup (a : list Z) (k : nat) (x : Z) :
  words a -> a !! k = Some x -> 0 <= x < 2 ^ 32.
Proof. intros Hw Hx. exact (proj1 (Forall_lookup _ a) Hw k x Hx). Qed.

(** The loop of get_free_cu() over the words [a .. a + m), when no word
    below [a] has a candidate. *)
Lemma get_free_cu_on_from (data cu_status : list Z) (m : nat) :
  words data -> words cu_status ->
  forall a,
    0 <= a ->
    a + Z.of_nat m <= Z.of_nat (length data) ->
    a + Z.of_nat m <= Z.of_nat (length cu_status) ->
    a + Z.of_nat m <= 2 ^ 26 ->
    (forall j c b, 0 <= j < a ->
       data !! Z.to_nat j = Some c -> cu_status !! Z.to_nat j = Some b ->
       candidates c b = 0) ->
    exists r st,
      get_free_cu_on data cu_status (seqZ a (Z.of_nat m)) = Ok (r, st) /\
      free_cu data cu_status (a + Z.of_nat m) r st.
Proof.
  intros Hwd Hws. induction m as [| m IH]; intros a Ha Hld Hls Hbound Hbelow.
  - exists (-1), cu_status. split; [reflexivity |].
    apply free_cu_none. intros j c b Hj. apply Hbelow. lia.
  - rewrite Nat2Z.inj_succ, seqZ_cons by lia.
    replace (Z.pred (Z.succ (Z.of_nat m))) with (Z.of_nat m) by lia.
    cbn [get_free_cu_on].
    destruct (lookup_lt_is_Some_2 data (Z.to_nat a) ltac:(lia)) as [c Hc].
    destruct (lookup_lt_is_Some_2 cu_status (Z.to_nat a) ltac:(lia)) as [b Hb].
    rewrite (arr_get_lookup _ _ c) by (lia || assumption). cbn [rbind].
    rewrite (arr_get_lookup _ _ b) by (lia || assumption). cbn [rbind].
    fold (candidates c b).
    pose proof (words_lookup _ _ _ Hwd Hc) as Hcr.
    pose proof (words_lookup _ _ _ Hws Hb) as Hbr.
    destruct (ffs_or_neg_one_spec (candidates c b) (candidates_range c b Hcr Hbr))
      as [[Hzero Hres] | (i & Hres & Hi & Hbit & Hmin)]; rewrite Hres.
    + change (0 <=? -1) with false. cbn match.
      destruct (IH (Z.succ a)) as (r & st & Hrun & Hspec); try lia.
      { intros j c' b' Hj Hc' Hb'.
        destruct (Z.eq_dec j a) as [-> | Hne].
        - rewrite Hc in Hc'. rewrite Hb in Hb'. congruence.
        - apply (Hbelow j c' b'); [lia | assumption | assumption]. }
      exists r, st. split; [exact Hrun |].
      replace (a + Z.succ (Z.of_nat m)) with (Z.succ a + Z.of_nat m) by lia.
      exact Hspec.
    + destruct (0 <=? i) eqn:E; [| apply Z.leb_gt in E; lia].
      rewrite arr_set_in by lia. cbn [rbind].
      rewrite idx_from_mask_small by lia.
      rewrite to_int_small by lia.
      assert (Hfree : Z.testbit b i = false).
      { rewrite candidates_bit in Hbit. destruct (Z.testbit b i); [| reflexivity].
        rewrite andb_false_r in Hbit. discriminate. }
      rewrite toggle_clear_bit by (lia || assumption).
      eexists _, _. split; [reflexivity |].
      apply (free_cu_found data cu_status _ a i c b); try assumption; lia.
Qed.

(** get_free_cu() on the first [n] words: it returns, and what it returns
    is the first free compute unit the command names. *)
Lemma get_free_cu_on_spec (data cu_status : list Z) (n : Z) :
  words data -> words cu_status ->
  0 <= n <= 2 ^ 26 ->
  n <= Z.of_nat (length data) -> n <= Z.of_nat (length cu_status) ->
  exists r st,
    get_free_cu_on data cu_status (seqZ 0 n) = Ok (r, st) /\
    free_cu data cu_status n r st.
Proof.
  intros Hwd Hws Hn Hld Hls.
  destruct (get_free_cu_on_from data cu_status (Z.to_nat n) Hwd Hws 0)
    as (r & st & Hrun & Hspec); try lia; try (intros j c b Hj; lia).
  rewrite Z2Nat.id in * by lia.
  exists r, st. split; [exact Hrun | exact Hspec].
Qed.

Section GetFreeCu.
Context {xabi : Xocl.ert_h} {zabi : Zocl.sched_exec_h}.

(** The xocl get_free_cu() scans the CU masks of the command: on a command
    that holds them it returns the first free compute unit the command
    names, with the busy bit of the unit set in [cu_status], or -1 and
    [cu_status] as it is. *)
Lemma xocl_get_free_cu_spec (w : Xocl.world) (p : nat) (xc : Xocl.xocl_cmd) :
  Xocl.cmds w !! p = Some xc ->
  packet_fields_ok (Xocl.packet xc) ->
  words (pkt_data (Xocl.packet xc)) ->
  words (Xocl.cu_status (Xocl.exec w)) ->
  Xocl.cu_masks xc <= Z.of_nat (length (pkt_data (Xocl.packet xc))) ->
  Xocl.cu_masks xc <= Z.of_nat (length (Xocl.cu_status (Xocl.exec w))) ->
  exists r st,
    Xocl.get_free_cu p w = Ok (r, Xocl.set_exec (Xocl.set_cu_status st) w) /\
    free_cu (pkt_data (Xocl.packet xc)) (Xocl.cu_status (Xocl.exec w))
      (Xocl.cu_masks xc) r st.
Proof.
  intros Hp [_ Hextra] Hwd Hws Hld Hls.
  assert (Hm : 0 <= Xocl.cu_masks xc <= 4).
  { unfold Xocl.cu_masks. destruct (negb _); [lia |]. rewrite u32_small; lia. }
  destruct (get_free_cu_on_spec (pkt_data (Xocl.packet xc))
              (Xocl.cu_status (Xocl.exec w)) (Xocl.cu_masks xc))
    as (r & st & Hrun & Hspec); try assumption; try lia.
  exists r, st. split; [| exact Hspec].
  unfold Xocl.get_free_cu, bind, Xocl.the_cmd, gets, lift, Xocl.upd_exec, modify, ret.
  rewrite Hp. rewrite to_int_small by lia. rewrite Hrun. reflexivity.
Qed.

(** The zocl get_free_cu() scans as many words of the payload as the device
    has CU masks, whatever the number of CU masks of the command. *)
Lemma zocl_get_free_cu_spec (w : Zocl.world) (p : nat) (zc : Zocl.sched_cmd) :
  Zocl.cmds w !! p = Some zc ->
  words (pkt_data (Zocl.packet zc)) ->
  words (Zocl.cu_status (Zocl.exec w)) ->
  0 <= Zocl.num_cu_masks (Zocl.exec w) ->
  Zocl.num_cu_masks (Zocl.exec w) <= Z.of_nat (length (pkt_data (Zocl.packet zc))) ->
  Zocl.num_cu_masks (Zocl.exec w) <= Z.of_nat (length (Zocl.cu_status (Zocl.exec w))) ->
  Zocl.num_cu_masks (Zocl.exec w) <= 2 ^ 26 ->
  exists r st,
    Zocl.get_free_cu p w = Ok (r, Zocl.with_exec (Zocl.set_cu_status st (Zocl.exec w)) w) /\
    free_cu (pkt_data (Zocl.packet zc)) (Zocl.cu_status (Zocl.exec w))
      (Zocl.num_cu_masks (Zocl.exec w)) r st.
Proof.
  intros Hp Hwd Hws Hn Hld Hls Hb.
  destruct (get_free_cu_on_spec (pkt_data (Zocl.packet zc))
              (Zocl.cu_status (Zocl.exec w)) (Zocl.num_cu_masks (Zocl.exec w)))
    as (r & st & Hrun & Hspec); try assumption; try lia.
  exists r, st. split; [| exact Hspec].
  unfold Zocl.get_free_cu, bind, Zocl.the_cmd, gets, lift, Zocl.upd_exec, modify, ret.
  rewrite Hp, Hrun. reflexivity.
Qed.

End GetFreeCu.

(** C7, at the failing input.  The command carries one CU mask, which names
    compute unit 0 alone, and compute unit 0 is busy: no word of the
    command yields a candidate, and by the claim get_free_cu() returns -1
    and leaves [cu_status] as it is.  The zocl get_free_cu() goes on to the
    second and third word of the payload, which are register map words,
    finds bit 1 set in 0xAA and returns compute unit 65, marked busy. *)
Theorem zocl_get_free_cu_scans_regmap :
  Zocl.cmds zocl_three_masks !! 0%nat = Some zocl_start_cmd /\
  Zocl.cu_masks (abi := Zocl.sched_exec_h_2018_2) zocl_start_cmd = 1 /\
  free_cu (pkt_data (Zocl.packet zocl_start_cmd))
    (Zocl.cu_status (Zocl.exec zocl_three_masks)) 1
    (-1) (Zocl.cu_status (Zocl.exec zocl_three_masks)) /\
  exists w',
    Zocl.get_free_cu 0 zocl_three_masks = Ok (65, w') /\
    Zocl.cu_status (Zocl.exec w') = [1; 0; 2; 0].
Proof.
  split; [reflexivity |]. split; [reflexivity |]. split.
  - apply free_cu_none. intros j c b Hj Hc Hb.
    assert (j = 0) by lia. subst j.
    vm_compute in Hc, Hb. injection Hc as <-. injection Hb as <-. reflexivity.
  - eexists. split; [vm_compute; reflexivity | reflexivity].
Qed.

(** ** penguin_submit without a free slot *)

(** C1, at the failing input.  Sixteen commands run and hold the sixteen
    slots; a start command for the free compute unit 16 is queued.
    penguin_submit() takes compute unit 16 with get_free_cu(), finds no
    slot and returns false: the command stays queued, as the claim says,
    but the busy bit of compute unit 16 stays set in [cu_status], where the
    claim has it released.  No command runs on the unit, and the retry of
    the command fails for want of its compute unit even when a slot is
    free again.  The zocl penguin_submit() does the same. *)
Theorem penguin_submit_keeps_cu_without_slot :
  (Xocl.cu_status (Xocl.exec xocl_17th_queued) = [65535; 0; 0; 0] /\
   Xocl.slot_status (Xocl.exec xocl_17th_queued) = [65535; 0; 0; 0] /\
   exists w',
     Xocl.penguin_submit (abi := Xocl.ert_h_2018_2) 16 xocl_17th_queued = Ok (false, w') /\
     Xocl.state <$> Xocl.cmds w' !! 16%nat = Some ERT_CMD_STATE_QUEUED /\
     Xocl.cu_status (Xocl.exec w') = [131071; 0; 0; 0] /\
     status_bit (Xocl.cu_status (Xocl.exec w')) 16 = true /\
     Xocl.mmio w' = Xocl.mmio xocl_17th_queued /\
     exists w'',
       (Xocl.release_slot_idx 0 ;;;
        Xocl.penguin_submit (abi := Xocl.ert_h_2018_2) 16) w' = Ok (false, w'') /\
       Xocl.slot_status (Xocl.exec w'') = [65534; 0; 0; 0]) /\
  (Zocl.cu_status (Zocl.exec zocl_slots_full) = [65535; 0; 0; 0] /\
   Zocl.slot_status (Zocl.exec zocl_slots_full) = [65535; 0; 0; 0] /\
   exists w',
     Zocl.penguin_submit (abi := Zocl.sched_exec_h_2018_2) 0 zocl_slots_full = Ok (false, w') /\
     Zocl.state <$> Zocl.cmds w' !! 0%nat = Some ERT_CMD_STATE_QUEUED /\
     Zocl.cu_status (Zocl.exec w') = [131071; 0; 0; 0] /\
     status_bit (Zocl.cu_status (Zocl.exec w')) 16 = true /\
     Zocl.mmio w' = Zocl.mmio zocl_slots_full).
Proof.
  split.
  - split; [reflexivity |]. split; [reflexivity |].
    eexists. split; [vm_compute; reflexivity |].
    split; [reflexivity |]. split; [reflexivity |]. split; [reflexivity |].
    split; [reflexivity |].
    eexists. split; [vm_compute; reflexivity | reflexivity].
  - split; [reflexivity |]. split; [reflexivity |].
    eexists. split; [vm_compute; reflexivity |].
    split; [reflexivity |]. split; [reflexivity |]. split; reflexivity.
Qed.

(** ** configure *)

Lemma bind_Ok {S A B : Type} (m : M S A) (k : A -> M S B) (s s' : S) (a : A) :
  m s = Ok (a, s') -> bind m k s = k a s'.
Proof. intros Hm. unfold bind. rewrite Hm. reflexivity. Qed.

Lemma bind_Fault {S A B : Type} (m : M S A) (k : A -> M S B) (s : S) (f : fault) :
  m s = Fault f -> bind m k s = Fault f.
Proof. intros Hm. unfold bind. rewrite Hm. reflexivity. Qed.

Lemma arr_get_fault {A : Type} (a : list A) (i : Z) (f : fault) :
  arr_get a i = Fault f -> f = OutOfBounds.
Proof.
  unfold arr_get. destruct (0 <=? i); [| congruence].
  destruct (a !! Z.to_nat i); congruence.
Qed.

Lemma xocl_set_exec_id (w : Xocl.world) :
  Xocl.set_exec (Xocl.set_cu_addr_map (Xocl.cu_addr_map (Xocl.exec w))) w = w.
Proof. destruct w as [e]. destruct e. reflexivity. Qed.

(** The loop of configure() over the compute units [a .. a + n), when the
    packet holds their addresses and [cu_addr_map] has room for them. *)
Lemma configure_cu_addr_loop (cfg : ert_packet) (n : nat) :
  forall (a : Z) (w : Xocl.world),
    0 <= a ->
    a + Z.of_nat n <= Z.of_nat (length (Xocl.cu_addr_map (Xocl.exec w))) ->
    5 + a + Z.of_nat n <= Z.of_nat (length (pkt_data cfg)) ->
    exists m,
      for_each (seqZ a (Z.of_nat n)) (Xocl.configure_cu_addr cfg) w =
        Ok (tt, Xocl.set_exec (Xocl.set_cu_addr_map m) w) /\
      length m = length (Xocl.cu_addr_map (Xocl.exec w)) /\
      (forall i, a <= i < a + Z.of_nat n ->
         m !! Z.to_nat i = pkt_data cfg !! Z.to_nat (5 + i)) /\
      (forall j, ~ (a <= Z.of_nat j < a + Z.of_nat n) ->
         m !! j = Xocl.cu_addr_map (Xocl.exec w) !! j).
Proof.
  induction n as [| n IH]; intros a w Ha Hroom Hheld.
  - exists (Xocl.cu_addr_map (Xocl.exec w)). cbn [for_each seqZ].
    rewrite xocl_set_exec_id. split; [reflexivity |]. split; [reflexivity |].
    split; [intros i Hi; lia | intros j _; reflexivity].
  - rewrite Nat2Z.inj_succ, seqZ_cons by lia.
    replace (Z.pred (Z.succ (Z.of_nat n))) with (Z.of_nat n) by lia.
    cbn [for_each].
    destruct (lookup_lt_is_Some_2 (pkt_data cfg) (Z.to_nat (5 + a)) ltac:(lia)) as [v Hv].
    set (w1 := Xocl.set_exec
                 (Xocl.set_cu_addr_map (<[Z.to_nat a := v]> (Xocl.cu_addr_map (Xocl.exec w)))) w).
    assert (Hstep : Xocl.configure_cu_addr cfg a w = Ok (tt, w1)).
    { unfold Xocl.configure_cu_addr, bind, lift, gets, Xocl.upd_exec, modify, cfg_data.
      rewrite (arr_get_lookup _ _ v) by (lia || assumption).
      rewrite arr_set_in by lia. reflexivity. }
    rewrite (bind_Ok _ _ _ _ _ Hstep).
    destruct (IH (Z.succ a) w1) as (m & Hrun & Hlen & Hnew & Hold).
    + lia.
    + subst w1. cbn. rewrite length_insert. lia.
    + lia.
    + exists m. split; [exact Hrun |]. subst w1. cbn in Hlen, Hold.
      rewrite length_insert in Hlen. split; [exact Hlen |]. split.
      * intros i Hi. destruct (Z.eq_dec i a) as [-> | Hne].
        -- rewrite Hold by lia. rewrite list_lookup_insert_eq by lia. congruence.
        -- apply Hnew. lia.
      * intros j Hj. rewrite Hold by lia.
        apply list_lookup_insert_ne. lia.
Qed.

(** The loop faults when it runs past the end of [cu_addr_map]. *)
Lemma configure_cu_addr_loop_fault (cfg : ert_packet) (k : nat) :
  forall (a : Z) (w : Xocl.world) (n : nat),
    0 <= a ->
    a + Z.of_nat k = Z.of_nat (length (Xocl.cu_addr_map (Xocl.exec w))) ->
    (k < n)%nat ->
    for_each (seqZ a (Z.of_nat n)) (Xocl.configure_cu_addr cfg) w = Fault OutOfBounds.
Proof.
  induction k as [| k IH]; intros a w n Ha Hlen Hn.
  - destruct n as [| n]; [lia |].
    rewrite Nat2Z.inj_succ, seqZ_cons by lia. cbn [for_each].
    apply bind_Fault.
    unfold Xocl.configure_cu_addr, bind, lift, gets, cfg_data.
    destruct (arr_get (pkt_data cfg) (5 + a)) as [v | f] eqn:E.
    + rewrite arr_set_oob by lia. reflexivity.
    + apply arr_get_fault in E. subst. reflexivity.
  - destruct n as [| n]; [lia |].
    rewrite Nat2Z.inj_succ, seqZ_cons by lia.
    replace (Z.pred (Z.succ (Z.of_nat n))) with (Z.of_nat n) by lia.
    cbn [for_each].
    destruct (arr_get (pkt_data cfg) (5 + a)) as [v | f] eqn:E.
    + set (w1 := Xocl.set_exec
                   (Xocl.set_cu_addr_map (<[Z.to_nat a := v]> (Xocl.cu_addr_map (Xocl.exec w)))) w).
      assert (Hstep : Xocl.configure_cu_addr cfg a w = Ok (tt, w1)).
      { unfold Xocl.configure_cu_addr, bind, lift, gets, Xocl.upd_exec, modify, cfg_data.
        rewrite E. rewrite arr_set_in by lia. reflexivity. }
      rewrite (bind_Ok _ _ _ _ _ Hstep).
      apply (IH (Z.succ a) w1 n); [lia | | lia].
      subst w1. cbn. rewrite length_insert. lia.
    + apply bind_Fault.
      unfold Xocl.configure_cu_addr, bind, lift, cfg_data. rewrite E.
      apply arr_get_fault in E. subst. reflexivity.
Qed.

Lemma cfg_word_held (pkt : ert_packet) (i : Z) :
  0 <= i < Z.of_nat (length (pkt_data pkt)) ->
  exists v, arr_get (pkt_data pkt) i = Ok v /\ pkt_data pkt !! Z.to_nat i = Some v.
Proof.
  intros Hi. destruct (lookup_lt_is_Some_2 (pkt_data pkt) (Z.to_nat i) ltac:(lia)) as [v Hv].
  exists v. split; [apply arr_get_lookup; [lia | exact Hv] | exact Hv].
Qed.

Section ConfigureOverflow.
Context {xabi : Xocl.ert_h}.
Variables (w : Xocl.world) (p : nat) (xc : Xocl.xocl_cmd) (N ssz : Z).

Hypothesis cmd_at : Xocl.cmds w !! p = Some xc.
Hypothesis is_configure : Xocl.opcode xc = Xocl.ERT_CONFIGURE.
Hypothesis unblocked : Xocl.wait_count xc = 0.
Hypothesis unconfigured : Xocl.configured (Xocl.exec w) = false.
Hypothesis fields : packet_fields_ok (Xocl.packet xc).
Hypothesis num_cus_word : cfg_num_cus (Xocl.packet xc) = Ok N.
Hypothesis count_valid : pkt_count (Xocl.packet xc) = 5 + N.
Hypothesis slot_size_word : cfg_slot_size (Xocl.packet xc) = Ok ssz.
Hypothesis slot_size_pos : ssz <> 0.
Hypothesis held : pkt_count (Xocl.packet xc) <= Z.of_nat (length (pkt_data (Xocl.packet xc))).
Hypothesis map_size : Z.of_nat (length (Xocl.cu_addr_map (Xocl.exec w))) = MAX_CUS.
Hypothesis too_many : MAX_CUS < N.

Lemma configure_overflows_cu_addr_map : Xocl.configure p w = Fault OutOfBounds.
Proof.
  destruct fields as [Hcount _]. unfold MAX_CUS in *.
  cbv [Xocl.configure bind Xocl.the_cmd gets lift ret Xocl.sched_error_on modify Xocl.upd_exec].
  rewrite cmd_at. rewrite is_configure, Z.eqb_refl. cbn [negb].
  rewrite unconfigured. rewrite num_cus_word.
  rewrite count_valid. rewrite (u32_small (5 + N)) by lia. rewrite Z.eqb_refl. cbn [negb].
  rewrite slot_size_word.
  destruct (ssz =? 0) eqn:E; [apply Z.eqb_eq in E; contradiction |].
  destruct (cfg_word_held (Xocl.packet xc) 2 ltac:(lia)) as (shift & Hshift & _).
  destruct (cfg_word_held (Xocl.packet xc) 3 ltac:(lia)) as (cubase & Hbase & _).
  unfold cfg_cu_shift, cfg_cu_base_addr. rewrite Hshift, Hbase.
  rewrite <- (Z2Nat.id N) by lia.
  rewrite (configure_cu_addr_loop_fault (Xocl.packet xc) 128 0 _ (Z.to_nat N));
    [reflexivity | lia | cbn; lia | lia].
Qed.

(** C10.  A configure command that passes the validation
    [count == 5 + num_cus] on an unconfigured core, with more compute units
    than the 128 entries of [cu_addr_map], makes configure() write past the
    end of [cu_addr_map]: configure() has no check against [MAX_CUS], and
    queued_to_running(), which the worker runs on the submitted command,
    hits the out-of-bounds fault. *)
Theorem configure_overflows :
  Xocl.configure p w = Fault OutOfBounds /\
  Xocl.queued_to_running p w = Fault OutOfBounds.
Proof.
  split; [exact configure_overflows_cu_addr_map |].
  unfold Xocl.queued_to_running.
  cbv [bind Xocl.the_cmd]. rewrite cmd_at, unblocked. cbn [Z.eqb negb].
  rewrite is_configure, Z.eqb_refl.
  rewrite configure_overflows_cu_addr_map. reflexivity.
Qed.

End ConfigureOverflow.

Lemma num_masks_ceil (n : Z) :
  1 <= n < 2 ^ 31 -> u32 (Z.shiftr (u32 (n - 1)) 5 + 1) = (n + 31) / 32.
Proof.
  intros Hn. rewrite (u32_small (n - 1)) by lia.
  rewrite Z.shiftr_div_pow2 by lia. change (2 ^ 5) with 32.
  assert (0 <= (n - 1) / 32 < 2 ^ 26).
  { split; [apply Z.div_pos; lia | apply Z.div_lt_upper_bound; lia]. }
  rewrite u32_small by lia.
  replace (n + 31) with (n - 1 + 1 * 32) by lia.
  rewrite Z.div_add by lia. reflexivity.
Qed.

Section ConfigureBlocks.
Context {xabi : Xocl.ert_h}.

Lemma configure_cdma_ok (s : Xocl.world) (p : nat) (c : Xocl.xocl_cmd)
    (cfg : ert_packet) (N : Z) :
  Xocl.cmds s !! p = Some c ->
  Xocl.num_cus (Xocl.exec s) = N ->
  0 <= N < Z.of_nat (length (Xocl.cu_addr_map (Xocl.exec s))) ->
  1 < Z.of_nat (length (pkt_data cfg)) ->
  exists s',
    Xocl.configure_cdma p cfg N s = Ok (tt, s') /\
    Xocl.num_cus (Xocl.exec s') = u32 (N + 1) /\
    Xocl.num_cu_masks (Xocl.exec s') = Xocl.num_cu_masks (Xocl.exec s) /\
    Xocl.cu_addr_map (Xocl.exec s') =
      <[Z.to_nat N := 2424832]> (Xocl.cu_addr_map (Xocl.exec s)) /\
    Xocl.configured (Xocl.exec s') = Xocl.configured (Xocl.exec s) /\
    exists c', Xocl.cmds s' !! p = Some c' /\
               length (pkt_data (Xocl.packet c')) = length (pkt_data cfg).
Proof.
  intros Hc Hn Hroom Hdata.
  cbv [Xocl.configure_cdma bind gets lift Xocl.upd_exec modify Xocl.upd_cmd Xocl.the_cmd].
  rewrite Hn. rewrite arr_set_in by lia. rewrite arr_set_in by lia.
  cbn [Xocl.cmds Xocl.set_exec]. rewrite Hc.
  eexists. split; [reflexivity |]. cbn.
  repeat split; try reflexivity.
  eexists. split; [apply lookup_insert_eq |]. cbn. apply length_insert.
Qed.

Lemma configure_mode_ok (s : Xocl.world) (p : nat) (c : Xocl.xocl_cmd)
    (cfg : ert_packet) (ert cdma : bool) (dsa : Z) :
  Xocl.cmds s !! p = Some c ->
  4 < Z.of_nat (length (pkt_data cfg)) ->
  4 < Z.of_nat (length (pkt_data (Xocl.packet c))) ->
  exists s',
    Xocl.configure_mode p cfg ert cdma dsa s = Ok (tt, s') /\
    Xocl.num_cus (Xocl.exec s') = Xocl.num_cus (Xocl.exec s) /\
    Xocl.num_cu_masks (Xocl.exec s') = Xocl.num_cu_masks (Xocl.exec s) /\
    Xocl.cu_addr_map (Xocl.exec s') = Xocl.cu_addr_map (Xocl.exec s) /\
    Xocl.configured (Xocl.exec s') = Xocl.configured (Xocl.exec s).
Proof.
  intros Hc Hcfg Hpkt.
  destruct (cfg_word_held cfg 4 ltac:(lia)) as (feat & Hfeat & _).
  unfold Xocl.configure_mode. destruct ert.
  - cbv [bind lift cfg_features]. rewrite Hfeat.
    destruct (negb (Xocl.bitfield feat Xocl.cfg_ert_bit =? 0)).
    + cbv [bind gets lift Xocl.upd_exec modify Xocl.upd_cmd Xocl.the_cmd].
      cbn [Xocl.cmds Xocl.set_exec]. rewrite Hc.
      rewrite arr_set_in by lia.
      cbn [Xocl.cmds Xocl.set_exec]. rewrite Hc.
      eexists. split; [reflexivity |]. cbn. repeat split; reflexivity.
    + cbv [bind Xocl.upd_exec modify].
      eexists. split; [reflexivity |]. cbn. repeat split; reflexivity.
  - cbv [bind Xocl.upd_exec modify].
    eexists. split; [reflexivity |]. cbn. repeat split; reflexivity.
Qed.

End ConfigureBlocks.

Section ConfigureSuccess.
Context {xabi : Xocl.ert_h}.
Variables (w : Xocl.world) (p : nat) (xc : Xocl.xocl_cmd) (N ssz : Z).

Hypothesis cmd_at : Xocl.cmds w !! p = Some xc.
Hypothesis is_configure : Xocl.opcode xc = Xocl.ERT_CONFIGURE.
Hypothesis unconfigured : Xocl.configured (Xocl.exec w) = false.
Hypothesis fields : packet_fields_ok (Xocl.packet xc).
Hypothesis num_cus_word : cfg_num_cus (Xocl.packet xc) = Ok N.
Hypothesis count_valid : pkt_count (Xocl.packet xc) = 5 + N.
Hypothesis slot_size_word : cfg_slot_size (Xocl.packet xc) = Ok ssz.
Hypothesis slot_size_pos : ssz <> 0.
Hypothesis held : pkt_count (Xocl.packet xc) <= Z.of_nat (length (pkt_data (Xocl.packet xc))).
Hypothesis some_cu : 1 <= N.
Hypothesis room :
  N + (if Xocl.cdma_on (Xocl.rom w) then 1 else 0)
  <= Z.of_nat (length (Xocl.cu_addr_map (Xocl.exec w))).

(** C4, as amended.  A configure command with [count == 5 + N], [1 <= N],
    on an unconfigured core whose [cu_addr_map] has room for the compute
    units (and for the CDMA unit on a device with a CDMA engine), with a
    non-zero slot size: configure() returns 0, and then
    [num_cu_masks == ceil(N / 32)], [cu_addr_map[i] == payload.cu_addr[i]]
    for every [i < N], the core is configured, and [num_cus == N] on a
    device without CDMA engine, [num_cus == N + 1] with
    [cu_addr_map[N] == 0x250000] on a device with one. *)
Theorem configure_sets_cus :
  exists w',
    Xocl.configure p w = Ok (0, w') /\
    Xocl.num_cus (Xocl.exec w') = N + (if Xocl.cdma_on (Xocl.rom w) then 1 else 0) /\
    Xocl.num_cu_masks (Xocl.exec w') = (N + 31) / 32 /\
    (forall i, 0 <= i < N ->
       Xocl.cu_addr_map (Xocl.exec w') !! Z.to_nat i =
       pkt_data (Xocl.packet xc) !! Z.to_nat (5 + i)) /\
    (Xocl.cdma_on (Xocl.rom w) = true ->
       Xocl.cu_addr_map (Xocl.exec w') !! Z.to_nat N = Some 2424832) /\
    Xocl.configured (Xocl.exec w') = true.
Proof.
  destruct fields as [Hcount _].
  cbv [Xocl.configure bind Xocl.the_cmd gets lift ret Xocl.sched_error_on modify Xocl.upd_exec].
  rewrite cmd_at. rewrite is_configure, Z.eqb_refl. cbn [negb].
  rewrite unconfigured. rewrite num_cus_word.
  rewrite count_valid. rewrite (u32_small (5 + N)) by lia. rewrite Z.eqb_refl. cbn [negb].
  rewrite slot_size_word.
  destruct (ssz =? 0) eqn:E; [apply Z.eqb_eq in E; contradiction |].
  destruct (cfg_word_held (Xocl.packet xc) 2 ltac:(lia)) as (shift & Hshift & _).
  destruct (cfg_word_held (Xocl.packet xc) 3 ltac:(lia)) as (cubase & Hbase & _).
  unfold cfg_cu_shift, cfg_cu_base_addr. rewrite Hshift, Hbase.
  match goal with
  | |- context [for_each _ _ ?w0] =>
      destruct (configure_cu_addr_loop (Xocl.packet xc) (Z.to_nat N) 0 w0)
        as (m & Hrun & Hlen & Hnew & Hold)
  end.
  1:lia. 1:{ cbn. destruct (Xocl.cdma_on (Xocl.rom w)); lia. } 1:lia.
  rewrite Z2Nat.id in Hrun, Hnew, Hold by lia. rewrite Hrun. clear Hrun.
  cbn in Hlen, Hold.
  match goal with
  | |- context [(if _ then _ else _) ?w1] => set (s1 := w1)
  end.
  assert (Hs1 : Xocl.cmds s1 !! p = Some xc) by exact cmd_at.
  assert (Hn1 : Xocl.num_cus (Xocl.exec s1) = N) by reflexivity.
  assert (Hk1 : Xocl.num_cu_masks (Xocl.exec s1) = (N + 31) / 32).
  { subst s1. cbn. apply num_masks_ceil. lia. }
  assert (Hm1 : Xocl.cu_addr_map (Xocl.exec s1) = m) by reflexivity.
  clearbody s1.
  destruct (Xocl.cdma_on (Xocl.rom w)) eqn:Ecdma.
  - destruct (configure_cdma_ok s1 p xc (Xocl.packet xc) N Hs1 Hn1)
      as (s2 & Hrun2 & Hn2 & Hk2 & Hm2 & Hc2 & c2 & Hs2 & Hl2); [rewrite Hm1; lia | lia |].
    rewrite Hrun2.
    destruct (configure_mode_ok s2 p c2 (Xocl.packet xc) (Xocl.mb_sched_on (Xocl.rom w))
                true (Xocl.dsa_version (Xocl.rom w)) Hs2)
      as (s3 & Hrun3 & Hn3 & Hk3 & Hm3 & Hc3); [lia | lia |].
    rewrite Hrun3.
    eexists. split; [reflexivity |]. cbn.
    rewrite Hn3, Hn2, Hk3, Hk2, Hk1, Hm3, Hm2, Hm1. rewrite u32_small by lia.
    split; [reflexivity |]. split; [reflexivity |]. split; [| split; [| reflexivity]].
    + intros i Hi. rewrite list_lookup_insert_ne by lia. apply Hnew. lia.
    + intros _. apply list_lookup_insert_eq. lia.
  - destruct (configure_mode_ok s1 p xc (Xocl.packet xc) (Xocl.mb_sched_on (Xocl.rom w))
                false (Xocl.dsa_version (Xocl.rom w)) Hs1)
      as (s3 & Hrun3 & Hn3 & Hk3 & Hm3 & Hc3); [lia | lia |].
    cbv [ret]. rewrite Hrun3.
    eexists. split; [reflexivity |]. cbn.
    rewrite Hn3, Hn1, Hk3, Hk1, Hm3, Hm1.
    split; [lia |]. split; [reflexivity |]. split; [| split; [| reflexivity]].
    + intros i Hi. apply Hnew. lia.
    + intros Habs. discriminate.
Qed.

End ConfigureSuccess.

(** C4, witness: scenario 1 of the spec, one compute unit at 0x10000. *)
Lemma configure_sets_cus_witness :
  Xocl.cmds (xocl_submitted xocl_boot (configure_packet 4096 16 0 0 [65536])) !! 0%nat
    = Some (queued_cmd (configure_packet 4096 16 0 0 [65536])) /\
  exists w',
    Xocl.configure (abi := Xocl.ert_h_2018_2) 0
      (xocl_submitted xocl_boot (configure_packet 4096 16 0 0 [65536])) = Ok (0, w') /\
    Xocl.num_cus (Xocl.exec w') = 1 /\
    Xocl.num_cu_masks (Xocl.exec w') = 1 /\
    Xocl.cu_addr_map (Xocl.exec w') !! 0%nat = Some 65536.
Proof.
  split; [reflexivity |].
  destruct (configure_sets_cus (xabi := Xocl.ert_h_2018_2)
              (xocl_submitted xocl_boot (configure_packet 4096 16 0 0 [65536])) 0%nat
              (queued_cmd (configure_packet 4096 16 0 0 [65536])) 1 4096)
    as (w' & Hrun & Hn & Hk & Hmap & _ & _); try (concrete; fail).
  exists w'. split; [exact Hrun |]. split; [exact Hn |]. split; [exact Hk |].
  exact (Hmap 0 ltac:(lia)).
Defined.

(** C4, counterexample to the claim as stated: on a device with a CDMA
    engine the accepted configure command with [count == 5 + 1] leaves
    [num_cus == 2], not 1. *)
Lemma configure_counts_cdma_unit :
  pkt_count (configure_packet 4096 16 0 0 [65536]) = 5 + 1 /\
  Xocl.configured (Xocl.exec (xocl_submitted xocl_cdma_boot
                                (configure_packet 4096 16 0 0 [65536]))) = false /\
  exists w',
    Xocl.configure (abi := Xocl.ert_h_2018_2) 0
      (xocl_submitted xocl_cdma_boot (configure_packet 4096 16 0 0 [65536])) = Ok (0, w') /\
    Xocl.num_cus (Xocl.exec w') = 2 /\
    Xocl.num_cus (Xocl.exec w') <> 1.
Proof.
  split; [reflexivity |]. split; [reflexivity |].
  eexists. split; [vm_compute; reflexivity |]. split; [reflexivity |].
  intros E. discriminate E.
Qed.

(** On a configure command without compute units, [num_cu_masks] is not
    [ceil(0 / 32) = 0]: [(num_cus - 1) >> 5] wraps around. *)
Lemma configure_no_cu_masks_wrap :
  exists w',
    Xocl.configure (abi := Xocl.ert_h_2018_2) 0
      (xocl_submitted xocl_boot (configure_packet 4096 16 0 0 [])) = Ok (0, w') /\
    Xocl.num_cus (Xocl.exec w') = 0 /\
    Xocl.num_cu_masks (Xocl.exec w') = 134217728.
Proof.
  eexists. split; [vm_compute; reflexivity |]. split; reflexivity.
Qed.

(** C10, witness: the client submits the configure packet for 129 compute
    units through add_exec_buffer(), and the loop of the worker faults in
    configure(). *)
Lemma configure_overflows_witness :
  pkt_count configure_129 = 5 + 129 /\
  (cl <- Xocl.create_client ;;
   Xocl.new_bo 0 ;;;
   Xocl.add_exec_buffer Xocl.kmalloc_cmd cl 0 configure_129 [] ;;;
   Xocl.scheduler_loop (abi := Xocl.ert_h_2018_2)) xocl_boot = Fault OutOfBounds /\
  Xocl.configure (abi := Xocl.ert_h_2018_2) 0 (xocl_submitted xocl_boot configure_129)
    = Fault OutOfBounds /\
  Xocl.queued_to_running (abi := Xocl.ert_h_2018_2) 0 (xocl_submitted xocl_boot configure_129)
    = Fault OutOfBounds.
Proof.
  split; [reflexivity |]. split; [vm_compute; reflexivity |].
  apply (configure_overflows (xabi := Xocl.ert_h_2018_2)
           (xocl_submitted xocl_boot configure_129) 0%nat (queued_cmd configure_129)
           129 4096); concrete.
Defined.

(** ** What queued_to_running keeps *)

Section Keeps.
Context {S T : Type} (obs : S -> T).

Lemma keeps_ret {A : Type} (a : A) : keeps obs (ret a).
Proof. intros s b s' [= _ <-]. reflexivity. Qed.

Lemma keeps_lift {A : Type} (r : result A) : keeps obs (lift r).
Proof. intros s b s'. unfold lift. destruct r; [intros [= _ <-]; reflexivity | discriminate]. Qed.

Lemma keeps_gets {A : Type} (f : S -> A) : keeps obs (gets f).
Proof. intros s b s' [= _ <-]. reflexivity. Qed.

Lemma keeps_modify (f : S -> S) : (forall s, obs (f s) = obs s) -> keeps obs (modify f).
Proof. intros Hf s b s' [= _ <-]. apply Hf. Qed.

Lemma keeps_bind {A B : Type} (m : M S A) (k : A -> M S B) :
  keeps obs m -> (forall a, keeps obs (k a)) -> keeps obs (bind m k).
Proof.
  intros Hm Hk s b s'. unfold bind.
  destruct (m s) as [[a s1] | f] eqn:E; [| discriminate].
  intros Hrun. rewrite (Hk a _ _ _ Hrun). exact (Hm _ _ _ E).
Qed.

Lemma keeps_for_each {A : Type} (l : list A) (f : A -> M S unit) :
  (forall x, keeps obs (f x)) -> keeps obs (for_each l f).
Proof.
  intros Hf. induction l as [| x l IH]; cbn [for_each].
  - apply keeps_ret.
  - apply keeps_bind; [apply Hf | intros _; exact IH].
Qed.

Lemma keeps_if {A : Type} (b : bool) (m1 m2 : M S A) :
  keeps obs m1 -> keeps obs m2 -> keeps obs (if b then m1 else m2).
Proof. destruct b; auto. Qed.

End Keeps.

(** One step in the proof that a computation keeps an observation: through
    the binds, conditionals and loops, down to the primitives. *)
Ltac keeps_step :=
  first
    [ apply keeps_ret | apply keeps_lift | apply keeps_gets
    | apply keeps_bind; [| intros ?]
    | apply keeps_for_each; intros ?
    | apply keeps_if
    | match goal with
      | |- keeps _ (match ?x with _ => _ end) => destruct x
      end ].

Section QueuedToRunningFrame.
Context {xabi : Xocl.ert_h} {T : Type} (obs : Xocl.world -> T) (p : nat).

(** The observation does not look at the exec core, the MMIO trace, the
    poll counter and the error flag of the scheduler, nor at the fields of
    the command [p] that queued_to_running(p) writes. *)
Hypothesis obs_exec : forall f w, obs (Xocl.set_exec f w) = obs w.
Hypothesis obs_mmio : forall f w, obs (Xocl.set_mmio f w) = obs w.
Hypothesis obs_poll : forall f w, obs (Xocl.set_sched_poll f w) = obs w.
Hypothesis obs_error : forall v w, obs (Xocl.set_sched_error v w) = obs w.
Hypothesis obs_cmd :
  forall (f : Xocl.xocl_cmd -> Xocl.xocl_cmd) w c,
    Xocl.cmds w !! p = Some c ->
    (exists st cu s pk,
       f c = Xocl.set_state st (Xocl.set_cu_idx cu (Xocl.set_slot_idx s (Xocl.set_packet pk c)))) ->
    obs (Xocl.set_cmds (fun m => <[p := f c]> m) w) = obs w.

Lemma keeps_the_cmd (q : nat) : keeps obs (Xocl.the_cmd q).
Proof.
  intros w c w'. unfold Xocl.the_cmd.
  destruct (Xocl.cmds w !! q); [intros [= _ <-]; reflexivity | discriminate].
Qed.

Lemma keeps_upd_exec f : keeps obs (Xocl.upd_exec f).
Proof. apply keeps_modify. intros w. apply obs_exec. Qed.

Lemma keeps_do_iowrite32 v a : keeps obs (Xocl.do_iowrite32 v a).
Proof. apply keeps_modify. intros w. apply obs_mmio. Qed.

Lemma keeps_sched_error_on b : keeps obs (Xocl.sched_error_on b).
Proof.
  unfold Xocl.sched_error_on. destruct b; [| apply keeps_ret].
  apply keeps_bind; [| intros _; apply keeps_ret].
  apply keeps_modify. intros w. apply obs_error.
Qed.

Lemma keeps_upd_cmd (f : Xocl.xocl_cmd -> Xocl.xocl_cmd) :
  (forall c, exists st cu s pk,
     f c = Xocl.set_state st (Xocl.set_cu_idx cu (Xocl.set_slot_idx s (Xocl.set_packet pk c)))) ->
  keeps obs (Xocl.upd_cmd p f).
Proof.
  intros Hf w a w'. unfold Xocl.upd_cmd, bind, Xocl.the_cmd, modify.
  destruct (Xocl.cmds w !! p) as [c |] eqn:E; [| discriminate].
  intros [= _ <-]. apply obs_cmd; [exact E | apply Hf].
Qed.

Lemma set_slot_idx_shape (s : Z) (c : Xocl.xocl_cmd) :
  exists st cu s' pk,
    Xocl.set_slot_idx s c =
    Xocl.set_state st (Xocl.set_cu_idx cu (Xocl.set_slot_idx s' (Xocl.set_packet pk c))).
Proof. exists (Xocl.state c), (Xocl.cu_idx c), s, (Xocl.packet c). reflexivity. Qed.

Lemma set_cu_idx_shape (cu : Z) (c : Xocl.xocl_cmd) :
  exists st cu' s pk,
    Xocl.set_cu_idx cu c =
    Xocl.set_state st (Xocl.set_cu_idx cu' (Xocl.set_slot_idx s (Xocl.set_packet pk c))).
Proof. exists (Xocl.state c), cu, (Xocl.slot_idx c), (Xocl.packet c). reflexivity. Qed.

Lemma set_state_shape (st : ert_cmd_state) (c : Xocl.xocl_cmd) :
  exists st' cu s pk,
    Xocl.set_state st c =
    Xocl.set_state st' (Xocl.set_cu_idx cu (Xocl.set_slot_idx s (Xocl.set_packet pk c))).
Proof. exists st, (Xocl.cu_idx c), (Xocl.slot_idx c), (Xocl.packet c). reflexivity. Qed.

Lemma set_packet_shape (f : Xocl.xocl_cmd -> ert_packet) (c : Xocl.xocl_cmd) :
  exists st cu s pk,
    Xocl.set_packet (f c) c =
    Xocl.set_state st (Xocl.set_cu_idx cu (Xocl.set_slot_idx s (Xocl.set_packet pk c))).
Proof. exists (Xocl.state c), (Xocl.cu_idx c), (Xocl.slot_idx c), (f c). reflexivity. Qed.

Lemma set_state_packet_shape (st : ert_cmd_state) (f : Xocl.xocl_cmd -> ert_packet)
    (c : Xocl.xocl_cmd) :
  exists st' cu s pk,
    Xocl.set_packet (f c) (Xocl.set_state st c) =
    Xocl.set_state st' (Xocl.set_cu_idx cu (Xocl.set_slot_idx s (Xocl.set_packet pk c))).
Proof. exists st, (Xocl.cu_idx c), (Xocl.slot_idx c), (f c). reflexivity. Qed.

Ltac keeps_auto :=
  repeat first
    [ apply keeps_the_cmd | apply keeps_upd_exec | apply keeps_do_iowrite32
    | apply keeps_sched_error_on
    | apply keeps_upd_cmd; intros ?;
      first [ apply set_slot_idx_shape | apply set_cu_idx_shape | apply set_state_shape
            | apply (set_packet_shape (fun c => _)) | apply (set_state_packet_shape _ (fun c => _)) ]
    | apply keeps_modify; intros ?; first [apply obs_exec | apply obs_mmio | apply obs_poll | apply obs_error]
    | keeps_step ].

Lemma keeps_set_cmd_state st : keeps obs (Xocl.set_cmd_state p st).
Proof.
  unfold Xocl.set_cmd_state. apply keeps_upd_cmd. intros c.
  apply (set_state_packet_shape st (fun c => set_pkt_state st (Xocl.packet c))).
Qed.

Lemma keeps_set_cmd_int_state st : keeps obs (Xocl.set_cmd_int_state p st).
Proof. unfold Xocl.set_cmd_int_state. apply keeps_upd_cmd. intros c. apply set_state_shape. Qed.

Lemma keeps_configure : keeps obs (Xocl.configure p).
Proof.
  unfold Xocl.configure, Xocl.configure_cu_addr, Xocl.configure_cdma, Xocl.configure_mode.
  keeps_auto.
Qed.

Lemma keeps_exec_write : keeps obs (Xocl.exec_write p).
Proof. unfold Xocl.exec_write. keeps_auto. Qed.

Lemma keeps_acquire_slot_idx : keeps obs Xocl.acquire_slot_idx.
Proof. unfold Xocl.acquire_slot_idx. keeps_auto. Qed.

Lemma keeps_submit : keeps obs (Xocl.submit p).
Proof.
  unfold Xocl.submit, Xocl.mb_submit, Xocl.penguin_submit, Xocl.acquire_slot_idx,
    Xocl.get_free_cu, Xocl.configure_cu.
  keeps_auto.
Qed.

Lemma keeps_queued_to_running : keeps obs (Xocl.queued_to_running p).
Proof.
  unfold Xocl.queued_to_running.
  repeat first
    [ apply keeps_configure | apply keeps_exec_write | apply keeps_submit
    | apply keeps_set_cmd_state | apply keeps_set_cmd_int_state | keeps_auto ].
Qed.

End QueuedToRunningFrame.

Section QueuedToRunning.
Context {xabi : Xocl.ert_h}.

Lemma queued_to_running_keeps_wait (p : nat) :
  keeps obs_wait (Xocl.queued_to_running p).
Proof.
  apply keeps_queued_to_running; try reflexivity.
  intros f w c Hc (st & cu & s & pk & Hf). unfold obs_wait. cbn.
  rewrite fmap_insert. apply insert_id.
  rewrite lookup_fmap, Hc, Hf. reflexivity.
Qed.

Lemma queued_to_running_keeps_others (p : nat) :
  keeps (obs_others p) (Xocl.queued_to_running p).
Proof.
  apply keeps_queued_to_running; try reflexivity.
  intros f w c Hc _. unfold obs_others. cbn.
  rewrite fmap_insert. apply delete_insert_eq.
Qed.


Variables (w : Xocl.world) (p : nat) (xc : Xocl.xocl_cmd).
Hypothesis cmd_at : Xocl.cmds w !! p = Some xc.

(** One call of queued_to_running(): a command with [wait_count > 0] is
    left as it is, the call returns false and nothing has changed, neither
    the core, nor a command, nor the MMIO trace.  And a command that the
    call moves into the state running has [wait_count == 0], before and
    after; the call changes the wait count of no command and the state of
    no other command. *)
Lemma queued_to_running_call :
  (Xocl.wait_count xc <> 0 -> Xocl.queued_to_running p w = Ok (false, w)) /\
  (forall r w',
     Xocl.queued_to_running p w = Ok (r, w') ->
     (forall q, Xocl.wait_count <$> Xocl.cmds w' !! q = Xocl.wait_count <$> Xocl.cmds w !! q) /\
     (forall q, q <> p -> Xocl.state <$> Xocl.cmds w' !! q = Xocl.state <$> Xocl.cmds w !! q) /\
     (Xocl.state <$> Xocl.cmds w' !! p = Some ERT_CMD_STATE_RUNNING ->
      Xocl.state xc <> ERT_CMD_STATE_RUNNING ->
      Xocl.wait_count xc = 0 /\ Xocl.wait_count <$> Xocl.cmds w' !! p = Some 0)).
Proof.
  assert (Hblocked : Xocl.wait_count xc <> 0 -> Xocl.queued_to_running p w = Ok (false, w)).
  { intros Hwait. unfold Xocl.queued_to_running, bind, Xocl.the_cmd, ret.
    rewrite cmd_at. apply Z.eqb_neq in Hwait. rewrite Hwait. reflexivity. }
  split; [exact Hblocked |].
  intros r w' Hrun.
  assert (Hwaits : forall q, Xocl.wait_count <$> Xocl.cmds w' !! q
                             = Xocl.wait_count <$> Xocl.cmds w !! q).
  { intros q. pose proof (queued_to_running_keeps_wait p _ _ _ Hrun) as Hk.
    unfold obs_wait in Hk. rewrite <- !lookup_fmap, Hk. reflexivity. }
  split; [exact Hwaits |]. split.
  - intros q Hq. pose proof (queued_to_running_keeps_others p _ _ _ Hrun) as Hk.
    unfold obs_others in Hk.
    rewrite <- !lookup_fmap.
    rewrite <- (lookup_delete_ne (Xocl.state <$> Xocl.cmds w') p q) by congruence.
    rewrite <- (lookup_delete_ne (Xocl.state <$> Xocl.cmds w) p q) by congruence.
    rewrite Hk. reflexivity.
  - intros Hnow Hbefore.
    destruct (Z.eq_dec (Xocl.wait_count xc) 0) as [Hzero | Hwait].
    + split; [exact Hzero |]. rewrite Hwaits, cmd_at. cbn. rewrite Hzero. reflexivity.
    + exfalso. rewrite (Hblocked Hwait) in Hrun. injection Hrun as _ <-.
      rewrite cmd_at in Hnow. cbn in Hnow. congruence.
Qed.

End QueuedToRunning.

(** ** Where a command enters the state running *)

Lemma no_new_running_refl (w : Xocl.world) : no_new_running w w.
Proof. intros q c' Hc Hst. exists c'. split; assumption. Qed.

Lemma no_new_running_trans (w1 w2 w3 : Xocl.world) :
  no_new_running w1 w2 -> no_new_running w2 w3 -> no_new_running w1 w3.
Proof.
  intros H12 H23 q c3 Hc Hst.
  destruct (H23 q c3 Hc Hst) as (c2 & Hc2 & Hst2). exact (H12 q c2 Hc2 Hst2).
Qed.

Lemma no_new_running_cmds (w w' : Xocl.world) :
  Xocl.cmds w' = Xocl.cmds w -> no_new_running w w'.
Proof. intros E q c' Hc Hst. rewrite E in Hc. exists c'. split; assumption. Qed.

Section StartsNothing.

Lemma starts_nothing_ret {A : Type} (a : A) : starts_nothing (ret a).
Proof. intros w b w' [= _ <-]. apply no_new_running_refl. Qed.

Lemma starts_nothing_lift {A : Type} (r : result A) : starts_nothing (lift r).
Proof.
  intros w b w'. unfold lift.
  destruct r; [intros [= _ <-]; apply no_new_running_refl | discriminate].
Qed.

Lemma starts_nothing_gets {A : Type} (f : Xocl.world -> A) : starts_nothing (gets f).
Proof. intros w b w' [= _ <-]. apply no_new_running_refl. Qed.

Lemma starts_nothing_modify (f : Xocl.world -> Xocl.world) :
  (forall w, Xocl.cmds (f w) = Xocl.cmds w) -> starts_nothing (modify f).
Proof. intros Hf w b w' [= _ <-]. apply no_new_running_cmds, Hf. Qed.

Lemma starts_nothing_bind {A B : Type} (m : M Xocl.world A) (k : A -> M Xocl.world B) :
  starts_nothing m -> (forall a, starts_nothing (k a)) -> starts_nothing (bind m k).
Proof.
  intros Hm Hk w b w'. unfold bind.
  destruct (m w) as [[a w1] | f] eqn:E; [| discriminate].
  intros Hrun. exact (no_new_running_trans _ _ _ (Hm _ _ _ E) (Hk a _ _ _ Hrun)).
Qed.

Lemma starts_nothing_for_each {A : Type} (l : list A) (f : A -> M Xocl.world unit) :
  (forall x, starts_nothing (f x)) -> starts_nothing (for_each l f).
Proof.
  intros Hf. induction l as [| x l IH]; cbn [for_each].
  - apply starts_nothing_ret.
  - apply starts_nothing_bind; [apply Hf | intros _; exact IH].
Qed.

Lemma starts_nothing_if {A : Type} (b : bool) (m1 m2 : M Xocl.world A) :
  starts_nothing m1 -> starts_nothing m2 -> starts_nothing (if b then m1 else m2).
Proof. destruct b; auto. Qed.

Lemma starts_nothing_the_cmd (q : nat) : starts_nothing (Xocl.the_cmd q).
Proof.
  intros w c w'. unfold Xocl.the_cmd.
  destruct (Xocl.cmds w !! q); [intros [= _ <-]; apply no_new_running_refl | discriminate].
Qed.

Lemma starts_nothing_the_client (k : nat) : starts_nothing (Xocl.the_client k).
Proof.
  intros w c w'. unfold Xocl.the_client.
  destruct (Xocl.clients w !! k); [intros [= _ <-]; apply no_new_running_refl | discriminate].
Qed.

Lemma starts_nothing_the_active (b : nat) : starts_nothing (Xocl.the_active b).
Proof.
  intros w c w'. unfold Xocl.the_active.
  destruct (Xocl.bo_active w !! b); [intros [= _ <-]; apply no_new_running_refl | discriminate].
Qed.

(** A write to a command that does not write the state running. *)
Lemma starts_nothing_upd_cmd (q : nat) (f : Xocl.xocl_cmd -> Xocl.xocl_cmd) :
  (forall c, Xocl.state (f c) = ERT_CMD_STATE_RUNNING ->
             Xocl.state c = ERT_CMD_STATE_RUNNING) ->
  starts_nothing (Xocl.upd_cmd q f).
Proof.
  intros Hf w a w'. unfold Xocl.upd_cmd, bind, Xocl.the_cmd, modify.
  destruct (Xocl.cmds w !! q) as [c |] eqn:E; [| discriminate].
  intros [= _ <-] r c' Hc Hst. cbn in Hc.
  destruct (decide (r = q)) as [-> | Hne].
  - rewrite lookup_insert_eq in Hc. injection Hc as <-.
    exists c. split; [exact E | apply Hf; exact Hst].
  - rewrite lookup_insert_ne in Hc by congruence. exists c'. split; assumption.
Qed.

Lemma starts_nothing_upd_client (k : nat) (f : Xocl.client_ctx -> Xocl.client_ctx) :
  starts_nothing (Xocl.upd_client k f).
Proof.
  unfold Xocl.upd_client.
  apply starts_nothing_bind; [apply starts_nothing_the_client | intros c].
  apply starts_nothing_modify. reflexivity.
Qed.

End StartsNothing.

(** One step in the proof that a computation starts nothing: through the
    binds, conditionals and loops, down to the reads and writes, where a
    write to a command has to be a write of a field other than the state,
    or of a state other than running. *)
Ltac starts_step :=
  first
    [ apply starts_nothing_ret | apply starts_nothing_lift | apply starts_nothing_gets
    | apply starts_nothing_the_cmd | apply starts_nothing_the_client
    | apply starts_nothing_the_active | apply starts_nothing_upd_client
    | apply starts_nothing_modify; intros ?; reflexivity
    | apply starts_nothing_upd_cmd; intros ?; cbn; first [discriminate | tauto]
    | apply starts_nothing_bind; [| intros ?]
    | apply starts_nothing_for_each; intros ?
    | apply starts_nothing_if
    | match goal with
      | |- starts_nothing (match ?x with _ => _ end) => destruct x
      end ].

Section WorkerQuiet.
Context {xabi : Xocl.ert_h}.

Lemma starts_nothing_set_cmd_state (p : nat) (st : ert_cmd_state) :
  st <> ERT_CMD_STATE_RUNNING -> starts_nothing (Xocl.set_cmd_state p st).
Proof.
  intros Hst. unfold Xocl.set_cmd_state. apply starts_nothing_upd_cmd.
  intros c. cbn. intros E. contradiction.
Qed.

Lemma starts_nothing_set_cmd_int_state (p : nat) (st : ert_cmd_state) :
  st <> ERT_CMD_STATE_RUNNING -> starts_nothing (Xocl.set_cmd_int_state p st).
Proof.
  intros Hst. unfold Xocl.set_cmd_int_state. apply starts_nothing_upd_cmd.
  intros c. cbn. intros E. contradiction.
Qed.

Lemma starts_nothing_sched_error_on (b : bool) : starts_nothing (Xocl.sched_error_on b).
Proof. unfold Xocl.sched_error_on. repeat starts_step. Qed.

Lemma starts_nothing_update_cmd_state (p : nat) : starts_nothing (Xocl.update_cmd_state p).
Proof.
  unfold Xocl.update_cmd_state.
  repeat first [apply starts_nothing_set_cmd_state; discriminate | starts_step].
Qed.

Lemma starts_nothing_chain_dependencies (p : nat) :
  starts_nothing (Xocl.chain_dependencies p).
Proof.
  unfold Xocl.chain_dependencies.
  apply starts_nothing_bind; [apply starts_nothing_the_cmd | intros xcmd].
  generalize (seqZ 0 (to_int (Xocl.wait_count xcmd))). intros idxs.
  induction idxs as [| didx rest IH]; cbn [Xocl.chain_dependencies_loop].
  - apply starts_nothing_ret.
  - repeat first [exact IH | starts_step].
Qed.

Lemma starts_nothing_set_active (b : nat) (a : option nat) :
  starts_nothing (Xocl.set_active b a).
Proof. unfold Xocl.set_active. repeat starts_step. Qed.

Lemma starts_nothing_scheduler_queue_cmds : starts_nothing Xocl.scheduler_queue_cmds.
Proof.
  unfold Xocl.scheduler_queue_cmds.
  repeat first
    [ apply starts_nothing_chain_dependencies | apply starts_nothing_set_active
    | apply starts_nothing_set_cmd_state; discriminate
    | apply starts_nothing_set_cmd_int_state; discriminate
    | starts_step ].
Qed.

Lemma starts_nothing_notify_host (p : nat) : starts_nothing (Xocl.notify_host p).
Proof. unfold Xocl.notify_host. repeat starts_step. Qed.

Lemma starts_nothing_cleanup_exec (p : nat) : starts_nothing (Xocl.cleanup_exec p).
Proof. unfold Xocl.cleanup_exec, Xocl.recycle_cmd. repeat starts_step. Qed.

Lemma starts_nothing_when_state (p : nat) (st : ert_cmd_state)
    (step : nat -> M Xocl.world unit) :
  starts_nothing (step p) -> starts_nothing (Xocl.when_state p st step).
Proof. intros Hs. unfold Xocl.when_state. repeat first [exact Hs | starts_step]. Qed.

Lemma starts_nothing_retire_cmd (p : nat) : starts_nothing (Xocl.retire_cmd p).
Proof.
  unfold Xocl.retire_cmd, Xocl.error_to_free, Xocl.abort_to_free, Xocl.complete_to_free.
  repeat first
    [ apply starts_nothing_when_state | apply starts_nothing_cleanup_exec
    | apply starts_nothing_notify_host | starts_step ].
Qed.

Lemma starts_nothing_release_slot_idx (s : Z) : starts_nothing (Xocl.release_slot_idx s).
Proof. unfold Xocl.release_slot_idx, Xocl.upd_exec. repeat starts_step. Qed.

Lemma starts_nothing_get_cu_idx (i : Z) : starts_nothing (Xocl.get_cu_idx i).
Proof.
  unfold Xocl.get_cu_idx.
  repeat first [apply starts_nothing_sched_error_on | starts_step].
Qed.

Lemma starts_nothing_cu_done (cu : Z) : starts_nothing (Xocl.cu_done cu).
Proof. unfold Xocl.cu_done, Xocl.do_ioread32, Xocl.upd_exec. repeat starts_step. Qed.

Lemma starts_nothing_xchg_sr (n : Z) : starts_nothing (Xocl.xchg_sr n).
Proof. unfold Xocl.xchg_sr, Xocl.upd_exec. repeat starts_step. Qed.

Variable start : nat -> M Xocl.world bool.
Hypothesis start_quiet : forall p, starts_nothing (start p).

Lemma starts_nothing_trigger_chain (p : nat) :
  starts_nothing (XoclWorker.trigger_chain start p).
Proof.
  unfold XoclWorker.trigger_chain.
  apply starts_nothing_bind; [apply starts_nothing_the_cmd | intros xcmd].
  apply starts_nothing_bind; [| intros _; apply starts_nothing_ret].
  generalize (Z.to_nat (Xocl.chain_count xcmd)). intros n.
  induction n as [| n IH]; cbn [XoclWorker.trigger_chain_loop].
  - apply starts_nothing_ret.
  - repeat first
      [ exact IH | apply start_quiet | apply starts_nothing_sched_error_on | starts_step ].
Qed.

Lemma starts_nothing_mark_cmd_complete (p : nat) :
  starts_nothing (XoclWorker.mark_cmd_complete start p).
Proof.
  unfold XoclWorker.mark_cmd_complete, Xocl.upd_exec.
  repeat first
    [ apply starts_nothing_trigger_chain | apply starts_nothing_set_active
    | apply starts_nothing_notify_host | apply starts_nothing_release_slot_idx
    | apply starts_nothing_set_cmd_state; discriminate
    | starts_step ].
Qed.

Lemma starts_nothing_running_to_complete (p : nat) :
  starts_nothing (XoclWorker.running_to_complete start p).
Proof.
  unfold XoclWorker.running_to_complete, XoclWorker.query, XoclWorker.mb_query,
    XoclWorker.penguin_query, XoclWorker.mark_mask_complete, Xocl.do_ioread32.
  repeat first
    [ apply starts_nothing_mark_cmd_complete | apply starts_nothing_xchg_sr
    | apply starts_nothing_get_cu_idx | apply starts_nothing_cu_done
    | starts_step ].
Qed.

Lemma starts_nothing_advance_cmd (p : nat) :
  starts_nothing (XoclWorker.advance_cmd start p).
Proof.
  unfold XoclWorker.advance_cmd.
  repeat first
    [ apply starts_nothing_update_cmd_state | apply starts_nothing_when_state
    | apply starts_nothing_running_to_complete | apply start_quiet | starts_step ].
Qed.

Lemma starts_nothing_scheduler_iterate_cmds :
  starts_nothing (XoclWorker.scheduler_iterate_cmds start).
Proof.
  unfold XoclWorker.scheduler_iterate_cmds.
  repeat first
    [ apply starts_nothing_advance_cmd | apply starts_nothing_retire_cmd | starts_step ].
Qed.

Lemma starts_nothing_scheduler_loop : starts_nothing (XoclWorker.scheduler_loop start).
Proof.
  unfold XoclWorker.scheduler_loop.
  apply starts_nothing_bind; [apply starts_nothing_scheduler_queue_cmds | intros _].
  apply starts_nothing_scheduler_iterate_cmds.
Qed.

End WorkerQuiet.

(** ** The worker with queued_to_running() as its start function *)

Section SameRun.
Context {S : Type}.

Lemma same_run_refl {A : Type} (m : M S A) : same_run m m.
Proof. intros s. reflexivity. Qed.

Lemma same_run_bind {A B : Type} (m m' : M S A) (k k' : A -> M S B) :
  same_run m m' -> (forall a, same_run (k a) (k' a)) -> same_run (bind m k) (bind m' k').
Proof.
  intros Hm Hk s. unfold bind. rewrite Hm.
  destruct (m' s) as [[a s1] | f]; [apply Hk | reflexivity].
Qed.

Lemma same_run_for_each {A : Type} (l : list A) (f f' : A -> M S unit) :
  (forall x, same_run (f x) (f' x)) -> same_run (for_each l f) (for_each l f').
Proof.
  intros Hf. induction l as [| x l IH]; cbn [for_each].
  - apply same_run_refl.
  - apply same_run_bind; [apply Hf | intros _; exact IH].
Qed.

Lemma same_run_if {A : Type} (b : bool) (m1 m1' m2 m2' : M S A) :
  same_run m1 m1' -> same_run m2 m2' ->
  same_run (if b then m1 else m2) (if b then m1' else m2').
Proof. destruct b; auto. Qed.

End SameRun.

(** One step in the proof that two computations of the same shape do the
    same. *)
Ltac same_step :=
  first
    [ apply same_run_bind; [| intros ?]
    | apply same_run_for_each; intros ?
    | apply same_run_if
    | match goal with
      | |- same_run (match ?x with _ => _ end) (match ?x with _ => _ end) => destruct x
      end
    | apply same_run_refl ].

Section WorkerSame.
Context {xabi : Xocl.ert_h}.

Lemma same_trigger_chain_loop (n p : nat) :
  same_run (XoclWorker.trigger_chain_loop Xocl.queued_to_running n p)
    (Xocl.trigger_chain_loop n p).
Proof.
  induction n as [| n IH]; cbn [XoclWorker.trigger_chain_loop Xocl.trigger_chain_loop].
  - apply same_run_refl.
  - repeat first [exact IH | same_step].
Qed.

Lemma same_trigger_chain (p : nat) :
  same_run (XoclWorker.trigger_chain Xocl.queued_to_running p) (Xocl.trigger_chain p).
Proof.
  unfold XoclWorker.trigger_chain, Xocl.trigger_chain.
  repeat first [apply same_trigger_chain_loop | same_step].
Qed.

Lemma same_mark_cmd_complete (p : nat) :
  same_run (XoclWorker.mark_cmd_complete Xocl.queued_to_running p)
    (Xocl.mark_cmd_complete p).
Proof.
  unfold XoclWorker.mark_cmd_complete, Xocl.mark_cmd_complete.
  repeat first [apply same_trigger_chain | same_step].
Qed.

Lemma same_running_to_complete (p : nat) :
  same_run (XoclWorker.running_to_complete Xocl.queued_to_running p)
    (Xocl.running_to_complete p).
Proof.
  unfold XoclWorker.running_to_complete, Xocl.running_to_complete,
    XoclWorker.query, Xocl.query, XoclWorker.mb_query, Xocl.mb_query,
    XoclWorker.penguin_query, Xocl.penguin_query,
    XoclWorker.mark_mask_complete, Xocl.mark_mask_complete.
  repeat first [apply same_mark_cmd_complete | same_step].
Qed.

Lemma same_advance_cmd (p : nat) :
  same_run (XoclWorker.advance_cmd Xocl.queued_to_running p) (Xocl.advance_cmd p).
Proof.
  unfold XoclWorker.advance_cmd, Xocl.advance_cmd, Xocl.when_state.
  repeat first [apply same_running_to_complete | same_step].
Qed.

Lemma same_scheduler_iterate_cmds :
  same_run (XoclWorker.scheduler_iterate_cmds Xocl.queued_to_running)
    Xocl.scheduler_iterate_cmds.
Proof.
  unfold XoclWorker.scheduler_iterate_cmds, Xocl.scheduler_iterate_cmds.
  repeat first [apply same_advance_cmd | same_step].
Qed.

Lemma same_scheduler_loop :
  same_run (XoclWorker.scheduler_loop Xocl.queued_to_running) Xocl.scheduler_loop.
Proof.
  unfold XoclWorker.scheduler_loop, Xocl.scheduler_loop.
  repeat first [apply same_scheduler_iterate_cmds | same_step].
Qed.

End WorkerSame.

Section WorkerStarts.
Context {xabi : Xocl.ert_h}.

Lemma queued_to_running_started_ready (w : Xocl.world) (p : nat) (r : bool)
    (w' : Xocl.world) :
  Xocl.queued_to_running p w = Ok (r, w') -> started_ready p w w'.
Proof.
  intros Hrun.
  destruct (Xocl.cmds w !! p) as [xc |] eqn:Hp.
  2: { unfold Xocl.queued_to_running, bind, Xocl.the_cmd in Hrun. rewrite Hp in Hrun.
       discriminate. }
  destruct (queued_to_running_call w p xc Hp) as [_ Hcall].
  destruct (Hcall r w' Hrun) as (Hwait & Hothers & Hstart).
  intros q c' Hc Hst.
  destruct (decide (q = p)) as [-> | Hne].
  - assert (Hdec : Xocl.state xc = ERT_CMD_STATE_RUNNING \/
                   Xocl.state xc <> ERT_CMD_STATE_RUNNING)
      by (destruct (Xocl.state xc); (left; reflexivity) || (right; discriminate)).
    destruct Hdec as [Hwas | Hnot].
    + left. exists xc. split; assumption.
    + right. split; [reflexivity |].
      destruct Hstart as [Hzero Hzero']; [rewrite Hc; cbn; rewrite Hst; reflexivity | exact Hnot |].
      rewrite Hc in Hzero'. cbn in Hzero'. injection Hzero' as Hzero'.
      split; [exact Hzero' |]. exists xc. split; assumption.
  - left. specialize (Hothers q Hne). rewrite Hc in Hothers. cbn in Hothers.
    destruct (Xocl.cmds w !! q) as [c |]; [| discriminate].
    cbn in Hothers. injection Hothers as Hothers.
    exists c. split; [reflexivity | congruence].
Qed.

(** C3.  The state running is entered in queued_to_running() and nowhere
    else in a step of the worker, and there only by a command that waits
    for no command.
    - queued_to_running() leaves a command with [wait_count > 0] as it
      is: it returns false and the world is the same, the core, every
      command and the MMIO trace.
    - A call of queued_to_running() for a command moves no other command
      into the state running, and when it moves its own command there,
      the wait count of the command is 0 before the call and after it.
    - The steps of the worker (trigger_chain(), mark_cmd_complete(),
      running_to_complete(), the body and the loop of
      scheduler_iterate_cmds(), scheduler_loop()) are the functions of
      [XoclWorker] with queued_to_running() as their start function.
    - Whatever the start function is, these steps, scheduler_queue_cmds()
      and the retiring of a command move a command into the state
      running only by a call of the start function: with a start
      function that moves none, none is moved. *)
Theorem worker_starts_only_ready :
  (forall w p xc,
     Xocl.cmds w !! p = Some xc -> Xocl.wait_count xc <> 0 ->
     Xocl.queued_to_running p w = Ok (false, w)) /\
  (forall w p r w', Xocl.queued_to_running p w = Ok (r, w') -> started_ready p w w') /\
  ((forall p, same_run (XoclWorker.trigger_chain Xocl.queued_to_running p)
                (Xocl.trigger_chain p)) /\
   (forall p, same_run (XoclWorker.mark_cmd_complete Xocl.queued_to_running p)
                (Xocl.mark_cmd_complete p)) /\
   (forall p, same_run (XoclWorker.running_to_complete Xocl.queued_to_running p)
                (Xocl.running_to_complete p)) /\
   (forall p, same_run (XoclWorker.advance_cmd Xocl.queued_to_running p)
                (Xocl.advance_cmd p)) /\
   same_run (XoclWorker.scheduler_iterate_cmds Xocl.queued_to_running)
     Xocl.scheduler_iterate_cmds /\
   same_run (XoclWorker.scheduler_loop Xocl.queued_to_running) Xocl.scheduler_loop) /\
  (forall start : nat -> M Xocl.world bool,
     (forall p, starts_nothing (start p)) ->
     (forall p, starts_nothing (XoclWorker.trigger_chain start p)) /\
     (forall p, starts_nothing (XoclWorker.mark_cmd_complete start p)) /\
     (forall p, starts_nothing (XoclWorker.running_to_complete start p)) /\
     (forall p, starts_nothing (XoclWorker.advance_cmd start p)) /\
     starts_nothing (XoclWorker.scheduler_iterate_cmds start) /\
     starts_nothing (XoclWorker.scheduler_loop start)) /\
  starts_nothing Xocl.scheduler_queue_cmds /\
  (forall p, starts_nothing (Xocl.retire_cmd p)).
Proof.
  split.
  { intros w p xc Hp Hwait.
    exact (proj1 (queued_to_running_call w p xc Hp) Hwait). }
  split; [exact queued_to_running_started_ready |].
  split.
  { split; [exact same_trigger_chain |]. split; [exact same_mark_cmd_complete |].
    split; [exact same_running_to_complete |]. split; [exact same_advance_cmd |].
    split; [exact same_scheduler_iterate_cmds | exact same_scheduler_loop]. }
  split.
  { intros start Hstart.
    split; [exact (starts_nothing_trigger_chain start Hstart) |].
    split; [exact (starts_nothing_mark_cmd_complete start Hstart) |].
    split; [exact (starts_nothing_running_to_complete start Hstart) |].
    split; [exact (starts_nothing_advance_cmd start Hstart) |].
    split; [exact (starts_nothing_scheduler_iterate_cmds start Hstart) |].
    exact (starts_nothing_scheduler_loop start Hstart). }
  split; [exact starts_nothing_scheduler_queue_cmds | exact starts_nothing_retire_cmd].
Qed.

End WorkerStarts.

(** C3, witness: scenario 3.  The dependent command (object 1) waits for
    the running command (object 0): queued_to_running() leaves it as it
    is.  When running_to_complete() finds the running command done, the
    dependent command is triggered and enters the state running in the
    same step, with the wait count 0.  With a start function that starts
    nothing in the place of queued_to_running(), the same step leaves the
    dependent command queued. *)
Lemma worker_starts_only_ready_witness :
  Xocl.queued_to_running (abi := Xocl.ert_h_2018_2) 1 xocl_chained
  = Ok (false, xocl_chained) /\
  (exists w',
     Xocl.running_to_complete (abi := Xocl.ert_h_2018_2) 0 xocl_chained = Ok (tt, w') /\
     Xocl.state <$> Xocl.cmds w' !! 0%nat = Some ERT_CMD_STATE_COMPLETED /\
     Xocl.state <$> Xocl.cmds w' !! 1%nat = Some ERT_CMD_STATE_RUNNING /\
     Xocl.wait_count <$> Xocl.cmds w' !! 1%nat = Some 0) /\
  (exists w',
     XoclWorker.running_to_complete (abi := Xocl.ert_h_2018_2) (fun _ => ret false) 0
       xocl_chained = Ok (tt, w') /\
     no_new_running xocl_chained w' /\
     Xocl.state <$> Xocl.cmds w' !! 1%nat = Some ERT_CMD_STATE_QUEUED).
Proof.
  destruct (worker_starts_only_ready (xabi := Xocl.ert_h_2018_2))
    as (Hwaits & Hready & (_ & _ & Hsame & _) & Hquiet & _).
  split.
  { apply (Hwaits xocl_chained 1%nat (xocl_cmd_at 1 xocl_chained)).
    - vm_compute. reflexivity.
    - vm_compute. discriminate. }
  split.
  { rewrite <- (Hsame 0%nat xocl_chained).
    eexists. split; [vm_compute; reflexivity |].
    split; [vm_compute; reflexivity |]. split; vm_compute; reflexivity. }
  destruct (Hquiet (fun _ => ret false) (fun p => starts_nothing_ret false))
    as (_ & _ & Hstep & _).
  assert (Hrun : exists v,
            XoclWorker.running_to_complete (abi := Xocl.ert_h_2018_2) (fun _ => ret false) 0
              xocl_chained = Ok (tt, v))
    by (vm_compute; eexists; reflexivity).
  destruct Hrun as [v Hv].
  exists v. split; [exact Hv |]. split; [exact (Hstep 0%nat _ _ _ Hv) |].
  vm_compute in Hv. injection Hv as <-. vm_compute. reflexivity.
Defined.

(** ** A second configure command *)

Lemma zocl_acquire_slot_idx_exec (zw zw1 : Zocl.world) (s : Z) :
  Zocl.acquire_slot_idx zw = Ok (s, zw1) ->
  exists st, zw1 = Zocl.with_exec (Zocl.set_slot_status st (Zocl.exec zw)) zw.
Proof.
  unfold Zocl.acquire_slot_idx, bind, gets, lift, Zocl.upd_exec, modify, ret.
  destruct (acquire_slot_idx_on _ _ _) as [[r st] | f]; [| discriminate].
  intros [= _ <-]. exists st. reflexivity.
Qed.

Section SecondConfigure.
Context {xabi : Xocl.ert_h} {zabi : Zocl.sched_exec_h}.
Variables (xw : Xocl.world) (zw zw1 : Zocl.world) (p q : nat).
Variables (xc : Xocl.xocl_cmd) (zc : Zocl.sched_cmd) (s : Z).

Hypothesis xcmd_at : Xocl.cmds xw !! p = Some xc.
Hypothesis zcmd_at : Zocl.cmds zw !! q = Some zc.
Hypothesis xopcode : Xocl.opcode xc = Xocl.ERT_CONFIGURE.
Hypothesis zopcode : Zocl.opcode zc = Zocl.OP_CONFIGURE.
Hypothesis xunblocked : Xocl.wait_count xc = 0.
Hypothesis xconfigured : Xocl.configured (Xocl.exec xw) = true.
Hypothesis zconfigured : Zocl.configured (Zocl.exec zw) <> 0.
Hypothesis zslot : Zocl.acquire_slot_idx zw = Ok (s, zw1).
Hypothesis zslot_range : 0 <= s < Z.of_nat (length (Zocl.submitted_cmds (Zocl.exec zw))).

Lemma xocl_configure_rejects : Xocl.configure p xw = Ok (1, xw).
Proof.
  unfold Xocl.configure, bind, Xocl.the_cmd, gets, Xocl.sched_error_on, ret.
  rewrite xcmd_at, xopcode, Z.eqb_refl. cbn [negb]. rewrite xconfigured. reflexivity.
Qed.

Lemma zocl_configure_rejects : Zocl.configure q zw = Ok (1, zw).
Proof.
  unfold Zocl.configure, bind, Zocl.the_cmd, gets, Zocl.sched_error_on, ret.
  rewrite zcmd_at, zopcode, Z.eqb_refl. cbn [negb].
  destruct (negb (bool_decide (Zocl.pending_cmds zw = []))); [reflexivity |].
  destruct (negb (length (Zocl.command_queue zw) =? 1)%nat); [reflexivity |].
  apply Z.eqb_neq in zconfigured. rewrite zconfigured. reflexivity.
Qed.

(** C2, as amended.  A configure command processed when the exec core is
    configured already is rejected by configure() in the two drivers: it
    returns 1 and the core, like the rest of the state, is unchanged.  In
    xocl queued_to_running() then moves the command to the Error state.
    In zocl queued_to_running() does not look at the value of configure():
    the command is submitted like any configure command, takes a slot and
    moves to the Running state, with the configuration of the core
    unchanged. *)
Theorem second_configure :
  (Xocl.configure p xw = Ok (1, xw) /\
   Xocl.queued_to_running p xw =
     Ok (false,
         Xocl.set_cmds
           (fun m => <[p := Xocl.set_packet
                              (set_pkt_state ERT_CMD_STATE_ERROR (Xocl.packet xc))
                              (Xocl.set_state ERT_CMD_STATE_ERROR xc)]> m)
           xw)) /\
  (Zocl.configure q zw = Ok (1, zw) /\
   exists w',
     Zocl.queued_to_running q zw = Ok (true, w') /\
     Zocl.state <$> Zocl.cmds w' !! q = Some Zocl.CMD_STATE_RUNNING /\
     zocl_configuration (Zocl.exec w') = zocl_configuration (Zocl.exec zw)).
Proof.
  split; split.
  - exact xocl_configure_rejects.
  - unfold Xocl.queued_to_running.
    cbv [bind Xocl.the_cmd]. rewrite xcmd_at, xunblocked. cbn [Z.eqb negb].
    rewrite xopcode, Z.eqb_refl. rewrite xocl_configure_rejects.
    cbv [ret Xocl.set_cmd_state Xocl.upd_cmd bind Xocl.the_cmd modify].
    cbn [Z.eqb negb]. rewrite xcmd_at. reflexivity.
  - exact zocl_configure_rejects.
  - destruct (zocl_acquire_slot_idx_exec _ _ _ zslot) as [st ->].
    unfold Zocl.queued_to_running.
    cbv [bind Zocl.the_cmd]. rewrite zcmd_at, zopcode, Z.eqb_refl.
    rewrite zocl_configure_rejects. cbv [ret].
    assert (Hsubmit :
      Zocl.submit q zw =
      Ok (true,
          Zocl.with_cmds (<[q := Zocl.set_slot_idx s zc]> (Zocl.cmds zw))
            (Zocl.with_exec (Zocl.set_slot_status st (Zocl.exec zw)) zw))).
    { unfold Zocl.submit. cbv [bind gets].
      destruct (Zocl.ops (Zocl.exec zw));
        unfold Zocl.penguin_submit, Zocl.ps_ert_submit;
        cbv [bind Zocl.the_cmd]; rewrite zcmd_at, zopcode, Z.eqb_refl, zslot;
        cbv [Zocl.upd_cmd bind Zocl.the_cmd modify ret];
        cbn [Zocl.cmds Zocl.with_exec]; rewrite zcmd_at; reflexivity. }
    rewrite Hsubmit.
    cbv [Zocl.set_cmd_int_state Zocl.upd_cmd bind Zocl.the_cmd modify gets lift ret
           Zocl.upd_exec].
    cbn [Zocl.cmds Zocl.with_cmds Zocl.with_exec Zocl.with_sched_poll].
    rewrite !lookup_insert_eq.
    cbn [Zocl.exec Zocl.with_exec Zocl.with_cmds Zocl.with_sched_poll
           Zocl.submitted_cmds Zocl.set_slot_status Zocl.slot_idx Zocl.set_state
           Zocl.set_slot_idx Zocl.ert Zocl.polling_mode].
    destruct (Zocl.ert zw || negb (Zocl.polling_mode (Zocl.exec zw) =? 0)).
    + cbn [Zocl.cmds Zocl.with_cmds Zocl.with_exec Zocl.with_sched_poll].
      rewrite !lookup_insert_eq.
      cbn [Zocl.exec Zocl.with_exec Zocl.with_cmds Zocl.with_sched_poll
             Zocl.submitted_cmds Zocl.set_slot_status Zocl.slot_idx Zocl.set_state
             Zocl.set_slot_idx].
      rewrite arr_set_in by lia.
      eexists. split; [reflexivity |]. split.
      * cbn. rewrite lookup_insert_eq. reflexivity.
      * reflexivity.
    + cbn [Zocl.cmds Zocl.with_cmds Zocl.with_exec Zocl.with_sched_poll].
      rewrite !lookup_insert_eq.
      cbn [Zocl.exec Zocl.with_exec Zocl.with_cmds Zocl.with_sched_poll
             Zocl.submitted_cmds Zocl.set_slot_status Zocl.slot_idx Zocl.set_state
             Zocl.set_slot_idx].
      rewrite arr_set_in by lia.
      eexists. split; [reflexivity |]. split.
      * cbn. rewrite lookup_insert_eq. reflexivity.
      * reflexivity.
Qed.

End SecondConfigure.

(** C2, witness: the second configure command after scenario 1, on the two
    schedulers. *)
Lemma second_configure_witness :
  (Xocl.configure (abi := Xocl.ert_h_2018_2) 0 xocl_second_configure
     = Ok (1, xocl_second_configure) /\
   exists w',
     Xocl.queued_to_running (abi := Xocl.ert_h_2018_2) 0 xocl_second_configure
       = Ok (false, w') /\
     Xocl.state <$> Xocl.cmds w' !! 0%nat = Some ERT_CMD_STATE_ERROR /\
     Xocl.exec w' = Xocl.exec xocl_second_configure) /\
  (Zocl.configure (abi := Zocl.sched_exec_h_2018_2) 1 zocl_second_configure
     = Ok (1, zocl_second_configure) /\
   exists w',
     Zocl.queued_to_running (abi := Zocl.sched_exec_h_2018_2) 1 zocl_second_configure
       = Ok (true, w') /\
     Zocl.state <$> Zocl.cmds w' !! 1%nat = Some Zocl.CMD_STATE_RUNNING /\
     zocl_configuration (Zocl.exec w') = zocl_configuration (Zocl.exec zocl_second_configure)).
Proof.
  destruct (second_configure (xabi := Xocl.ert_h_2018_2)
              (zabi := Zocl.sched_exec_h_2018_2)
              xocl_second_configure zocl_second_configure
              (after Zocl.acquire_slot_idx zocl_second_configure) 0%nat 1%nat
              xocl_second_cmd
              (zocl_configure_cmd (configure_packet 8192 16 0 0 [65536; 131072])) 0)
    as [[Hxc Hxq] Hz]; try (concrete; fail).
  split; [| exact Hz].
  split; [exact Hxc |].
  eexists. split; [exact Hxq |]. split; vm_compute; reflexivity.
Defined.

(** C2, counterexample to the claim as stated: on the zocl scheduler,
    configured by a first configure command, a second configure command is
    not moved to an error state: the worker starts it, and it is Running. *)
Lemma zocl_second_configure_runs :
  Zocl.configured (Zocl.exec zocl_second_configure) = 1 /\
  Zocl.opcode <$> Zocl.cmds zocl_second_configure !! 1%nat
    = Some (Zocl.OP_CONFIGURE (sched_exec_h := Zocl.sched_exec_h_2018_2)) /\
  exists w',
    Zocl.queued_to_running (abi := Zocl.sched_exec_h_2018_2) 1 zocl_second_configure
      = Ok (true, w') /\
    Zocl.state <$> Zocl.cmds w' !! 1%nat = Some ERT_CMD_STATE_RUNNING /\
    Zocl.state <$> Zocl.cmds w' !! 1%nat <> Some ERT_CMD_STATE_ERROR.
Proof.
  split; [reflexivity |]. split; [reflexivity |].
  eexists. split; [vm_compute; reflexivity |]. split; [reflexivity |].
  intros E. discriminate E.
Qed.

(** ** Commands in a final state *)


Lemma keeps_proj {S T U A : Type} (obs : S -> T) (g : T -> U) (m : M S A) :
  keeps obs m -> keeps (fun s => g (obs s)) m.
Proof. intros Hm s a s' Hrun. rewrite (Hm _ _ _ Hrun). reflexivity. Qed.

Lemma triggered_lookup (l : list nat) (m : gmap nat Xocl.client_ctx) (k : nat) :
  NoDup l ->
  triggered l m !! k =
  if bool_decide (k ∈ l)
  then (fun cl => Xocl.set_trigger (atomic_inc (Xocl.trigger cl)) cl) <$> m !! k
  else m !! k.
Proof.
  revert m. induction l as [| x l IH]; intros m Hnd.
  - reflexivity.
  - apply NoDup_cons in Hnd as [Hx Hl]. unfold triggered in *. cbn [foldl].
    rewrite IH by exact Hl.
    destruct (decide (k = x)) as [-> | Hne].
    + rewrite (bool_decide_eq_false_2 (x ∈ l)) by exact Hx.
      rewrite (bool_decide_eq_true_2 (x ∈ x :: l)) by left.
      apply lookup_alter_eq.
    + rewrite lookup_alter_ne by congruence.
      destruct (decide (k ∈ l)) as [Hin | Hnin].
      * rewrite !bool_decide_eq_true_2; [reflexivity | right; exact Hin | exact Hin].
      * rewrite !bool_decide_eq_false_2; [reflexivity | | exact Hnin].
        intros [-> | Hin]%elem_of_cons; [congruence | exact (Hnin Hin)].
Qed.

Lemma xocl_set_clients_id (w : Xocl.world) : Xocl.set_clients (fun m => m) w = w.
Proof. destruct w. reflexivity. Qed.

Lemma notify_host_loop (l : list nat) (w : Xocl.world) :
  (forall k, k ∈ l -> is_Some (Xocl.clients w !! k)) ->
  for_each l (fun k => Xocl.upd_client k
                         (fun cl => Xocl.set_trigger (atomic_inc (Xocl.trigger cl)) cl)) w
  = Ok (tt, Xocl.set_clients (triggered l) w).
Proof.
  revert w. induction l as [| x l IH]; intros w Hall.
  - cbn. unfold ret. rewrite xocl_set_clients_id. reflexivity.
  - cbn [for_each]. destruct (Hall x) as [cl Hcl]; [left |].
    unfold bind at 1. unfold Xocl.upd_client at 1, bind, Xocl.the_client, modify.
    rewrite Hcl. rewrite IH.
    + f_equal. f_equal. unfold triggered. cbn [foldl].
      destruct w. cbn. unfold Xocl.set_clients. cbn.
      f_equal. f_equal. apply map_eq. intros i.
      destruct (decide (i = x)) as [-> | Hne].
      * rewrite lookup_insert_eq, lookup_alter_eq. cbn in Hcl. rewrite Hcl. reflexivity.
      * rewrite lookup_insert_ne, lookup_alter_ne by congruence. reflexivity.
    + intros k Hk. cbn. destruct (decide (k = x)) as [-> | Hne].
      * rewrite lookup_insert_eq. eauto.
      * rewrite lookup_insert_ne by congruence. apply Hall. right. exact Hk.
Qed.

(** notify_host() on a device whose context list holds its clients, every
    one once. *)
Lemma notify_host_run (p : nat) (w : Xocl.world) :
  (forall k, k ∈ Xocl.ctx_list w -> is_Some (Xocl.clients w !! k)) ->
  Xocl.notify_host p w
  = Ok (tt, Xocl.set_poll_wakeups S (Xocl.set_clients (triggered (Xocl.ctx_list w)) w)).
Proof.
  intros Hall. unfold Xocl.notify_host, bind, gets, modify.
  rewrite (notify_host_loop _ _ Hall). reflexivity.
Qed.

Lemma notify_host_notifies (p : nat) (w : Xocl.world) :
  NoDup (Xocl.ctx_list w) ->
  notified w (Xocl.set_poll_wakeups S (Xocl.set_clients (triggered (Xocl.ctx_list w)) w)).
Proof.
  intros Hnd. split; [reflexivity |]. intros k Hk. cbn.
  rewrite triggered_lookup by exact Hnd.
  rewrite bool_decide_eq_true_2 by exact Hk.
  destruct (Xocl.clients w !! k); reflexivity.
Qed.


Section Hosts.
Context {xabi : Xocl.ert_h}.




End Hosts.

Section FinalStates.
Context {xabi : Xocl.ert_h}.
Variables (w : Xocl.world) (p : nat) (xc : Xocl.xocl_cmd).

Hypothesis cmd_at : Xocl.cmds w !! p = Some xc.
Hypothesis client_at : is_Some (Xocl.clients w !! Xocl.client xc).
Hypothesis ctx_clients : forall k, k ∈ Xocl.ctx_list w -> is_Some (Xocl.clients w !! k).
Hypothesis ctx_nodup : NoDup (Xocl.ctx_list w).







End FinalStates.



(** * Further properties of the two schedulers *)

(** ** The bit and index helpers *)

(** A word with its 32 bits set is the all-ones mask. *)
Lemma u32_all_bits (x : Z) :
  0 <= x < 2 ^ 32 -> (forall j, 0 <= j < 32 -> Z.testbit x j = true) -> x = U32_MASK.
Proof.
  intros Hx Hbits. apply Z.bits_inj'. intros j Hj.
  change U32_MASK with (Z.ones 32).
  destruct (Z_lt_dec j 32) as [Hlt | Hge].
  - rewrite Z.ones_spec_low by lia. apply Hbits. lia.
  - rewrite Z.ones_spec_high by lia. apply u32_bits_high; [exact Hx | lia].
Qed.

(** ffz_or_neg_one() returns the position of the lowest clear bit of a
    word, and -1 for the all-ones word. *)
Lemma ffz_or_neg_one_spec (mask : Z) :
  0 <= mask < 2 ^ 32 ->
  (mask = U32_MASK /\ ffz_or_neg_one mask = -1) \/
  (exists i, ffz_or_neg_one mask = i /\ 0 <= i < 32 /\ Z.testbit mask i = false /\
             forall j, 0 <= j < i -> Z.testbit mask j = true).
Proof.
  intros Hm. unfold ffz_or_neg_one.
  destruct (mask =? U32_MASK) eqn:E.
  - left. apply Z.eqb_eq in E. auto.
  - right. apply Z.eqb_neq in E. unfold ffz.
    destruct (first_bit false mask) as [i |] eqn:F.
    + apply first_bit_Some in F. destruct F as (Hr & Hb & Hmin).
      exists i. repeat split; [lia | lia | exact Hb | exact Hmin].
    + exfalso. apply E. apply u32_all_bits; [exact Hm |].
      intros j Hj. apply (first_bit_None _ _ F j Hj).
Qed.

(** X1.  On a 32-bit word, ffs_or_neg_one() returns -1 exactly for the zero
    word and otherwise the position, below 32, of the lowest set bit;
    ffz_or_neg_one() returns -1 exactly for the all-ones word and otherwise
    the position of the lowest clear bit. *)
Theorem first_bit_or_neg_one (mask : Z) :
  0 <= mask < 2 ^ 32 ->
  (ffs_or_neg_one mask = -1 <-> mask = 0) /\
  (mask <> 0 ->
   0 <= ffs_or_neg_one mask < 32 /\
   Z.testbit mask (ffs_or_neg_one mask) = true /\
   forall j, 0 <= j < ffs_or_neg_one mask -> Z.testbit mask j = false) /\
  (ffz_or_neg_one mask = -1 <-> mask = U32_MASK) /\
  (mask <> U32_MASK ->
   0 <= ffz_or_neg_one mask < 32 /\
   Z.testbit mask (ffz_or_neg_one mask) = false /\
   forall j, 0 <= j < ffz_or_neg_one mask -> Z.testbit mask j = true).
Proof.
  intros Hm.
  split; [| split; [| split]].
  - destruct (ffs_or_neg_one_spec mask Hm) as [[Hz Hs] | (i & Hs & Hi & Hb & _)].
    + split; intros _; assumption.
    + split; [intros Heq; lia |]. intros ->. rewrite Z.bits_0 in Hb. discriminate.
  - intros Hne.
    destruct (ffs_or_neg_one_spec mask Hm) as [[Hz _] | (i & Hs & Hi & Hb & Hmin)];
      [contradiction |].
    rewrite Hs. split; [exact Hi |]. split; [exact Hb | exact Hmin].
  - destruct (ffz_or_neg_one_spec mask Hm) as [[Hz Hs] | (i & Hs & Hi & Hb & _)].
    + split; intros _; assumption.
    + split; [intros Heq; lia |]. intros ->.
      change U32_MASK with (Z.ones 32) in Hb. rewrite Z.ones_spec_low in Hb by lia.
      discriminate.
  - intros Hne.
    destruct (ffz_or_neg_one_spec mask Hm) as [[Hz _] | (i & Hs & Hi & Hb & Hmin)];
      [contradiction |].
    rewrite Hs. split; [exact Hi |]. split; [exact Hb | exact Hmin].
Qed.

(** X1, witness: the word 0x28 has its lowest set bit at 3 and its lowest
    clear bit at 0. *)
Lemma first_bit_or_neg_one_witness :
  ffs_or_neg_one 40 = 3 /\ ffz_or_neg_one 40 = 0 /\
  Z.testbit 40 (ffs_or_neg_one 40) = true /\
  Z.testbit 40 (ffz_or_neg_one 40) = false.
Proof.
  destruct (first_bit_or_neg_one 40 ltac:(lia)) as (_ & Hs & _ & Hz).
  split; [reflexivity |]. split; [reflexivity |].
  split; [apply Hs; discriminate | apply Hz; discriminate].
Defined.

Lemma index_decompose (i : Z) :
  0 <= i < 2 ^ 32 ->
  slot_mask_idx i = i / 32 /\ slot_idx_in_mask i = i mod 32 /\
  slot_idx_from_mask_idx (i mod 32) (i / 32) = i.
Proof.
  intros Hi.
  pose proof (Z.div_mod i 32 ltac:(lia)) as Hdm.
  pose proof (Z.mod_pos_bound i 32 ltac:(lia)) as Hmod.
  assert (0 <= i / 32 < 2 ^ 27).
  { split; [apply Z.div_pos; lia | apply Z.div_lt_upper_bound; lia]. }
  split; [apply mask_idx_small; lia |]. split; [apply idx_in_mask_small; exact Hi |].
  unfold slot_idx_from_mask_idx. rewrite Z.shiftl_mul_pow2 by lia.
  change (2 ^ 5) with 32. rewrite (u32_small (i / 32 * 32)) by lia.
  rewrite u32_small by lia. lia.
Qed.

Lemma index_compose (pos k : Z) :
  0 <= pos < 32 -> 0 <= k < 2 ^ 27 ->
  slot_idx_from_mask_idx pos k = pos + 32 * k /\
  (pos + 32 * k) / 32 = k /\ (pos + 32 * k) mod 32 = pos.
Proof.
  intros Hp Hk. split; [| split].
  - unfold slot_idx_from_mask_idx. rewrite Z.shiftl_mul_pow2 by lia.
    change (2 ^ 5) with 32. rewrite (u32_small (k * 32)) by lia.
    rewrite u32_small by lia. lia.
  - rewrite (Z.mul_comm 32 k), Z.div_add by lia. rewrite Z.div_small by lia. lia.
  - rewrite (Z.mul_comm 32 k), Z.mod_add by lia. apply Z.mod_small. lia.
Qed.

(** X2.  The index helpers split a slot or compute unit index into the
    index of its mask word and its position in that word, below 32, and
    put the two together again: for an [unsigned int] index the
    composition of the split is the index, and the split of a composed
    index gives back the position and the word. *)
Theorem mask_index_round_trip (i pos k : Z) :
  0 <= i < 2 ^ 32 -> 0 <= pos < 32 -> 0 <= k < 2 ^ 27 ->
  (0 <= slot_idx_in_mask i < 32 /\
   slot_idx_from_mask_idx (slot_idx_in_mask i) (slot_mask_idx i) = i /\
   0 <= cu_idx_in_mask i < 32 /\
   cu_idx_from_mask (cu_idx_in_mask i) (cu_mask_idx i) = i) /\
  (slot_mask_idx (slot_idx_from_mask_idx pos k) = k /\
   slot_idx_in_mask (slot_idx_from_mask_idx pos k) = pos /\
   cu_mask_idx (cu_idx_from_mask pos k) = k /\
   cu_idx_in_mask (cu_idx_from_mask pos k) = pos).
Proof.
  intros Hi Hp Hk.
  change cu_idx_in_mask with slot_idx_in_mask.
  change cu_mask_idx with slot_mask_idx.
  change cu_idx_from_mask with slot_idx_from_mask_idx.
  destruct (index_decompose i Hi) as (Hw & Hb & Hback).
  destruct (index_compose pos k Hp Hk) as (Hc & Hq & Hr).
  pose proof (Z.mod_pos_bound i 32 ltac:(lia)) as Hmod.
  assert (Hrange : 0 <= pos + 32 * k < 2 ^ 32) by lia.
  destruct (index_decompose (pos + 32 * k) Hrange) as (Hw' & Hb' & _).
  rewrite Hw, Hb, Hback, Hc, Hw', Hb', Hq, Hr.
  repeat split; lia.
Qed.

(** X2, witness: compute unit 67 is bit 3 of the third mask word. *)
Lemma mask_index_round_trip_witness :
  cu_mask_idx 67 = 2 /\ cu_idx_in_mask 67 = 3 /\ cu_idx_from_mask 3 2 = 67 /\
  cu_idx_from_mask (cu_idx_in_mask 67) (cu_mask_idx 67) = 67.
Proof.
  destruct (mask_index_round_trip 67 3 2 ltac:(lia) ltac:(lia) ltac:(lia))
    as ((_ & _ & _ & Hback) & _).
  split; [reflexivity |]. split; [reflexivity |]. split; [reflexivity | exact Hback].
Defined.

(** ** The slot allocator *)

Lemma status_bit_word (st : list Z) (a i mask : Z) :
  0 <= a -> st !! Z.to_nat a = Some mask -> 32 * a <= i < 32 * a + 32 ->
  status_bit st i = Z.testbit mask (i - 32 * a).
Proof.
  intros Ha Hm Hi. unfold status_bit.
  pose proof (Z.div_mod i 32 ltac:(lia)) as Hdm.
  pose proof (Z.mod_pos_bound i 32 ltac:(lia)) as Hmod.
  assert (Hq : i / 32 = a) by lia.
  rewrite Hq, Hm. f_equal. lia.
Qed.

(** The loop of acquire_slot_idx() over the words [a .. a + m), when every
    slot below [32 * a] that the device has is busy. *)
Lemma acquire_slot_idx_on_from (ns : Z) (st : list Z) (m : nat) :
  words st -> 0 <= ns < 2 ^ 32 ->
  forall a,
    0 <= a ->
    a + Z.of_nat m <= Z.of_nat (length st) ->
    a + Z.of_nat m <= 2 ^ 26 ->
    (forall i, 0 <= i < 32 * a -> i < ns -> status_bit st i = true) ->
    exists r st',
      acquire_slot_idx_on ns st (seqZ a (Z.of_nat m)) = Ok (r, st') /\
      ((r = -1 /\ st' = st /\
        forall i, 0 <= i < 32 * (a + Z.of_nat m) -> i < ns -> status_bit st i = true) \/
       (exists mask,
          0 <= r < ns /\ r < 32 * (a + Z.of_nat m) /\
          st !! Z.to_nat (r / 32) = Some mask /\
          Z.testbit mask (r mod 32) = false /\
          st' = <[Z.to_nat (r / 32) := Z.lxor mask (bit (r mod 32))]> st /\
          forall i, 0 <= i < r -> status_bit st i = true)).
Proof.
  intros Hws Hns. induction m as [| m IH]; intros a Ha Hlen Hbound Hbelow.
  - exists (-1), st. split; [reflexivity |]. left.
    split; [reflexivity |]. split; [reflexivity |].
    intros i Hi. apply Hbelow. lia.
  - rewrite Nat2Z.inj_succ, seqZ_cons by lia.
    replace (Z.pred (Z.succ (Z.of_nat m))) with (Z.of_nat m) by lia.
    cbn [acquire_slot_idx_on].
    destruct (lookup_lt_is_Some_2 st (Z.to_nat a) ltac:(lia)) as [mask Hmask].
    rewrite (arr_get_lookup _ _ mask) by (lia || assumption). cbn [rbind].
    pose proof (words_lookup _ _ _ Hws Hmask) as Hmr.
    assert (Hnext : forall z,
              (forall j, 0 <= j < 32 -> j < z -> Z.testbit mask j = true) ->
              (forall i, 32 * a + z <= i < 32 * a + 32 -> ns <= i) ->
              exists r st',
                acquire_slot_idx_on ns st (seqZ (Z.succ a) (Z.of_nat m)) = Ok (r, st') /\
                ((r = -1 /\ st' = st /\
                  forall i, 0 <= i < 32 * (a + Z.succ (Z.of_nat m)) -> i < ns ->
                            status_bit st i = true) \/
                 (exists mask0,
                    0 <= r < ns /\ r < 32 * (a + Z.succ (Z.of_nat m)) /\
                    st !! Z.to_nat (r / 32) = Some mask0 /\
                    Z.testbit mask0 (r mod 32) = false /\
                    st' = <[Z.to_nat (r / 32) := Z.lxor mask0 (bit (r mod 32))]> st /\
                    forall i, 0 <= i < r -> status_bit st i = true))).
    { intros z Hlow Hhigh.
      destruct (IH (Z.succ a)) as (r & st' & Hrun & Hspec); try lia.
      { intros i Hi Hin.
        destruct (Z_lt_dec i (32 * a)) as [Hlt | Hge]; [apply Hbelow; lia |].
        rewrite (status_bit_word st a i mask) by (lia || assumption).
        apply Hlow; [lia |].
        destruct (Z_lt_dec (i - 32 * a) z) as [Hz | Hz]; [exact Hz |].
        specialize (Hhigh i ltac:(lia)). lia. }
      exists r, st'. split; [exact Hrun |].
      replace (a + Z.succ (Z.of_nat m)) with (Z.succ a + Z.of_nat m) by lia.
      exact Hspec. }
    destruct (ffz_or_neg_one_spec mask Hmr) as [[Hfull Hres] | (z & Hres & Hz & Hbit & Hmin)];
      rewrite Hres.
    + rewrite Z.eqb_refl. cbn [orb].
      apply (Hnext 32).
      * intros j Hj _. rewrite Hfull. change U32_MASK with (Z.ones 32).
        apply Z.ones_spec_low. lia.
      * intros i Hi. lia.
    + rewrite (u32_small z) by lia.
      replace (z =? u32 (-1)) with false
        by (symmetry; apply Z.eqb_neq; change (u32 (-1)) with 4294967295; lia).
      cbn [orb].
      destruct (index_compose z a ltac:(lia) ltac:(lia)) as (Hg & Hq & Hr).
      rewrite Hg.
      destruct (ns <=? z + 32 * a) eqn:Hcmp.
      * apply Z.leb_le in Hcmp. apply (Hnext z).
        -- intros j Hj Hjz. apply Hmin. lia.
        -- intros i Hi. lia.
      * apply Z.leb_gt in Hcmp.
        rewrite arr_set_in by lia. cbn [rbind].
        rewrite to_int_small by lia.
        eexists _, _. split; [reflexivity |]. right. exists mask.
        rewrite Hq, Hr.
        split; [lia |]. split; [lia |]. split; [exact Hmask |].
        split; [exact Hbit |]. split; [reflexivity |].
        intros i Hi.
        destruct (Z_lt_dec i (32 * a)) as [Hlt | Hge]; [apply Hbelow; lia |].
        rewrite (status_bit_word st a i mask) by (lia || assumption).
        apply Hmin. lia.
Qed.

(** acquire_slot_idx() on the first [n] words of [slot_status]. *)
Lemma acquire_slot_idx_on_spec (ns : Z) (st : list Z) (n : Z) :
  words st -> 0 <= ns < 2 ^ 32 ->
  0 <= n <= Z.of_nat (length st) -> n <= 2 ^ 26 ->
  exists r st',
    acquire_slot_idx_on ns st (seqZ 0 n) = Ok (r, st') /\
    ((r = -1 /\ st' = st /\
      forall i, 0 <= i < 32 * n -> i < ns -> status_bit st i = true) \/
     (exists mask,
        0 <= r < ns /\ r < 32 * n /\
        st !! Z.to_nat (r / 32) = Some mask /\
        Z.testbit mask (r mod 32) = false /\
        st' = <[Z.to_nat (r / 32) := Z.lxor mask (bit (r mod 32))]> st /\
        forall i, 0 <= i < r -> status_bit st i = true)).
Proof.
  intros Hws Hns Hn Hb.
  destruct (acquire_slot_idx_on_from ns st (Z.to_nat n) Hws Hns 0)
    as (r & st' & Hrun & Hspec); try lia.
  rewrite Z2Nat.id in * by lia. rewrite Z.add_0_l in Hspec.
  exists r, st'. split; [exact Hrun | exact Hspec].
Qed.

(** The bits of [slot_status] after the slot [r] has been taken. *)
Lemma status_bit_taken (st : list Z) (r mask : Z) :
  0 <= r ->
  st !! Z.to_nat (r / 32) = Some mask ->
  Z.testbit mask (r mod 32) = false ->
  forall i, 0 <= i ->
    status_bit (<[Z.to_nat (r / 32) := Z.lxor mask (bit (r mod 32))]> st) i
    = if i =? r then true else status_bit st i.
Proof.
  intros Hr Hm Hfree i Hi. unfold status_bit.
  pose proof (Z.mod_pos_bound i 32 ltac:(lia)) as Him.
  pose proof (Z.mod_pos_bound r 32 ltac:(lia)) as Hrm.
  assert (Hlt : (Z.to_nat (r / 32) < length st)%nat) by (eapply lookup_lt_Some; exact Hm).
  rewrite (idx_split i r) by lia.
  destruct (Nat.eqb_spec (Z.to_nat (i / 32)) (Z.to_nat (r / 32))) as [Heq | Hne].
  - rewrite Heq, list_lookup_insert_eq by exact Hlt. rewrite Hm. cbn [andb].
    rewrite testbit_toggle by lia.
    destruct (i mod 32 =? r mod 32) eqn:E; [| reflexivity].
    apply Z.eqb_eq in E. rewrite E, Hfree. reflexivity.
  - rewrite list_lookup_insert_ne by congruence. reflexivity.
Qed.

Lemma acquire_slot_idx_on_acquired (ns n : Z) (st : list Z) :
  slots_ok ns n st ->
  exists r st',
    acquire_slot_idx_on ns st (seqZ 0 n) = Ok (r, st') /\ acquired ns n st r st' /\
    (0 <= r -> release_slot_idx_on st' (u32 r) = Ok st).
Proof.
  intros (Hws & Hns & Hn & Hlen).
  destruct (acquire_slot_idx_on_spec ns st n Hws Hns Hn ltac:(lia))
    as (r & st' & Hrun & [(-> & -> & Hfull) | (mask & Hr & Hrn & Hm & Hfree & -> & Hlow)]).
  - exists (-1), st. split; [exact Hrun |]. split; [left; auto |]. intros H. lia.
  - exists r, (<[Z.to_nat (r / 32) := Z.lxor mask (bit (r mod 32))]> st).
    assert (Hlt : (Z.to_nat (r / 32) < length st)%nat) by (eapply lookup_lt_Some; exact Hm).
    pose proof (Z.mod_pos_bound r 32 ltac:(lia)) as Hrm.
    split; [exact Hrun |]. split.
    + right. split; [exact Hr |]. split; [exact Hrn |]. split.
      * unfold status_bit. rewrite Hm. exact Hfree.
      * split; [exact Hlow |]. split; [apply length_insert |].
        apply status_bit_taken; [lia | exact Hm | exact Hfree].
    + intros _. rewrite u32_small by lia.
      destruct (index_decompose r ltac:(lia)) as (Hw & Hb & _).
      unfold release_slot_idx_on. rewrite Hw, Hb.
      assert (0 <= r / 32) by (apply Z.div_pos; lia).
      rewrite (arr_get_lookup _ _ (Z.lxor mask (bit (r mod 32))))
        by (lia || apply list_lookup_insert_eq; exact Hlt).
      cbn [rbind]. rewrite arr_set_in by (rewrite length_insert; lia).
      f_equal. rewrite list_insert_insert_eq.
      rewrite Z.lxor_assoc, Z.lxor_nilpotent, Z.lxor_0_r.
      apply list_insert_id. exact Hm.
Qed.

Lemma xocl_set_slot_status_id (w : Xocl.world) (st' : list Z) :
  Xocl.set_exec (Xocl.set_slot_status (Xocl.slot_status (Xocl.exec w)))
    (Xocl.set_exec (Xocl.set_slot_status st') w) = w.
Proof. destruct w as [e]. destruct e. reflexivity. Qed.

Lemma zocl_set_slot_status_id (w : Zocl.world) (st' : list Z) :
  let w1 := Zocl.with_exec (Zocl.set_slot_status st' (Zocl.exec w)) w in
  Zocl.with_exec (Zocl.set_slot_status (Zocl.slot_status (Zocl.exec w)) (Zocl.exec w1)) w1 = w.
Proof. destruct w as [e]. destruct e. reflexivity. Qed.

Section SlotAllocator.
Variables (xw : Xocl.world) (zw : Zocl.world).

Hypothesis xslots :
  slots_ok (Xocl.num_slots (Xocl.exec xw)) (Xocl.num_slot_masks (Xocl.exec xw))
    (Xocl.slot_status (Xocl.exec xw)).
Hypothesis zslots :
  slots_ok (Zocl.num_slots (Zocl.exec zw)) (Zocl.num_slot_masks (Zocl.exec zw))
    (Zocl.slot_status (Zocl.exec zw)).

(** X3.  acquire_slot_idx(), in the two drivers, looks at the first
    [num_slot_masks] words of [slot_status]: it returns the lowest slot
    below [32 * num_slot_masks] and below [num_slots] that is free and
    marks it busy, leaving every other bit of [slot_status] as it is; when
    none of these slots is free it returns -1 and changes nothing.  The
    slots from [32 * num_slot_masks] on are never returned: with
    [num_slots] above [32 * num_slot_masks], as on a zocl device
    configured for more than 32 slots (its configure() leaves
    [num_slot_masks] at 1), the result is -1 once the slots of the first
    words are busy, whatever the others are. *)
Theorem acquire_slot_idx_least_free :
  (exists r st',
     Xocl.acquire_slot_idx xw = Ok (r, Xocl.set_exec (Xocl.set_slot_status st') xw) /\
     acquired (Xocl.num_slots (Xocl.exec xw)) (Xocl.num_slot_masks (Xocl.exec xw))
       (Xocl.slot_status (Xocl.exec xw)) r st') /\
  (exists r st',
     Zocl.acquire_slot_idx zw
       = Ok (r, Zocl.with_exec (Zocl.set_slot_status st' (Zocl.exec zw)) zw) /\
     acquired (Zocl.num_slots (Zocl.exec zw)) (Zocl.num_slot_masks (Zocl.exec zw))
       (Zocl.slot_status (Zocl.exec zw)) r st').
Proof.
  split.
  - destruct (acquire_slot_idx_on_acquired _ _ _ xslots) as (r & st' & Hrun & Hspec & _).
    exists r, st'. split; [| exact Hspec].
    unfold Xocl.acquire_slot_idx, bind, gets, lift, Xocl.upd_exec, modify, ret.
    rewrite Hrun. reflexivity.
  - destruct (acquire_slot_idx_on_acquired _ _ _ zslots) as (r & st' & Hrun & Hspec & _).
    exists r, st'. split; [| exact Hspec].
    unfold Zocl.acquire_slot_idx, bind, gets, lift, Zocl.upd_exec, modify, ret.
    rewrite Hrun. reflexivity.
Qed.

(** X4.  acquire_slot_idx() and release_slot_idx() are inverse, in the two
    drivers: acquire_slot_idx() returns, and when its result is a slot,
    release_slot_idx() of that slot gives back the state before the
    acquire; when its result is -1 the state has not changed. *)
Theorem acquire_release_round_trip :
  (exists s w1,
     Xocl.acquire_slot_idx xw = Ok (s, w1) /\
     (s < 0 -> w1 = xw) /\
     (0 <= s -> Xocl.release_slot_idx (u32 s) w1 = Ok (tt, xw))) /\
  (exists s w1,
     Zocl.acquire_slot_idx zw = Ok (s, w1) /\
     (s < 0 -> w1 = zw) /\
     (0 <= s -> Zocl.release_slot_idx (u32 s) w1 = Ok (tt, zw))).
Proof.
  split.
  - destruct (acquire_slot_idx_on_acquired _ _ _ xslots) as (r & st' & Hrun & Hspec & Hback).
    eexists r, _. split; [| split].
    + unfold Xocl.acquire_slot_idx, bind, gets, lift, Xocl.upd_exec, modify, ret.
      rewrite Hrun. reflexivity.
    + intros Hneg. destruct Hspec as [(_ & -> & _) | (Hr & _)]; [| lia].
      cbn [snd]. destruct xw as [e]. destruct e. reflexivity.
    + intros Hpos. cbn [snd].
      unfold Xocl.release_slot_idx, bind, gets, lift, Xocl.upd_exec, modify.
      cbn [Xocl.exec Xocl.set_exec Xocl.slot_status Xocl.set_slot_status].
      rewrite (Hback Hpos). f_equal. f_equal. apply xocl_set_slot_status_id.
  - destruct (acquire_slot_idx_on_acquired _ _ _ zslots) as (r & st' & Hrun & Hspec & Hback).
    eexists r, _. split; [| split].
    + unfold Zocl.acquire_slot_idx, bind, gets, lift, Zocl.upd_exec, modify, ret.
      rewrite Hrun. reflexivity.
    + intros Hneg. destruct Hspec as [(_ & -> & _) | (Hr & _)]; [| lia].
      cbn [snd]. destruct zw as [e]. destruct e. reflexivity.
    + intros Hpos. cbn [snd].
      unfold Zocl.release_slot_idx, bind, gets, lift, Zocl.upd_exec, modify.
      cbn [Zocl.exec Zocl.with_exec Zocl.slot_status Zocl.set_slot_status].
      rewrite (Hback Hpos). f_equal. f_equal.
      apply (zocl_set_slot_status_id zw st').
Qed.

End SlotAllocator.

(** The slot bitmap of a sample state is in order. *)
Ltac sample_slots :=
  split; [apply (bool_decide_unpack _); vm_compute; exact I
         | vm_compute; repeat split; intro; discriminate].

(** X3, witness: the xocl scheduler with its sixteen slots busy, and the
    zocl scheduler configured for 128 slots with the slots 0 to 31 busy:
    both get -1, the zocl scheduler with its slot 32 free. *)
Lemma acquire_slot_idx_least_free_witness :
  (exists st',
     Xocl.acquire_slot_idx xocl_slots_full
       = Ok (-1, Xocl.set_exec (Xocl.set_slot_status st') xocl_slots_full) /\
     acquired (Xocl.num_slots (Xocl.exec xocl_slots_full))
       (Xocl.num_slot_masks (Xocl.exec xocl_slots_full))
       (Xocl.slot_status (Xocl.exec xocl_slots_full)) (-1) st') /\
  (exists st',
     Zocl.acquire_slot_idx zocl_first_word_busy
       = Ok (-1, Zocl.with_exec (Zocl.set_slot_status st' (Zocl.exec zocl_first_word_busy))
                   zocl_first_word_busy) /\
     acquired (Zocl.num_slots (Zocl.exec zocl_first_word_busy))
       (Zocl.num_slot_masks (Zocl.exec zocl_first_word_busy))
       (Zocl.slot_status (Zocl.exec zocl_first_word_busy)) (-1) st' /\
     Zocl.num_slots (Zocl.exec zocl_first_word_busy) = 128 /\
     status_bit (Zocl.slot_status (Zocl.exec zocl_first_word_busy)) 32 = false).
Proof.
  destruct (acquire_slot_idx_least_free xocl_slots_full zocl_first_word_busy
              ltac:(sample_slots) ltac:(sample_slots))
    as [(r & st' & Hrun & Hacq) (r2 & st2 & Hrun2 & Hacq2)].
  assert (Hx : exists v, Xocl.acquire_slot_idx xocl_slots_full = Ok (-1, v))
    by (vm_compute; eexists; reflexivity).
  assert (Hz : exists v, Zocl.acquire_slot_idx zocl_first_word_busy = Ok (-1, v))
    by (vm_compute; eexists; reflexivity).
  destruct Hx as [v Hv]. rewrite Hrun in Hv. injection Hv as -> _.
  destruct Hz as [v2 Hv2]. rewrite Hrun2 in Hv2. injection Hv2 as -> _.
  split.
  - exists st'. split; [exact Hrun | exact Hacq].
  - exists st2. split; [exact Hrun2 |]. split; [exact Hacq2 |].
    split; reflexivity.
Defined.

(** X4, witness: the xocl scheduler after scenario 1 and the zocl
    scheduler after start-up. *)
Lemma acquire_release_round_trip_witness :
  (exists s w1,
     Xocl.acquire_slot_idx xocl_configured = Ok (s, w1) /\
     (s < 0 -> w1 = xocl_configured) /\
     (0 <= s -> Xocl.release_slot_idx (u32 s) w1 = Ok (tt, xocl_configured))) /\
  (exists s w1,
     Zocl.acquire_slot_idx zocl_boot = Ok (s, w1) /\
     (s < 0 -> w1 = zocl_boot) /\
     (0 <= s -> Zocl.release_slot_idx (u32 s) w1 = Ok (tt, zocl_boot))).
Proof.
  apply (acquire_release_round_trip xocl_configured zocl_boot); sample_slots.
Defined.

(** ** Compute units: get_free_cu and cu_done *)

Lemma xocl_set_cu_status_id (w : Xocl.world) (st' : list Z) :
  Xocl.set_exec (Xocl.set_cu_status (Xocl.cu_status (Xocl.exec w)))
    (Xocl.set_exec (Xocl.set_cu_status st') w) = w.
Proof. destruct w as [e]. destruct e. reflexivity. Qed.

Lemma xocl_set_cu_status_same (w : Xocl.world) :
  Xocl.set_exec (Xocl.set_cu_status (Xocl.cu_status (Xocl.exec w))) w = w.
Proof. destruct w as [e]. destruct e. reflexivity. Qed.

Section ComputeUnits.
Context {xabi : Xocl.ert_h}.
Variables (w : Xocl.world) (p : nat) (xc : Xocl.xocl_cmd).

Hypothesis cmd_at : Xocl.cmds w !! p = Some xc.
Hypothesis fields : packet_fields_ok (Xocl.packet xc).
Hypothesis data_words : words (pkt_data (Xocl.packet xc)).
Hypothesis status_words : words (Xocl.cu_status (Xocl.exec w)).
Hypothesis masks_in_packet :
  Xocl.cu_masks xc <= Z.of_nat (length (pkt_data (Xocl.packet xc))).
Hypothesis masks_in_status :
  Xocl.cu_masks xc <= Z.of_nat (length (Xocl.cu_status (Xocl.exec w))).

(** X5.  get_free_cu() and cu_done() of the xocl scheduler: get_free_cu()
    returns; when it finds no compute unit the state is as before; when
    it returns the compute unit [cu], cu_done(cu) on the new state reads
    the control register of the unit and, if bit 1 (AP_DONE) is set,
    returns true and gives back the state before get_free_cu(), and
    otherwise returns false and leaves the unit busy. *)
Theorem get_free_cu_cu_done_round_trip :
  exists cu w1,
    Xocl.get_free_cu p w = Ok (cu, w1) /\
    (cu < 0 -> w1 = w) /\
    (0 <= cu ->
     forall addr,
       Xocl.cu_addr_map (Xocl.exec w) !! Z.to_nat cu = Some addr ->
       (Z.land (Xocl.regs w addr) 2 <> 0 -> Xocl.cu_done (u32 cu) w1 = Ok (true, w)) /\
       (Z.land (Xocl.regs w addr) 2 = 0 -> Xocl.cu_done (u32 cu) w1 = Ok (false, w1))).
Proof.
  destruct (xocl_get_free_cu_spec w p xc cmd_at fields data_words status_words
              masks_in_packet masks_in_status) as (r & st & Hrun & Hspec).
  exists r, (Xocl.set_exec (Xocl.set_cu_status st) w). split; [exact Hrun |].
  destruct Hspec as [k i c b Hk Hc Hb _ Hi Hbit _ | _].
  - split; [intros Hneg; lia |]. intros _ addr Haddr.
    assert (Hr : 0 <= i + 32 * k < 2 ^ 32).
    { assert (Xocl.cu_masks xc <= 4).
      { unfold Xocl.cu_masks. destruct fields as [_ Hextra].
        destruct (negb _); [lia |]. rewrite u32_small; lia. }
      lia. }
    assert (Hfree : Z.testbit b i = false).
    { rewrite candidates_bit in Hbit. destruct (Z.testbit b i); [| reflexivity].
      rewrite andb_false_r in Hbit. discriminate. }
    assert (Hlt : (Z.to_nat k < length (Xocl.cu_status (Xocl.exec w)))%nat)
      by (eapply lookup_lt_Some; exact Hb).
    destruct (index_compose i k ltac:(lia) ltac:(lia)) as (_ & Hq & Hm).
    destruct (index_decompose (i + 32 * k) Hr) as (Hw & Hpos & _).
    rewrite Hq in Hw. rewrite Hm in Hpos.
    assert (Hstart :
      forall v, Xocl.regs w addr = v ->
        Xocl.cu_done (u32 (i + 32 * k)) (Xocl.set_exec (Xocl.set_cu_status
          (<[Z.to_nat k := Z.setbit b i]> (Xocl.cu_status (Xocl.exec w)))) w)
        = if negb (Z.land v 2 =? 0) then Ok (true, w)
          else Ok (false, Xocl.set_exec (Xocl.set_cu_status
                 (<[Z.to_nat k := Z.setbit b i]> (Xocl.cu_status (Xocl.exec w)))) w)).
    { intros v Hv. rewrite u32_small by exact Hr.
      unfold Xocl.cu_done, Xocl.do_ioread32, bind, gets, lift, Xocl.upd_exec, modify, ret.
      cbn [Xocl.exec Xocl.set_exec Xocl.cu_addr_map Xocl.set_cu_status Xocl.cu_status
             Xocl.regs].
      rewrite (arr_get_lookup _ _ addr) by (lia || exact Haddr).
      cbn [Xocl.exec Xocl.set_exec Xocl.cu_addr_map Xocl.set_cu_status Xocl.cu_status
             Xocl.regs].
      rewrite Hv. destruct (negb (Z.land v 2 =? 0)); [| reflexivity].
      change (cu_mask_idx (i + 32 * k)) with (slot_mask_idx (i + 32 * k)).
      change (cu_idx_in_mask (i + 32 * k)) with (slot_idx_in_mask (i + 32 * k)).
      rewrite Hw, Hpos.
      rewrite (arr_get_lookup _ _ (Z.setbit b i))
        by (lia || apply list_lookup_insert_eq; exact Hlt).
      rewrite arr_set_in by (rewrite length_insert; lia).
      rewrite list_insert_insert_eq.
      rewrite <- (toggle_clear_bit b i) by (lia || exact Hfree).
      rewrite Z.lxor_assoc, Z.lxor_nilpotent, Z.lxor_0_r.
      rewrite list_insert_id by exact Hb.
      f_equal. f_equal. apply xocl_set_cu_status_id. }
    split; intros Hdone; rewrite (Hstart _ eq_refl).
    + apply Z.eqb_neq in Hdone. rewrite Hdone. reflexivity.
    + rewrite Hdone. reflexivity.
  - split; [intros _; apply xocl_set_cu_status_same | intros Hpos; lia].
Qed.

End ComputeUnits.

(** X5, witness: the start command of scenario 2 on the queue of the xocl
    scheduler (compute unit 0, at 0x10000, whose registers read as zero). *)
Lemma get_free_cu_cu_done_round_trip_witness :
  exists cu w1,
    Xocl.get_free_cu (abi := Xocl.ert_h_2018_2) 0 xocl_queued = Ok (cu, w1) /\
    (cu < 0 -> w1 = xocl_queued) /\
    (0 <= cu ->
     forall addr,
       Xocl.cu_addr_map (Xocl.exec xocl_queued) !! Z.to_nat cu = Some addr ->
       (Z.land (Xocl.regs xocl_queued addr) 2 <> 0 ->
        Xocl.cu_done (u32 cu) w1 = Ok (true, xocl_queued)) /\
       (Z.land (Xocl.regs xocl_queued addr) 2 = 0 ->
        Xocl.cu_done (u32 cu) w1 = Ok (false, w1))).
Proof.
  apply (get_free_cu_cu_done_round_trip (xabi := Xocl.ert_h_2018_2)
           xocl_queued 0%nat xocl_start_cmd).
  - reflexivity.
  - concrete.
  - apply (bool_decide_unpack _). vm_compute. exact I.
  - apply (bool_decide_unpack _). vm_compute. exact I.
  - concrete.
  - concrete.
Defined.

(** ** Register writes: exec_write and mb_submit *)

Lemma xocl_set_mmio_app (w : Xocl.world) (l1 l2 : list io) :
  Xocl.set_mmio (fun t => t ++ l2) (Xocl.set_mmio (fun t => t ++ l1) w)
  = Xocl.set_mmio (fun t => t ++ l1 ++ l2) w.
Proof. unfold Xocl.set_mmio. cbn. rewrite <- app_assoc. reflexivity. Qed.

Lemma xocl_set_mmio_nil (w : Xocl.world) : Xocl.set_mmio (fun t => t ++ []) w = w.
Proof. destruct w. unfold Xocl.set_mmio. cbn. rewrite app_nil_r. reflexivity. Qed.

Lemma xocl_set_mmio_ext (w : Xocl.world) (l1 l2 : list io) :
  l1 = l2 -> Xocl.set_mmio (fun t => t ++ l1) w = Xocl.set_mmio (fun t => t ++ l2) w.
Proof. intros ->. reflexivity. Qed.

Lemma write_pairs_take_odd (n : nat) (l : list Z) :
  write_pairs (take (S (2 * n)) l) = write_pairs (take (2 * n) l).
Proof.
  revert l. induction n as [| n IH]; intros l.
  - destruct l as [| x [| y l]]; reflexivity.
  - replace (2 * S n)%nat with (S (S (2 * n))) by lia.
    destruct l as [| x [| y l]]; try reflexivity.
    cbn [take write_pairs]. f_equal. apply IH.
Qed.

(** The loop of exec_write() from the pair [a] on, [n] pairs. *)
Lemma exec_write_loop (data : list Z) (n : nat) :
  forall (a : Z) (w : Xocl.world),
    0 <= a ->
    2 * a + 2 * Z.of_nat n <= Z.of_nat (length data) ->
    for_each (map (fun k => 2 * k) (seqZ a (Z.of_nat n)))
      (fun idx =>
         addr <- lift (arr_get data idx) ;;
         val <- lift (arr_get data (idx + 1)) ;;
         Xocl.do_iowrite32 val addr) w
    = Ok (tt, Xocl.set_mmio
                (fun t => t ++ write_pairs (take (2 * n) (drop (Z.to_nat (2 * a)) data))) w).
Proof.
  induction n as [| n IH]; intros a w Ha Hlen.
  - cbn. unfold ret. rewrite xocl_set_mmio_nil. reflexivity.
  - rewrite Nat2Z.inj_succ, seqZ_cons by lia.
    replace (Z.pred (Z.succ (Z.of_nat n))) with (Z.of_nat n) by lia.
    cbn [map for_each].
    destruct (lookup_lt_is_Some_2 data (Z.to_nat (2 * a)) ltac:(lia)) as [x Hx].
    destruct (lookup_lt_is_Some_2 data (Z.to_nat (2 * a + 1)) ltac:(lia)) as [y Hy].
    unfold bind at 1. unfold bind at 1. unfold lift at 1.
    rewrite (arr_get_lookup _ _ x) by (lia || assumption).
    unfold bind at 1. unfold lift at 1.
    rewrite (arr_get_lookup _ _ y) by (lia || assumption).
    unfold Xocl.do_iowrite32 at 1, modify at 1.
    rewrite (IH (Z.succ a)) by lia.
    rewrite xocl_set_mmio_app. f_equal. f_equal. apply xocl_set_mmio_ext.
    rewrite (drop_S data x (Z.to_nat (2 * a))) by exact Hx.
    rewrite (drop_S data y (S (Z.to_nat (2 * a))))
      by (replace (S (Z.to_nat (2 * a))) with (Z.to_nat (2 * a + 1)) by lia; exact Hy).
    replace (2 * S n)%nat with (S (S (2 * n))) by lia.
    cbn [take write_pairs app].
    replace (Z.to_nat (2 * Z.succ a)) with (S (S (Z.to_nat (2 * a)))) by lia.
    reflexivity.
Qed.

Section ExecWrite.
Variables (w : Xocl.world) (p : nat) (xc : Xocl.xocl_cmd).

Hypothesis cmd_at : Xocl.cmds w !! p = Some xc.
Hypothesis count_range : 1 <= pkt_count (Xocl.packet xc) < 2 ^ 32.
Hypothesis payload_held :
  pkt_count (Xocl.packet xc) <= Z.of_nat (length (pkt_data (Xocl.packet xc))).

(** X6.  exec_write() of the xocl scheduler, on a command that holds its
    [count >= 1] payload words, reads the payload as pairs of an address
    and a value and writes every value to its address, in the order of
    the payload; a last word without a partner is not used.  It returns
    0 and changes nothing but the registers. *)
Theorem exec_write_pairs :
  Xocl.exec_write p w
  = Ok (0, Xocl.set_mmio
             (fun t => t ++ write_pairs (take (Z.to_nat (pkt_count (Xocl.packet xc)))
                                           (pkt_data (Xocl.packet xc)))) w).
Proof.
  unfold Xocl.exec_write.
  rewrite (bind_Ok _ _ w w xc) by (unfold Xocl.the_cmd; rewrite cmd_at; reflexivity).
  cbv beta zeta.
  set (c := pkt_count (Xocl.packet xc)) in *.
  rewrite (u32_small (c - 1)) by lia.
  replace (c - 1 + 1) with c by lia.
  assert (Hhalf : 0 <= c / 2) by (apply Z.div_pos; lia).
  pose proof (Z.div_mod c 2 ltac:(lia)) as Hdm.
  pose proof (Z.mod_pos_bound c 2 ltac:(lia)) as Hmod.
  rewrite <- (Z2Nat.id (c / 2)) at 1 by lia.
  erewrite bind_Ok by (apply exec_write_loop; lia).
  unfold ret. f_equal. f_equal. apply xocl_set_mmio_ext.
  change (Z.to_nat (2 * 0)) with 0%nat. rewrite drop_0.
  destruct (Z.eq_dec (c mod 2) 0) as [Heven | Hodd].
  - f_equal. f_equal. lia.
  - replace (Z.to_nat c) with (S (2 * Z.to_nat (c / 2))) by lia.
    symmetry. apply write_pairs_take_odd.
Qed.

End ExecWrite.

(** X6, witness: a write command with the payload
    [0x100, 1, 0x104, 2, 0x108], whose last word has no partner. *)
Lemma exec_write_pairs_witness :
  Xocl.exec_write 0
    (xocl_submitted xocl_boot
       {| pkt_state := ERT_CMD_STATE_NEW; pkt_extra_cu_masks := 0; pkt_count := 5;
          pkt_opcode := 5; pkt_type := 0; pkt_data := [256; 1; 260; 2; 264] |})
  = Ok (0, Xocl.set_mmio (fun t => t ++ [iowrite32 1 256; iowrite32 2 260])
             (xocl_submitted xocl_boot
                {| pkt_state := ERT_CMD_STATE_NEW; pkt_extra_cu_masks := 0; pkt_count := 5;
                   pkt_opcode := 5; pkt_type := 0; pkt_data := [256; 1; 260; 2; 264] |})).
Proof.
  apply (exec_write_pairs _ 0%nat
           (queued_cmd {| pkt_state := ERT_CMD_STATE_NEW; pkt_extra_cu_masks := 0;
                          pkt_count := 5; pkt_opcode := 5; pkt_type := 0;
                          pkt_data := [256; 1; 260; 2; 264] |})).
  - vm_compute. reflexivity.
  - concrete.
  - concrete.
Defined.

Lemma xocl_acquire_slot_idx_exec (w w1 : Xocl.world) (s : Z) :
  Xocl.acquire_slot_idx w = Ok (s, w1) ->
  exists st, w1 = Xocl.set_exec (Xocl.set_slot_status st) w.
Proof.
  unfold Xocl.acquire_slot_idx, bind, gets, lift, Xocl.upd_exec, modify, ret.
  destruct (acquire_slot_idx_on _ _ _) as [[r st] | f]; [| discriminate].
  intros [= _ <-]. exists st. reflexivity.
Qed.

(** The copy of the payload to a slot of the command queue, from the word
    [a] on, [n] words. *)
Lemma payload_loop (data : list Z) (base : Z) (n : nat) :
  forall (a : Z) (w : Xocl.world),
    0 <= a ->
    a + Z.of_nat n <= Z.of_nat (length data) ->
    for_each (seqZ a (Z.of_nat n))
      (fun i => v <- lift (arr_get data i) ;; Xocl.do_iowrite32 v (base + 4 + 4 * i)) w
    = Ok (tt, Xocl.set_mmio
                (fun t => t ++ imap (fun k v => iowrite32 v (base + 4 + 4 * (a + Z.of_nat k)))
                                 (take n (drop (Z.to_nat a) data))) w).
Proof.
  induction n as [| n IH]; intros a w Ha Hlen.
  - cbn. unfold ret. rewrite xocl_set_mmio_nil. reflexivity.
  - rewrite Nat2Z.inj_succ, seqZ_cons by lia.
    replace (Z.pred (Z.succ (Z.of_nat n))) with (Z.of_nat n) by lia.
    cbn [for_each].
    destruct (lookup_lt_is_Some_2 data (Z.to_nat a) ltac:(lia)) as [x Hx].
    unfold bind at 1. unfold bind at 1. unfold lift at 1.
    rewrite (arr_get_lookup _ _ x) by (lia || assumption).
    unfold Xocl.do_iowrite32 at 1, modify at 1.
    rewrite (IH (Z.succ a)) by lia.
    rewrite xocl_set_mmio_app. f_equal. f_equal. apply xocl_set_mmio_ext.
    rewrite (drop_S data x (Z.to_nat a)) by exact Hx.
    cbn [take imap app]. f_equal; [f_equal; lia |].
    replace (Z.to_nat (Z.succ a)) with (S (Z.to_nat a)) by lia.
    apply imap_ext. intros k v _. cbn. f_equal. lia.
Qed.

Section MbSubmit.
Context {xabi : Xocl.ert_h}.
Variables (w w1 : Xocl.world) (p : nat) (xc : Xocl.xocl_cmd) (s : Z).

Hypothesis cmd_at : Xocl.cmds w !! p = Some xc.
Hypothesis slot : Xocl.acquire_slot_idx w = Ok (s, w1).
Hypothesis slot_range : -1 <= s < 2 ^ 31.
Hypothesis device_command : Xocl.type xc <> Xocl.ERT_KDS_LOCAL.
Hypothesis slots_configured : Xocl.num_slots (Xocl.exec w) <> 0.
Hypothesis count_range : 0 <= pkt_count (Xocl.packet xc) < 2 ^ 32 - 1.
Hypothesis payload_held :
  pkt_count (Xocl.packet xc) <= Z.of_nat (length (pkt_data (Xocl.packet xc))).

(** X7.  mb_submit() of the xocl scheduler takes a slot with
    acquire_slot_idx() and records it in the command.  Without a slot it
    returns false and writes nothing to the device.  With the slot [s] it
    copies the [count] payload words of a command for the device to the
    words after the first of the slot, slot_size bytes apart from slot to
    slot from [ERT_CQ_BASE_ADDR], only then writes the header to the
    first word of the slot, and last, with [cq_interrupt], writes the bit
    of the slot to the command queue status register; it returns true. *)
Theorem mb_submit_writes_header_last :
  let e := Xocl.exec w in
  let slot_addr :=
    u32 (Xocl.ERT_CQ_BASE_ADDR + u32 (s * (Xocl.ERT_CQ_SIZE / Xocl.num_slots e))) in
  let cq_int_addr := u32 (Xocl.ERT_CQ_STATUS_REGISTER_ADDR + 4 * (s / 32)) in
  let w2 := Xocl.set_cmds (fun m => <[p := Xocl.set_slot_idx s xc]> m) w1 in
  (s < 0 -> Xocl.mb_submit p w = Ok (false, w2)) /\
  (0 <= s ->
   Xocl.mb_submit p w
   = Ok (true,
         Xocl.set_mmio
           (fun t => t ++ cq_slot_writes slot_addr (Xocl.pkt_header (Xocl.packet xc))
                            (take (Z.to_nat (pkt_count (Xocl.packet xc)))
                               (pkt_data (Xocl.packet xc)))
                            (negb (Xocl.cq_interrupt e =? 0)) cq_int_addr s) w2)).
Proof.
  intros e slot_addr cq_int_addr w2.
  destruct (xocl_acquire_slot_idx_exec _ _ _ slot) as [st Hw1].
  assert (Hstart :
    Xocl.mb_submit p w =
    (if s <? 0 then ret false
     else
       xcmd <- Xocl.the_cmd p ;;
       if Xocl.type xcmd =? Xocl.ERT_KDS_LOCAL then ret true
       else
         e <- gets Xocl.exec ;;
         (if Xocl.num_slots e =? 0 then lift (Fault DivideByZero) else ret tt) ;;;
         let slot_addr :=
           u32 (Xocl.ERT_CQ_BASE_ADDR + u32 (s * (Xocl.ERT_CQ_SIZE / Xocl.num_slots e))) in
         for_each (seqZ 0 (u32 (Xocl.packet_size xcmd - 1))) (fun i =>
           v <- lift (arr_get (pkt_data (Xocl.packet xcmd)) i) ;;
           Xocl.do_iowrite32 v (slot_addr + 4 + 4 * i)) ;;;
         Xocl.do_iowrite32 (Xocl.pkt_header (Xocl.packet xcmd)) slot_addr ;;;
         (if negb (Xocl.cq_interrupt e =? 0) then
            let cq_int_addr :=
              u32 (Xocl.ERT_CQ_STATUS_REGISTER_ADDR + u32 (Z.shiftl (slot_mask_idx s) 2)) in
            let mask := bit (slot_idx_in_mask s) in
            Xocl.do_iowrite32 mask cq_int_addr
          else ret tt) ;;;
         ret true) w2).
  { unfold Xocl.mb_submit. rewrite (bind_Ok _ _ _ _ _ slot).
    unfold bind at 1. unfold Xocl.upd_cmd, bind at 1, Xocl.the_cmd at 1.
    rewrite Hw1. cbn [Xocl.cmds Xocl.set_exec]. rewrite cmd_at.
    unfold modify at 1. rewrite <- Hw1. reflexivity. }
  rewrite Hstart. clear Hstart.
  split; intros Hs.
  - destruct (s <? 0) eqn:E; [reflexivity | apply Z.ltb_ge in E; lia].
  - destruct (s <? 0) eqn:E; [apply Z.ltb_lt in E; lia |].
    assert (Hcmd2 : Xocl.cmds w2 !! p = Some (Xocl.set_slot_idx s xc)).
    { subst w2. cbn. apply lookup_insert_eq. }
    rewrite (bind_Ok _ _ w2 w2 (Xocl.set_slot_idx s xc))
      by (unfold Xocl.the_cmd; rewrite Hcmd2; reflexivity).
    change (Xocl.type (Xocl.set_slot_idx s xc)) with (Xocl.type xc).
    apply Z.eqb_neq in device_command. rewrite device_command.
    unfold bind at 1. unfold gets at 1.
    assert (He : Xocl.exec w2 = Xocl.set_slot_status st (Xocl.exec w)).
    { subst w2. rewrite Hw1. reflexivity. }
    rewrite He.
    change (Xocl.num_slots (Xocl.set_slot_status st (Xocl.exec w)))
      with (Xocl.num_slots e).
    change (Xocl.cq_interrupt (Xocl.set_slot_status st (Xocl.exec w)))
      with (Xocl.cq_interrupt e).
    apply Z.eqb_neq in slots_configured. fold e in slots_configured.
    rewrite slots_configured.
    unfold bind at 1. unfold ret at 1. cbv zeta. fold slot_addr.
    change (Xocl.packet (Xocl.set_slot_idx s xc)) with (Xocl.packet xc).
    assert (Hsize : u32 (Xocl.packet_size (Xocl.set_slot_idx s xc) - 1)
                    = Z.of_nat (Z.to_nat (pkt_count (Xocl.packet xc)))).
    { unfold Xocl.packet_size, Xocl.payload_size.
      change (Xocl.packet (Xocl.set_slot_idx s xc)) with (Xocl.packet xc).
      rewrite (u32_small (_ + 1)) by lia. rewrite u32_small by lia. lia. }
    rewrite Hsize.
    erewrite bind_Ok by (apply payload_loop; lia).
    unfold bind at 1. unfold Xocl.do_iowrite32 at 1, modify at 1.
    rewrite xocl_set_mmio_app.
    assert (Hpos : 0 <= s < 2 ^ 32) by lia.
    destruct (index_decompose s Hpos) as (Hw & Hb & _).
    assert (Hq : 0 <= s / 32 < 2 ^ 26).
    { split; [apply Z.div_pos; lia | apply Z.div_lt_upper_bound; lia]. }
    pose proof (Z.mod_pos_bound s 32 ltac:(lia)) as Hmod.
    destruct (negb (Xocl.cq_interrupt e =? 0)).
    + unfold bind, Xocl.do_iowrite32, modify, ret. rewrite xocl_set_mmio_app.
      f_equal. f_equal. apply xocl_set_mmio_ext. unfold cq_slot_writes.
      rewrite drop_0. rewrite <- app_assoc. f_equal.
      cbn [app]. f_equal. f_equal. f_equal.
      * rewrite Hb. unfold bit. apply Z.shiftl_1_l.
      * subst cq_int_addr. rewrite Hw. f_equal. f_equal.
        rewrite Z.shiftl_mul_pow2 by lia. change (2 ^ 2) with 4.
        rewrite u32_small by lia. lia.
    + unfold bind, ret, cq_slot_writes. rewrite drop_0. reflexivity.
Qed.

End MbSubmit.

(** X7, witness: the start command of scenario 2 on a device configured
    for the embedded scheduler with command queue interrupts; the command
    takes slot 0, at [ERT_CQ_BASE_ADDR].  Its header word is 16385: the
    count 4 from bit 12 up and the state of the packet, new (1), in the
    low bits; the worker has set the internal state of the command to
    queued and has left the packet as the host wrote it. *)
Lemma mb_submit_writes_header_last_witness :
  Xocl.mb_submit (abi := Xocl.ert_h_2018_2) 0 xocl_ert_queued
  = Ok (true,
        Xocl.set_mmio
          (fun t => t ++ [iowrite32 1 1638404; iowrite32 0 1638408; iowrite32 170 1638412;
                          iowrite32 187 1638416; iowrite32 16385 1638400;
                          iowrite32 1 1572952])
          (Xocl.set_cmds (fun m => <[0%nat := Xocl.set_slot_idx 0 xocl_start_cmd]> m)
             (after Xocl.acquire_slot_idx xocl_ert_queued))).
Proof.
  apply (mb_submit_writes_header_last (xabi := Xocl.ert_h_2018_2)
           xocl_ert_queued (after Xocl.acquire_slot_idx xocl_ert_queued)
           0%nat xocl_start_cmd 0); concrete.
Defined.

(** ** configure: the command queue geometry and the back-end *)

Section ConfigureFrame.
Context {xabi : Xocl.ert_h}.

Lemma configure_cdma_exec (s : Xocl.world) (p : nat) (c : Xocl.xocl_cmd)
    (cfg : ert_packet) (N : Z) :
  Xocl.cmds s !! p = Some c ->
  Xocl.num_cus (Xocl.exec s) = N ->
  0 <= N < Z.of_nat (length (Xocl.cu_addr_map (Xocl.exec s))) ->
  1 < Z.of_nat (length (pkt_data cfg)) ->
  exists s',
    Xocl.configure_cdma p cfg N s = Ok (tt, s') /\
    Xocl.exec s' =
      Xocl.set_num_cus (u32 (N + 1))
        (Xocl.set_cu_addr_map (<[Z.to_nat N := 2424832]> (Xocl.cu_addr_map (Xocl.exec s)))
           (Xocl.exec s)) /\
    exists c', Xocl.cmds s' !! p = Some c' /\
               length (pkt_data (Xocl.packet c')) = length (pkt_data cfg).
Proof.
  intros Hc Hn Hroom Hdata.
  cbv [Xocl.configure_cdma bind gets lift Xocl.upd_exec modify Xocl.upd_cmd Xocl.the_cmd].
  rewrite Hn. rewrite arr_set_in by lia. rewrite arr_set_in by lia.
  cbn [Xocl.cmds Xocl.set_exec]. rewrite Hc.
  eexists. split; [reflexivity |]. cbn. split; [reflexivity |].
  eexists. split; [apply lookup_insert_eq |]. cbn. apply length_insert.
Qed.

Lemma configure_mode_exec (s : Xocl.world) (p : nat) (c : Xocl.xocl_cmd)
    (cfg : ert_packet) (ert cdma : bool) (dsa feat : Z) :
  Xocl.cmds s !! p = Some c ->
  pkt_data cfg !! 4%nat = Some feat ->
  4 < Z.of_nat (length (pkt_data (Xocl.packet c))) ->
  exists s',
    Xocl.configure_mode p cfg ert cdma dsa s = Ok (tt, s') /\
    Xocl.exec s' =
      if ert && Z.testbit feat Xocl.cfg_ert_bit
      then Xocl.set_cq_interrupt (Xocl.bitfield feat Xocl.cfg_cq_int_bit)
             (Xocl.set_polling_mode (Xocl.bitfield feat Xocl.cfg_polling_bit)
                (Xocl.set_ops Xocl.mb_ops (Xocl.exec s)))
      else Xocl.set_polling_mode 1 (Xocl.set_ops Xocl.penguin_ops (Xocl.exec s)).
Proof.
  intros Hc Hfeat Hpkt.
  assert (Hget : cfg_features cfg = Ok feat).
  { unfold cfg_features. apply arr_get_lookup; [lia | exact Hfeat]. }
  unfold Xocl.configure_mode. destruct ert; cbn [andb].
  - cbv [bind lift]. rewrite Hget. unfold Xocl.bitfield at 1.
    destruct (Z.testbit feat Xocl.cfg_ert_bit); cbn [Z.b2z Z.eqb negb].
    + cbv [bind gets lift Xocl.upd_exec modify Xocl.upd_cmd Xocl.the_cmd].
      cbn [Xocl.cmds Xocl.set_exec]. rewrite Hc.
      rewrite arr_set_in by lia.
      cbn [Xocl.cmds Xocl.set_exec]. rewrite Hc.
      eexists. split; reflexivity.
    + cbv [bind Xocl.upd_exec modify]. eexists. split; reflexivity.
  - cbv [bind Xocl.upd_exec modify]. eexists. split; reflexivity.
Qed.

End ConfigureFrame.

Section ConfigureGeometry.
Context {xabi : Xocl.ert_h}.
Variables (w : Xocl.world) (p : nat) (xc : Xocl.xocl_cmd) (N ssz shift cubase feat : Z).

Hypothesis cmd_at : Xocl.cmds w !! p = Some xc.
Hypothesis is_configure : Xocl.opcode xc = Xocl.ERT_CONFIGURE.
Hypothesis unconfigured : Xocl.configured (Xocl.exec w) = false.
Hypothesis fields : packet_fields_ok (Xocl.packet xc).
Hypothesis words_of_packet :
  take 5 (pkt_data (Xocl.packet xc)) = [ssz; N; shift; cubase; feat].
Hypothesis count_valid : pkt_count (Xocl.packet xc) = 5 + N.
Hypothesis slot_size_pos : ssz <> 0.
Hypothesis held : pkt_count (Xocl.packet xc) <= Z.of_nat (length (pkt_data (Xocl.packet xc))).
Hypothesis some_cu : 0 <= N.
Hypothesis room :
  N + (if Xocl.cdma_on (Xocl.rom w) then 1 else 0)
  <= Z.of_nat (length (Xocl.cu_addr_map (Xocl.exec w))).

(** X8.  An accepted configure command of the xocl scheduler sets the
    geometry of the command queue from its first words: the number of
    slots is [ERT_CQ_SIZE / slot_size] and the number of slot masks is
    [((num_slots - 1) >> 5) + 1], the shift and the base address of the
    compute units are those of the command.  The back-end is the
    embedded scheduler, with the polling and command queue interrupt
    flags of the command, when the feature ROM of the device has it and
    the command asks for it; otherwise it is the software back-end in
    polling mode, whatever the command asks for.  The slot and compute
    unit bitmaps and the table of submitted commands are not touched. *)
Theorem configure_sets_geometry_and_mode :
  exists w',
    Xocl.configure p w = Ok (0, w') /\
    Xocl.num_slots (Xocl.exec w') = Xocl.ERT_CQ_SIZE / ssz /\
    Xocl.num_slot_masks (Xocl.exec w')
      = u32 (Z.shiftr (u32 (Xocl.ERT_CQ_SIZE / ssz - 1)) 5 + 1) /\
    Xocl.cu_shift_offset (Xocl.exec w') = shift /\
    Xocl.cu_base_addr (Xocl.exec w') = cubase /\
    (if Xocl.mb_sched_on (Xocl.rom w) && Z.testbit feat Xocl.cfg_ert_bit
     then Xocl.ops (Xocl.exec w') = Xocl.mb_ops /\
          Xocl.polling_mode (Xocl.exec w') = Xocl.bitfield feat Xocl.cfg_polling_bit /\
          Xocl.cq_interrupt (Xocl.exec w') = Xocl.bitfield feat Xocl.cfg_cq_int_bit
     else Xocl.ops (Xocl.exec w') = Xocl.penguin_ops /\
          Xocl.polling_mode (Xocl.exec w') = 1 /\
          Xocl.cq_interrupt (Xocl.exec w') = Xocl.cq_interrupt (Xocl.exec w)) /\
    Xocl.slot_status (Xocl.exec w') = Xocl.slot_status (Xocl.exec w) /\
    Xocl.cu_status (Xocl.exec w') = Xocl.cu_status (Xocl.exec w) /\
    Xocl.submitted_cmds (Xocl.exec w') = Xocl.submitted_cmds (Xocl.exec w).
Proof.
  destruct fields as [Hcount _].
  assert (Hlen5 : 5 <= Z.of_nat (length (pkt_data (Xocl.packet xc)))) by lia.
  assert (Hword : forall k v, ([ssz; N; shift; cubase; feat] : list Z) !! k = Some v ->
                              pkt_data (Xocl.packet xc) !! k = Some v).
  { intros k v Hk. rewrite <- words_of_packet in Hk.
    apply lookup_take_Some in Hk. tauto. }
  assert (H0 : cfg_slot_size (Xocl.packet xc) = Ok ssz)
    by (apply arr_get_lookup; [lia | apply (Hword 0%nat); reflexivity]).
  assert (H1 : cfg_num_cus (Xocl.packet xc) = Ok N)
    by (apply arr_get_lookup; [lia | apply (Hword 1%nat); reflexivity]).
  assert (H2 : cfg_cu_shift (Xocl.packet xc) = Ok shift)
    by (apply arr_get_lookup; [lia | apply (Hword 2%nat); reflexivity]).
  assert (H3 : cfg_cu_base_addr (Xocl.packet xc) = Ok cubase)
    by (apply arr_get_lookup; [lia | apply (Hword 3%nat); reflexivity]).
  assert (H4 : pkt_data (Xocl.packet xc) !! 4%nat = Some feat)
    by (apply (Hword 4%nat); reflexivity).
  cbv [Xocl.configure bind Xocl.the_cmd gets lift ret Xocl.sched_error_on modify Xocl.upd_exec].
  rewrite cmd_at. rewrite is_configure, Z.eqb_refl. cbn [negb].
  rewrite unconfigured. rewrite H1.
  rewrite count_valid. rewrite (u32_small (5 + N)) by lia. rewrite Z.eqb_refl. cbn [negb].
  rewrite H0.
  destruct (ssz =? 0) eqn:E; [apply Z.eqb_eq in E; contradiction |].
  rewrite H2, H3.
  match goal with
  | |- context [for_each _ _ ?w0] =>
      destruct (configure_cu_addr_loop (Xocl.packet xc) (Z.to_nat N) 0 w0)
        as (m & Hrun & Hlen & _ & _)
  end.
  1:lia. 1:{ cbn. destruct (Xocl.cdma_on (Xocl.rom w)); lia. } 1:lia.
  rewrite Z2Nat.id in Hrun by lia. rewrite Hrun. clear Hrun.
  cbn in Hlen.
  match goal with
  | |- context [(if _ then _ else _) ?w1] => set (s1 := w1)
  end.
  assert (Hs1 : Xocl.cmds s1 !! p = Some xc) by exact cmd_at.
  assert (Hn1 : Xocl.num_cus (Xocl.exec s1) = N) by reflexivity.
  assert (Hm1 : Xocl.cu_addr_map (Xocl.exec s1) = m) by reflexivity.
  assert (He1 : exists e1, Xocl.exec s1 = e1 /\
            Xocl.num_slots e1 = Xocl.ERT_CQ_SIZE / ssz /\
            Xocl.num_slot_masks e1 = u32 (Z.shiftr (u32 (Xocl.ERT_CQ_SIZE / ssz - 1)) 5 + 1) /\
            Xocl.cu_shift_offset e1 = shift /\ Xocl.cu_base_addr e1 = cubase /\
            Xocl.cq_interrupt e1 = Xocl.cq_interrupt (Xocl.exec w) /\
            Xocl.slot_status e1 = Xocl.slot_status (Xocl.exec w) /\
            Xocl.cu_status e1 = Xocl.cu_status (Xocl.exec w) /\
            Xocl.submitted_cmds e1 = Xocl.submitted_cmds (Xocl.exec w)).
  { eexists. split; [reflexivity |]. subst s1. cbn. repeat split; reflexivity. }
  destruct He1 as (e1 & He1 & G1 & G2 & G3 & G4 & G5 & G6 & G7 & G8).
  clearbody s1.
  assert (Hfinish : forall s2 c2,
            Xocl.cmds s2 !! p = Some c2 ->
            4 < Z.of_nat (length (pkt_data (Xocl.packet c2))) ->
            (exists f, Xocl.exec s2 = f e1 /\
               forall e, Xocl.num_slots (f e) = Xocl.num_slots e /\
                         Xocl.num_slot_masks (f e) = Xocl.num_slot_masks e /\
                         Xocl.cu_shift_offset (f e) = Xocl.cu_shift_offset e /\
                         Xocl.cu_base_addr (f e) = Xocl.cu_base_addr e /\
                         Xocl.cq_interrupt (f e) = Xocl.cq_interrupt e /\
                         Xocl.slot_status (f e) = Xocl.slot_status e /\
                         Xocl.cu_status (f e) = Xocl.cu_status e /\
                         Xocl.submitted_cmds (f e) = Xocl.submitted_cmds e) ->
            exists w',
              (x <- Xocl.configure_mode p (Xocl.packet xc) (Xocl.mb_sched_on (Xocl.rom w))
                      (Xocl.cdma_on (Xocl.rom w)) (Xocl.dsa_version (Xocl.rom w)) ;;
               (fun _ => modify (Xocl.set_exec (Xocl.set_configured true)) ;;; ret 0) x) s2
              = Ok (0, w') /\
              Xocl.num_slots (Xocl.exec w') = Xocl.ERT_CQ_SIZE / ssz /\
              Xocl.num_slot_masks (Xocl.exec w')
                = u32 (Z.shiftr (u32 (Xocl.ERT_CQ_SIZE / ssz - 1)) 5 + 1) /\
              Xocl.cu_shift_offset (Xocl.exec w') = shift /\
              Xocl.cu_base_addr (Xocl.exec w') = cubase /\
              (if Xocl.mb_sched_on (Xocl.rom w) && Z.testbit feat Xocl.cfg_ert_bit
               then Xocl.ops (Xocl.exec w') = Xocl.mb_ops /\
                    Xocl.polling_mode (Xocl.exec w') = Xocl.bitfield feat Xocl.cfg_polling_bit /\
                    Xocl.cq_interrupt (Xocl.exec w') = Xocl.bitfield feat Xocl.cfg_cq_int_bit
               else Xocl.ops (Xocl.exec w') = Xocl.penguin_ops /\
                    Xocl.polling_mode (Xocl.exec w') = 1 /\
                    Xocl.cq_interrupt (Xocl.exec w') = Xocl.cq_interrupt (Xocl.exec w)) /\
              Xocl.slot_status (Xocl.exec w') = Xocl.slot_status (Xocl.exec w) /\
              Xocl.cu_status (Xocl.exec w') = Xocl.cu_status (Xocl.exec w) /\
              Xocl.submitted_cmds (Xocl.exec w') = Xocl.submitted_cmds (Xocl.exec w)).
  { intros s2 c2 Hs2 Hl2 (f & Hf & Hframe).
    destruct (configure_mode_exec s2 p c2 (Xocl.packet xc) (Xocl.mb_sched_on (Xocl.rom w))
                (Xocl.cdma_on (Xocl.rom w)) (Xocl.dsa_version (Xocl.rom w)) feat Hs2 H4 Hl2)
      as (s3 & Hrun3 & He3).
    rewrite (bind_Ok _ _ _ _ _ Hrun3). cbv [bind modify ret].
    eexists. split; [reflexivity |].
    cbn [Xocl.exec Xocl.set_exec]. rewrite He3, Hf.
    destruct (Hframe e1) as (F1 & F2 & F3 & F4 & F5 & F6 & F7 & F8).
    destruct (Xocl.mb_sched_on (Xocl.rom w) && Z.testbit feat Xocl.cfg_ert_bit); cbn;
      rewrite ?F1, ?F2, ?F3, ?F4, ?F5, ?F6, ?F7, ?F8, ?G1, ?G2, ?G3, ?G4, ?G5, ?G6, ?G7, ?G8;
      repeat split; reflexivity. }
  destruct (Xocl.cdma_on (Xocl.rom w)) eqn:Ecdma.
  - destruct (configure_cdma_exec s1 p xc (Xocl.packet xc) N Hs1 Hn1)
      as (s2 & Hrun2 & He2 & c2 & Hs2 & Hl2); [rewrite Hm1; lia | lia |].
    rewrite Hrun2.
    apply (Hfinish s2 c2 Hs2 ltac:(lia)).
    exists (fun e => Xocl.set_num_cus (u32 (N + 1))
                       (Xocl.set_cu_addr_map (<[Z.to_nat N := 2424832]> m) e)).
    split; [rewrite He2, Hm1, He1; reflexivity |].
    intros e. repeat split; reflexivity.
  - cbv [ret].
    apply (Hfinish s1 xc Hs1 ltac:(lia)).
    exists (fun e => e). split; [exact He1 |]. intros e. repeat split; reflexivity.
Qed.

End ConfigureGeometry.

(** X8, witness: on a device with an embedded scheduler, a configure
    command that asks for it with command queue interrupts (features
    0x11) and slots of 4096 bytes. *)
Lemma configure_sets_geometry_and_mode_witness :
  exists w',
    Xocl.configure (abi := Xocl.ert_h_2018_2) 0
      (xocl_submitted (Xocl.mb_scheduler_probe rom_ert (fun _ => 0))
         (configure_packet 4096 16 0 17 [65536])) = Ok (0, w') /\
    Xocl.num_slots (Xocl.exec w') = 32 /\
    Xocl.num_slot_masks (Xocl.exec w') = 1 /\
    Xocl.ops (Xocl.exec w') = Xocl.mb_ops /\
    Xocl.polling_mode (Xocl.exec w') = 0 /\
    Xocl.cq_interrupt (Xocl.exec w') = 1.
Proof.
  destruct (configure_sets_geometry_and_mode (xabi := Xocl.ert_h_2018_2)
              (xocl_submitted (Xocl.mb_scheduler_probe rom_ert (fun _ => 0))
                 (configure_packet 4096 16 0 17 [65536]))
              0%nat (queued_cmd (configure_packet 4096 16 0 17 [65536]))
              1 4096 16 0 17
              ltac:(vm_compute; reflexivity) ltac:(reflexivity) ltac:(reflexivity)
              ltac:(concrete) ltac:(reflexivity) ltac:(reflexivity) ltac:(discriminate)
              ltac:(concrete) ltac:(lia) ltac:(concrete))
    as (w' & Hrun & Hslots & Hmasks & _ & _ & Hmode & _).
  exists w'. split; [exact Hrun |]. split; [exact Hslots |]. split; [exact Hmasks |].
  exact Hmode.
Defined.

Section ConfigureRejects.
Context {xabi : Xocl.ert_h}.
Variables (w : Xocl.world) (p : nat) (xc : Xocl.xocl_cmd) (N : Z).

Hypothesis cmd_at : Xocl.cmds w !! p = Some xc.
Hypothesis unblocked : Xocl.wait_count xc = 0.
Hypothesis unconfigured : Xocl.configured (Xocl.exec w) = false.
Hypothesis num_cus_word : pkt_data (Xocl.packet xc) !! 1%nat = Some N.

(** X9.  configure() of the xocl scheduler validates the command before
    it writes to the exec core.  On a command that is not a configure
    command it sets the error flag of the scheduler and returns 1.  On
    a configure command whose [count] is not [5 + num_cus] it returns 1
    and nothing has changed; queued_to_running() then moves the command
    to the Error state, in the command and in its packet, and returns
    false with everything else as it was. *)
Theorem configure_validates_command :
  (Xocl.opcode xc <> Xocl.ERT_CONFIGURE ->
   Xocl.configure p w = Ok (1, Xocl.set_sched_error 1 w)) /\
  (Xocl.opcode xc = Xocl.ERT_CONFIGURE ->
   pkt_count (Xocl.packet xc) <> u32 (5 + N) ->
   Xocl.configure p w = Ok (1, w) /\
   Xocl.queued_to_running p w =
     Ok (false,
         Xocl.set_cmds
           (fun m => <[p := Xocl.set_packet
                              (set_pkt_state ERT_CMD_STATE_ERROR (Xocl.packet xc))
                              (Xocl.set_state ERT_CMD_STATE_ERROR xc)]> m)
           w)).
Proof.
  assert (Hn : cfg_num_cus (Xocl.packet xc) = Ok N)
    by (apply arr_get_lookup; [lia | exact num_cus_word]).
  split.
  - intros Hop. apply Z.eqb_neq in Hop.
    unfold Xocl.configure, bind, Xocl.the_cmd, gets, Xocl.sched_error_on, modify, ret.
    rewrite cmd_at, Hop. reflexivity.
  - intros Hop Hcount. apply Z.eqb_neq in Hcount.
    assert (Hconf : Xocl.configure p w = Ok (1, w)).
    { unfold Xocl.configure, bind, Xocl.the_cmd, gets, Xocl.sched_error_on, lift, ret.
      rewrite cmd_at, Hop, Z.eqb_refl. cbn [negb]. rewrite unconfigured, Hn, Hcount.
      reflexivity. }
    split; [exact Hconf |].
    unfold Xocl.queued_to_running.
    cbv [bind Xocl.the_cmd]. rewrite cmd_at, unblocked. cbn [Z.eqb negb].
    rewrite Hop, Z.eqb_refl. rewrite Hconf.
    cbv [ret Xocl.set_cmd_state Xocl.upd_cmd bind Xocl.the_cmd modify].
    cbn [Z.eqb negb]. rewrite cmd_at. reflexivity.
Qed.

End ConfigureRejects.

(** X9, witness: a configure packet whose count, 7, is not 5 + 1. *)
Lemma configure_validates_command_witness :
  Xocl.queued_to_running (abi := Xocl.ert_h_2018_2) 0
    (xocl_submitted xocl_boot
       {| pkt_state := ERT_CMD_STATE_NEW; pkt_extra_cu_masks := 0; pkt_count := 7;
          pkt_opcode := 2; pkt_type := 0; pkt_data := [4096; 1; 16; 0; 0; 65536; 0] |})
  = Ok (false,
        Xocl.set_cmds
          (fun m => <[0%nat :=
             Xocl.set_packet
               (set_pkt_state ERT_CMD_STATE_ERROR
                  {| pkt_state := ERT_CMD_STATE_NEW; pkt_extra_cu_masks := 0; pkt_count := 7;
                     pkt_opcode := 2; pkt_type := 0;
                     pkt_data := [4096; 1; 16; 0; 0; 65536; 0] |})
               (Xocl.set_state ERT_CMD_STATE_ERROR
                  (queued_cmd
                     {| pkt_state := ERT_CMD_STATE_NEW; pkt_extra_cu_masks := 0;
                        pkt_count := 7; pkt_opcode := 2; pkt_type := 0;
                        pkt_data := [4096; 1; 16; 0; 0; 65536; 0] |}))]> m)
          (xocl_submitted xocl_boot
             {| pkt_state := ERT_CMD_STATE_NEW; pkt_extra_cu_masks := 0; pkt_count := 7;
                pkt_opcode := 2; pkt_type := 0;
                pkt_data := [4096; 1; 16; 0; 0; 65536; 0] |})).
Proof.
  apply (configure_validates_command (xabi := Xocl.ert_h_2018_2) _ 0%nat
           (queued_cmd
              {| pkt_state := ERT_CMD_STATE_NEW; pkt_extra_cu_masks := 0; pkt_count := 7;
                 pkt_opcode := 2; pkt_type := 0;
                 pkt_data := [4096; 1; 16; 0; 0; 65536; 0] |}) 1);
    try (vm_compute; reflexivity).
  vm_compute. discriminate.
Defined.

(** ** The zocl configure *)

Section ZoclConfigure.
Context {zabi : Zocl.sched_exec_h}.
Variables (zw : Zocl.world) (q : nat) (zc : Zocl.sched_cmd) (N ssz shift cubase feat : Z).

Hypothesis cmd_at : Zocl.cmds zw !! q = Some zc.
Hypothesis is_configure : Zocl.opcode zc = Zocl.OP_CONFIGURE.
Hypothesis words_of_packet :
  take 5 (pkt_data (Zocl.packet zc)) = [ssz; N; shift; cubase; feat].

Lemma zocl_configure_words :
  cfg_slot_size (Zocl.packet zc) = Ok ssz /\ cfg_num_cus (Zocl.packet zc) = Ok N /\
  cfg_cu_shift (Zocl.packet zc) = Ok shift /\ cfg_cu_base_addr (Zocl.packet zc) = Ok cubase /\
  cfg_features (Zocl.packet zc) = Ok feat.
Proof.
  assert (Hword : forall k v, ([ssz; N; shift; cubase; feat] : list Z) !! k = Some v ->
                              pkt_data (Zocl.packet zc) !! k = Some v).
  { intros k v Hk. rewrite <- words_of_packet in Hk.
    apply lookup_take_Some in Hk. tauto. }
  repeat split; apply arr_get_lookup; try lia.
  - apply (Hword 0%nat). reflexivity.
  - apply (Hword 1%nat). reflexivity.
  - apply (Hword 2%nat). reflexivity.
  - apply (Hword 3%nat). reflexivity.
  - apply (Hword 4%nat). reflexivity.
Qed.

(** X10.  configure() of the zocl scheduler refuses to run while a command
    is pending or while the queue of the scheduler holds anything but
    the configure command: it returns 1 and nothing has changed.
    Otherwise, on an unconfigured core of a device without embedded
    scheduler, it returns 0 and has set the number of slots to
    [CQ_SIZE / slot_size], the number, the shift and the base address of
    the compute units and the number of CU masks from the command, and
    left the number of slot masks as it was.  When the command does not
    ask for the embedded scheduler the core is then configured, with the
    software back-end in polling mode; when the command asks for it, the
    core is left unconfigured and its back-end as it was. *)
Theorem zocl_configure_software :
  (Zocl.pending_cmds zw <> [] \/ length (Zocl.command_queue zw) <> 1%nat ->
   Zocl.configure q zw = Ok (1, zw)) /\
  (Zocl.pending_cmds zw = [] -> length (Zocl.command_queue zw) = 1%nat ->
   Zocl.configured (Zocl.exec zw) = 0 -> Zocl.ert zw = false -> ssz <> 0 ->
   exists e',
     Zocl.configure q zw = Ok (0, Zocl.with_exec e' zw) /\
     zocl_configuration e' =
       (Zocl.CQ_SIZE / ssz, N, shift, cubase, u32 (Z.shiftr (u32 (N - 1)) 5 + 1),
        Zocl.num_slot_masks (Zocl.exec zw),
        (if Z.testbit feat Zocl.cfg_ert_bit then Zocl.polling_mode (Zocl.exec zw) else 1),
        Zocl.cq_interrupt (Zocl.exec zw), Zocl.cu_dma (Zocl.exec zw),
        Zocl.cu_isr (Zocl.exec zw),
        (if Z.testbit feat Zocl.cfg_ert_bit then 0 else 1),
        (if Z.testbit feat Zocl.cfg_ert_bit then Zocl.ops (Zocl.exec zw)
         else Zocl.penguin_ops)) /\
     Zocl.slot_status e' = Zocl.slot_status (Zocl.exec zw) /\
     Zocl.cu_status e' = Zocl.cu_status (Zocl.exec zw) /\
     Zocl.submitted_cmds e' = Zocl.submitted_cmds (Zocl.exec zw)).
Proof.
  destruct zocl_configure_words as (H0 & H1 & H2 & H3 & H4).
  split.
  - intros Hbusy.
    unfold Zocl.configure, bind, Zocl.the_cmd, gets, Zocl.sched_error_on, ret.
    rewrite cmd_at, is_configure, Z.eqb_refl. cbn [negb].
    destruct (decide (Zocl.pending_cmds zw = [])) as [Hp | Hp].
    + rewrite (bool_decide_eq_true_2 _ Hp). cbn [negb].
      destruct Hbusy as [Hb | Hb]; [contradiction |].
      apply Nat.eqb_neq in Hb. rewrite Hb. reflexivity.
    + rewrite (bool_decide_eq_false_2 _ Hp). reflexivity.
  - intros Hp Hq Hconf Hert Hssz.
    cbv [Zocl.configure bind Zocl.the_cmd gets lift ret Zocl.sched_error_on modify
           Zocl.upd_exec].
    rewrite cmd_at, is_configure, Z.eqb_refl. cbn [negb].
    rewrite (bool_decide_eq_true_2 _ Hp). cbn [negb].
    rewrite Hq. cbn [Nat.eqb negb]. rewrite Hconf. cbn [Z.eqb negb].
    rewrite H0. apply Z.eqb_neq in Hssz. rewrite Hssz.
    rewrite H1, H2, H3, Hert. cbn [negb]. rewrite H4.
    unfold Zocl.bitfield.
    destruct (Z.testbit feat Zocl.cfg_ert_bit); cbn [Z.b2z Z.eqb negb];
      eexists; (split; [destruct zw; reflexivity |]); unfold zocl_configuration; cbn;
      rewrite ?Hconf; repeat split; reflexivity.
Qed.

(** X11.  On a device with the embedded scheduler, configure() of the zocl
    scheduler, on an unconfigured core with the configure command alone,
    selects the PS ERT back-end with the polling, command queue
    interrupt, CU DMA and CU interrupt flags of the command, and programs
    the hardware, in this order: the slot size in words
    ([CQ_SIZE / num_slots / 4]), the CU shift, the number of slots, the
    fixed physical addresses of the compute units and of the command
    queue, the number of compute units, the CU DMA flag and the host
    interrupt enable, which is 1 exactly when the command does not ask
    for polling.  A slot size above [CQ_SIZE] makes the number of slots
    zero, and the computation of the slot size divides by zero. *)
Theorem zocl_configure_programs_ert :
  Zocl.pending_cmds zw = [] -> length (Zocl.command_queue zw) = 1%nat ->
  Zocl.configured (Zocl.exec zw) = 0 -> Zocl.ert zw = true -> ssz <> 0 ->
  (Zocl.CQ_SIZE / ssz = 0 -> Zocl.configure q zw = Fault DivideByZero) /\
  (Zocl.CQ_SIZE / ssz <> 0 ->
   exists w',
     Zocl.configure q zw = Ok (0, w') /\
     zocl_configuration (Zocl.exec w') =
       (Zocl.CQ_SIZE / ssz, N, shift, cubase, u32 (Z.shiftr (u32 (N - 1)) 5 + 1),
        Zocl.num_slot_masks (Zocl.exec zw),
        Zocl.bitfield feat Zocl.cfg_polling_bit, Zocl.bitfield feat Zocl.cfg_cq_int_bit,
        Zocl.bitfield feat Zocl.cfg_cu_dma_bit, Zocl.bitfield feat Zocl.cfg_cu_isr_bit,
        1, Zocl.ps_ert_ops) /\
     Zocl.ert_hw w' =
       Zocl.ert_hw zw ++
       [iowrite32 (Zocl.CQ_SIZE / (Zocl.CQ_SIZE / ssz) / 4) Zocl.ERT_CQ_SLOT_SIZE_REG;
        iowrite32 shift Zocl.ERT_CU_OFFSET_REG;
        iowrite32 (Zocl.CQ_SIZE / ssz) Zocl.ERT_CQ_NUM_OF_SLOTS_REG;
        iowrite32 (2172649472 / 4) Zocl.ERT_CU_BASE_ADDR_REG;
        iowrite32 (2149122048 / 4) Zocl.ERT_CQ_BASE_ADDR_REG;
        iowrite32 N Zocl.ERT_NUM_OF_CU_REG;
        iowrite32 (Zocl.bitfield feat Zocl.cfg_cu_dma_bit) Zocl.ERT_CU_DMA_ENABLE;
        iowrite32 (if Z.testbit feat Zocl.cfg_polling_bit then 0 else 1)
          Zocl.ERT_HOST_INT_ENABLE] /\
     Zocl.mmio w' = Zocl.mmio zw /\ Zocl.cmds w' = Zocl.cmds zw).
Proof.
  intros Hp Hq Hconf Hert Hssz.
  destruct zocl_configure_words as (H0 & H1 & H2 & H3 & H4).
  apply Z.eqb_neq in Hssz.
  split; intros Hslots.
  - cbv [Zocl.configure bind Zocl.the_cmd gets lift ret Zocl.sched_error_on modify
           Zocl.upd_exec Zocl.setup_ert_hw Zocl.slot_size].
    rewrite cmd_at, is_configure, Z.eqb_refl. cbn [negb].
    rewrite (bool_decide_eq_true_2 _ Hp). cbn [negb].
    rewrite Hq. cbn [Nat.eqb negb]. rewrite Hconf. cbn [Z.eqb negb].
    rewrite H0, Hssz, H1, H2, H3, Hert. cbn [negb]. rewrite H4.
    cbn [Zocl.exec Zocl.with_exec Zocl.num_slots Zocl.set_num_slots Zocl.set_num_cus
           Zocl.set_cu_shift_offset Zocl.set_cu_base_addr Zocl.set_num_cu_masks
           Zocl.set_ops Zocl.set_polling_mode Zocl.set_cq_interrupt Zocl.set_cu_dma
           Zocl.set_cu_isr].
    rewrite Hslots. reflexivity.
  - apply Z.eqb_neq in Hslots.
    cbv [Zocl.configure bind Zocl.the_cmd gets lift ret Zocl.sched_error_on modify
           Zocl.upd_exec Zocl.setup_ert_hw Zocl.slot_size Zocl.ert_hw_write].
    rewrite cmd_at, is_configure, Z.eqb_refl. cbn [negb].
    rewrite (bool_decide_eq_true_2 _ Hp). cbn [negb].
    rewrite Hq. cbn [Nat.eqb negb]. rewrite Hconf. cbn [Z.eqb negb].
    rewrite H0, Hssz, H1, H2, H3, Hert. cbn [negb]. rewrite H4.
    cbn [Zocl.exec Zocl.with_exec Zocl.num_slots Zocl.set_num_slots Zocl.set_num_cus
           Zocl.set_cu_shift_offset Zocl.set_cu_base_addr Zocl.set_num_cu_masks
           Zocl.set_ops Zocl.set_polling_mode Zocl.set_cq_interrupt Zocl.set_cu_dma
           Zocl.set_cu_isr Zocl.polling_mode].
    rewrite Hslots.
    unfold Zocl.bitfield at 1.
    destruct (Z.testbit feat Zocl.cfg_polling_bit) eqn:Epoll; cbn [Z.b2z Z.eqb];
      eexists; (split; [reflexivity |]); unfold zocl_configuration; cbn;
      unfold Zocl.bitfield; rewrite ?Epoll;
      rewrite <- ?app_assoc; repeat split; reflexivity.
Qed.

End ZoclConfigure.

(** X10, witness: the configure command of scenario 1 on the zocl
    scheduler of a device without embedded scheduler. *)
Lemma zocl_configure_software_witness :
  exists e',
    Zocl.configure (abi := Zocl.sched_exec_h_2018_2) 0 zocl_first_configure
      = Ok (0, Zocl.with_exec e' zocl_first_configure) /\
    zocl_configuration e' = (32, 1, 16, 0, 1, 1, 1, 0, 0, 0, 1, Zocl.penguin_ops).
Proof.
  destruct (zocl_configure_software (zabi := Zocl.sched_exec_h_2018_2)
              zocl_first_configure 0%nat
              (zocl_configure_cmd (configure_packet 4096 16 0 0 [65536]))
              1 4096 16 0 0 ltac:(reflexivity) ltac:(reflexivity) ltac:(reflexivity))
    as [_ Haccept].
  destruct (Haccept ltac:(reflexivity) ltac:(reflexivity) ltac:(reflexivity)
              ltac:(reflexivity) ltac:(discriminate))
    as (e' & Hrun & Hconf & _).
  exists e'. split; [exact Hrun | exact Hconf].
Defined.

(** X11, witness: a configure command for slots of 4096 bytes, one compute
    unit and CU DMA, on a device with the embedded scheduler. *)
Lemma zocl_configure_programs_ert_witness :
  exists w',
    Zocl.configure (abi := Zocl.sched_exec_h_2018_2) 0 zocl_ert_first_configure
      = Ok (0, w') /\
    Zocl.ert_hw w' =
      [iowrite32 1024 0; iowrite32 16 4; iowrite32 32 8; iowrite32 543162368 12;
       iowrite32 537280512 16; iowrite32 1 20; iowrite32 1 24; iowrite32 1 256].
Proof.
  destruct (zocl_configure_programs_ert (zabi := Zocl.sched_exec_h_2018_2)
              zocl_ert_first_configure 0%nat
              (zocl_configure_cmd (configure_packet 4096 16 0 4 [65536]))
              1 4096 16 0 4 ltac:(reflexivity) ltac:(reflexivity) ltac:(reflexivity)
              ltac:(reflexivity) ltac:(reflexivity) ltac:(reflexivity) ltac:(reflexivity)
              ltac:(discriminate))
    as [_ Haccept].
  destruct (Haccept ltac:(discriminate)) as (w' & Hrun & _ & Hhw & _).
  exists w'. split; [exact Hrun | exact Hhw].
Defined.

(** ** Commands of a client that is closing the device *)

Lemma cleanup_exec_device (p : nat) (w : Xocl.world) (xc : Xocl.xocl_cmd) :
  Xocl.cmds w !! p = Some xc ->
  is_Some (Xocl.clients w !! Xocl.client xc) ->
  exists w',
    Xocl.cleanup_exec p w = Ok (tt, w') /\
    recycled p w w' /\ not_notified w w' /\
    Xocl.cmds w' = Xocl.cmds w /\ Xocl.exec w' = Xocl.exec w /\
    Xocl.mmio w' = Xocl.mmio w /\ Xocl.bo_active w' = Xocl.bo_active w.
Proof.
  intros Hc [cl Hcl].
  unfold Xocl.cleanup_exec, Xocl.recycle_cmd, Xocl.upd_client.
  cbv [bind Xocl.the_cmd gets modify ret Xocl.the_client]. rewrite Hc.
  cbn [Xocl.clients Xocl.set_xdev_execs Xocl.set_lists]. rewrite Hcl.
  eexists. split; [reflexivity |].
  split; [repeat split |]. split; [| repeat split; reflexivity].
  split; [reflexivity |]. intros k. cbn.
  destruct (decide (k = Xocl.client xc)) as [-> | Hne].
  - rewrite lookup_insert_eq, Hcl. reflexivity.
  - rewrite lookup_insert_ne by congruence. reflexivity.
Qed.

Section AbortingClient.
Context {xabi : Xocl.ert_h}.
Variables (w : Xocl.world) (p : nat) (xc : Xocl.xocl_cmd) (cl : Xocl.client_ctx).

Hypothesis cmd_at : Xocl.cmds w !! p = Some xc.
Hypothesis client_at : Xocl.clients w !! Xocl.client xc = Some cl.
Hypothesis aborting : Xocl.abort cl <> 0.

(** X12.  When the client of a command is closing the device (its abort
    flag is set), the worker of the xocl scheduler leaves a running
    command as it is, and takes any other command out of service in one
    pass over it: the command goes to the Abort state, in the command and
    in its packet, and is recycled, without a write to the device, without
    a change to the exec core and without a notification of the hosts. *)
Theorem aborting_client_commands :
  (Xocl.state xc = ERT_CMD_STATE_RUNNING ->
   Xocl.update_cmd_state p w = Ok (ERT_CMD_STATE_RUNNING, w)) /\
  (Xocl.state xc <> ERT_CMD_STATE_RUNNING ->
   exists w',
     (Xocl.advance_cmd p ;;; Xocl.retire_cmd p) w = Ok (tt, w') /\
     Xocl.cmds w' =
       <[p := Xocl.set_packet (set_pkt_state ERT_CMD_STATE_ABORT (Xocl.packet xc))
                (Xocl.set_state ERT_CMD_STATE_ABORT xc)]> (Xocl.cmds w) /\
     Xocl.exec w' = Xocl.exec w /\ Xocl.mmio w' = Xocl.mmio w /\
     recycled p w w' /\ not_notified w w').
Proof.
  split.
  - intros Hrun.
    unfold Xocl.update_cmd_state, bind, Xocl.the_cmd, ret.
    rewrite cmd_at, Hrun. cbn [state_eqb]. rewrite cmd_at, Hrun. reflexivity.
  - intros Hstate.
    assert (Hneq : state_eqb (Xocl.state xc) ERT_CMD_STATE_RUNNING = false)
      by (destruct (Xocl.state xc); try reflexivity; contradiction).
    apply Z.eqb_neq in aborting.
    set (xa := Xocl.set_packet (set_pkt_state ERT_CMD_STATE_ABORT (Xocl.packet xc))
                 (Xocl.set_state ERT_CMD_STATE_ABORT xc)).
    set (w1 := Xocl.set_cmds (fun m => <[p := xa]> m) w).
    assert (Hc1 : Xocl.cmds w1 !! p = Some xa) by (subst w1; cbn; apply lookup_insert_eq).
    assert (Hupd : Xocl.update_cmd_state p w = Ok (ERT_CMD_STATE_ABORT, w1)).
    { unfold Xocl.update_cmd_state, Xocl.set_cmd_state, Xocl.upd_cmd.
      cbv [bind Xocl.the_cmd Xocl.the_client modify ret].
      rewrite cmd_at, Hneq, client_at, aborting. cbn [negb]. rewrite cmd_at.
      fold xa. fold w1. rewrite Hc1. reflexivity. }
    assert (Hadv : Xocl.advance_cmd p w = Ok (tt, w1)).
    { unfold Xocl.advance_cmd. rewrite (bind_Ok _ _ _ _ _ Hupd).
      unfold Xocl.when_state. cbv [bind Xocl.the_cmd ret]. rewrite Hc1.
      cbn [state_eqb Xocl.state xa Xocl.set_packet Xocl.set_state]. rewrite Hc1.
      reflexivity. }
    destruct (cleanup_exec_device p w1 xa Hc1 ltac:(subst w1; cbn; eauto))
      as (w' & Hclean & Hrec & Hnot & Hcmds & Hexec & Hmmio & _).
    exists w'. split; [| split; [| split; [| split; [| split]]]].
    + rewrite (bind_Ok _ _ _ _ _ Hadv).
      unfold Xocl.retire_cmd, Xocl.when_state. cbv [bind Xocl.the_cmd ret]. rewrite Hc1.
      cbn [state_eqb Xocl.state xa Xocl.set_packet Xocl.set_state]. rewrite Hc1.
      cbn [state_eqb Xocl.state xa Xocl.set_packet Xocl.set_state]. rewrite Hc1.
      cbn [state_eqb Xocl.state xa Xocl.set_packet Xocl.set_state].
      unfold Xocl.abort_to_free, Xocl.complete_to_free. exact Hclean.
    + rewrite Hcmds. reflexivity.
    + rewrite Hexec. reflexivity.
    + rewrite Hmmio. reflexivity.
    + exact Hrec.
    + exact Hnot.
Qed.

End AbortingClient.

(** X12, witness: the start command of scenario 2 on the queue, when its
    client is closing the device. *)
Lemma aborting_client_commands_witness :
  exists w',
    (Xocl.advance_cmd (abi := Xocl.ert_h_2018_2) 0 ;;; Xocl.retire_cmd 0)
      (Xocl.set_clients
         (fun m => <[0%nat := {| Xocl.trigger := 0; Xocl.abort := 1;
                                 Xocl.outstanding_execs := 1 |}]> m) xocl_queued)
    = Ok (tt, w') /\
    Xocl.state <$> Xocl.cmds w' !! 0%nat = Some ERT_CMD_STATE_ABORT /\
    Xocl.exec w' = Xocl.exec xocl_queued /\ Xocl.mmio w' = Xocl.mmio xocl_queued.
Proof.
  destruct (aborting_client_commands (xabi := Xocl.ert_h_2018_2)
              (Xocl.set_clients
                 (fun m => <[0%nat := {| Xocl.trigger := 0; Xocl.abort := 1;
                                         Xocl.outstanding_execs := 1 |}]> m) xocl_queued)
              0%nat xocl_start_cmd
              {| Xocl.trigger := 0; Xocl.abort := 1; Xocl.outstanding_execs := 1 |}
              ltac:(vm_compute; reflexivity) ltac:(vm_compute; reflexivity)
              ltac:(discriminate))
    as [_ Habort].
  destruct (Habort ltac:(discriminate)) as (w' & Hrun & Hcmds & Hexec & Hmmio & _).
  exists w'. split; [exact Hrun |]. split; [| split; [exact Hexec | exact Hmmio]].
  rewrite Hcmds. rewrite lookup_insert_eq. reflexivity.
Defined.

(** ** Dependencies between commands *)

Section Dependency.
Context {xabi : Xocl.ert_h}.
Variables (w : Xocl.world) (p : nat) (pc : Xocl.xocl_cmd) (dbo : nat).

Hypothesis cmd_at : Xocl.cmds w !! p = Some pc.
Hypothesis one_dependency : Xocl.wait_count pc = 1.
Hypothesis dependency : Xocl.chain pc !! 0%nat = Some (Some dbo).

(** The command [p] once chain_dependencies() has taken its dependency
    off [deps]. *)
Local Abbreviation pc' := (Xocl.set_chain (<[0%nat := None]> (Xocl.chain pc)) pc).

Lemma chain_dependencies_start :
  Xocl.chain_dependencies p w
  = (chain_to <- Xocl.the_active dbo ;;
     cleared <- lift (arr_set (Xocl.chain pc) 0 None) ;;
     Xocl.upd_cmd p (Xocl.set_chain cleared) ;;;
     match chain_to with
     | None =>
         Xocl.upd_cmd p (fun c => Xocl.set_wait_count (u32 (Xocl.wait_count c - 1)) c) ;;;
         ret 0
     | Some q =>
         qc <- Xocl.the_cmd q ;;
         if MAX_DEPS <=? Xocl.chain_count qc then ret 1
         else
           ch <- lift (arr_set (Xocl.chain qc) (Xocl.chain_count qc) (Some p)) ;;
           Xocl.upd_cmd q (fun c => Xocl.set_chain_count (u32 (Xocl.chain_count qc + 1))
                                      (Xocl.set_chain ch c)) ;;;
           ret 0
     end) w.
Proof.
  unfold Xocl.chain_dependencies.
  rewrite (bind_Ok _ _ w w pc) by (unfold Xocl.the_cmd; rewrite cmd_at; reflexivity).
  rewrite one_dependency. change (to_int 1) with 1. change (seqZ 0 1) with [0].
  cbn [Xocl.chain_dependencies_loop].
  rewrite (bind_Ok _ _ w w pc) by (unfold Xocl.the_cmd; rewrite cmd_at; reflexivity).
  rewrite (bind_Ok _ _ w w (Some dbo))
    by (unfold lift; rewrite (arr_get_lookup _ _ (Some dbo)) by (lia || exact dependency);
        reflexivity).
  reflexivity.
Qed.

(** X13.  A command with one dependency, when the worker queues it.  If
    the command that used the buffer object it depends on has completed
    (the buffer object has no active command), chain_dependencies()
    returns 0 and the wait count of the command is 0: it can start.  If
    that command [q] is active, with room in its chain,
    chain_dependencies() returns 0 with the command appended to the
    chain of [q] and still waiting for one command; trigger_chain(q),
    which runs when [q] completes, then takes it off the chain, sets
    its wait count to 0 and starts it with queued_to_running() before it
    goes on to the commands chained before it.  If the chain of [q] is
    full, chain_dependencies() returns 1 and no chain has changed. *)
Theorem one_dependency_is_chained_and_triggered :
  (Xocl.bo_active w !! dbo = Some None ->
   Xocl.chain_dependencies p w
   = Ok (0, Xocl.set_cmds (fun m => <[p := Xocl.set_wait_count 0 pc']> m)
              (Xocl.set_cmds (fun m => <[p := pc']> m) w))) /\
  (forall q qc,
     Xocl.bo_active w !! dbo = Some (Some q) -> q <> p ->
     Xocl.cmds w !! q = Some qc ->
     (MAX_DEPS <= Xocl.chain_count qc ->
      Xocl.chain_dependencies p w = Ok (1, Xocl.set_cmds (fun m => <[p := pc']> m) w)) /\
     (0 <= Xocl.chain_count qc < MAX_DEPS ->
      Xocl.chain_count qc < Z.of_nat (length (Xocl.chain qc)) ->
      let k := Xocl.chain_count qc in
      let qc' := Xocl.set_chain_count (k + 1)
                   (Xocl.set_chain (<[Z.to_nat k := Some p]> (Xocl.chain qc)) qc) in
      let w1 := Xocl.set_cmds (fun m => <[q := qc']> m)
                  (Xocl.set_cmds (fun m => <[p := pc']> m) w) in
      Xocl.chain_dependencies p w = Ok (0, w1) /\
      Xocl.trigger_chain q w1
      = (Xocl.queued_to_running p ;;; Xocl.trigger_chain_loop (Z.to_nat k) q ;;; ret 0)
          (Xocl.set_cmds (fun m => <[p := Xocl.set_wait_count 0 pc']> m)
             (Xocl.set_cmds (fun m => <[q := Xocl.set_chain_count k qc']> m) w1)))).
Proof.
  assert (Hlen : (0 < length (Xocl.chain pc))%nat)
    by (eapply lookup_lt_Some; exact dependency).
  assert (Hclear : arr_set (Xocl.chain pc) 0 None = Ok (<[0%nat := None]> (Xocl.chain pc)))
    by (apply (arr_set_in (Xocl.chain pc) 0 None); lia).
  split.
  - intros Hdone. rewrite chain_dependencies_start.
    cbv [bind Xocl.the_active lift Xocl.upd_cmd Xocl.the_cmd modify ret].
    rewrite Hdone, Hclear, cmd_at. cbn [Xocl.cmds Xocl.set_cmds].
    rewrite lookup_insert_eq. cbn [Xocl.cmds Xocl.set_cmds].
    cbn [Xocl.wait_count Xocl.set_chain]. rewrite one_dependency. reflexivity.
  - intros q qc Hactive Hqp Hq.
    assert (Hq1 : Xocl.cmds (Xocl.set_cmds (fun m => <[p := pc']> m) w) !! q = Some qc).
    { cbn. rewrite lookup_insert_ne by congruence. exact Hq. }
    assert (Hbegin :
      Xocl.chain_dependencies p w =
      (if MAX_DEPS <=? Xocl.chain_count qc then ret 1
       else
         ch <- lift (arr_set (Xocl.chain qc) (Xocl.chain_count qc) (Some p)) ;;
         Xocl.upd_cmd q (fun c => Xocl.set_chain_count (u32 (Xocl.chain_count qc + 1))
                                    (Xocl.set_chain ch c)) ;;;
         ret 0) (Xocl.set_cmds (fun m => <[p := pc']> m) w)).
    { rewrite chain_dependencies_start.
      rewrite (bind_Ok _ _ w w (Some q))
        by (unfold Xocl.the_active; rewrite Hactive; reflexivity).
      rewrite (bind_Ok _ _ w w (<[0%nat := None]> (Xocl.chain pc)))
        by (unfold lift; rewrite Hclear; reflexivity).
      rewrite (bind_Ok _ _ w (Xocl.set_cmds (fun m => <[p := pc']> m) w) tt)
        by (unfold Xocl.upd_cmd, bind, Xocl.the_cmd, modify; rewrite cmd_at; reflexivity).
      rewrite (bind_Ok _ _ _ _ qc)
        by (unfold Xocl.the_cmd; rewrite Hq1; reflexivity).
      reflexivity. }
    split.
    + intros Hfull. rewrite Hbegin.
      destruct (MAX_DEPS <=? Xocl.chain_count qc) eqn:E; [reflexivity |].
      apply Z.leb_gt in E. lia.
    + intros Hroom Hstore k qc' w1.
      assert (Hchain : Xocl.chain_dependencies p w = Ok (0, w1)).
      { rewrite Hbegin.
        destruct (MAX_DEPS <=? Xocl.chain_count qc) eqn:E; [apply Z.leb_le in E; lia |].
        cbv [bind lift Xocl.upd_cmd Xocl.the_cmd modify ret].
        rewrite arr_set_in by lia. rewrite Hq1.
        unfold MAX_DEPS in Hroom. rewrite u32_small by lia. reflexivity. }
      split; [exact Hchain |].
      assert (Hq2 : Xocl.cmds w1 !! q = Some qc') by (subst w1; cbn; apply lookup_insert_eq).
      unfold Xocl.trigger_chain.
      rewrite (bind_Ok _ _ w1 w1 qc') by (unfold Xocl.the_cmd; rewrite Hq2; reflexivity).
      change (Xocl.chain_count qc') with (k + 1).
      replace (Z.to_nat (k + 1)) with (S (Z.to_nat k)) by (subst k; lia).
      set (w2 := Xocl.set_cmds (fun m => <[q := Xocl.set_chain_count k qc']> m) w1).
      set (w3 := Xocl.set_cmds (fun m => <[p := Xocl.set_wait_count 0 pc']> m) w2).
      assert (Hloop : Xocl.trigger_chain_loop (S (Z.to_nat k)) q w1
                      = (Xocl.queued_to_running p ;;; Xocl.trigger_chain_loop (Z.to_nat k) q) w3).
      { cbn [Xocl.trigger_chain_loop].
        rewrite (bind_Ok _ _ w1 w1 qc') by (unfold Xocl.the_cmd; rewrite Hq2; reflexivity).
        change (Xocl.chain_count qc') with (k + 1).
        replace (k + 1 =? 0) with false by (symmetry; apply Z.eqb_neq; subst k; lia).
        replace (u32 (k + 1 - 1)) with k
          by (unfold MAX_DEPS in Hroom; rewrite u32_small by (subst k; lia); lia).
        rewrite (bind_Ok _ _ w1 w2 tt)
          by (unfold Xocl.upd_cmd, bind, Xocl.the_cmd, modify; rewrite Hq2; reflexivity).
        rewrite (bind_Ok _ _ w2 w2 (Some p)).
        2:{ unfold lift. change (Xocl.chain qc')
              with (<[Z.to_nat k := Some p]> (Xocl.chain qc)).
            rewrite (arr_get_lookup _ _ (Some p)); [reflexivity | subst k; lia |].
            apply list_lookup_insert_eq. subst k. lia. }
        assert (Hp2 : Xocl.cmds w2 !! p = Some pc').
        { subst w2 w1. cbn. rewrite !lookup_insert_ne by congruence.
          apply lookup_insert_eq. }
        rewrite (bind_Ok _ _ w2 w2 pc') by (unfold Xocl.the_cmd; rewrite Hp2; reflexivity).
        change (Xocl.wait_count pc') with (Xocl.wait_count pc). rewrite one_dependency.
        rewrite (bind_Ok _ _ w2 w2 false) by reflexivity.
        change (u32 (1 - 1)) with 0.
        rewrite (bind_Ok _ _ w2 w3 tt)
          by (unfold Xocl.upd_cmd, bind, Xocl.the_cmd, modify; rewrite Hp2; reflexivity).
        cbn [Z.eqb]. unfold bind.
        destruct (Xocl.queued_to_running p w3) as [[r s1] | f]; reflexivity. }
      unfold bind at 1. rewrite Hloop. unfold bind.
      destruct (Xocl.queued_to_running p w3) as [[r s1] | f]; [| reflexivity].
      destruct (Xocl.trigger_chain_loop (Z.to_nat k) q s1) as [[[] s2] | f]; reflexivity.
Qed.

End Dependency.

Lemma one_dependency_is_chained_and_triggered_witness :
  let w := xocl_dependent_pending in
  let pc := xocl_cmd_at 1 w in
  let qc := xocl_cmd_at 0 w in
  let pc' := Xocl.set_chain (<[0%nat := None]> (Xocl.chain pc)) pc in
  let k := Xocl.chain_count qc in
  let qc' := Xocl.set_chain_count (k + 1)
               (Xocl.set_chain (<[Z.to_nat k := Some 1%nat]> (Xocl.chain qc)) qc) in
  let w1 := Xocl.set_cmds (fun m => <[0%nat := qc']> m)
              (Xocl.set_cmds (fun m => <[1%nat := pc']> m) w) in
  Xocl.chain_dependencies 1 w = Ok (0, w1) /\
  Xocl.trigger_chain (abi := Xocl.ert_h_2018_2) 0 w1
  = (Xocl.queued_to_running (abi := Xocl.ert_h_2018_2) 1 ;;;
     Xocl.trigger_chain_loop (abi := Xocl.ert_h_2018_2) (Z.to_nat k) 0 ;;; ret 0)
      (Xocl.set_cmds (fun m => <[1%nat := Xocl.set_wait_count 0 pc']> m)
         (Xocl.set_cmds (fun m => <[0%nat := Xocl.set_chain_count k qc']> m) w1)).
Proof.
  intros w pc qc pc' k qc' w1.
  apply (proj2 (proj2 (one_dependency_is_chained_and_triggered
                         (xabi := Xocl.ert_h_2018_2) w 1 pc 1
                         ltac:(vm_compute; reflexivity) ltac:(vm_compute; reflexivity)
                         ltac:(vm_compute; reflexivity))
                  0%nat qc
                  ltac:(vm_compute; reflexivity) ltac:(discriminate)
                  ltac:(vm_compute; reflexivity))).
  - vm_compute. split; [discriminate | reflexivity].
  - vm_compute. reflexivity.
Defined.

(** ** Notifications and the poll entry of a client *)

Section Polling.
Variables (w : Xocl.world) (p k : nat) (cl : Xocl.client_ctx) (POLLIN : Z).

Hypothesis clients_once : NoDup (Xocl.ctx_list w).
Hypothesis clients_alive : forall j, j ∈ Xocl.ctx_list w -> is_Some (Xocl.clients w !! j).
Hypothesis client_at : Xocl.clients w !! k = Some cl.
Hypothesis client_listed : k ∈ Xocl.ctx_list w.

Lemma notify_host_then_poll_client_run :
  (Xocl.notify_host p ;;; Xocl.poll_client POLLIN k) w
  = Xocl.poll_client POLLIN k
      (Xocl.set_poll_wakeups S (Xocl.set_clients (triggered (Xocl.ctx_list w)) w)) /\
  Xocl.clients (Xocl.set_poll_wakeups S (Xocl.set_clients (triggered (Xocl.ctx_list w)) w)) !! k
  = Some (Xocl.set_trigger (atomic_inc (Xocl.trigger cl)) cl).
Proof.
  split.
  - unfold bind at 1. rewrite (notify_host_run p w clients_alive). reflexivity.
  - cbn. rewrite triggered_lookup by exact clients_once.
    rewrite bool_decide_eq_true_2 by exact client_listed.
    rewrite client_at. reflexivity.
Qed.

(** X14.  poll_client() on a client whose trigger counter is not
    positive returns 0 and changes nothing.  After notify_host(), on a
    device whose context list holds its clients once each, poll_client()
    of a client of the list returns POLLIN and leaves that client as it
    was before the notification (counter from 0 to 2^31 - 2), while the
    counters of the other clients of the list stay one up and the waiters
    have been woken once.  At the counter 2^31 - 1 the notification wraps
    the counter to -2^31 and poll_client() returns 0: the notification is
    not seen. *)
Theorem notify_host_then_poll_client :
  (Xocl.trigger cl <= 0 -> Xocl.poll_client POLLIN k w = Ok (0, w)) /\
  (0 <= Xocl.trigger cl < 2 ^ 31 - 1 ->
   exists w',
     (Xocl.notify_host p ;;; Xocl.poll_client POLLIN k) w = Ok (u32 POLLIN, w') /\
     Xocl.clients w' !! k = Some cl /\
     (forall j, j <> k -> j ∈ Xocl.ctx_list w ->
        Xocl.trigger <$> Xocl.clients w' !! j
        = (fun c => atomic_inc (Xocl.trigger c)) <$> Xocl.clients w !! j) /\
     Xocl.poll_wakeups w' = S (Xocl.poll_wakeups w)) /\
  (Xocl.trigger cl = 2 ^ 31 - 1 ->
   exists w',
     (Xocl.notify_host p ;;; Xocl.poll_client POLLIN k) w = Ok (0, w') /\
     Xocl.trigger <$> Xocl.clients w' !! k = Some (- 2 ^ 31)).
Proof.
  destruct notify_host_then_poll_client_run as [Hrun Hk].
  split; [| split].
  - intros Hle. unfold Xocl.poll_client, bind, Xocl.the_client. rewrite client_at.
    replace (0 <? Xocl.trigger cl) with false by (symmetry; apply Z.ltb_ge; exact Hle).
    reflexivity.
  - intros Hrange. rewrite Hrun.
    assert (Hinc : atomic_inc (Xocl.trigger cl) = Xocl.trigger cl + 1).
    { unfold atomic_inc. apply to_int_small. lia. }
    unfold Xocl.poll_client, Xocl.upd_client, bind, Xocl.the_client, modify, ret.
    rewrite Hk. cbn [Xocl.trigger Xocl.set_trigger]. rewrite Hinc.
    replace (0 <? Xocl.trigger cl + 1) with true by (symmetry; apply Z.ltb_lt; lia).
    rewrite ?Hk. cbn [Xocl.trigger Xocl.set_trigger]. rewrite ?Hinc.
    eexists. split; [reflexivity |].
    assert (Hdec : atomic_dec (Xocl.trigger cl + 1) = Xocl.trigger cl).
    { unfold atomic_dec. replace (Xocl.trigger cl + 1 - 1) with (Xocl.trigger cl) by lia.
      apply to_int_small. lia. }
    split; [| split].
    + cbn [Xocl.clients Xocl.set_clients]. rewrite lookup_insert_eq, Hdec.
      destruct cl; reflexivity.
    + intros j Hj Hin. cbn. rewrite lookup_insert_ne by congruence.
      rewrite triggered_lookup by exact clients_once.
      rewrite bool_decide_eq_true_2 by exact Hin.
      destruct (Xocl.clients w !! j); reflexivity.
    + reflexivity.
  - intros Hmax. rewrite Hrun.
    unfold Xocl.poll_client, bind, Xocl.the_client. rewrite Hk.
    cbn [Xocl.trigger Xocl.set_trigger]. rewrite Hmax.
    eexists. split; [reflexivity |].
    rewrite Hk. cbn. rewrite Hmax. reflexivity.
Qed.

End Polling.

Lemma notify_host_then_poll_client_witness :
  let w := after (Xocl.poll_client 1 0) xocl_started in
  Xocl.poll_client 1 0 w = Ok (0, w) /\
  exists w',
    (Xocl.notify_host 0 ;;; Xocl.poll_client 1 0) w = Ok (u32 1, w') /\
    Xocl.clients w' !! 0%nat
    = Some {| Xocl.trigger := 0; Xocl.abort := 0; Xocl.outstanding_execs := 1 |}.
Proof.
  intros w.
  pose proof (notify_host_then_poll_client w 0 0
                {| Xocl.trigger := 0; Xocl.abort := 0; Xocl.outstanding_execs := 1 |} 1
                ltac:(vm_compute; repeat constructor; set_solver)
                ltac:(vm_compute; intros j Hj; apply list_elem_of_singleton in Hj;
                      subst j; eexists; reflexivity)
                ltac:(vm_compute; reflexivity)
                ltac:(vm_compute; set_solver)) as [H0 [H1 _]].
  split; [apply H0; vm_compute; discriminate |].
  destruct (H1 ltac:(vm_compute; split; [discriminate | reflexivity])) as [w' [Hr [Hc _]]].
  exists w'. split; [exact Hr | exact Hc].
Defined.

(** ** Completion by the status register *)

Lemma for_each_skip {S A : Type} (l : list A) (f : A -> M S unit) (s : S) :
  (forall y, y ∈ l -> f y s = Ok (tt, s)) -> for_each l f s = Ok (tt, s).
Proof.
  induction l as [| x l IH]; intros Hf; cbn [for_each]; [reflexivity |].
  rewrite (bind_Ok _ _ s s tt) by (apply Hf; left).
  apply IH. intros y Hy. apply Hf. right. exact Hy.
Qed.

Lemma for_each_app {S A : Type} (l1 l2 : list A) (f : A -> M S unit) (s : S) :
  for_each (l1 ++ l2) f s = (for_each l1 f ;;; for_each l2 f) s.
Proof.
  revert s. induction l1 as [| x l1 IH]; intros s; cbn [for_each app].
  - reflexivity.
  - unfold bind. destruct (f x s) as [[[] s1] | e]; [| reflexivity].
    rewrite IH. reflexivity.
Qed.

Section StatusRegister.
Context {xabi : Xocl.ert_h}.
Variables (w : Xocl.world) (mask_idx b : Z).

Hypothesis mask_idx_small : 0 <= mask_idx < 2 ^ 27.
Hypothesis bit_of_word : 0 <= b < 32.

(** X15.  mark_mask_complete() on the status word [mask] of the mask
    index [mask_idx].  The word 0 does nothing.  A word whose lowest set
    bit is [b] needs a submitted command in the slot [32 * mask_idx + b]:
    if the slot is empty, the null pointer of [submitted_cmds] is handed to
    mark_cmd_complete(), which dereferences it.  A word with the one bit
    [b] set, with the command [q] in that slot, does what
    mark_cmd_complete(q) does. *)
Theorem mark_mask_complete_by_bit :
  Xocl.mark_mask_complete 0 mask_idx w = Ok (tt, w) /\
  (forall mask,
     Z.testbit mask b = true ->
     (forall j, 0 <= j < b -> Z.testbit mask j = false) ->
     Xocl.submitted_cmds (Xocl.exec w) !! Z.to_nat (32 * mask_idx + b) = Some None ->
     Xocl.mark_mask_complete mask mask_idx w = Fault NullPointer) /\
  (forall q,
     Xocl.submitted_cmds (Xocl.exec w) !! Z.to_nat (32 * mask_idx + b) = Some (Some q) ->
     Xocl.mark_mask_complete (bit b) mask_idx w = Xocl.mark_cmd_complete q w).
Proof.
  assert (Hidx : u32 (Z.shiftl mask_idx 5) + b = 32 * mask_idx + b).
  { rewrite Z.shiftl_mul_pow2 by lia. change (2 ^ 5) with 32.
    rewrite u32_small by lia. lia. }
  assert (Hsplit : seqZ 0 32 = seqZ 0 b ++ b :: seqZ (b + 1) (32 - b - 1)).
  { replace 32 with (b + (32 - b)) at 1 by lia. rewrite seqZ_app by lia.
    rewrite Z.add_0_l. f_equal. rewrite seqZ_cons by lia.
    replace (Z.succ b) with (b + 1) by lia.
    replace (Z.pred (32 - b)) with (32 - b - 1) by lia. reflexivity. }
  split; [reflexivity |]. split.
  - intros mask Hb Hlow Hslot. unfold Xocl.mark_mask_complete.
    destruct (mask =? 0) eqn:E.
    { apply Z.eqb_eq in E. subst mask. rewrite Z.bits_0 in Hb. discriminate. }
    rewrite Hsplit, for_each_app.
    rewrite (bind_Ok _ _ w w tt).
    2:{ apply for_each_skip. intros j Hj. apply elem_of_seqZ in Hj.
        rewrite Hlow by lia. reflexivity. }
    cbn [for_each]. rewrite Hb, Hidx.
    unfold bind, gets, lift.
    rewrite (arr_get_lookup _ _ None) by (lia || exact Hslot). reflexivity.
  - intros q Hslot. unfold Xocl.mark_mask_complete.
    assert (Hbit : forall j, 0 <= j -> Z.testbit (bit b) j = (b =? j)).
    { intros j Hj. unfold bit. rewrite Z.shiftl_1_l. apply Z.pow2_bits_eqb. lia. }
    destruct (bit b =? 0) eqn:E.
    { apply Z.eqb_eq in E. pose proof (Hbit b ltac:(lia)) as Hbb.
      rewrite E, Z.bits_0, Z.eqb_refl in Hbb. discriminate. }
    rewrite Hsplit, for_each_app.
    rewrite (bind_Ok _ _ w w tt).
    2:{ apply for_each_skip. intros j Hj. apply elem_of_seqZ in Hj.
        rewrite Hbit by lia.
        replace (b =? j) with false by (symmetry; apply Z.eqb_neq; lia). reflexivity. }
    cbn [for_each]. rewrite Hbit, Z.eqb_refl, Hidx by lia. cbv beta iota.
    unfold bind at 1.
    rewrite (bind_Ok _ _ w w (Xocl.exec w)) by reflexivity.
    rewrite (bind_Ok _ _ w w (Some q))
      by (unfold lift; rewrite (arr_get_lookup _ _ (Some q)) by (lia || exact Hslot);
          reflexivity).
    destruct (Xocl.mark_cmd_complete q w) as [[[] s1] | e]; [| reflexivity].
    apply for_each_skip. intros j Hj. apply elem_of_seqZ in Hj.
    rewrite Hbit by lia.
    replace (b =? j) with false by (symmetry; apply Z.eqb_neq; lia). reflexivity.
Qed.

End StatusRegister.

Lemma mark_mask_complete_by_bit_witness :
  Xocl.mark_mask_complete (abi := Xocl.ert_h_2018_2) 2 0 xocl_started = Fault NullPointer /\
  Xocl.mark_mask_complete (abi := Xocl.ert_h_2018_2) (bit 0) 0 xocl_started
  = Xocl.mark_cmd_complete (abi := Xocl.ert_h_2018_2) 0 xocl_started.
Proof.
  split.
  - apply (proj1 (proj2 (mark_mask_complete_by_bit (xabi := Xocl.ert_h_2018_2)
                           xocl_started 0 1 ltac:(lia) ltac:(lia))) 2).
    + reflexivity.
    + intros j Hj. assert (j = 0) as -> by lia. reflexivity.
    + vm_compute. reflexivity.
  - apply (proj2 (proj2 (mark_mask_complete_by_bit (xabi := Xocl.ert_h_2018_2)
                           xocl_started 0 0 ltac:(lia) ltac:(lia))) 0%nat).
    vm_compute. reflexivity.
Defined.

(** ** Queueing the pending commands *)

Lemma remove_head (p : nat) (l : list nat) :
  p ∉ l -> Xocl.remove p (p :: l) = l.
Proof.
  intros Hp. unfold Xocl.remove. rewrite filter_cons_False by (intros H; apply H; reflexivity).
  induction l as [| x l IH]; [reflexivity |].
  apply not_elem_of_cons in Hp as [Hx Hl].
  rewrite filter_cons_True by congruence. f_equal. apply IH. exact Hl.
Qed.

Section Queueing.

(** One round of the loop of scheduler_queue_cmds(), on the head of the
    pending list: the rest of the loop is the function on the world the
    round leaves. *)
Lemma scheduler_queue_cmds_step (p : nat) (l : list nat) (c : Xocl.xocl_cmd)
    (w : Xocl.world) :
  Xocl.pending_cmds w = p :: l -> p ∉ l ->
  Xocl.cmds w !! p = Some c -> Xocl.wait_count c = 0 ->
  is_Some (Xocl.bo_active w !! Xocl.bo c) ->
  1 <= Xocl.num_pending w < 2 ^ 31 ->
  exists w1,
    Xocl.scheduler_queue_cmds w = Xocl.scheduler_queue_cmds w1 /\
    Xocl.command_queue w1 = Xocl.command_queue w ++ [p] /\
    Xocl.pending_cmds w1 = l /\
    Xocl.num_pending w1 = Xocl.num_pending w - 1 /\
    Xocl.cmds w1 = <[p := Xocl.set_state ERT_CMD_STATE_QUEUED c]> (Xocl.cmds w) /\
    Xocl.bo_active w1 = <[Xocl.bo c := Some p]> (Xocl.bo_active w) /\
    obs_queueing w1 = obs_queueing w.
Proof.
  intros Hpend Hp Hc Hwait [a Ha] Hnum.
  unfold Xocl.scheduler_queue_cmds.
  rewrite (bind_Ok _ _ w w (p :: l)) by (unfold gets; rewrite Hpend; reflexivity).
  cbn [for_each].
  set (body := fun p : nat => _).
  assert (Hbody : exists w1,
    body p w = Ok (tt, w1) /\
    Xocl.command_queue w1 = Xocl.command_queue w ++ [p] /\
    Xocl.pending_cmds w1 = l /\
    Xocl.num_pending w1 = Xocl.num_pending w - 1 /\
    Xocl.cmds w1 = <[p := Xocl.set_state ERT_CMD_STATE_QUEUED c]> (Xocl.cmds w) /\
    Xocl.bo_active w1 = <[Xocl.bo c := Some p]> (Xocl.bo_active w) /\
    obs_queueing w1 = obs_queueing w).
  { subst body.
    cbv [bind gets modify Xocl.the_cmd ret Xocl.set_cmd_int_state Xocl.upd_cmd
         Xocl.set_active Xocl.the_active].
    cbn [Xocl.cmds Xocl.set_lists]. rewrite Hc, Hwait. cbn [Z.eqb negb].
    cbn [Xocl.cmds Xocl.set_lists]. rewrite Hc.
    cbn [Xocl.bo_active Xocl.set_cmds Xocl.set_lists]. rewrite Ha.
    eexists. split; [reflexivity |].
    cbn. rewrite Hpend, remove_head by exact Hp.
    unfold atomic_dec. rewrite to_int_small by lia.
    repeat split; reflexivity. }
  destruct Hbody as [w1 [Hrun Hrest]].
  exists w1. split; [| exact Hrest].
  rewrite (bind_Ok _ _ w w1 tt) by exact Hrun.
  destruct Hrest as [_ [Hp1 _]].
  rewrite (bind_Ok _ _ w1 w1 l) by (unfold gets; rewrite Hp1; reflexivity).
  reflexivity.
Qed.

Lemma scheduler_queue_cmds_run (l : list nat) :
  forall w : Xocl.world,
    Xocl.pending_cmds w = l -> pending_ready w l ->
    Z.of_nat (length l) <= Xocl.num_pending w < 2 ^ 31 ->
    exists w', Xocl.scheduler_queue_cmds w = Ok (tt, w') /\ queued_in_order l w w'.
Proof.
  induction l as [| p l IH]; intros w Hpend [Hnd [Hcmds Hown]] Hnum.
  - exists w. split.
    + unfold Xocl.scheduler_queue_cmds, bind, gets. rewrite Hpend. reflexivity.
    + unfold queued_in_order. rewrite app_nil_r. cbn [length].
      repeat split; try (exact Hpend || reflexivity || lia).
      * exfalso. eapply not_elem_of_nil. eassumption.
      * exfalso. eapply not_elem_of_nil. eassumption.
  - apply NoDup_cons in Hnd as [Hp Hnd].
    destruct (Hcmds p ltac:(left)) as [c [Hc [Hwait Hbo]]].
    cbn [length] in Hnum.
    destruct (scheduler_queue_cmds_step p l c w Hpend Hp Hc Hwait Hbo ltac:(lia))
      as [w1 [Hrun [Hq1 [Hp1 [Hn1 [Hc1 [Hb1 Ho1]]]]]]].
    assert (Hsame : forall q, q ∈ l -> Xocl.cmds w1 !! q = Xocl.cmds w !! q).
    { intros q Hq. rewrite Hc1. apply lookup_insert_ne. intros ->. contradiction. }
    destruct (IH w1 Hp1) as [w' [Hrun' [Hq' [Hp' [Hn' [Hl' [Ho' [Hb' Hobs']]]]]]]].
    { split; [exact Hnd |]. split.
      - intros q Hq. destruct (Hcmds q ltac:(right; exact Hq)) as [c' [Hc' [Hw' Hbo']]].
        exists c'. rewrite (Hsame q Hq). split; [exact Hc' |]. split; [exact Hw' |].
        rewrite Hb1. destruct (decide (Xocl.bo c = Xocl.bo c')) as [-> | Hne].
        + rewrite lookup_insert_eq. eexists. reflexivity.
        + rewrite lookup_insert_ne by exact Hne. exact Hbo'.
      - intros q1 q2 c1 c2 H1 H2. rewrite (Hsame q1 H1), (Hsame q2 H2).
        apply Hown; right; assumption. }
    { lia. }
    exists w'. split; [rewrite Hrun; exact Hrun' |].
    assert (Hfresh : forall q c', q ∈ l -> Xocl.cmds w1 !! q = Some c' ->
                                  Xocl.bo c' <> Xocl.bo c).
    { intros q c' Hq Hc' Heq. rewrite (Hsame q Hq) in Hc'.
      assert (q = p) as -> by (apply (Hown q p c' c); [right | left | | |]; assumption).
      contradiction. }
    unfold queued_in_order. split; [| split; [| split; [| split; [| split; [| split]]]]].
    + rewrite Hq', Hq1, <- app_assoc. reflexivity.
    + exact Hp'.
    + rewrite Hn', Hn1. cbn [length]. lia.
    + intros q c' Hq Hc'. apply elem_of_cons in Hq as [-> | Hq].
      * assert (c' = c) as -> by congruence.
        rewrite (Ho' p Hp), Hc1, lookup_insert_eq.
        rewrite (Hb' (Xocl.bo c) Hfresh), Hb1, lookup_insert_eq. split; reflexivity.
      * apply Hl'; [exact Hq |]. rewrite (Hsame q Hq). exact Hc'.
    + intros q Hq. apply not_elem_of_cons in Hq as [Hne Hq].
      rewrite (Ho' q Hq), Hc1. apply lookup_insert_ne. congruence.
    + intros b Hb. rewrite Hb', Hb1.
      * apply lookup_insert_ne. apply (Hb p c); [left | exact Hc].
      * intros q c' Hq Hc'. rewrite (Hsame q Hq) in Hc'.
        apply (Hb q c'); [right; exact Hq | exact Hc'].
    + rewrite Hobs'. exact Ho1.
Qed.

Variable w : Xocl.world.

Hypothesis ready : pending_ready w (Xocl.pending_cmds w).
Hypothesis counted : Xocl.num_pending w = Z.of_nat (length (Xocl.pending_cmds w)).
Hypothesis count_fits : Xocl.num_pending w < 2 ^ 31.

(** X16.  scheduler_queue_cmds() on pending commands that wait for no
    command, each on a buffer object of its own, with [num_pending] the
    length of the pending list: it returns, the pending commands are on
    the tail of the command queue in the order of their submission, the
    pending list is empty and [num_pending] is 0; every one of them is in
    the internal state queued, its packet as it was, and is the active
    command of its buffer object.  The other commands and buffer objects,
    the exec core, the clients, the free list and the register writes are
    as before. *)
Theorem scheduler_queue_cmds_keeps_order :
  exists w',
    Xocl.scheduler_queue_cmds w = Ok (tt, w') /\
    queued_in_order (Xocl.pending_cmds w) w w' /\
    Xocl.num_pending w' = 0.
Proof.
  destruct (scheduler_queue_cmds_run (Xocl.pending_cmds w) w eq_refl ready ltac:(lia))
    as [w' [Hrun Hq]].
  exists w'. split; [exact Hrun |]. split; [exact Hq |].
  destruct Hq as [_ [_ [Hn _]]]. lia.
Qed.

End Queueing.

Lemma scheduler_queue_cmds_keeps_order_witness :
  exists w',
    Xocl.scheduler_queue_cmds xocl_two_pending = Ok (tt, w') /\
    queued_in_order [1%nat; 2%nat] xocl_two_pending w' /\
    Xocl.num_pending w' = 0.
Proof.
  apply (scheduler_queue_cmds_keeps_order xocl_two_pending).
  - split; [| split].
    + replace (Xocl.pending_cmds xocl_two_pending) with [1%nat; 2%nat]
        by (vm_compute; reflexivity).
      apply NoDup_cons. split; [intros H; apply list_elem_of_singleton in H; discriminate |].
      apply NoDup_singleton.
    + intros p Hp. apply list_elem_of_In in Hp; vm_compute in Hp.
      destruct Hp as [<- | [<- | []]]; eexists; vm_compute;
        (split; [reflexivity |]); (split; [reflexivity |]); eexists; reflexivity.
    + intros p q c c' Hp Hq.
      apply list_elem_of_In in Hp; vm_compute in Hp.
      apply list_elem_of_In in Hq; vm_compute in Hq.
      destruct Hp as [<- | [<- | []]]; destruct Hq as [<- | [<- | []]];
        try reflexivity; vm_compute; intros Hc Hc' Hbo;
        injection Hc as <-; injection Hc' as <-; discriminate Hbo.
  - vm_compute. reflexivity.
  - vm_compute. reflexivity.
Defined.

(** ** Polling a compute unit *)

Section PenguinQuery.
Context {xabi : Xocl.ert_h}.
Variables (w : Xocl.world) (p : nat) (c : Xocl.xocl_cmd).

Hypothesis cmd_at : Xocl.cmds w !! p = Some c.
Hypothesis not_local : Xocl.type c <> Xocl.ERT_KDS_LOCAL.
Hypothesis not_configure : Xocl.opcode c <> Xocl.ERT_CONFIGURE.

(** X17.  penguin_query() on a command that is neither local nor a
    configure command.  A command whose opcode is not START_CU is left as
    it is: the software back-end never completes it.  A START_CU command
    in the slot [slot_idx], started on the compute unit [cu_idx] at the
    address [a]: while the status register of the compute unit reads
    without AP_DONE (bit 1), nothing changes; once it reads with AP_DONE,
    the bit of the compute unit in [cu_status] is toggled and the command
    goes through mark_cmd_complete(). *)
Theorem penguin_query_polls_the_cu :
  (Xocl.opcode c <> Xocl.ERT_START_CU -> Xocl.penguin_query p w = Ok (tt, w)) /\
  (forall a m,
     Xocl.opcode c = Xocl.ERT_START_CU ->
     0 <= Xocl.slot_idx c < 2 ^ 32 ->
     Xocl.submitted_cmds (Xocl.exec w) !! Z.to_nat (Xocl.slot_idx c) = Some (Some p) ->
     0 <= Xocl.cu_idx c < 2 ^ 32 ->
     Xocl.cu_addr_map (Xocl.exec w) !! Z.to_nat (Xocl.cu_idx c) = Some a ->
     Xocl.cu_status (Xocl.exec w) !! Z.to_nat (cu_mask_idx (Xocl.cu_idx c)) = Some m ->
     (Z.land (Xocl.regs w a) 2 = 0 -> Xocl.penguin_query p w = Ok (tt, w)) /\
     (Z.land (Xocl.regs w a) 2 <> 0 ->
      Xocl.penguin_query p w
      = Xocl.mark_cmd_complete p
          (Xocl.set_exec
             (Xocl.set_cu_status
                (<[Z.to_nat (cu_mask_idx (Xocl.cu_idx c))
                   := Z.lxor m (bit (cu_idx_in_mask (Xocl.cu_idx c)))]>
                   (Xocl.cu_status (Xocl.exec w)))) w))).
Proof.
  assert (Hl : (Xocl.type c =? Xocl.ERT_KDS_LOCAL) = false) by (apply Z.eqb_neq; exact not_local).
  assert (Hc : (Xocl.opcode c =? Xocl.ERT_CONFIGURE) = false)
    by (apply Z.eqb_neq; exact not_configure).
  split.
  - intros Hop. unfold Xocl.penguin_query.
    rewrite (bind_Ok _ _ w w c) by (unfold Xocl.the_cmd; rewrite cmd_at; reflexivity).
    rewrite Hl, Hc. cbn [orb].
    replace (Xocl.opcode c =? Xocl.ERT_START_CU) with false
      by (symmetry; apply Z.eqb_neq; exact Hop).
    reflexivity.
  - intros a m Hop Hslot Hsub Hcu Haddr Hst.
    assert (Hmask : 0 <= cu_mask_idx (Xocl.cu_idx c))
      by (unfold cu_mask_idx; apply Z.shiftr_nonneg; lia).
    assert (Hdone :
      Xocl.penguin_query p w
      = (done <- Xocl.cu_done (Xocl.cu_idx c) ;;
         if done then Xocl.mark_cmd_complete p else ret tt) w).
    { unfold Xocl.penguin_query.
      rewrite (bind_Ok _ _ w w c) by (unfold Xocl.the_cmd; rewrite cmd_at; reflexivity).
      rewrite Hl, Hc. cbn [orb]. rewrite Hop, Z.eqb_refl.
      unfold bind at 1. unfold bind at 1.
      assert (Hget : Xocl.get_cu_idx (u32 (Xocl.slot_idx c)) w = Ok (Xocl.cu_idx c, w)).
      { unfold Xocl.get_cu_idx. rewrite u32_small by lia.
        rewrite (bind_Ok _ _ w w (Xocl.exec w)) by reflexivity.
        rewrite (bind_Ok _ _ w w (Some p))
          by (unfold lift; rewrite (arr_get_lookup _ _ (Some p)) by (lia || exact Hsub);
              reflexivity).
        unfold Xocl.sched_error_on.
        rewrite (bind_Ok _ _ w w false) by reflexivity.
        rewrite (bind_Ok _ _ w w c) by (unfold Xocl.the_cmd; rewrite cmd_at; reflexivity).
        unfold ret. rewrite u32_small by lia. reflexivity. }
      rewrite Hget. reflexivity. }
    rewrite Hdone. split.
    + intros Hidle.
      rewrite (bind_Ok _ _ w w false); [reflexivity |].
      unfold Xocl.cu_done.
      rewrite (bind_Ok _ _ w w (Xocl.exec w)) by reflexivity.
      rewrite (bind_Ok _ _ w w a)
        by (unfold lift; rewrite (arr_get_lookup _ _ a) by (lia || exact Haddr);
            reflexivity).
      rewrite (bind_Ok _ _ w w (Xocl.regs w a)) by reflexivity.
      rewrite Hidle. reflexivity.
    + intros Hap.
      assert (Hlen : cu_mask_idx (Xocl.cu_idx c)
                     < Z.of_nat (length (Xocl.cu_status (Xocl.exec w)))).
      { apply lookup_lt_Some in Hst. lia. }
      match goal with |- _ = Xocl.mark_cmd_complete p ?s => set (w_rel := s) end.
      rewrite (bind_Ok _ _ w w_rel true); [reflexivity |].
      unfold Xocl.cu_done.
      rewrite (bind_Ok _ _ w w (Xocl.exec w)) by reflexivity.
      rewrite (bind_Ok _ _ w w a)
        by (unfold lift; rewrite (arr_get_lookup _ _ a) by (lia || exact Haddr);
            reflexivity).
      rewrite (bind_Ok _ _ w w (Xocl.regs w a)) by reflexivity.
      replace (Z.land (Xocl.regs w a) 2 =? 0) with false
        by (symmetry; apply Z.eqb_neq; exact Hap).
      cbn [negb].
      rewrite (bind_Ok _ _ w w m)
        by (unfold lift; rewrite (arr_get_lookup _ _ m) by (lia || exact Hst); reflexivity).
      unfold bind, lift. rewrite arr_set_in by lia. reflexivity.
Qed.

End PenguinQuery.

Lemma penguin_query_polls_the_cu_witness :
  Xocl.penguin_query (abi := Xocl.ert_h_2018_2) 0 xocl_started = Ok (tt, xocl_started).
Proof.
  pose proof (penguin_query_polls_the_cu (xabi := Xocl.ert_h_2018_2)
                  xocl_started 0 (xocl_cmd_at 0 xocl_started)
                  ltac:(vm_compute; reflexivity) ltac:(vm_compute; discriminate)
                  ltac:(vm_compute; discriminate)) as [_ H].
  pose proof (H 65536 1
           ltac:(vm_compute; reflexivity)
           ltac:(vm_compute; split; [discriminate | reflexivity])
           ltac:(vm_compute; reflexivity)
           ltac:(vm_compute; split; [discriminate | reflexivity])
           ltac:(vm_compute; reflexivity)
           ltac:(vm_compute; reflexivity)) as [H1 _].
  apply H1.
  vm_compute. reflexivity.
Defined.

(** ** A start command from the queue to its completion *)

Lemma the_cmd_run (w : Xocl.world) (p : nat) (c : Xocl.xocl_cmd) :
  Xocl.cmds w !! p = Some c -> Xocl.the_cmd p w = Ok (c, w).
Proof. intros H. unfold Xocl.the_cmd. rewrite H. reflexivity. Qed.

Lemma upd_cmd_run (w : Xocl.world) (p : nat) (c : Xocl.xocl_cmd)
    (f : Xocl.xocl_cmd -> Xocl.xocl_cmd) :
  Xocl.cmds w !! p = Some c ->
  Xocl.upd_cmd p f w = Ok (tt, Xocl.set_cmds (fun m => <[p := f c]> m) w).
Proof. intros H. unfold Xocl.upd_cmd, bind, Xocl.the_cmd, modify. rewrite H. reflexivity. Qed.

Ltac world_simpl :=
  cbn [Xocl.exec Xocl.cmds Xocl.bo_active Xocl.clients Xocl.ctx_list Xocl.sched_error
       Xocl.sched_poll Xocl.command_queue Xocl.free_cmds Xocl.pending_cmds
       Xocl.num_pending Xocl.cmd_count Xocl.poll_wakeups Xocl.mmio Xocl.regs Xocl.rom
       Xocl.set_exec Xocl.set_cmds Xocl.set_mmio Xocl.set_clients Xocl.set_bo_active
       Xocl.set_sched_poll Xocl.set_poll_wakeups
       Xocl.submitted_cmds Xocl.num_slots Xocl.num_slot_masks Xocl.slot_status
       Xocl.cu_status Xocl.cu_addr_map Xocl.polling_mode Xocl.ops
       Xocl.set_submitted_cmds Xocl.set_slot_status Xocl.set_cu_status
       Xocl.bo Xocl.client Xocl.state Xocl.cu_idx Xocl.slot_idx Xocl.chain_count
       Xocl.wait_count Xocl.chain Xocl.packet
       Xocl.set_state Xocl.set_cu_idx Xocl.set_slot_idx Xocl.set_packet
       pkt_opcode pkt_type pkt_count pkt_extra_cu_masks pkt_data set_pkt_state] in *.

Lemma xocl_set_sched_poll_id (w : Xocl.world) : Xocl.set_sched_poll (fun n => n) w = w.
Proof. destruct w. reflexivity. Qed.

(** mark_cmd_complete() on a command without chained commands, step by
    step. *)
Lemma mark_cmd_complete_run {xabi : Xocl.ert_h} (v : Xocl.world) (p : nat)
    (x : Xocl.xocl_cmd) (ss0 : list Z) :
  Xocl.cmds v !! p = Some x ->
  Xocl.chain_count x = 0 ->
  0 <= Xocl.slot_idx x < Z.of_nat (length (Xocl.submitted_cmds (Xocl.exec v))) ->
  release_slot_idx_on (Xocl.slot_status (Xocl.exec v)) (u32 (Xocl.slot_idx x)) = Ok ss0 ->
  (forall j, j ∈ Xocl.ctx_list v -> is_Some (Xocl.clients v !! j)) ->
  is_Some (Xocl.bo_active v !! Xocl.bo x) ->
  Xocl.mark_cmd_complete p v
  = Ok (tt,
        Xocl.set_cmds
          (fun m => <[p := Xocl.set_packet
                             (set_pkt_state ERT_CMD_STATE_COMPLETED (Xocl.packet x))
                             (Xocl.set_state ERT_CMD_STATE_COMPLETED x)]> m)
          (Xocl.set_bo_active (fun m => <[Xocl.bo x := None]> m)
             (Xocl.set_poll_wakeups S
                (Xocl.set_clients (triggered (Xocl.ctx_list v))
                   (Xocl.set_sched_poll
                      (fun n => if negb (Xocl.polling_mode (Xocl.exec v) =? 0)
                                then u32 (n - 1) else n)
                      (Xocl.set_exec
                         (fun e => Xocl.set_slot_status ss0
                                     (Xocl.set_submitted_cmds
                                        (<[Z.to_nat (Xocl.slot_idx x) := None]>
                                           (Xocl.submitted_cmds e)) e))
                         v)))))).
Proof.
  intros Hx Hchain Hslot Hrel Halive [act Hact].
  unfold Xocl.mark_cmd_complete.
  rewrite (bind_Ok _ _ v v x (the_cmd_run v p x Hx)).
  rewrite (bind_Ok _ _ v v (Xocl.exec v)) by reflexivity.
  rewrite (bind_Ok _ _ v v (<[Z.to_nat (Xocl.slot_idx x) := None]>
                              (Xocl.submitted_cmds (Xocl.exec v))))
    by (unfold lift; rewrite arr_set_in by exact Hslot; reflexivity).
  unfold Xocl.upd_exec at 1.
  rewrite (bind_Ok _ _ v _ tt) by reflexivity.
  set (v1 := Xocl.set_exec _ v).
  unfold Xocl.set_cmd_state.
  rewrite (bind_Ok _ _ v1 _ tt (upd_cmd_run v1 p x _ Hx)).
  set (v2 := Xocl.set_cmds _ v1).
  set (pm := negb (Xocl.polling_mode (Xocl.exec v) =? 0)).
  rewrite (bind_Ok _ _ v2
             (Xocl.set_sched_poll (fun n => if pm then u32 (n - 1) else n) v2) tt).
  2:{ destruct pm; [reflexivity |]. unfold ret. rewrite xocl_set_sched_poll_id. reflexivity. }
  set (v3 := Xocl.set_sched_poll _ v2).
  rewrite (bind_Ok _ _ v3 (Xocl.set_exec (Xocl.set_slot_status ss0) v3) tt).
  2:{ unfold Xocl.release_slot_idx, bind, gets, lift, Xocl.upd_exec, modify.
      subst v3 v2 v1. world_simpl. rewrite Hrel. reflexivity. }
  set (v4 := Xocl.set_exec _ v3).
  rewrite (bind_Ok _ _ v4 _ tt (notify_host_run p v4 Halive)).
  set (v5 := Xocl.set_poll_wakeups S _).
  rewrite (bind_Ok _ _ v5 (Xocl.set_bo_active (fun m => <[Xocl.bo x := None]> m) v5) tt).
  2:{ unfold Xocl.set_active, bind, Xocl.the_active, modify.
      subst v5 v4 v3 v2 v1. world_simpl. rewrite Hact. reflexivity. }
  set (v6 := Xocl.set_bo_active _ v5).
  assert (H6 : Xocl.cmds v6 !! p
               = Some (Xocl.set_packet
                         (set_pkt_state ERT_CMD_STATE_COMPLETED (Xocl.packet x))
                         (Xocl.set_state ERT_CMD_STATE_COMPLETED x)))
    by (subst v6 v5 v4 v3 v2 v1; world_simpl; apply lookup_insert_eq).
  rewrite (bind_Ok _ _ v6 v6 0).
  2:{ unfold Xocl.trigger_chain.
      rewrite (bind_Ok _ _ v6 v6 _ (the_cmd_run v6 p _ H6)).
      world_simpl. rewrite Hchain. reflexivity. }
  reflexivity.
Qed.

Section StartCu.
Context {xabi : Xocl.ert_h}.
Variables (w : Xocl.world) (p : nat) (c : Xocl.xocl_cmd).

Hypothesis software : Xocl.ops (Xocl.exec w) = Xocl.penguin_ops.
Hypothesis cmd_at : Xocl.cmds w !! p = Some c.
Hypothesis no_dependency : Xocl.wait_count c = 0.
Hypothesis no_chain : Xocl.chain_count c = 0.
Hypothesis start_cu : Xocl.opcode c = Xocl.ERT_START_CU.
Hypothesis start_kernel : Xocl.opcode c = Xocl.ERT_START_KERNEL.
Hypothesis not_configure : Xocl.opcode c <> Xocl.ERT_CONFIGURE.
Hypothesis not_write : Xocl.opcode c <> Xocl.ERT_WRITE.
Hypothesis not_local : Xocl.type c <> Xocl.ERT_KDS_LOCAL.
Hypothesis fields : packet_fields_ok (Xocl.packet c).
Hypothesis payload_held :
  1 + pkt_extra_cu_masks (Xocl.packet c) <= pkt_count (Xocl.packet c)
  <= Z.of_nat (length (pkt_data (Xocl.packet c))).
Hypothesis data_words : words (pkt_data (Xocl.packet c)).
Hypothesis status_words : words (Xocl.cu_status (Xocl.exec w)).
Hypothesis masks_in_status :
  Xocl.cu_masks c <= Z.of_nat (length (Xocl.cu_status (Xocl.exec w))).
Hypothesis cus_mapped :
  32 * Xocl.cu_masks c <= Z.of_nat (length (Xocl.cu_addr_map (Xocl.exec w))).
Hypothesis xslots :
  slots_ok (Xocl.num_slots (Xocl.exec w)) (Xocl.num_slot_masks (Xocl.exec w))
    (Xocl.slot_status (Xocl.exec w)).
Hypothesis slots_tabled :
  Xocl.num_slots (Xocl.exec w) <= Z.of_nat (length (Xocl.submitted_cmds (Xocl.exec w))).
Hypothesis bo_known : is_Some (Xocl.bo_active w !! Xocl.bo c).
Hypothesis clients_once : NoDup (Xocl.ctx_list w).
Hypothesis clients_alive : forall j, j ∈ Xocl.ctx_list w -> is_Some (Xocl.clients w !! j).
Hypothesis poll_word : 0 <= Xocl.sched_poll w < 2 ^ 32.

Lemma start_cu_masks : Xocl.cu_masks c = 1 + pkt_extra_cu_masks (Xocl.packet c).
Proof.
  unfold Xocl.cu_masks. rewrite start_kernel, Z.eqb_refl. cbn [negb].
  destruct fields as [_ Hx]. apply u32_small. lia.
Qed.

(** The world after penguin_submit() has started the command on the
    compute unit [cu], in the slot [s], with [cs] and [ss] the new
    bitmaps and [ws] the register writes. *)
Local Abbreviation submitted cu s cs ss ws :=
  (Xocl.set_mmio (fun t => t ++ ws)
     (Xocl.set_cmds (fun m => <[p := Xocl.set_slot_idx s (Xocl.set_cu_idx cu c)]> m)
        (Xocl.set_exec (Xocl.set_slot_status ss)
           (Xocl.set_cmds (fun m => <[p := Xocl.set_cu_idx cu c]> m)
              (Xocl.set_exec (Xocl.set_cu_status cs) w))))).

Lemma penguin_submit_start_cu :
  exists ok w1,
    Xocl.penguin_submit p w = Ok (ok, w1) /\
    (ok = true ->
     exists k i busy s ss a,
       0 <= k < Xocl.cu_masks c /\ 0 <= i < 32 /\
       Xocl.cu_status (Xocl.exec w) !! Z.to_nat k = Some busy /\
       Z.testbit busy i = false /\
       0 <= s < Xocl.num_slots (Xocl.exec w) /\
       release_slot_idx_on ss (u32 s) = Ok (Xocl.slot_status (Xocl.exec w)) /\
       Xocl.cu_addr_map (Xocl.exec w) !! Z.to_nat (i + 32 * k) = Some a /\
       w1 = submitted (i + 32 * k) s
              (<[Z.to_nat k := Z.setbit busy i]> (Xocl.cu_status (Xocl.exec w))) ss
              (cu_start_writes a
                 (drop 1 (regmap (Xocl.packet c) (1 + pkt_extra_cu_masks (Xocl.packet c)))))).
Proof.
  pose proof start_cu_masks as Hm. destruct fields as [Hcount Hextra].
  destruct (xocl_get_free_cu_spec w p c cmd_at fields data_words status_words
              ltac:(rewrite Hm; lia) masks_in_status) as (r & cs & Hcu & Hspec).
  unfold Xocl.penguin_submit.
  rewrite (bind_Ok _ _ w w c) by (apply the_cmd_run; exact cmd_at).
  cbv beta.
  replace (Xocl.opcode c =? Xocl.ERT_CONFIGURE) with false
    by (symmetry; apply Z.eqb_neq; exact not_configure).
  replace (Xocl.type c =? Xocl.ERT_KDS_LOCAL) with false
    by (symmetry; apply Z.eqb_neq; exact not_local).
  replace (Xocl.opcode c =? Xocl.ERT_START_CU) with true
    by (symmetry; apply Z.eqb_eq; exact start_cu).
  cbn [orb negb].
  rewrite (bind_Ok _ _ _ _ _ Hcu).
  set (wA := Xocl.set_exec (Xocl.set_cu_status cs) w).
  rewrite (bind_Ok _ _ wA _ tt (upd_cmd_run wA p c _ cmd_at)).
  set (wB := Xocl.set_cmds _ wA).
  destruct Hspec as [k i cmd busy Hk Hcmd Hbusy _ Hi Hbit _ | _].
  2:{ eexists false, _. split; [reflexivity | discriminate]. }
  assert (Hcu_range : 0 <= i + 32 * k < 128) by lia.
  replace (i + 32 * k <? 0) with false by (symmetry; apply Z.ltb_ge; lia).
  destruct (acquire_slot_idx_on_acquired _ _ _ xslots) as (s & ss & Hrun & Hacq & Hback).
  assert (Hslot : Xocl.acquire_slot_idx wB = Ok (s, Xocl.set_exec (Xocl.set_slot_status ss) wB)).
  { unfold Xocl.acquire_slot_idx, bind, gets, lift, Xocl.upd_exec, modify, ret.
    subst wB wA. world_simpl. rewrite Hrun. reflexivity. }
  rewrite (bind_Ok _ _ _ _ _ Hslot).
  set (wC := Xocl.set_exec (Xocl.set_slot_status ss) wB).
  assert (HcC : Xocl.cmds wC !! p = Some (Xocl.set_cu_idx (i + 32 * k) c))
    by (subst wC wB wA; world_simpl; apply lookup_insert_eq).
  rewrite (bind_Ok _ _ wC _ tt (upd_cmd_run wC p _ _ HcC)).
  set (wD := Xocl.set_cmds _ wC).
  destruct Hacq as [(-> & _) | (Hs & _)].
  { eexists false, _. split; [reflexivity | discriminate]. }
  replace (s <? 0) with false by (symmetry; apply Z.ltb_ge; lia).
  destruct (lookup_lt_is_Some_2 (Xocl.cu_addr_map (Xocl.exec w)) (Z.to_nat (i + 32 * k))
              ltac:(lia)) as [a Ha].
  assert (HcD : Xocl.cmds wD !! p
                = Some (Xocl.set_slot_idx s (Xocl.set_cu_idx (i + 32 * k) c)))
    by (subst wD; world_simpl; apply lookup_insert_eq).
  assert (Hconf : Xocl.configure_cu p (i + 32 * k) wD
                  = Ok (tt, Xocl.set_mmio
                              (fun t => t ++ cu_start_writes a
                                 (drop 1 (regmap (Xocl.packet c)
                                            (1 + pkt_extra_cu_masks (Xocl.packet c)))))
                              wD)).
  { unfold Xocl.configure_cu.
    rewrite (bind_Ok _ _ wD wD _ (the_cmd_run wD p _ HcD)).
    rewrite (bind_Ok _ _ wD wD (Xocl.exec wD)) by reflexivity.
    rewrite u32_small by lia.
    rewrite (bind_Ok _ _ wD wD a)
      by (unfold lift; rewrite (arr_get_lookup _ _ a) by (lia || exact Ha); reflexivity).
    unfold Xocl.regmap_size, Xocl.payload_size, Xocl.cu_masks, Xocl.opcode. world_simpl.
    fold (Xocl.opcode c). rewrite start_kernel, Z.eqb_refl. cbn [negb].
    rewrite (u32_small (1 + _)) by lia. rewrite u32_small by lia.
    unfold bind, lift.
    rewrite (configure_cu_on_writes _ a); try lia.
    - reflexivity.
    - intros j Hj. rewrite shiftl2_small by lia. reflexivity. }
  rewrite (bind_Ok _ _ _ _ _ Hconf).
  eexists true, _. split; [reflexivity |]. intros _.
  exists k, i, busy, s, ss, a.
  split; [exact Hk |]. split; [exact Hi |]. split; [exact Hbusy |].
  split.
  { rewrite candidates_bit in Hbit. destruct (Z.testbit busy i); [| reflexivity].
    rewrite andb_false_r in Hbit. discriminate. }
  split; [exact Hs |]. split; [apply Hback; lia |]. split; [exact Ha |]. reflexivity.
Qed.

(** X18.  A start command (opcode START_CU, which is the opcode
    START_KERNEL that cu_masks() looks for) that holds its payload, without
    dependencies and without chained commands, on the queue of a device in
    software mode whose bitmaps and tables are in order:
    queued_to_running() returns.  When it has started the command, the
    command is running in a slot [s] on a compute unit
    [cu], the table of the submitted commands holds it at [s], and the
    register map has been written to the compute unit.  From there
    running_to_complete() leaves everything as it is while the control
    register of the compute unit reads without AP_DONE; once it reads with
    AP_DONE, the command is completed in its two states, and the slot and
    compute unit bitmaps and the poll count are what they were before the
    command was started, the slot of the table is empty, the buffer object
    has no active command, and the hosts have been notified once. *)
Theorem start_cu_runs_to_completion :
  exists ok w1,
    Xocl.queued_to_running p w = Ok (ok, w1) /\
    (ok = true ->
     exists cu s a,
       0 <= cu /\ 0 <= s < Xocl.num_slots (Xocl.exec w) /\
       Xocl.cu_addr_map (Xocl.exec w) !! Z.to_nat cu = Some a /\
       Xocl.cmds w1 !! p
       = Some (Xocl.set_state ERT_CMD_STATE_RUNNING
                 (Xocl.set_slot_idx s (Xocl.set_cu_idx cu c))) /\
       Xocl.submitted_cmds (Xocl.exec w1) !! Z.to_nat s = Some (Some p) /\
       Xocl.mmio w1
       = Xocl.mmio w ++
         cu_start_writes a
           (drop 1 (regmap (Xocl.packet c) (1 + pkt_extra_cu_masks (Xocl.packet c)))) /\
       (Z.land (Xocl.regs w a) 2 = 0 -> Xocl.running_to_complete p w1 = Ok (tt, w1)) /\
       (Z.land (Xocl.regs w a) 2 <> 0 ->
        exists w2,
          Xocl.running_to_complete p w1 = Ok (tt, w2) /\
          Xocl.exec w2
          = Xocl.set_submitted_cmds
              (<[Z.to_nat s := None]> (Xocl.submitted_cmds (Xocl.exec w))) (Xocl.exec w) /\
          Xocl.cmds w2
          = <[p := Xocl.set_packet
                     (set_pkt_state ERT_CMD_STATE_COMPLETED (Xocl.packet c))
                     (Xocl.set_state ERT_CMD_STATE_COMPLETED
                        (Xocl.set_slot_idx s (Xocl.set_cu_idx cu c)))]> (Xocl.cmds w) /\
          Xocl.bo_active w2 = <[Xocl.bo c := None]> (Xocl.bo_active w) /\
          Xocl.sched_poll w2 = Xocl.sched_poll w /\
          Xocl.mmio w2 = Xocl.mmio w1 /\
          notified w w2)).
Proof.
  destruct penguin_submit_start_cu as (ok & wS & Hsub & Hok).
  assert (Hstart :
    Xocl.queued_to_running p w
    = (if ok then
         Xocl.set_cmd_int_state p ERT_CMD_STATE_RUNNING ;;;
         e <- gets Xocl.exec ;;
         (if negb (Xocl.polling_mode e =? 0)
          then modify (Xocl.set_sched_poll (fun n => u32 (n + 1)))
          else ret tt) ;;;
         xcmd' <- Xocl.the_cmd p ;;
         sc <- lift (arr_set (Xocl.submitted_cmds e) (Xocl.slot_idx xcmd') (Some p)) ;;
         Xocl.upd_exec (Xocl.set_submitted_cmds sc) ;;;
         ret true
       else ret false) wS).
  { unfold Xocl.queued_to_running.
    rewrite (bind_Ok _ _ w w c (the_cmd_run w p c cmd_at)). cbv beta.
    rewrite no_dependency. cbn [Z.eqb negb].
    replace (Xocl.opcode c =? Xocl.ERT_CONFIGURE) with false
      by (symmetry; apply Z.eqb_neq; exact not_configure).
    rewrite (bind_Ok _ _ w w false) by reflexivity. cbv beta iota.
    replace (Xocl.opcode c =? Xocl.ERT_WRITE) with false
      by (symmetry; apply Z.eqb_neq; exact not_write).
    rewrite (bind_Ok _ _ w w false) by reflexivity. cbv beta iota.
    rewrite (bind_Ok _ _ w wS ok); [reflexivity |].
    unfold Xocl.submit. rewrite (bind_Ok _ _ w w (Xocl.exec w)) by reflexivity.
    rewrite software. exact Hsub. }
  rewrite Hstart. clear Hstart.
  destruct ok; [| eexists false, _; split; [reflexivity | discriminate]].
  destruct (Hok eq_refl)
    as (k & i & busy & s & ss & a & Hk & Hi & Hbusy & Hfree & Hs & Hback & Ha & ->).
  clear Hok Hsub.
  pose proof start_cu_masks as Hm. destruct fields as [Hcount Hextra].
  set (cu := i + 32 * k) in *.
  set (ws := cu_start_writes a _).
  set (cs1 := <[Z.to_nat k := Z.setbit busy i]> (Xocl.cu_status (Xocl.exec w))).
  set (wS := submitted cu s cs1 ss ws).
  set (c2 := Xocl.set_slot_idx s (Xocl.set_cu_idx cu c)).
  set (c3 := Xocl.set_state ERT_CMD_STATE_RUNNING c2).
  set (pm := negb (Xocl.polling_mode (Xocl.exec w) =? 0)).
  set (w1 := Xocl.set_exec
               (Xocl.set_submitted_cmds
                  (<[Z.to_nat s := Some p]> (Xocl.submitted_cmds (Xocl.exec w))))
               (Xocl.set_sched_poll (fun n => if pm then u32 (n + 1) else n)
                  (Xocl.set_cmds (fun m => <[p := c3]> m) wS))).
  assert (Hrun1 :
    (Xocl.set_cmd_int_state p ERT_CMD_STATE_RUNNING ;;;
     e <- gets Xocl.exec ;;
     (if negb (Xocl.polling_mode e =? 0)
      then modify (Xocl.set_sched_poll (fun n => u32 (n + 1)))
      else ret tt) ;;;
     xcmd' <- Xocl.the_cmd p ;;
     sc <- lift (arr_set (Xocl.submitted_cmds e) (Xocl.slot_idx xcmd') (Some p)) ;;
     Xocl.upd_exec (Xocl.set_submitted_cmds sc) ;;;
     ret true) wS = Ok (true, w1)).
  { assert (HcS : Xocl.cmds wS !! p = Some c2)
      by (subst wS; world_simpl; apply lookup_insert_eq).
    unfold Xocl.set_cmd_int_state.
    rewrite (bind_Ok _ _ wS _ tt (upd_cmd_run wS p c2 _ HcS)).
    set (wF := Xocl.set_cmds _ wS).
    rewrite (bind_Ok _ _ wF wF (Xocl.exec wF)) by reflexivity. cbv beta.
    change (Xocl.polling_mode (Xocl.exec wF)) with (Xocl.polling_mode (Xocl.exec w)).
    fold pm.
    rewrite (bind_Ok _ _ wF
               (Xocl.set_sched_poll (fun n => if pm then u32 (n + 1) else n) wF) tt).
    2:{ destruct pm; [reflexivity |]. unfold ret. rewrite xocl_set_sched_poll_id.
        reflexivity. }
    set (wG := Xocl.set_sched_poll _ wF).
    assert (HcG : Xocl.cmds wG !! p = Some c3)
      by (subst wG wF; world_simpl; apply lookup_insert_eq).
    rewrite (bind_Ok _ _ wG wG c3 (the_cmd_run wG p c3 HcG)). cbv beta.
    change (Xocl.slot_idx c3) with s.
    change (Xocl.submitted_cmds (Xocl.exec wF))
      with (Xocl.submitted_cmds (Xocl.exec w)).
    unfold bind, lift. rewrite arr_set_in by lia. reflexivity. }
  rewrite Hrun1.
  exists true, w1. split; [reflexivity |]. intros _.
  exists cu, s, a.
  assert (Hcu : 0 <= cu < 2 ^ 32) by (subst cu; lia).
  assert (Hs32 : 0 <= s < 2 ^ 32) by (destruct xslots as (_ & Hns & _); lia).
  assert (Hc1 : Xocl.cmds w1 !! p = Some c3)
    by (subst w1; world_simpl; apply lookup_insert_eq).
  assert (Hsub1 : Xocl.submitted_cmds (Xocl.exec w1) !! Z.to_nat s = Some (Some p))
    by (subst w1; world_simpl; apply list_lookup_insert_eq; lia).
  split; [lia |]. split; [exact Hs |]. split; [exact Ha |].
  split; [exact Hc1 |]. split; [exact Hsub1 |]. split; [reflexivity |].
  assert (Hquery :
    Xocl.running_to_complete p w1
    = (done <- Xocl.cu_done cu ;;
       if done then Xocl.mark_cmd_complete p else ret tt) w1).
  { unfold Xocl.running_to_complete, Xocl.query.
    rewrite (bind_Ok _ _ w1 w1 (Xocl.exec w1)) by reflexivity. cbv beta.
    change (Xocl.ops (Xocl.exec w1)) with (Xocl.ops (Xocl.exec w)). rewrite software.
    unfold Xocl.penguin_query.
    rewrite (bind_Ok _ _ w1 w1 c3 (the_cmd_run w1 p c3 Hc1)). cbv beta zeta.
    change (Xocl.type c3) with (Xocl.type c).
    change (Xocl.opcode c3) with (Xocl.opcode c).
    replace (Xocl.opcode c =? Xocl.ERT_CONFIGURE) with false
      by (symmetry; apply Z.eqb_neq; exact not_configure).
    replace (Xocl.type c =? Xocl.ERT_KDS_LOCAL) with false
      by (symmetry; apply Z.eqb_neq; exact not_local).
    replace (Xocl.opcode c =? Xocl.ERT_START_CU) with true
      by (symmetry; apply Z.eqb_eq; exact start_cu).
    cbn [orb].
    assert (Hget : Xocl.get_cu_idx (u32 (Xocl.slot_idx c3)) w1 = Ok (cu, w1)).
    { unfold Xocl.get_cu_idx. change (Xocl.slot_idx c3) with s.
      rewrite u32_small by lia.
      rewrite (bind_Ok _ _ w1 w1 (Xocl.exec w1)) by reflexivity.
      rewrite (bind_Ok _ _ w1 w1 (Some p))
        by (unfold lift; rewrite (arr_get_lookup _ _ (Some p)) by (lia || exact Hsub1);
            reflexivity).
      unfold Xocl.sched_error_on.
      rewrite (bind_Ok _ _ w1 w1 false) by reflexivity.
      rewrite (bind_Ok _ _ w1 w1 c3 (the_cmd_run w1 p c3 Hc1)).
      unfold ret. change (Xocl.cu_idx c3) with cu. rewrite u32_small by lia.
      reflexivity. }
    unfold bind at 1. unfold bind at 1. rewrite Hget. reflexivity. }
  rewrite Hquery.
  split.
  - intros Hidle.
    rewrite (bind_Ok _ _ w1 w1 false); [reflexivity |].
    unfold Xocl.cu_done.
    rewrite (bind_Ok _ _ w1 w1 (Xocl.exec w1)) by reflexivity.
    rewrite (bind_Ok _ _ w1 w1 a)
      by (unfold lift; rewrite (arr_get_lookup _ _ a) by (lia || exact Ha); reflexivity).
    rewrite (bind_Ok _ _ w1 w1 (Xocl.regs w a)) by reflexivity.
    rewrite Hidle. reflexivity.
  - intros Hdone.
    set (wI := Xocl.set_exec (Xocl.set_cu_status (Xocl.cu_status (Xocl.exec w))) w1).
    assert (Hcd : Xocl.cu_done cu w1 = Ok (true, wI)).
    { unfold Xocl.cu_done.
      rewrite (bind_Ok _ _ w1 w1 (Xocl.exec w1)) by reflexivity.
      rewrite (bind_Ok _ _ w1 w1 a)
        by (unfold lift; rewrite (arr_get_lookup _ _ a) by (lia || exact Ha);
            reflexivity).
      rewrite (bind_Ok _ _ w1 w1 (Xocl.regs w a)) by reflexivity.
      replace (Z.land (Xocl.regs w a) 2 =? 0) with false
        by (symmetry; apply Z.eqb_neq; exact Hdone).
      cbn [negb].
      assert (Hlt : (Z.to_nat k < length (Xocl.cu_status (Xocl.exec w)))%nat)
        by (eapply lookup_lt_Some; exact Hbusy).
      destruct (index_compose i k ltac:(lia) ltac:(lia)) as (_ & Hq & Hmod).
      destruct (index_decompose cu Hcu) as (Hw & Hpos & _).
      subst cu. rewrite Hq in Hw. rewrite Hmod in Hpos.
      change (cu_mask_idx (i + 32 * k)) with (slot_mask_idx (i + 32 * k)).
      change (cu_idx_in_mask (i + 32 * k)) with (slot_idx_in_mask (i + 32 * k)).
      rewrite Hw, Hpos.
      change (Xocl.cu_status (Xocl.exec w1)) with cs1.
      unfold bind, lift, Xocl.upd_exec, modify, ret.
      rewrite (arr_get_lookup _ _ (Z.setbit busy i))
        by (lia || apply list_lookup_insert_eq; exact Hlt).
      rewrite arr_set_in by (subst cs1; rewrite length_insert; lia).
      subst cs1. rewrite list_insert_insert_eq.
      rewrite <- (toggle_clear_bit busy i) by (lia || exact Hfree).
      rewrite Z.lxor_assoc, Z.lxor_nilpotent, Z.lxor_0_r.
      rewrite list_insert_id by exact Hbusy. reflexivity. }
    rewrite (bind_Ok _ _ w1 wI true Hcd). cbv beta iota.
    assert (HcI : Xocl.cmds wI !! p = Some c3) by exact Hc1.
    rewrite (mark_cmd_complete_run wI p c3 (Xocl.slot_status (Xocl.exec w)) HcI).
    + eexists. split; [reflexivity |].
      split.
      { world_simpl. subst wI w1 wS. world_simpl.
        change (Xocl.slot_idx c3) with s.
        rewrite list_insert_insert_eq. destruct (Xocl.exec w). reflexivity. }
      split.
      { subst wI w1 wS. world_simpl.
        rewrite !insert_insert_eq. reflexivity. }
      split; [subst wI w1 wS; world_simpl; reflexivity |]. split.
      { subst wI w1 wS. world_simpl. fold pm.
        destruct pm; [| reflexivity].
        unfold u32. rewrite Zminus_mod_idemp_l.
        replace (Xocl.sched_poll w + 1 - 1) with (Xocl.sched_poll w) by lia.
        apply Z.mod_small. exact poll_word. }
      split; [subst wI w1 wS; world_simpl; reflexivity |].
      exact (notify_host_notifies p w clients_once).
    + exact no_chain.
    + change (Xocl.slot_idx c3) with s.
      change (Xocl.submitted_cmds (Xocl.exec wI))
        with (<[Z.to_nat s := Some p]> (Xocl.submitted_cmds (Xocl.exec w))).
      rewrite length_insert. lia.
    + change (Xocl.slot_idx c3) with s.
      change (Xocl.slot_status (Xocl.exec wI)) with ss. exact Hback.
    + exact clients_alive.
    + exact bo_known.
Qed.

End StartCu.

Lemma start_cu_runs_to_completion_witness :
  exists w1 w2,
    Xocl.queued_to_running (abi := Xocl.ert_h_2018_2) 0 xocl_done_queued = Ok (true, w1) /\
    Xocl.running_to_complete (abi := Xocl.ert_h_2018_2) 0 w1 = Ok (tt, w2) /\
    Xocl.exec w2 = Xocl.exec xocl_done_queued /\
    notified xocl_done_queued w2.
Proof.
  pose proof (start_cu_runs_to_completion (xabi := Xocl.ert_h_2018_2)
                xocl_done_queued 0 (xocl_cmd_at 0 xocl_done_queued)
                ltac:(vm_compute; reflexivity)
                ltac:(vm_compute; reflexivity)
                ltac:(vm_compute; reflexivity)
                ltac:(vm_compute; reflexivity)
                ltac:(vm_compute; reflexivity)
                ltac:(vm_compute; reflexivity)
                ltac:(vm_compute; discriminate)
                ltac:(vm_compute; discriminate)
                ltac:(vm_compute; discriminate)
                ltac:(vm_compute; repeat split; discriminate)
                ltac:(vm_compute; split; discriminate)
                ltac:(apply (bool_decide_unpack _); vm_compute; exact I)
                ltac:(apply (bool_decide_unpack _); vm_compute; exact I)
                ltac:(vm_compute; discriminate)
                ltac:(vm_compute; discriminate)
                ltac:(sample_slots)
                ltac:(vm_compute; discriminate)
                ltac:(vm_compute; eexists; reflexivity)
                ltac:(apply (bool_decide_unpack _); vm_compute; exact I)
                ltac:(intros j Hj; apply list_elem_of_In in Hj; vm_compute in Hj;
                      destruct Hj as [<- | []]; vm_compute; eexists; reflexivity)
                ltac:(vm_compute; split; [discriminate | reflexivity]))
    as (ok & w1 & Hq & Hok).
  assert (Hrun : exists v, Xocl.queued_to_running (abi := Xocl.ert_h_2018_2) 0
                             xocl_done_queued = Ok (true, v))
    by (vm_compute; eexists; reflexivity).
  destruct Hrun as [v Hv]. rewrite Hv in Hq. injection Hq as <- <-.
  destruct (Hok eq_refl) as (cu & s & a & _ & Hs & _ & _ & Hsub & _ & _ & Hdone).
  destruct (Hdone ltac:(vm_compute; discriminate)) as (w2 & Hr & He & _ & _ & _ & _ & Hn).
  exists v, w2. split; [exact Hv |]. split; [exact Hr |]. split; [| exact Hn].
  rewrite He.
  assert (Hempty : forall t, 0 <= t < 32 ->
            Xocl.submitted_cmds (Xocl.exec xocl_done_queued) !! Z.to_nat t = Some None).
  { intros t Ht. replace (Xocl.submitted_cmds (Xocl.exec xocl_done_queued))
      with (replicate 128 (@None nat)) by (vm_compute; reflexivity).
    apply lookup_replicate. split; [reflexivity | lia]. }
  replace (Xocl.num_slots (Xocl.exec xocl_done_queued)) with 32 in Hs
    by (vm_compute; reflexivity).
  rewrite list_insert_id by (apply Hempty; exact Hs).
  destruct (Xocl.exec xocl_done_queued). reflexivity.
Defined.

(** ** The first client of a device *)

Lemma remove_absent (p : nat) (l : list nat) : p ∉ l -> Xocl.remove p l = l.
Proof.
  intros Hp. unfold Xocl.remove. induction l as [| x l IH]; [reflexivity |].
  apply not_elem_of_cons in Hp as [Hx Hl].
  rewrite filter_cons_True by congruence. f_equal. apply IH. exact Hl.
Qed.

Lemma list_difference_remove (p : nat) (l k : list nat) :
  list_difference (Xocl.remove p l) k = list_difference l (p :: k).
Proof.
  unfold Xocl.remove. induction l as [| x l IH]; [reflexivity |].
  destruct (decide (x = p)) as [-> | Hne].
  - rewrite filter_cons_False by (intros H; apply H; reflexivity).
    cbn [list_difference].
    destruct (decide_rel elem_of p (p :: k)) as [_ | Hout]; [exact IH |].
    exfalso. apply Hout. left.
  - rewrite filter_cons_True by exact Hne. cbn [list_difference].
    destruct (decide_rel elem_of x k) as [Hin | Hout];
      destruct (decide_rel elem_of x (p :: k)) as [Hin' | Hout'].
    + exact IH.
    + exfalso. apply Hout'. right. exact Hin.
    + exfalso. apply elem_of_cons in Hin' as [-> | Hin']; contradiction.
    + f_equal. exact IH.
Qed.

Lemma list_difference_nil_r (l : list nat) : list_difference l [] = l.
Proof.
  induction l as [| x l IH]; [reflexivity |]. cbn [list_difference].
  destruct (decide_rel elem_of x []) as [Hin | _].
  - exfalso. exact (not_elem_of_nil x Hin).
  - f_equal. exact IH.
Qed.

Lemma list_difference_diag (l : list nat) : list_difference l l = [].
Proof.
  apply elem_of_nil_inv. intros x Hx.
  apply list_elem_of_difference in Hx as [Hin Hout]. contradiction.
Qed.

Lemma list_difference_disjoint (l k : list nat) :
  (forall x, x ∈ l -> x ∉ k) -> list_difference l k = l.
Proof.
  induction l as [| x l IH]; intros Hd; [reflexivity |]. cbn [list_difference].
  destruct (decide_rel elem_of x k) as [Hin | _].
  - exfalso. exact (Hd x ltac:(left) Hin).
  - f_equal. apply IH. intros y Hy. apply Hd. right. exact Hy.
Qed.

(** cleanup_exec() on a command that is not on the free list. *)
Lemma cleanup_exec_step (p : nat) (v : Xocl.world) (c : Xocl.xocl_cmd) :
  Xocl.cmds v !! p = Some c ->
  is_Some (Xocl.clients v !! Xocl.client c) ->
  p ∉ Xocl.free_cmds v ->
  exists v',
    Xocl.cleanup_exec p v = Ok (tt, v') /\
    Xocl.free_cmds v' = Xocl.free_cmds v ++ [p] /\
    Xocl.command_queue v' = Xocl.remove p (Xocl.command_queue v) /\
    Xocl.pending_cmds v' = Xocl.remove p (Xocl.pending_cmds v) /\
    Xocl.cmds v' = Xocl.cmds v /\ Xocl.exec v' = Xocl.exec v /\
    Xocl.ctx_list v' = Xocl.ctx_list v /\ Xocl.num_pending v' = Xocl.num_pending v /\
    (forall j, is_Some (Xocl.clients v !! j) -> is_Some (Xocl.clients v' !! j)) /\
    (forall j, j <> Xocl.client c -> Xocl.clients v' !! j = Xocl.clients v !! j).
Proof.
  intros Hc [cl Hcl] Hfree.
  unfold Xocl.cleanup_exec, Xocl.recycle_cmd, Xocl.upd_client.
  cbv [bind Xocl.the_cmd gets modify ret Xocl.the_client]. rewrite Hc.
  cbn [Xocl.clients Xocl.set_xdev_execs Xocl.set_lists]. rewrite Hcl.
  eexists. split; [reflexivity |]. cbn.
  rewrite (remove_absent p (Xocl.free_cmds v)) by exact Hfree.
  repeat split; try reflexivity.
  - intros j Hj. destruct (decide (j = Xocl.client c)) as [-> | Hne].
    + rewrite lookup_insert_eq. eexists. reflexivity.
    + rewrite lookup_insert_ne by congruence. exact Hj.
  - intros j Hj. apply lookup_insert_ne. congruence.
Qed.

(** The two loops of reset_exec(), over a list of commands. *)
Lemma cleanup_exec_all (l : list nat) :
  forall v : Xocl.world,
    NoDup l ->
    (forall p, p ∈ l -> p ∉ Xocl.free_cmds v) ->
    (forall p, p ∈ l ->
       exists c, Xocl.cmds v !! p = Some c /\ is_Some (Xocl.clients v !! Xocl.client c)) ->
    exists v',
      for_each l Xocl.cleanup_exec v = Ok (tt, v') /\
      Xocl.free_cmds v' = Xocl.free_cmds v ++ l /\
      Xocl.command_queue v' = list_difference (Xocl.command_queue v) l /\
      Xocl.pending_cmds v' = list_difference (Xocl.pending_cmds v) l /\
      Xocl.cmds v' = Xocl.cmds v /\ Xocl.exec v' = Xocl.exec v /\
      Xocl.ctx_list v' = Xocl.ctx_list v /\ Xocl.num_pending v' = Xocl.num_pending v /\
      (forall j, is_Some (Xocl.clients v !! j) -> is_Some (Xocl.clients v' !! j)) /\
      (forall j, (forall p c, p ∈ l -> Xocl.cmds v !! p = Some c -> Xocl.client c <> j) ->
         Xocl.clients v' !! j = Xocl.clients v !! j).
Proof.
  induction l as [| p l IH]; intros v Hnd Hfree Hknown.
  - exists v. cbn [for_each]. rewrite app_nil_r, !list_difference_nil_r.
    repeat split; try reflexivity. intros j Hj. exact Hj.
  - apply NoDup_cons in Hnd as [Hp Hnd].
    destruct (Hknown p ltac:(left)) as (c & Hc & Hcl).
    destruct (cleanup_exec_step p v c Hc Hcl (Hfree p ltac:(left)))
      as (v1 & Hrun & Hf1 & Hq1 & Hp1 & Hc1 & He1 & Hx1 & Hn1 & Hs1 & Ho1).
    destruct (IH v1 Hnd) as (v' & Hrun' & Hf' & Hq' & Hp' & Hc' & He' & Hx' & Hn' & Hs' & Ho').
    { intros q Hq. rewrite Hf1. intros Hin. apply elem_of_app in Hin as [Hin | Hin].
      - apply (Hfree q); [right; exact Hq | exact Hin].
      - apply list_elem_of_singleton in Hin. subst q. contradiction. }
    { intros q Hq. destruct (Hknown q ltac:(right; exact Hq)) as (c' & Hc'' & Hcl').
      exists c'. rewrite Hc1. split; [exact Hc'' | apply Hs1; exact Hcl']. }
    exists v'. cbn [for_each]. rewrite (bind_Ok _ _ v v1 tt Hrun).
    split; [exact Hrun' |].
    split; [rewrite Hf', Hf1, <- app_assoc; reflexivity |].
    split; [rewrite Hq', Hq1; apply list_difference_remove |].
    split; [rewrite Hp', Hp1; apply list_difference_remove |].
    split; [congruence |]. split; [congruence |]. split; [congruence |].
    split; [congruence |]. split; [intros j Hj; apply Hs', Hs1; exact Hj |].
    intros j Hj. rewrite Ho'.
    + apply Ho1. intros Heq. apply (Hj p c); [left | exact Hc | symmetry; exact Heq].
    + intros q c' Hq Hc''. rewrite Hc1 in Hc''. apply (Hj q c'); [right; exact Hq | exact Hc''].
Qed.

Section FirstClient.
Variable w : Xocl.world.

(** X19.  create_client() makes a client that the device did not have,
    with its three counters at zero, and puts it at the tail of the
    context list.  On a device that has clients nothing else changes.  On
    a device without clients, whose lists are in order, the first client
    resets the device: the exec core is the one reset_exec() writes, so
    the device is not configured; the commands that were pending and
    queued are on the tail of the free list, in that order; the pending
    list and the command queue are empty, and [num_pending] is left as it
    was.  cleanup_exec() counts a stale command off its client
    ([xcmd->client->outstanding_execs]), so the lists are in order only
    when the clients of the stale commands are still there: unlinked from
    the context list by destroy_client() and not freed yet. *)
Theorem create_client_resets_for_first_client :
  let k := fresh (dom (Xocl.clients w)) in
  Xocl.clients w !! k = None /\
  (Xocl.ctx_list w <> [] ->
   exists w',
     Xocl.create_client w = Ok (k, w') /\
     Xocl.clients w' = <[k := new_client]> (Xocl.clients w) /\
     Xocl.ctx_list w' = Xocl.ctx_list w ++ [k] /\
     Xocl.exec w' = Xocl.exec w /\ Xocl.cmds w' = Xocl.cmds w /\
     Xocl.pending_cmds w' = Xocl.pending_cmds w /\
     Xocl.command_queue w' = Xocl.command_queue w /\
     Xocl.free_cmds w' = Xocl.free_cmds w /\
     Xocl.num_pending w' = Xocl.num_pending w) /\
  (Xocl.ctx_list w = [] -> lists_ok w ->
   exists w',
     Xocl.create_client w = Ok (k, w') /\
     Xocl.clients w' !! k = Some new_client /\
     Xocl.ctx_list w' = [k] /\
     Xocl.exec w' = Xocl.reset_exec_core /\ Xocl.cmds w' = Xocl.cmds w /\
     Xocl.pending_cmds w' = [] /\ Xocl.command_queue w' = [] /\
     Xocl.free_cmds w' = Xocl.free_cmds w ++ Xocl.pending_cmds w ++ Xocl.command_queue w /\
     Xocl.num_pending w' = Xocl.num_pending w).
Proof.
  intros k.
  assert (Hfresh : Xocl.clients w !! k = None).
  { apply not_elem_of_dom. apply is_fresh. }
  split; [exact Hfresh |]. split.
  - intros Hlist. unfold Xocl.create_client.
    cbv [bind gets modify ret]. fold k.
    destruct (Xocl.ctx_list w) as [| x l] eqn:E; [congruence |].
    cbn [length Nat.eqb].
    eexists. split; [reflexivity |]. cbn. rewrite E. repeat split; reflexivity.
  - intros Hlist (Hnd & Hknown).
    set (v := Xocl.set_clients (fun m => <[k := new_client]> m) w).
    set (v0 := {| Xocl.exec := Xocl.exec v; Xocl.cmds := Xocl.cmds v;
                  Xocl.bo_active := Xocl.bo_active v;
                  Xocl.clients := Xocl.clients v; Xocl.ctx_list := Xocl.ctx_list v ++ [k];
                  Xocl.sched_error := Xocl.sched_error v;
                  Xocl.sched_poll := Xocl.sched_poll v;
                  Xocl.command_queue := Xocl.command_queue v;
                  Xocl.free_cmds := Xocl.free_cmds v;
                  Xocl.pending_cmds := Xocl.pending_cmds v;
                  Xocl.num_pending := Xocl.num_pending v;
                  Xocl.cmd_count := Xocl.cmd_count v;
                  Xocl.xdev_outstanding_execs := Xocl.xdev_outstanding_execs v;
                  Xocl.xdev_total_execs := Xocl.xdev_total_execs v;
                  Xocl.poll_wakeups := Xocl.poll_wakeups v;
                  Xocl.mmio := Xocl.mmio v; Xocl.regs := Xocl.regs v;
                  Xocl.rom := Xocl.rom v |}).
    assert (Hstart : Xocl.create_client w = (Xocl.reset_exec ;;; ret k) v0).
    { unfold Xocl.create_client. cbv [bind gets modify]. fold k. rewrite Hlist.
      reflexivity. }
    rewrite Hstart. clear Hstart.
    apply NoDup_app in Hnd as (Hndp & Hpq & Hndq).
    apply NoDup_app in Hndq as (Hndq & Hqf & Hndf).
    assert (Hkeep : forall j, is_Some (Xocl.clients w !! j) -> is_Some (Xocl.clients v0 !! j)).
    { intros j Hj. subst v0 v. cbn. destruct (decide (j = k)) as [-> | Hne].
      - rewrite lookup_insert_eq. eexists. reflexivity.
      - rewrite lookup_insert_ne by congruence. exact Hj. }
    destruct (cleanup_exec_all (Xocl.pending_cmds w) v0 Hndp)
      as (v1 & Hrun1 & Hf1 & Hq1 & Hp1 & Hc1 & He1 & Hx1 & Hn1 & Hs1 & Ho1).
    { intros p Hp Hin. apply (Hpq p Hp). apply elem_of_app. right. exact Hin. }
    { intros p Hp. destruct (Hknown p) as (c & Hc & Hcl); [apply elem_of_app; left; exact Hp |].
      exists c. split; [exact Hc | apply Hkeep; exact Hcl]. }
    assert (Hq1' : Xocl.command_queue v1 = Xocl.command_queue w).
    { rewrite Hq1. apply list_difference_disjoint. intros x Hx Hin.
      apply (Hpq x Hin). apply elem_of_app. left. exact Hx. }
    destruct (cleanup_exec_all (Xocl.command_queue w) v1 Hndq)
      as (v2 & Hrun2 & Hf2 & Hq2 & Hp2 & Hc2 & He2 & Hx2 & Hn2 & Hs2 & Ho2).
    { intros p Hp. rewrite Hf1. intros Hin. apply elem_of_app in Hin as [Hin | Hin].
      - apply (Hqf p Hp Hin).
      - apply (Hpq p Hin). apply elem_of_app. left. exact Hp. }
    { intros p Hp. destruct (Hknown p) as (c & Hc & Hcl); [apply elem_of_app; right; exact Hp |].
      exists c. rewrite Hc1. split; [exact Hc | apply Hs1, Hkeep; exact Hcl]. }
    assert (Hreset : Xocl.reset_exec v0
                     = Ok (tt, Xocl.set_exec (fun _ => Xocl.reset_exec_core) v2)).
    { unfold Xocl.reset_exec.
      rewrite (bind_Ok _ _ v0 v0 (Xocl.pending_cmds w)) by reflexivity.
      rewrite (bind_Ok _ _ v0 v1 tt Hrun1).
      rewrite (bind_Ok _ _ v1 v1 (Xocl.command_queue w))
        by (unfold gets; rewrite Hq1'; reflexivity).
      rewrite (bind_Ok _ _ v1 v2 tt Hrun2). reflexivity. }
    rewrite (bind_Ok _ _ v0 _ tt Hreset).
    eexists. split; [reflexivity |]. cbn.
    split.
    { rewrite Ho2, Ho1.
      - subst v0 v. cbn. apply lookup_insert_eq.
      - intros p c Hp Hc Heq. destruct (Hknown p) as (c' & Hc' & Hcl');
          [apply elem_of_app; left; exact Hp |].
        assert (c' = c) as -> by (subst v0 v; cbn in Hc; congruence).
        rewrite Heq, Hfresh in Hcl'. destruct Hcl' as [? Habs]. discriminate.
      - intros p c Hp Hc Heq. rewrite Hc1 in Hc.
        destruct (Hknown p) as (c' & Hc' & Hcl'); [apply elem_of_app; right; exact Hp |].
        assert (c' = c) as -> by (subst v0 v; cbn in Hc; congruence).
        rewrite Heq, Hfresh in Hcl'. destruct Hcl' as [? Habs]. discriminate. }
    split; [rewrite Hx2, Hx1; subst v0 v; cbn; rewrite Hlist; reflexivity |].
    split; [reflexivity |].
    split; [rewrite Hc2, Hc1; reflexivity |].
    split.
    { rewrite Hp2, Hp1. change (Xocl.pending_cmds v0) with (Xocl.pending_cmds w).
      rewrite list_difference_diag. reflexivity. }
    split; [rewrite Hq2, Hq1'; apply list_difference_diag |].
    split; [rewrite Hf2, Hf1, <- app_assoc; reflexivity |].
    rewrite Hn2, Hn1. reflexivity.
Qed.

End FirstClient.

(** X19, witness: a second client of the device of [xocl_two_pending]
    changes neither the core nor the lists; the first client of the
    device of [xocl_stale], which is configured and holds two stale
    pending commands and a stale running command on the queue, resets the
    core and finds the three commands on the free list, the pending ones
    first. *)
Lemma create_client_resets_for_first_client_witness :
  (exists k w',
     Xocl.create_client xocl_two_pending = Ok (k, w') /\
     Xocl.ctx_list w' = [0%nat; k] /\
     Xocl.exec w' = Xocl.exec xocl_two_pending /\
     Xocl.pending_cmds w' = [1%nat; 2%nat] /\ Xocl.command_queue w' = [0%nat]) /\
  Xocl.ctx_list xocl_stale = [] /\
  Xocl.pending_cmds xocl_stale = [1%nat; 2%nat] /\
  Xocl.command_queue xocl_stale = [0%nat] /\
  Xocl.configured (Xocl.exec xocl_stale) = true /\
  exists k w',
    Xocl.create_client xocl_stale = Ok (k, w') /\
    Xocl.clients w' !! k = Some new_client /\
    Xocl.ctx_list w' = [k] /\
    Xocl.exec w' = Xocl.reset_exec_core /\
    Xocl.pending_cmds w' = [] /\ Xocl.command_queue w' = [] /\
    Xocl.free_cmds w' = [1%nat; 2%nat; 0%nat] /\
    Xocl.num_pending w' = 2.
Proof.
  split.
  { destruct (create_client_resets_for_first_client xocl_two_pending) as (_ & H & _).
    destruct H as (w' & Hrun & _ & Hl & He & _ & Hp & Hq & _).
    - vm_compute. discriminate.
    - exists (fresh (dom (Xocl.clients xocl_two_pending))), w'.
      split; [exact Hrun |]. split; [rewrite Hl; vm_compute; reflexivity |].
      split; [exact He |].
      split; [rewrite Hp | rewrite Hq]; vm_compute; reflexivity. }
  split; [reflexivity |]. split; [vm_compute; reflexivity |].
  split; [vm_compute; reflexivity |]. split; [vm_compute; reflexivity |].
  destruct (create_client_resets_for_first_client xocl_stale) as (_ & _ & H).
  destruct (H eq_refl) as (w' & Hrun & Hk & Hl & He & _ & Hp & Hq & Hf & Hn).
  - split.
    + apply (bool_decide_unpack _). vm_compute. exact I.
    + intros p Hp. apply list_elem_of_In in Hp. vm_compute in Hp.
      destruct Hp as [<- | [<- | [<- | []]]];
        vm_compute; eexists; (split; [reflexivity | eexists; reflexivity]).
  - exists (fresh (dom (Xocl.clients xocl_stale))), w'.
    split; [exact Hrun |]. split; [exact Hk |]. split; [exact Hl |].
    split; [exact He |]. split; [exact Hp |]. split; [exact Hq |].
    split; [rewrite Hf; vm_compute; reflexivity |].
    rewrite Hn. vm_compute. reflexivity.
Defined.

(** ** New commands *)

Section AddCmd.
Variables (w : Xocl.world) (blank : Xocl.xocl_cmd) (cl b : nat) (pkt : ert_packet).
Variables (deps : list nat) (host : Xocl.client_ctx).

Hypothesis client_at : Xocl.clients w !! cl = Some host.
Hypothesis free_known : forall p, p ∈ Xocl.free_cmds w -> is_Some (Xocl.cmds w !! p).

(** X20.  add_cmd() for a client of the device.  With more than MAX_DEPS
    dependencies the copy runs over the end of [deps].  Otherwise it
    returns 0: the command object is the head of the free list, which
    leaves the list, or a new object when the free list is empty; the
    object gets the identifier [cmd_count], the buffer object, the client,
    the packet in the state new, no slot and no compute unit, and the
    dependencies with their number as wait count; it goes to the tail of
    the pending list, and [num_pending], [cmd_count] and the outstanding
    commands of the client go up by one.  The command queue and the exec
    core stay as they are. *)
Theorem add_cmd_takes_free_object :
  (MAX_DEPS < Z.of_nat (length deps) ->
   Xocl.add_cmd blank cl b pkt deps w = Fault OutOfBounds) /\
  (Z.of_nat (length deps) <= MAX_DEPS ->
   exists p old w',
     Xocl.add_cmd blank cl b pkt deps w = Ok (0, w') /\
     match Xocl.free_cmds w with
     | q :: rest => p = q /\ Xocl.cmds w !! q = Some old /\ Xocl.free_cmds w' = rest
     | [] => Xocl.cmds w !! p = None /\ old = blank /\ Xocl.free_cmds w' = []
     end /\
     Xocl.cmds w' = <[p := added_cmd old (Xocl.cmd_count w) cl b pkt deps]> (Xocl.cmds w) /\
     Xocl.pending_cmds w' = Xocl.pending_cmds w ++ [p] /\
     Xocl.command_queue w' = Xocl.command_queue w /\
     Xocl.num_pending w' = atomic_inc (Xocl.num_pending w) /\
     Xocl.cmd_count w' = ulong_inc (Xocl.cmd_count w) /\
     Xocl.clients w'
     = <[cl := Xocl.set_outstanding_execs (atomic_inc (Xocl.outstanding_execs host)) host]>
         (Xocl.clients w) /\
     Xocl.exec w' = Xocl.exec w).
Proof.
  assert (Hobject : exists p old,
    match Xocl.free_cmds w with
    | q :: rest => p = q /\ Xocl.cmds w !! q = Some old
    | [] => p = fresh (dom (Xocl.cmds w)) /\ Xocl.cmds w !! p = None /\ old = blank
    end).
  { destruct (Xocl.free_cmds w) as [| q rest] eqn:E.
    - exists (fresh (dom (Xocl.cmds w))), blank. split; [reflexivity |].
      split; [apply not_elem_of_dom, is_fresh | reflexivity].
    - destruct (free_known q) as [old Hold]; [left |].
      exists q, old. split; [reflexivity | exact Hold]. }
  destruct Hobject as (p & old & Hobj).
  split.
  - intros Hmany.
    unfold Xocl.add_cmd, Xocl.get_free_xocl_cmd, Xocl.upd_cmd, Xocl.upd_client.
    cbv [bind gets modify ret Xocl.the_cmd Xocl.the_client lift].
    replace (Z.of_nat (length deps) <=? MAX_DEPS) with false
      by (symmetry; apply Z.leb_gt; exact Hmany).
    destruct (Xocl.free_cmds w) as [| q rest] eqn:E.
    + destruct Hobj as (-> & _ & ->).
      repeat (cbn [Xocl.cmds Xocl.clients Xocl.set_cmds Xocl.set_lists Xocl.set_clients];
              first [rewrite client_at | rewrite lookup_insert_eq]).
      reflexivity.
    + destruct Hobj as (-> & Hold).
      repeat (cbn [Xocl.cmds Xocl.clients Xocl.set_cmds Xocl.set_lists Xocl.set_clients];
              first [rewrite client_at | rewrite lookup_insert_eq | rewrite Hold]).
      reflexivity.
  - intros Hfew. exists p, old.
    unfold Xocl.add_cmd, Xocl.get_free_xocl_cmd, Xocl.set_cmd_state, Xocl.upd_cmd,
      Xocl.upd_client.
    cbv [bind gets modify ret Xocl.the_cmd Xocl.the_client lift].
    replace (Z.of_nat (length deps) <=? MAX_DEPS) with true
      by (symmetry; apply Z.leb_le; exact Hfew).
    destruct (Xocl.free_cmds w) as [| q rest] eqn:E.
    + destruct Hobj as (-> & Hnew & ->).
      repeat (cbn [Xocl.cmds Xocl.clients Xocl.set_cmds Xocl.set_lists Xocl.set_clients
                   Xocl.set_xdev_execs];
              first [rewrite client_at | rewrite lookup_insert_eq]).
      eexists. split; [reflexivity |].
      cbn [Xocl.cmds Xocl.clients Xocl.set_cmds Xocl.set_lists Xocl.set_clients
           Xocl.set_xdev_execs Xocl.free_cmds Xocl.pending_cmds Xocl.command_queue
           Xocl.num_pending Xocl.cmd_count Xocl.exec].
      rewrite ?E. split; [auto |]. split; [| repeat split; reflexivity].
      rewrite !insert_insert_eq. reflexivity.
    + destruct Hobj as (-> & Hold).
      repeat (cbn [Xocl.cmds Xocl.clients Xocl.set_cmds Xocl.set_lists Xocl.set_clients
                   Xocl.set_xdev_execs];
              first [rewrite client_at | rewrite lookup_insert_eq | rewrite Hold]).
      eexists. split; [reflexivity |].
      cbn [Xocl.cmds Xocl.clients Xocl.set_cmds Xocl.set_lists Xocl.set_clients
           Xocl.set_xdev_execs Xocl.free_cmds Xocl.pending_cmds Xocl.command_queue
           Xocl.num_pending Xocl.cmd_count Xocl.exec].
      rewrite ?E. split; [auto |]. split; [| repeat split; reflexivity].
      rewrite !insert_insert_eq. reflexivity.
Qed.

End AddCmd.

Lemma add_cmd_takes_free_object_witness :
  exists w',
    Xocl.add_cmd Xocl.kmalloc_cmd 0 1 (start_packet 1 [] [0; 170; 187]) [] xocl_configured
    = Ok (0, w') /\
    Xocl.pending_cmds w' = [0%nat] /\ Xocl.free_cmds w' = [].
Proof.
  pose proof (add_cmd_takes_free_object xocl_configured Xocl.kmalloc_cmd 0 1
                (start_packet 1 [] [0; 170; 187]) []
                {| Xocl.trigger := 1; Xocl.abort := 0; Xocl.outstanding_execs := 0 |}
                ltac:(vm_compute; reflexivity)
                ltac:(intros p Hp; apply list_elem_of_In in Hp; vm_compute in Hp;
                      destruct Hp as [<- | []]; vm_compute; eexists; reflexivity))
    as [_ H].
  destruct (H ltac:(vm_compute; discriminate)) as (p & old & w' & Hrun & Hobj & _ & Hp & _).
  replace (Xocl.free_cmds xocl_configured) with [0%nat] in Hobj by (vm_compute; reflexivity).
  replace (Xocl.pending_cmds xocl_configured) with (@nil nat) in Hp
    by (vm_compute; reflexivity).
  destruct Hobj as (-> & _ & Hf).
  exists w'. split; [exact Hrun |]. split; [exact Hp | exact Hf].
Defined.

(** * The worker of the zocl scheduler *)

(** ** Completion of a command *)

Ltac zocl_simpl :=
  cbn [ZoclWorker.sched ZoclWorker.regs ZoclWorker.triggers ZoclWorker.ctx_list
       ZoclWorker.poll_wakeups ZoclWorker.free_cmds ZoclWorker.num_pending
       ZoclWorker.set_sched ZoclWorker.set_triggers ZoclWorker.set_poll_wakeups
       ZoclWorker.set_free_cmds ZoclWorker.set_num_pending ZoclWorker.with_lists
       Zocl.exec Zocl.cmds Zocl.ert Zocl.sched_error Zocl.sched_poll Zocl.command_queue
       Zocl.pending_cmds Zocl.mmio Zocl.ert_hw
       Zocl.with_exec Zocl.with_cmds Zocl.with_sched_error Zocl.with_sched_poll
       Zocl.with_mmio Zocl.with_ert_hw
       Zocl.submitted_cmds Zocl.num_slots Zocl.num_slot_masks Zocl.slot_status
       Zocl.cu_status Zocl.num_cu_masks Zocl.polling_mode Zocl.ops
       Zocl.cu_shift_offset
       Zocl.set_submitted_cmds Zocl.set_slot_status Zocl.set_cu_status
       Zocl.state Zocl.cu_idx Zocl.slot_idx Zocl.cq_slot_idx Zocl.packet
       Zocl.set_state Zocl.set_cu_idx Zocl.set_slot_idx
       pkt_opcode pkt_type pkt_count pkt_extra_cu_masks pkt_data set_pkt_state] in *.

Lemma on_Ok {A : Type} (m : M Zocl.world A) (d : ZoclWorker.device) (a : A)
    (w : Zocl.world) :
  m (ZoclWorker.sched d) = Ok (a, w) ->
  ZoclWorker.on m d = Ok (a, ZoclWorker.set_sched w d).
Proof. intros H. unfold ZoclWorker.on. rewrite H. reflexivity. Qed.

Lemma zocl_set_sched_id (d : ZoclWorker.device) :
  ZoclWorker.set_sched (ZoclWorker.sched d) d = d.
Proof. destruct d. reflexivity. Qed.

Lemma on_gets {A : Type} (f : Zocl.world -> A) (d : ZoclWorker.device) :
  ZoclWorker.on (gets f) d = Ok (f (ZoclWorker.sched d), d).
Proof. unfold ZoclWorker.on, gets. rewrite zocl_set_sched_id. reflexivity. Qed.

Lemma on_the_cmd (d : ZoclWorker.device) (p : nat) (c : Zocl.sched_cmd) :
  Zocl.cmds (ZoclWorker.sched d) !! p = Some c ->
  ZoclWorker.on (Zocl.the_cmd p) d = Ok (c, d).
Proof.
  intros H. unfold ZoclWorker.on, Zocl.the_cmd. rewrite H, zocl_set_sched_id. reflexivity.
Qed.

Lemma on_upd_cmd (d : ZoclWorker.device) (p : nat) (c : Zocl.sched_cmd)
    (f : Zocl.sched_cmd -> Zocl.sched_cmd) :
  Zocl.cmds (ZoclWorker.sched d) !! p = Some c ->
  ZoclWorker.on (Zocl.upd_cmd p f) d
  = Ok (tt, ZoclWorker.set_sched
              (Zocl.with_cmds (<[p := f c]> (Zocl.cmds (ZoclWorker.sched d)))
                 (ZoclWorker.sched d)) d).
Proof.
  intros H. unfold ZoclWorker.on, Zocl.upd_cmd, bind, Zocl.the_cmd, modify.
  rewrite H. reflexivity.
Qed.

Lemma zocl_triggered_lookup (l : list nat) (m : gmap nat Z) (k : nat) :
  NoDup l ->
  zocl_triggered l m !! k
  = if bool_decide (k ∈ l) then atomic_inc <$> m !! k else m !! k.
Proof.
  revert m. induction l as [| x l IH]; intros m Hnd.
  - reflexivity.
  - apply NoDup_cons in Hnd as [Hx Hl]. unfold zocl_triggered in *. cbn [foldl].
    rewrite IH by exact Hl.
    destruct (decide (k = x)) as [-> | Hne].
    + rewrite (bool_decide_eq_false_2 (x ∈ l)) by exact Hx.
      rewrite bool_decide_eq_true_2 by left.
      apply lookup_alter_eq.
    + rewrite lookup_alter_ne by congruence.
      destruct (decide (k ∈ l)) as [Hin | Hout].
      * rewrite !bool_decide_eq_true_2; [reflexivity | right; exact Hin | exact Hin].
      * rewrite !bool_decide_eq_false_2; [reflexivity | | exact Hout].
        intros H. apply elem_of_cons in H as [-> | H]; contradiction.
Qed.

Lemma zocl_notify_loop (l : list nat) :
  forall d : ZoclWorker.device,
    (forall k, k ∈ l -> is_Some (ZoclWorker.triggers d !! k)) ->
    for_each l (fun k =>
      d <- gets (fun d => d) ;;
      match ZoclWorker.triggers d !! k with
      | None => lift (Fault NullPointer)
      | Some t => modify (ZoclWorker.set_triggers
                            (<[k := atomic_inc t]> (ZoclWorker.triggers d)))
      end) d
    = Ok (tt, ZoclWorker.set_triggers (zocl_triggered l (ZoclWorker.triggers d)) d).
Proof.
  induction l as [| x l IH]; intros d Hall.
  - cbn [for_each]. unfold ret, zocl_triggered. cbn [foldl]. destruct d. reflexivity.
  - cbn [for_each]. destruct (Hall x ltac:(left)) as [t Ht].
    rewrite (bind_Ok _ _ d (ZoclWorker.set_triggers
                              (<[x := atomic_inc t]> (ZoclWorker.triggers d)) d) tt)
      by (unfold bind, gets, modify; rewrite Ht; reflexivity).
    assert (Hm : <[x := atomic_inc t]> (ZoclWorker.triggers d)
                 = alter atomic_inc x (ZoclWorker.triggers d)).
    { apply map_eq. intros j. destruct (decide (j = x)) as [-> | Hne].
      - rewrite lookup_insert_eq, lookup_alter_eq, Ht. reflexivity.
      - rewrite lookup_insert_ne, lookup_alter_ne by congruence. reflexivity. }
    rewrite IH.
    + unfold zocl_triggered. cbn [foldl ZoclWorker.triggers ZoclWorker.set_triggers].
      rewrite Hm. destruct d. reflexivity.
    + intros k Hk. cbn. destruct (decide (k = x)) as [-> | Hne].
      * rewrite lookup_insert_eq. eexists. reflexivity.
      * rewrite lookup_insert_ne by congruence. apply Hall. right. exact Hk.
Qed.

Section ZoclCompletion.
Variables (ERT_STATUS_REG : Z) (p : nat).

(** notify_host() of the zocl scheduler, on both kinds of device. *)
Lemma zocl_notify_host_run (v : ZoclWorker.device) (x : Zocl.sched_cmd) :
  Zocl.cmds (ZoclWorker.sched v) !! p = Some x ->
  0 <= Zocl.cq_slot_idx x < 2 ^ 32 ->
  (forall k, k ∈ ZoclWorker.ctx_list v -> is_Some (ZoclWorker.triggers v !! k)) ->
  ZoclWorker.notify_host ERT_STATUS_REG p v
  = Ok (tt, zocl_notified ERT_STATUS_REG (Zocl.cq_slot_idx x) v).
Proof.
  intros Hx Hcq Halive. unfold ZoclWorker.notify_host, zocl_notified.
  rewrite (bind_Ok _ _ v v (ZoclWorker.sched v)) by apply on_gets. cbv beta.
  destruct (Zocl.ert (ZoclWorker.sched v)); cbn [negb].
  - rewrite (bind_Ok _ _ v v x (on_the_cmd v p x Hx)). cbv beta zeta.
    rewrite u32_small by exact Hcq.
    destruct (index_decompose (Zocl.cq_slot_idx x) Hcq) as (Hw & Hpos & _).
    rewrite Hw, Hpos.
    assert (Hq : 0 <= Zocl.cq_slot_idx x / 32 < 2 ^ 27).
    { split; [apply Z.div_pos; lia |]. apply Z.div_lt_upper_bound; lia. }
    rewrite Z.shiftl_mul_pow2 by lia. change (2 ^ 2) with 4.
    rewrite (u32_small (_ * 4)) by lia.
    replace (Zocl.cq_slot_idx x / 32 * 4) with (4 * (Zocl.cq_slot_idx x / 32)) by lia.
    reflexivity.
  - rewrite (bind_Ok _ _ v v (ZoclWorker.ctx_list v)) by reflexivity.
    rewrite (bind_Ok _ _ v _ tt (zocl_notify_loop _ v Halive)). reflexivity.
Qed.

(** mark_cmd_complete() of the zocl scheduler, step by step. *)
Lemma zocl_mark_cmd_complete_run (v : ZoclWorker.device) (x : Zocl.sched_cmd)
    (st : list Z) :
  Zocl.cmds (ZoclWorker.sched v) !! p = Some x ->
  0 <= Zocl.slot_idx x
  < Z.of_nat (length (Zocl.submitted_cmds (Zocl.exec (ZoclWorker.sched v)))) ->
  release_slot_idx_on (Zocl.slot_status (Zocl.exec (ZoclWorker.sched v)))
    (u32 (Zocl.slot_idx x)) = Ok st ->
  0 <= Zocl.cq_slot_idx x < 2 ^ 32 ->
  (forall k, k ∈ ZoclWorker.ctx_list v -> is_Some (ZoclWorker.triggers v !! k)) ->
  ZoclWorker.mark_cmd_complete ERT_STATUS_REG p v
  = Ok (tt, zocl_notified ERT_STATUS_REG (Zocl.cq_slot_idx x) (zocl_retired p x st v)).
Proof.
  intros Hx Hslot Hrel Hcq Halive.
  unfold ZoclWorker.mark_cmd_complete.
  rewrite (bind_Ok _ _ v v x (on_the_cmd v p x Hx)).
  rewrite (bind_Ok _ _ v v (Zocl.exec (ZoclWorker.sched v))) by apply on_gets.
  rewrite (bind_Ok _ _ v v (<[Z.to_nat (Zocl.slot_idx x) := None]>
                              (Zocl.submitted_cmds (Zocl.exec (ZoclWorker.sched v)))))
    by (unfold lift; rewrite arr_set_in by exact Hslot; reflexivity).
  set (d1 := ZoclWorker.set_sched
               (Zocl.with_exec
                  (Zocl.set_submitted_cmds
                     (<[Z.to_nat (Zocl.slot_idx x) := None]>
                        (Zocl.submitted_cmds (Zocl.exec (ZoclWorker.sched v))))
                     (Zocl.exec (ZoclWorker.sched v)))
                  (ZoclWorker.sched v)) v).
  rewrite (bind_Ok _ _ v d1 tt) by reflexivity.
  unfold ZoclWorker.set_cmd_state.
  rewrite (bind_Ok _ _ d1 _ tt (on_upd_cmd d1 p x _ Hx)).
  set (d2 := ZoclWorker.set_sched _ d1).
  rewrite (bind_Ok _ _ d2 d2 (ZoclWorker.sched d2)) by apply on_gets. cbv beta.
  change (Zocl.ert (ZoclWorker.sched d2)) with (Zocl.ert (ZoclWorker.sched v)).
  change (Zocl.polling_mode (Zocl.exec (ZoclWorker.sched d2)))
    with (Zocl.polling_mode (Zocl.exec (ZoclWorker.sched v))).
  set (pm := Zocl.ert (ZoclWorker.sched v)
             || negb (Zocl.polling_mode (Zocl.exec (ZoclWorker.sched v)) =? 0)).
  set (d3 := ZoclWorker.set_sched
               (Zocl.with_sched_poll
                  (if pm then u32 (Zocl.sched_poll (ZoclWorker.sched v) - 1)
                   else Zocl.sched_poll (ZoclWorker.sched v))
                  (ZoclWorker.sched d2)) d2).
  rewrite (bind_Ok _ _ d2 d3 tt) by (subst d3; destruct pm; reflexivity).
  rewrite (bind_Ok _ _ d3
             (ZoclWorker.set_sched
                (Zocl.with_exec (Zocl.set_slot_status st (Zocl.exec (ZoclWorker.sched d3)))
                   (ZoclWorker.sched d3)) d3) tt).
  2:{ apply on_Ok. unfold Zocl.release_slot_idx, bind, gets, lift, Zocl.upd_exec, modify.
      change (Zocl.slot_status (Zocl.exec (ZoclWorker.sched d3)))
        with (Zocl.slot_status (Zocl.exec (ZoclWorker.sched v))).
      rewrite Hrel. reflexivity. }
  set (d4 := ZoclWorker.set_sched _ d3).
  assert (H4 : Zocl.cmds (ZoclWorker.sched d4) !! p = Some (zocl_completed x))
    by (subst d4 d3 d2 d1; zocl_simpl; apply lookup_insert_eq).
  rewrite (zocl_notify_host_run d4 (zocl_completed x) H4 Hcq Halive).
  reflexivity.
Qed.

Variables (d : ZoclWorker.device) (c : Zocl.sched_cmd).

Hypothesis cmd_at : Zocl.cmds (ZoclWorker.sched d) !! p = Some c.
Hypothesis slot_tabled :
  0 <= Zocl.slot_idx c
  < Z.of_nat (length (Zocl.submitted_cmds (Zocl.exec (ZoclWorker.sched d)))).
Hypothesis slot_status_held :
  Zocl.slot_idx c < 32 * Z.of_nat (length (Zocl.slot_status (Zocl.exec (ZoclWorker.sched d)))).
Hypothesis slot_word : Zocl.slot_idx c < 2 ^ 32.
Hypothesis cq_slot_word : 0 <= Zocl.cq_slot_idx c < 2 ^ 32.
Hypothesis clients_once : NoDup (ZoclWorker.ctx_list d).
Hypothesis clients_alive :
  forall k, k ∈ ZoclWorker.ctx_list d -> is_Some (ZoclWorker.triggers d !! k).

(** X21.  mark_cmd_complete() of the zocl scheduler, on a command in a
    slot of the device: the command is completed in the command and in its
    packet, its slot of the table of submitted commands is emptied and
    its slot is released (the bit of the slot in [slot_status] is
    toggled); the poll count goes down by one on a device with the
    embedded scheduler or in polling mode.  The host is notified by the
    kind of device: without the embedded scheduler every context of the
    device has its trigger counter one up and the waiters are woken once,
    and no register of the embedded scheduler is written; with it, the bit
    of the command queue slot of the command is written to the status
    register of the embedded scheduler, and no context is triggered. *)
Theorem zocl_mark_cmd_complete_notifies :
  exists d' st',
    ZoclWorker.mark_cmd_complete ERT_STATUS_REG p d = Ok (tt, d') /\
    Zocl.cmds (ZoclWorker.sched d') = <[p := zocl_completed c]> (Zocl.cmds (ZoclWorker.sched d)) /\
    (forall n, 0 <= n ->
       status_bit st' n
       = if n =? Zocl.slot_idx c
         then negb (status_bit (Zocl.slot_status (Zocl.exec (ZoclWorker.sched d))) n)
         else status_bit (Zocl.slot_status (Zocl.exec (ZoclWorker.sched d))) n) /\
    Zocl.exec (ZoclWorker.sched d')
    = Zocl.set_slot_status st'
        (Zocl.set_submitted_cmds
           (<[Z.to_nat (Zocl.slot_idx c) := None]>
              (Zocl.submitted_cmds (Zocl.exec (ZoclWorker.sched d))))
           (Zocl.exec (ZoclWorker.sched d))) /\
    Zocl.sched_poll (ZoclWorker.sched d')
    = (if Zocl.ert (ZoclWorker.sched d)
          || negb (Zocl.polling_mode (Zocl.exec (ZoclWorker.sched d)) =? 0)
       then u32 (Zocl.sched_poll (ZoclWorker.sched d) - 1)
       else Zocl.sched_poll (ZoclWorker.sched d)) /\
    (if Zocl.ert (ZoclWorker.sched d) then
       ZoclWorker.triggers d' = ZoclWorker.triggers d /\
       ZoclWorker.poll_wakeups d' = ZoclWorker.poll_wakeups d /\
       Zocl.ert_hw (ZoclWorker.sched d')
       = Zocl.ert_hw (ZoclWorker.sched d) ++
         [iowrite32 (bit (Zocl.cq_slot_idx c mod 32))
            (u32 (ERT_STATUS_REG + 4 * (Zocl.cq_slot_idx c / 32)))]
     else
       (forall k, k ∈ ZoclWorker.ctx_list d ->
          ZoclWorker.triggers d' !! k = atomic_inc <$> ZoclWorker.triggers d !! k) /\
       ZoclWorker.poll_wakeups d' = S (ZoclWorker.poll_wakeups d) /\
       Zocl.ert_hw (ZoclWorker.sched d') = Zocl.ert_hw (ZoclWorker.sched d)).
Proof.
  destruct (release_slot_idx_on_toggles (Zocl.slot_status (Zocl.exec (ZoclWorker.sched d)))
              (Zocl.slot_idx c) ltac:(lia) slot_word) as (st' & Hrel & _ & Hbits).
  exists (zocl_notified ERT_STATUS_REG (Zocl.cq_slot_idx c) (zocl_retired p c st' d)), st'.
  split.
  { apply zocl_mark_cmd_complete_run; try assumption.
    rewrite u32_small by lia. exact Hrel. }
  unfold zocl_notified, zocl_retired. zocl_simpl.
  destruct (Zocl.ert (ZoclWorker.sched d)); zocl_simpl.
  - repeat split; try reflexivity. exact Hbits.
  - split; [reflexivity |]. split; [exact Hbits |]. split; [reflexivity |].
    split; [reflexivity |]. split; [| split; reflexivity].
    intros k Hk. rewrite zocl_triggered_lookup by exact clients_once.
    rewrite bool_decide_eq_true_2 by exact Hk. reflexivity.
Qed.

End ZoclCompletion.

Lemma zocl_mark_cmd_complete_notifies_witness :
  exists d',
    ZoclWorker.mark_cmd_complete 64 0
      (zocl_device zocl_started) = Ok (tt, d') /\
    ZoclWorker.triggers d' !! 0%nat = Some 1 /\
    exists st',
      Zocl.slot_status (Zocl.exec (ZoclWorker.sched d')) = st' /\
      status_bit st' 0 = false.
Proof.
  destruct (zocl_mark_cmd_complete_notifies 64 0
              (zocl_device zocl_started)
              zocl_started_cmd
              ltac:(vm_compute; reflexivity)
              ltac:(vm_compute; split; [discriminate | reflexivity])
              ltac:(vm_compute; reflexivity)
              ltac:(vm_compute; reflexivity)
              ltac:(vm_compute; split; [discriminate | reflexivity])
              ltac:(vm_compute; apply NoDup_singleton)
              ltac:(intros k Hk; apply list_elem_of_In in Hk; vm_compute in Hk;
                    destruct Hk as [<- | []]; vm_compute; eexists; reflexivity))
    as (d' & st' & Hrun & _ & Hbits & He & _ & Hn).
  replace (Zocl.ert (ZoclWorker.sched (zocl_device zocl_started))) with false in Hn
    by (vm_compute; reflexivity).
  destruct Hn as (Ht & _).
  exists d'. split; [exact Hrun |]. split.
  - rewrite (Ht 0%nat) by (vm_compute; left). vm_compute. reflexivity.
  - exists st'. split; [rewrite He; reflexivity |].
    rewrite (Hbits 0) by lia. vm_compute. reflexivity.
Defined.

(** ** A start command from the queue to its completion, in zocl *)

Lemma zocl_the_cmd_run (w : Zocl.world) (p : nat) (c : Zocl.sched_cmd) :
  Zocl.cmds w !! p = Some c -> Zocl.the_cmd p w = Ok (c, w).
Proof. intros H. unfold Zocl.the_cmd. rewrite H. reflexivity. Qed.

Lemma zocl_upd_cmd_run (w : Zocl.world) (p : nat) (c : Zocl.sched_cmd)
    (f : Zocl.sched_cmd -> Zocl.sched_cmd) :
  Zocl.cmds w !! p = Some c ->
  Zocl.upd_cmd p f w = Ok (tt, Zocl.with_cmds (<[p := f c]> (Zocl.cmds w)) w).
Proof. intros H. unfold Zocl.upd_cmd, bind, Zocl.the_cmd, modify. rewrite H. reflexivity. Qed.

Section ZoclStartCu.
Context {zabi : Zocl.sched_exec_h}.
Variables (ERT_STATUS_REG : Z) (d : ZoclWorker.device) (p : nat) (c : Zocl.sched_cmd).

Local Abbreviation w := (ZoclWorker.sched d).

Hypothesis software : Zocl.ops (Zocl.exec w) = Zocl.penguin_ops.
Hypothesis cmd_at : Zocl.cmds w !! p = Some c.
Hypothesis start_cu : Zocl.opcode c = Zocl.OP_START_CU.
Hypothesis start_kernel : Zocl.opcode c = Zocl.OP_START_KERNEL.
Hypothesis not_configure : Zocl.opcode c <> Zocl.OP_CONFIGURE.
Hypothesis fields : packet_fields_ok (Zocl.packet c).
Hypothesis payload_held :
  1 + pkt_extra_cu_masks (Zocl.packet c) <= pkt_count (Zocl.packet c)
  <= Z.of_nat (length (pkt_data (Zocl.packet c))).
Hypothesis data_words : words (pkt_data (Zocl.packet c)).
Hypothesis status_words : words (Zocl.cu_status (Zocl.exec w)).
Hypothesis masks_in_packet :
  0 <= Zocl.num_cu_masks (Zocl.exec w) <= Z.of_nat (length (pkt_data (Zocl.packet c))).
Hypothesis masks_in_status :
  Zocl.num_cu_masks (Zocl.exec w) <= Z.of_nat (length (Zocl.cu_status (Zocl.exec w))).
Hypothesis masks_few : Zocl.num_cu_masks (Zocl.exec w) <= 2 ^ 26.
Hypothesis zslots :
  slots_ok (Zocl.num_slots (Zocl.exec w)) (Zocl.num_slot_masks (Zocl.exec w))
    (Zocl.slot_status (Zocl.exec w)).
Hypothesis slots_tabled :
  Zocl.num_slots (Zocl.exec w) <= Z.of_nat (length (Zocl.submitted_cmds (Zocl.exec w))).
Hypothesis cq_slot_word : 0 <= Zocl.cq_slot_idx c < 2 ^ 32.
Hypothesis clients_once : NoDup (ZoclWorker.ctx_list d).
Hypothesis clients_alive :
  forall k, k ∈ ZoclWorker.ctx_list d -> is_Some (ZoclWorker.triggers d !! k).
Hypothesis poll_word : 0 <= Zocl.sched_poll w < 2 ^ 32.

(** The world after penguin_submit() has started the command on the
    compute unit [cu], in the slot [s], with [cs] and [ss] the new
    bitmaps and [ws] the register writes. *)
Local Abbreviation submitted cu s cs ss ws :=
  {| Zocl.exec := Zocl.set_slot_status ss (Zocl.set_cu_status cs (Zocl.exec w));
     Zocl.cmds := <[p := Zocl.set_slot_idx s (Zocl.set_cu_idx cu c)]>
                    (<[p := Zocl.set_cu_idx cu c]> (Zocl.cmds w));
     Zocl.ert := Zocl.ert w; Zocl.sched_error := Zocl.sched_error w;
     Zocl.sched_poll := Zocl.sched_poll w;
     Zocl.command_queue := Zocl.command_queue w;
     Zocl.pending_cmds := Zocl.pending_cmds w;
     Zocl.mmio := Zocl.mmio w ++ ws; Zocl.ert_hw := Zocl.ert_hw w |}.

Lemma zocl_penguin_submit_start_cu :
  exists ok w1,
    Zocl.penguin_submit p w = Ok (ok, w1) /\
    (ok = true ->
     exists k i busy s ss,
       0 <= k < Zocl.num_cu_masks (Zocl.exec w) /\ 0 <= i < 32 /\
       Zocl.cu_status (Zocl.exec w) !! Z.to_nat k = Some busy /\
       Z.testbit busy i = false /\
       0 <= s < Zocl.num_slots (Zocl.exec w) /\
       release_slot_idx_on ss (u32 s) = Ok (Zocl.slot_status (Zocl.exec w)) /\
       w1 = submitted (i + 32 * k) s
              (<[Z.to_nat k := Z.setbit busy i]> (Zocl.cu_status (Zocl.exec w))) ss
              (cu_start_writes (Zocl.cu_idx_to_offset (Zocl.exec w) (i + 32 * k))
                 (drop 1 (regmap (Zocl.packet c) (1 + pkt_extra_cu_masks (Zocl.packet c)))))).
Proof.
  destruct fields as [Hcount Hextra].
  destruct (zocl_get_free_cu_spec w p c cmd_at data_words status_words
              ltac:(lia) ltac:(lia) masks_in_status masks_few) as (r & cs & Hcu & Hspec).
  unfold Zocl.penguin_submit.
  rewrite (bind_Ok _ _ w w c (zocl_the_cmd_run w p c cmd_at)). cbv beta.
  replace (Zocl.opcode c =? Zocl.OP_CONFIGURE) with false
    by (symmetry; apply Z.eqb_neq; exact not_configure).
  replace (Zocl.opcode c =? Zocl.OP_START_CU) with true
    by (symmetry; apply Z.eqb_eq; exact start_cu).
  cbn [negb].
  rewrite (bind_Ok _ _ _ _ _ Hcu).
  set (wA := Zocl.with_exec (Zocl.set_cu_status cs (Zocl.exec w)) w).
  rewrite (bind_Ok _ _ wA _ tt (zocl_upd_cmd_run wA p c _ cmd_at)).
  set (wB := Zocl.with_cmds _ wA).
  destruct Hspec as [k i cmd busy Hk Hcmd Hbusy _ Hi Hbit _ | _].
  2:{ eexists false, _. split; [reflexivity | discriminate]. }
  assert (Hcu_range : 0 <= i + 32 * k < 2 ^ 32) by lia.
  replace (i + 32 * k <? 0) with false by (symmetry; apply Z.ltb_ge; lia).
  destruct (acquire_slot_idx_on_acquired _ _ _ zslots) as (s & ss & Hrun & Hacq & Hback).
  assert (Hslot : Zocl.acquire_slot_idx wB
                  = Ok (s, Zocl.with_exec (Zocl.set_slot_status ss (Zocl.exec wB)) wB)).
  { unfold Zocl.acquire_slot_idx, bind, gets, lift, Zocl.upd_exec, modify, ret.
    subst wB wA. zocl_simpl. rewrite Hrun. reflexivity. }
  rewrite (bind_Ok _ _ _ _ _ Hslot).
  set (wC := Zocl.with_exec _ wB).
  assert (HcC : Zocl.cmds wC !! p = Some (Zocl.set_cu_idx (i + 32 * k) c))
    by (subst wC wB wA; zocl_simpl; apply lookup_insert_eq).
  rewrite (bind_Ok _ _ wC _ tt (zocl_upd_cmd_run wC p _ _ HcC)).
  set (wD := Zocl.with_cmds _ wC).
  destruct Hacq as [(-> & _) | (Hs & _)].
  { eexists false, _. split; [reflexivity | discriminate]. }
  replace (s <? 0) with false by (symmetry; apply Z.ltb_ge; lia).
  assert (HcD : Zocl.cmds wD !! p
                = Some (Zocl.set_slot_idx s (Zocl.set_cu_idx (i + 32 * k) c)))
    by (subst wD; zocl_simpl; apply lookup_insert_eq).
  assert (Hconf : Zocl.configure_cu p (i + 32 * k) wD
                  = Ok (tt, Zocl.with_mmio
                              (Zocl.mmio wD ++
                               cu_start_writes
                                 (Zocl.cu_idx_to_offset (Zocl.exec w) (i + 32 * k))
                                 (drop 1 (regmap (Zocl.packet c)
                                            (1 + pkt_extra_cu_masks (Zocl.packet c)))))
                              wD)).
  { unfold Zocl.configure_cu.
    rewrite (bind_Ok _ _ wD wD _ (zocl_the_cmd_run wD p _ HcD)).
    rewrite (bind_Ok _ _ wD wD (Zocl.exec wD)) by reflexivity.
    rewrite u32_small by lia.
    unfold Zocl.regmap_size, Zocl.payload_size, Zocl.cu_masks, Zocl.opcode. zocl_simpl.
    fold (Zocl.opcode c). rewrite start_kernel, Z.eqb_refl. cbn [negb].
    rewrite (u32_small (1 + _)) by lia. rewrite u32_small by lia.
    unfold bind, lift.
    rewrite (configure_cu_on_writes _ (Zocl.cu_idx_to_offset (Zocl.exec wD) (i + 32 * k)));
      try lia.
    reflexivity. }
  rewrite (bind_Ok _ _ _ _ _ Hconf).
  eexists true, _. split; [reflexivity |]. intros _.
  exists k, i, busy, s, ss.
  split; [exact Hk |]. split; [exact Hi |]. split; [exact Hbusy |].
  split.
  { rewrite candidates_bit in Hbit. destruct (Z.testbit busy i); [| reflexivity].
    rewrite andb_false_r in Hbit. discriminate. }
  split; [exact Hs |]. split; [apply Hback; lia |]. reflexivity.
Qed.

(** The world after queued_to_running() has started the command. *)
Local Abbreviation started cu s cs ss ws :=
  {| Zocl.exec :=
       Zocl.set_submitted_cmds
         (<[Z.to_nat s := Some p]> (Zocl.submitted_cmds (Zocl.exec w)))
         (Zocl.set_slot_status ss (Zocl.set_cu_status cs (Zocl.exec w)));
     Zocl.cmds :=
       <[p := Zocl.set_state ERT_CMD_STATE_RUNNING
                (Zocl.set_slot_idx s (Zocl.set_cu_idx cu c))]>
         (<[p := Zocl.set_slot_idx s (Zocl.set_cu_idx cu c)]>
            (<[p := Zocl.set_cu_idx cu c]> (Zocl.cmds w)));
     Zocl.ert := Zocl.ert w; Zocl.sched_error := Zocl.sched_error w;
     Zocl.sched_poll :=
       (if Zocl.ert w || negb (Zocl.polling_mode (Zocl.exec w) =? 0)
        then u32 (Zocl.sched_poll w + 1) else Zocl.sched_poll w);
     Zocl.command_queue := Zocl.command_queue w;
     Zocl.pending_cmds := Zocl.pending_cmds w;
     Zocl.mmio := Zocl.mmio w ++ ws; Zocl.ert_hw := Zocl.ert_hw w |}.

Lemma zocl_running_bookkeeping (cu s : Z) (cs ss : list Z) (ws : list io) :
  0 <= s < Z.of_nat (length (Zocl.submitted_cmds (Zocl.exec w))) ->
  (Zocl.set_cmd_int_state p Zocl.CMD_STATE_RUNNING ;;;
   w' <- gets (fun w' => w') ;;
   (if Zocl.ert w' || negb (Zocl.polling_mode (Zocl.exec w') =? 0)
    then modify (fun w' => Zocl.with_sched_poll (u32 (Zocl.sched_poll w' + 1)) w')
    else ret tt) ;;;
   cmd' <- Zocl.the_cmd p ;;
   sc <- lift (arr_set (Zocl.submitted_cmds (Zocl.exec w')) (Zocl.slot_idx cmd')
                 (Some p)) ;;
   Zocl.upd_exec (Zocl.set_submitted_cmds sc) ;;;
   ret true) (submitted cu s cs ss ws) = Ok (true, started cu s cs ss ws).
Proof.
  intros Hs.
  set (wS := submitted cu s cs ss ws).
  set (c2 := Zocl.set_slot_idx s (Zocl.set_cu_idx cu c)).
  set (c3 := Zocl.set_state ERT_CMD_STATE_RUNNING c2).
  assert (HcS : Zocl.cmds wS !! p = Some c2)
    by (subst wS; zocl_simpl; apply lookup_insert_eq).
  unfold Zocl.set_cmd_int_state.
  rewrite (bind_Ok _ _ wS _ tt (zocl_upd_cmd_run wS p c2 _ HcS)).
  set (wF := Zocl.with_cmds _ wS).
  rewrite (bind_Ok _ _ wF wF wF) by reflexivity. cbv beta.
  subst wF wS. zocl_simpl.
  destruct (Zocl.ert w || negb (Zocl.polling_mode (Zocl.exec w) =? 0)).
  - unfold bind at 1. unfold modify at 1. zocl_simpl.
    unfold bind at 1. unfold Zocl.the_cmd at 1. zocl_simpl. rewrite lookup_insert_eq.
    subst c3 c2. zocl_simpl.
    unfold bind, lift, Zocl.upd_exec, modify, ret. rewrite arr_set_in by lia.
    zocl_simpl. reflexivity.
  - unfold bind at 1. unfold ret at 1.
    unfold bind at 1. unfold Zocl.the_cmd at 1. zocl_simpl. rewrite lookup_insert_eq.
    subst c3 c2. zocl_simpl.
    unfold bind, lift, Zocl.upd_exec, modify, ret. rewrite arr_set_in by lia.
    zocl_simpl. reflexivity.
Qed.

Lemma zocl_running_query (cu s : Z) (cs ss : list Z) (ws : list io) :
  0 <= cu < 2 ^ 32 -> 0 <= s < 2 ^ 32 ->
  s < Z.of_nat (length (Zocl.submitted_cmds (Zocl.exec w))) ->
  ZoclWorker.running_to_complete ERT_STATUS_REG p
    (ZoclWorker.set_sched (started cu s cs ss ws) d)
  = (done <- ZoclWorker.cu_done cu ;;
     if done then ZoclWorker.mark_cmd_complete ERT_STATUS_REG p else ret tt)
      (ZoclWorker.set_sched (started cu s cs ss ws) d).
Proof.
  intros Hcu Hs Hlen.
  set (d1 := ZoclWorker.set_sched (started cu s cs ss ws) d).
  set (c3 := Zocl.set_state ERT_CMD_STATE_RUNNING
               (Zocl.set_slot_idx s (Zocl.set_cu_idx cu c))).
  assert (Hc1 : Zocl.cmds (ZoclWorker.sched d1) !! p = Some c3)
    by (subst d1; zocl_simpl; apply lookup_insert_eq).
  assert (Hsub1 : Zocl.submitted_cmds (Zocl.exec (ZoclWorker.sched d1)) !! Z.to_nat s
                  = Some (Some p))
    by (subst d1; zocl_simpl; apply list_lookup_insert_eq; lia).
  unfold ZoclWorker.running_to_complete.
  rewrite (bind_Ok _ _ d1 d1 (Zocl.exec (ZoclWorker.sched d1))) by apply on_gets.
  cbv beta.
  replace (Zocl.ops (Zocl.exec (ZoclWorker.sched d1))) with Zocl.penguin_ops
    by (subst d1; zocl_simpl; symmetry; exact software).
  unfold ZoclWorker.penguin_query.
  rewrite (bind_Ok _ _ d1 d1 c3 (on_the_cmd d1 p c3 Hc1)). cbv beta zeta.
  replace (Zocl.opcode c3) with (Zocl.opcode c) by reflexivity.
  replace (Zocl.opcode c =? Zocl.OP_CONFIGURE) with false
    by (symmetry; apply Z.eqb_neq; exact not_configure).
  replace (Zocl.opcode c =? Zocl.OP_START_CU) with true
    by (symmetry; apply Z.eqb_eq; exact start_cu).
  assert (Hget : ZoclWorker.get_cu_idx (u32 (Zocl.slot_idx c3)) d1 = Ok (cu, d1)).
  { unfold ZoclWorker.get_cu_idx. replace (Zocl.slot_idx c3) with s by reflexivity.
    rewrite u32_small by lia.
    rewrite (bind_Ok _ _ d1 d1 (Zocl.exec (ZoclWorker.sched d1))) by apply on_gets.
    rewrite (bind_Ok _ _ d1 d1 (Some p))
      by (unfold lift; rewrite (arr_get_lookup _ _ (Some p)) by (lia || exact Hsub1);
          reflexivity).
    unfold Zocl.sched_error_on.
    rewrite (bind_Ok _ _ d1 d1 false)
      by (unfold ZoclWorker.on, ret; rewrite zocl_set_sched_id; reflexivity).
    rewrite (bind_Ok _ _ d1 d1 c3 (on_the_cmd d1 p c3 Hc1)).
    unfold ret. replace (Zocl.cu_idx c3) with cu by reflexivity.
    rewrite u32_small by lia. reflexivity. }
  unfold bind at 1. unfold bind at 1. rewrite Hget. reflexivity.
Qed.

Lemma zocl_cu_done_started (k i busy s : Z) (ss : list Z) (ws : list io) :
  0 <= k < 2 ^ 26 -> 0 <= i < 32 ->
  Zocl.cu_status (Zocl.exec w) !! Z.to_nat k = Some busy ->
  Z.testbit busy i = false ->
  let d1 := ZoclWorker.set_sched
              (started (i + 32 * k) s
                 (<[Z.to_nat k := Z.setbit busy i]> (Zocl.cu_status (Zocl.exec w))) ss ws) d in
  ZoclWorker.cu_done (i + 32 * k) d1
  = if negb (Z.land (ZoclWorker.regs d
                       (Zocl.cu_idx_to_offset (Zocl.exec w) (i + 32 * k))) 2 =? 0)
    then Ok (true, ZoclWorker.set_sched
                     (started (i + 32 * k) s (Zocl.cu_status (Zocl.exec w)) ss ws) d)
    else Ok (false, d1).
Proof.
  intros Hk Hi Hbusy Hfree d1.
  assert (Hcu : 0 <= i + 32 * k < 2 ^ 32) by lia.
  unfold ZoclWorker.cu_done.
  rewrite (bind_Ok _ _ d1 d1 (Zocl.exec (ZoclWorker.sched d1))) by apply on_gets.
  rewrite (bind_Ok _ _ d1 d1
             (ZoclWorker.regs d (Zocl.cu_idx_to_offset (Zocl.exec w) (i + 32 * k))))
    by reflexivity.
  destruct (negb (Z.land (ZoclWorker.regs d
                            (Zocl.cu_idx_to_offset (Zocl.exec w) (i + 32 * k))) 2 =? 0));
    [| reflexivity].
  assert (Hlt : (Z.to_nat k < length (Zocl.cu_status (Zocl.exec w)))%nat)
    by (eapply lookup_lt_Some; exact Hbusy).
  destruct (index_compose i k ltac:(lia) ltac:(lia)) as (_ & Hq & Hmod).
  destruct (index_decompose (i + 32 * k) Hcu) as (Hw & Hpos & _).
  rewrite Hq in Hw. rewrite Hmod in Hpos.
  change (cu_mask_idx (i + 32 * k)) with (slot_mask_idx (i + 32 * k)).
  change (cu_idx_in_mask (i + 32 * k)) with (slot_idx_in_mask (i + 32 * k)).
  rewrite Hw, Hpos.
  subst d1. zocl_simpl.
  unfold bind, lift.
  rewrite (arr_get_lookup _ _ (Z.setbit busy i))
    by (lia || apply list_lookup_insert_eq; exact Hlt).
  rewrite arr_set_in by (rewrite length_insert; lia).
  rewrite list_insert_insert_eq.
  rewrite <- (toggle_clear_bit busy i) by (lia || exact Hfree).
  rewrite Z.lxor_assoc, Z.lxor_nilpotent, Z.lxor_0_r.
  rewrite list_insert_id by exact Hbusy.
  unfold ZoclWorker.on, Zocl.upd_exec, modify, ret. zocl_simpl. reflexivity.
Qed.

(** X22.  A start command (opcode START_CU, which is the opcode
    START_KERNEL that cu_masks() looks for) that holds its payload and the
    CU mask words the device scans, on a zocl device in software mode
    whose bitmaps and tables are in order: queued_to_running() returns.
    When it has started the command, the command is running in a slot [s]
    on a compute unit [cu], the table of the submitted commands holds it
    at [s], and the register map has been written to the compute unit.
    From there running_to_complete() leaves everything as it is while the
    control register of the compute unit reads without AP_DONE; once it
    reads with AP_DONE, the command is completed in its two states, the
    slot and compute unit bitmaps and the poll count are what they were
    before the command was started, the slot of the table is empty, and
    the host has been notified once, by the trigger counters or, on a
    device with the embedded scheduler, by its status register. *)
Theorem zocl_start_cu_runs_to_completion :
  exists ok d1,
    ZoclWorker.on (Zocl.queued_to_running p) d = Ok (ok, d1) /\
    (ok = true ->
     exists cu s,
       0 <= cu /\ 0 <= s < Zocl.num_slots (Zocl.exec w) /\
       Zocl.cmds (ZoclWorker.sched d1) !! p
       = Some (Zocl.set_state ERT_CMD_STATE_RUNNING
                 (Zocl.set_slot_idx s (Zocl.set_cu_idx cu c))) /\
       Zocl.submitted_cmds (Zocl.exec (ZoclWorker.sched d1)) !! Z.to_nat s = Some (Some p) /\
       Zocl.mmio (ZoclWorker.sched d1)
       = Zocl.mmio w ++
         cu_start_writes (Zocl.cu_idx_to_offset (Zocl.exec w) cu)
           (drop 1 (regmap (Zocl.packet c) (1 + pkt_extra_cu_masks (Zocl.packet c)))) /\
       (Z.land (ZoclWorker.regs d (Zocl.cu_idx_to_offset (Zocl.exec w) cu)) 2 = 0 ->
        ZoclWorker.running_to_complete ERT_STATUS_REG p d1 = Ok (tt, d1)) /\
       (Z.land (ZoclWorker.regs d (Zocl.cu_idx_to_offset (Zocl.exec w) cu)) 2 <> 0 ->
        exists d2,
          ZoclWorker.running_to_complete ERT_STATUS_REG p d1 = Ok (tt, d2) /\
          Zocl.exec (ZoclWorker.sched d2)
          = Zocl.set_submitted_cmds
              (<[Z.to_nat s := None]> (Zocl.submitted_cmds (Zocl.exec w))) (Zocl.exec w) /\
          Zocl.cmds (ZoclWorker.sched d2)
          = <[p := zocl_completed (Zocl.set_slot_idx s (Zocl.set_cu_idx cu c))]>
              (Zocl.cmds w) /\
          Zocl.sched_poll (ZoclWorker.sched d2) = Zocl.sched_poll w /\
          Zocl.mmio (ZoclWorker.sched d2) = Zocl.mmio (ZoclWorker.sched d1) /\
          (if Zocl.ert w then
             ZoclWorker.triggers d2 = ZoclWorker.triggers d /\
             Zocl.ert_hw (ZoclWorker.sched d2)
             = Zocl.ert_hw w ++
               [iowrite32 (bit (Zocl.cq_slot_idx c mod 32))
                  (u32 (ERT_STATUS_REG + 4 * (Zocl.cq_slot_idx c / 32)))]
           else
             ZoclWorker.poll_wakeups d2 = S (ZoclWorker.poll_wakeups d) /\
             forall k, k ∈ ZoclWorker.ctx_list d ->
               ZoclWorker.triggers d2 !! k = atomic_inc <$> ZoclWorker.triggers d !! k))).
Proof.
  destruct zocl_penguin_submit_start_cu as (ok & wS & Hsub & Hok).
  assert (Hstart :
    Zocl.queued_to_running p w
    = (if ok then
         Zocl.set_cmd_int_state p Zocl.CMD_STATE_RUNNING ;;;
         w' <- gets (fun w' => w') ;;
         (if Zocl.ert w' || negb (Zocl.polling_mode (Zocl.exec w') =? 0)
          then modify (fun w' => Zocl.with_sched_poll (u32 (Zocl.sched_poll w' + 1)) w')
          else ret tt) ;;;
         cmd' <- Zocl.the_cmd p ;;
         sc <- lift (arr_set (Zocl.submitted_cmds (Zocl.exec w')) (Zocl.slot_idx cmd')
                       (Some p)) ;;
         Zocl.upd_exec (Zocl.set_submitted_cmds sc) ;;;
         ret true
       else ret false) wS).
  { unfold Zocl.queued_to_running.
    rewrite (bind_Ok _ _ w w c (zocl_the_cmd_run w p c cmd_at)). cbv beta.
    replace (Zocl.opcode c =? Zocl.OP_CONFIGURE) with false
      by (symmetry; apply Z.eqb_neq; exact not_configure).
    rewrite (bind_Ok _ _ w w tt) by reflexivity.
    rewrite (bind_Ok _ _ w wS ok); [reflexivity |].
    unfold Zocl.submit. rewrite (bind_Ok _ _ w w (Zocl.exec w)) by reflexivity.
    rewrite software. exact Hsub. }
  unfold ZoclWorker.on. rewrite Hstart. clear Hstart.
  destruct ok; [| eexists false, _; split; [reflexivity | discriminate]].
  destruct (Hok eq_refl)
    as (k & i & busy & s & ss & Hk & Hi & Hbusy & Hfree & Hs & Hback & ->).
  clear Hok Hsub.
  destruct fields as [Hcount Hextra].
  set (cu := i + 32 * k) in *.
  set (ws := cu_start_writes _ _).
  set (cs1 := <[Z.to_nat k := Z.setbit busy i]> (Zocl.cu_status (Zocl.exec w))).
  set (wS := submitted cu s cs1 ss ws).
  set (c2 := Zocl.set_slot_idx s (Zocl.set_cu_idx cu c)).
  set (c3 := Zocl.set_state ERT_CMD_STATE_RUNNING c2).
  set (pm := Zocl.ert w || negb (Zocl.polling_mode (Zocl.exec w) =? 0)).
  assert (Hrun1 := zocl_running_bookkeeping cu s cs1 ss ws ltac:(lia)).
  fold wS in Hrun1. fold c2 in Hrun1. fold c3 in Hrun1. fold pm in Hrun1.
  set (w1 := started cu s cs1 ss ws) in *.
  rewrite Hrun1.
  set (d1 := ZoclWorker.set_sched w1 d).
  exists true, d1. split; [reflexivity |]. intros _.
  exists cu, s.
  assert (Hcu : 0 <= cu < 2 ^ 32) by (subst cu; lia).
  assert (Hs32 : 0 <= s < 2 ^ 32) by (destruct zslots as (_ & Hns & _); lia).
  assert (Hc1 : Zocl.cmds (ZoclWorker.sched d1) !! p = Some c3)
    by (subst d1 w1; zocl_simpl; apply lookup_insert_eq).
  assert (Hsub1 : Zocl.submitted_cmds (Zocl.exec (ZoclWorker.sched d1)) !! Z.to_nat s
                  = Some (Some p))
    by (subst d1 w1; zocl_simpl; apply list_lookup_insert_eq; lia).
  split; [lia |]. split; [exact Hs |]. split; [exact Hc1 |]. split; [exact Hsub1 |].
  split; [reflexivity |].
  assert (Hquery := zocl_running_query cu s cs1 ss ws Hcu Hs32 ltac:(lia)).
  fold w1 in Hquery. fold d1 in Hquery. rewrite Hquery. clear Hquery.
  assert (Hcd := zocl_cu_done_started k i busy s ss ws ltac:(lia) Hi Hbusy Hfree).
  cbv zeta in Hcd. fold cu in Hcd. fold cs1 in Hcd. fold ws in Hcd.
  fold w1 in Hcd. fold d1 in Hcd.
  split.
  - intros Hidle. rewrite Hidle in Hcd. cbn [Z.eqb negb] in Hcd.
    rewrite (bind_Ok _ _ d1 d1 false Hcd). reflexivity.
  - intros Hdone.
    replace (Z.land (ZoclWorker.regs d (Zocl.cu_idx_to_offset (Zocl.exec w) cu)) 2 =? 0)
      with false in Hcd by (symmetry; apply Z.eqb_neq; exact Hdone).
    cbn [negb] in Hcd.
    set (dI := ZoclWorker.set_sched
                 (started cu s (Zocl.cu_status (Zocl.exec w)) ss ws) d) in *.
    rewrite (bind_Ok _ _ d1 dI true Hcd). cbv beta iota.
    assert (HcI : Zocl.cmds (ZoclWorker.sched dI) !! p = Some c3)
      by (subst dI; zocl_simpl; apply lookup_insert_eq).
    rewrite (zocl_mark_cmd_complete_run ERT_STATUS_REG p dI c3
               (Zocl.slot_status (Zocl.exec w)) HcI).
    + eexists. split; [reflexivity |].
      assert (Hpoll : forall b : bool,
                (if b then u32 ((if b then u32 (Zocl.sched_poll w + 1)
                                 else Zocl.sched_poll w) - 1)
                 else (if b then u32 (Zocl.sched_poll w + 1)
                       else Zocl.sched_poll w)) = Zocl.sched_poll w).
      { intros [|]; [| reflexivity].
        unfold u32. rewrite Zminus_mod_idemp_l.
        replace (Zocl.sched_poll w + 1 - 1) with (Zocl.sched_poll w) by lia.
        apply Z.mod_small. exact poll_word. }
      unfold zocl_notified, zocl_retired. subst dI d1 w1 c3 c2. zocl_simpl.
      destruct (Zocl.ert w); zocl_simpl.
      * split; [rewrite list_insert_insert_eq; destruct (Zocl.exec w); reflexivity |].
        split; [rewrite !insert_insert_eq; reflexivity |].
        split; [apply (Hpoll true) |]. repeat split; reflexivity.
      * split; [rewrite list_insert_insert_eq; destruct (Zocl.exec w); reflexivity |].
        split; [rewrite !insert_insert_eq; reflexivity |].
        split; [apply Hpoll |]. split; [reflexivity |]. split; [reflexivity |].
        intros j Hj. rewrite zocl_triggered_lookup by exact clients_once.
        rewrite bool_decide_eq_true_2 by exact Hj. reflexivity.
    + subst dI c3 c2. zocl_simpl. rewrite length_insert. lia.
    + subst dI c3 c2. zocl_simpl. exact Hback.
    + exact cq_slot_word.
    + exact clients_alive.
Qed.

End ZoclStartCu.

Lemma zocl_start_cu_runs_to_completion_witness :
  exists d1 d2,
    ZoclWorker.on (Zocl.queued_to_running (abi := Zocl.sched_exec_h_2018_2) 0)
      zocl_queued_device = Ok (true, d1) /\
    ZoclWorker.running_to_complete (abi := Zocl.sched_exec_h_2018_2) 64 0 d1 = Ok (tt, d2) /\
    Zocl.sched_poll (ZoclWorker.sched d2) = Zocl.sched_poll zocl_queued /\
    ZoclWorker.triggers d2 !! 0%nat = Some 1.
Proof.
  pose proof (zocl_start_cu_runs_to_completion (zabi := Zocl.sched_exec_h_2018_2)
                64 zocl_queued_device 0 zocl_start_cmd
                ltac:(vm_compute; reflexivity)
                ltac:(vm_compute; reflexivity)
                ltac:(vm_compute; reflexivity)
                ltac:(vm_compute; reflexivity)
                ltac:(vm_compute; discriminate)
                ltac:(vm_compute; repeat split; discriminate)
                ltac:(vm_compute; split; discriminate)
                ltac:(apply (bool_decide_unpack _); vm_compute; exact I)
                ltac:(apply (bool_decide_unpack _); vm_compute; exact I)
                ltac:(vm_compute; split; discriminate)
                ltac:(vm_compute; discriminate)
                ltac:(vm_compute; discriminate)
                ltac:(sample_slots)
                ltac:(vm_compute; discriminate)
                ltac:(vm_compute; split; [discriminate | reflexivity])
                ltac:(vm_compute; apply NoDup_singleton)
                ltac:(intros j Hj; apply list_elem_of_In in Hj; vm_compute in Hj;
                      destruct Hj as [<- | []]; vm_compute; eexists; reflexivity)
                ltac:(vm_compute; split; [discriminate | reflexivity]))
    as (ok & d1 & Hq & Hok).
  assert (Hrun : exists v, ZoclWorker.on
                             (Zocl.queued_to_running (abi := Zocl.sched_exec_h_2018_2) 0)
                             zocl_queued_device = Ok (true, v))
    by (vm_compute; eexists; reflexivity).
  destruct Hrun as [v Hv]. rewrite Hv in Hq. injection Hq as <- <-.
  destruct (Hok eq_refl) as (cu & s & _ & _ & _ & _ & _ & _ & Hdone).
  destruct (Hdone ltac:(vm_compute; discriminate)) as (d2 & Hr & _ & _ & Hp & _ & Hn).
  replace (Zocl.ert (ZoclWorker.sched zocl_queued_device)) with false in Hn
    by (vm_compute; reflexivity).
  destruct Hn as (_ & Ht).
  exists v, d2. split; [exact Hv |]. split; [exact Hr |]. split; [exact Hp |].
  rewrite (Ht 0%nat) by (vm_compute; left). vm_compute. reflexivity.
Defined.

(** ** The pending commands of the zocl scheduler *)

Lemma on_modify (f : Zocl.world -> Zocl.world) (d : ZoclWorker.device) :
  ZoclWorker.on (modify f) d = Ok (tt, ZoclWorker.set_sched (f (ZoclWorker.sched d)) d).
Proof. reflexivity. Qed.

Section ZoclQueueing.

(** The body of the loop of scheduler_queue_cmds(). *)
Local Abbreviation queue_one :=
  (fun p : nat =>
     ZoclWorker.on (modify (fun w => ZoclWorker.with_lists (Zocl.command_queue w ++ [p])
                                       (Xocl.remove p (Zocl.pending_cmds w)) w)) ;;;
     ZoclWorker.on (Zocl.set_cmd_int_state p Zocl.CMD_STATE_QUEUED) ;;;
     modify (fun d => ZoclWorker.set_num_pending
                        (atomic_dec (ZoclWorker.num_pending d)) d)).

Lemma zocl_queue_one_run (p : nat) (c : Zocl.sched_cmd) (d : ZoclWorker.device) :
  Zocl.cmds (ZoclWorker.sched d) !! p = Some c ->
  queue_one p d
  = Ok (tt, ZoclWorker.set_num_pending (atomic_dec (ZoclWorker.num_pending d))
              (ZoclWorker.set_sched
                 (Zocl.with_cmds
                    (<[p := Zocl.set_state ERT_CMD_STATE_QUEUED c]>
                       (Zocl.cmds (ZoclWorker.sched d)))
                    (ZoclWorker.with_lists
                       (Zocl.command_queue (ZoclWorker.sched d) ++ [p])
                       (Xocl.remove p (Zocl.pending_cmds (ZoclWorker.sched d)))
                       (ZoclWorker.sched d))) d)).
Proof.
  intros Hc. cbv beta.
  set (d1 := ZoclWorker.set_sched
               (ZoclWorker.with_lists (Zocl.command_queue (ZoclWorker.sched d) ++ [p])
                  (Xocl.remove p (Zocl.pending_cmds (ZoclWorker.sched d)))
                  (ZoclWorker.sched d)) d).
  rewrite (bind_Ok _ _ d d1 tt) by apply on_modify.
  assert (Hc1 : Zocl.cmds (ZoclWorker.sched d1) !! p = Some c) by exact Hc.
  unfold Zocl.set_cmd_int_state.
  rewrite (bind_Ok _ _ d1 _ tt (on_upd_cmd d1 p c _ Hc1)).
  unfold modify. subst d1. zocl_simpl. reflexivity.
Qed.

Lemma zocl_queue_loop (l : list nat) :
  forall d : ZoclWorker.device,
    NoDup l ->
    (forall p, p ∈ l -> is_Some (Zocl.cmds (ZoclWorker.sched d) !! p)) ->
    Z.of_nat (length l) <= ZoclWorker.num_pending d < 2 ^ 31 ->
    exists d', for_each l queue_one d = Ok (tt, d') /\ zocl_queued_in_order l d d'.
Proof.
  induction l as [| p l IH]; intros d Hnd Hcmds Hnum.
  - exists d. split; [reflexivity |].
    unfold zocl_queued_in_order. rewrite app_nil_r, list_difference_nil_r.
    cbn [length]. repeat split; try (reflexivity || lia).
  - apply NoDup_cons in Hnd as [Hp Hnd].
    destruct (Hcmds p ltac:(left)) as [c Hc].
    cbn [length] in Hnum.
    cbn [for_each].
    rewrite (bind_Ok _ _ d _ tt (zocl_queue_one_run p c d Hc)).
    set (d1 := ZoclWorker.set_num_pending _ _).
    destruct (IH d1 Hnd) as (d' & Hrun & Hq & Hpend & Hn & Hc' & Hobs).
    + intros q Hq. subst d1. zocl_simpl.
      destruct (decide (q = p)) as [-> | Hne].
      * rewrite lookup_insert_eq. eexists; reflexivity.
      * rewrite lookup_insert_ne by congruence. apply Hcmds. right. exact Hq.
    + subst d1. zocl_simpl. unfold atomic_dec. rewrite to_int_small by lia. lia.
    + exists d'. split; [exact Hrun |].
      unfold zocl_queued_in_order. subst d1. zocl_simpl.
      split; [rewrite Hq, <- app_assoc; reflexivity |].
      split; [rewrite Hpend; apply list_difference_remove |].
      split; [rewrite Hn; unfold atomic_dec; rewrite to_int_small by lia; cbn [length]; lia |].
      split; [| rewrite Hobs; reflexivity].
      intros q. rewrite Hc'.
      destruct (decide (q = p)) as [-> | Hne].
      * rewrite (bool_decide_eq_false_2 _ Hp).
        rewrite (bool_decide_eq_true_2 (p ∈ p :: l)) by left.
        rewrite lookup_insert_eq, Hc. reflexivity.
      * rewrite lookup_insert_ne by congruence.
        destruct (decide (q ∈ l)) as [Hin | Hout].
        -- rewrite (bool_decide_eq_true_2 _ Hin).
           rewrite (bool_decide_eq_true_2 (q ∈ p :: l)) by (right; exact Hin).
           reflexivity.
        -- rewrite (bool_decide_eq_false_2 _ Hout).
           rewrite (bool_decide_eq_false_2 (q ∈ p :: l))
             by (intros H; apply elem_of_cons in H as [? | ?]; contradiction).
           reflexivity.
Qed.

Variable d : ZoclWorker.device.

Local Abbreviation w := (ZoclWorker.sched d).

Hypothesis pending_once : NoDup (Zocl.pending_cmds w).
Hypothesis pending_held : forall p, p ∈ Zocl.pending_cmds w -> is_Some (Zocl.cmds w !! p).
Hypothesis counted :
  Z.of_nat (length (Zocl.pending_cmds w)) <= ZoclWorker.num_pending d < 2 ^ 31.

(** X23.  The zocl scheduler_queue_cmds() on a pending list without
    duplicates whose commands exist, with [num_pending] at least the
    length of the pending list: it returns, the pending commands are on
    the tail of the command queue in the order of the pending list, the
    pending list is empty and [num_pending] is less by their number.
    Each of them is in the internal state queued with its packet, and so
    its state as the host sees it, as it was; the other commands, the
    exec core, the counters of the clients, the free list and the
    register writes are as before. *)
Theorem zocl_scheduler_queue_cmds_keeps_order :
  exists d',
    ZoclWorker.scheduler_queue_cmds d = Ok (tt, d') /\
    zocl_queued_in_order (Zocl.pending_cmds w) d d' /\
    Zocl.pending_cmds (ZoclWorker.sched d') = [] /\
    forall p c, p ∈ Zocl.pending_cmds w -> Zocl.cmds w !! p = Some c ->
      exists c', Zocl.cmds (ZoclWorker.sched d') !! p = Some c' /\
                 Zocl.state c' = ERT_CMD_STATE_QUEUED /\
                 Zocl.packet c' = Zocl.packet c.
Proof.
  destruct (zocl_queue_loop (Zocl.pending_cmds w) d pending_once pending_held counted)
    as (d' & Hrun & Hq).
  exists d'. split.
  { unfold ZoclWorker.scheduler_queue_cmds.
    rewrite (bind_Ok _ _ d d (Zocl.pending_cmds w)) by apply on_gets. exact Hrun. }
  split; [exact Hq |].
  destruct Hq as (_ & Hpend & _ & Hc' & _).
  split; [rewrite Hpend; apply list_difference_diag |].
  intros p c Hp Hc. rewrite Hc', (bool_decide_eq_true_2 _ Hp), Hc.
  eexists. split; [reflexivity |]. split; reflexivity.
Qed.

End ZoclQueueing.

Lemma zocl_scheduler_queue_cmds_keeps_order_witness :
  exists d',
    ZoclWorker.scheduler_queue_cmds zocl_two_pending = Ok (tt, d') /\
    Zocl.command_queue (ZoclWorker.sched d') = [1%nat; 2%nat] /\
    Zocl.pending_cmds (ZoclWorker.sched d') = [] /\
    ZoclWorker.num_pending d' = 0.
Proof.
  destruct (zocl_scheduler_queue_cmds_keeps_order zocl_two_pending
              ltac:(apply (bool_decide_unpack _); vm_compute; exact I)
              ltac:(intros p Hp; apply list_elem_of_In in Hp; vm_compute in Hp;
                    destruct Hp as [<- | [<- | []]]; vm_compute; eexists; reflexivity)
              ltac:(vm_compute; split; [discriminate | reflexivity]))
    as (d' & Hrun & (Hq & _ & Hn & _) & Hpend & _).
  exists d'. split; [exact Hrun |]. split; [rewrite Hq; reflexivity |].
  split; [exact Hpend |]. rewrite Hn. reflexivity.
Defined.

(** ** The completed commands of the zocl scheduler *)

Lemma list_difference_app (a b k : list nat) :
  list_difference (a ++ b) k = list_difference a k ++ list_difference b k.
Proof.
  induction a as [| x a IH]; [reflexivity |]. cbn [app list_difference].
  destruct (decide_rel elem_of x k); [exact IH |]. cbn [app]. f_equal. exact IH.
Qed.

Lemma list_difference_filter (P : nat -> Prop) `{forall x, Decision (P x)} (q l : list nat) :
  (forall x, x ∈ l -> x ∈ q) ->
  list_difference l (filter P q) = filter (fun x => ~ P x) l.
Proof.
  induction l as [| x l IH]; intros Hsub; [reflexivity |]. cbn [list_difference].
  assert (Hl : forall y, y ∈ l -> y ∈ q) by (intros y Hy; apply Hsub; right; exact Hy).
  destruct (decide_rel elem_of x (filter P q)) as [Hin | Hout].
  - apply list_elem_of_filter in Hin as [HP _].
    rewrite filter_cons_False by (intros Hn; exact (Hn HP)). apply IH. exact Hl.
  - assert (HnP : ~ P x).
    { intros HP. apply Hout. apply list_elem_of_filter. split; [exact HP |].
      apply Hsub. left. }
    rewrite filter_cons_True by exact HnP. f_equal. apply IH. exact Hl.
Qed.

Lemma zocl_recycle_cmd_run (p : nat) (d : ZoclWorker.device) :
  ZoclWorker.recycle_cmd p d
  = Ok (0, ZoclWorker.set_free_cmds (Xocl.remove p (ZoclWorker.free_cmds d) ++ [p])
             (ZoclWorker.set_sched
                (ZoclWorker.with_lists
                   (Xocl.remove p (Zocl.command_queue (ZoclWorker.sched d)))
                   (Xocl.remove p (Zocl.pending_cmds (ZoclWorker.sched d)))
                   (ZoclWorker.sched d)) d)).
Proof. reflexivity. Qed.

Section ZoclRetiring.
Context {zabi : Zocl.sched_exec_h}.
Variable ERT_STATUS_REG : Z.

(** The body of the loop of scheduler_iterate_cmds(). *)
Local Abbreviation iterate_one :=
  (fun p : nat =>
     ZoclWorker.when_state p Zocl.CMD_STATE_QUEUED
       (fun p => ZoclWorker.on (Zocl.queued_to_running p) ;;; ret tt) ;;;
     ZoclWorker.when_state p Zocl.CMD_STATE_RUNNING
       (ZoclWorker.running_to_complete ERT_STATUS_REG) ;;;
     ZoclWorker.when_state p Zocl.CMD_STATE_COMPLETED ZoclWorker.complete_to_free).

Lemma zocl_iterate_one_settled (p : nat) (c : Zocl.sched_cmd) (d : ZoclWorker.device) :
  Zocl.cmds (ZoclWorker.sched d) !! p = Some c ->
  Zocl.state c <> ERT_CMD_STATE_QUEUED -> Zocl.state c <> ERT_CMD_STATE_RUNNING ->
  iterate_one p d
  = Ok (tt, if state_eqb (Zocl.state c) ERT_CMD_STATE_COMPLETED
            then ZoclWorker.set_free_cmds (Xocl.remove p (ZoclWorker.free_cmds d) ++ [p])
                   (ZoclWorker.set_sched
                      (ZoclWorker.with_lists
                         (Xocl.remove p (Zocl.command_queue (ZoclWorker.sched d)))
                         (Xocl.remove p (Zocl.pending_cmds (ZoclWorker.sched d)))
                         (ZoclWorker.sched d)) d)
            else d).
Proof.
  intros Hc Hq Hr. cbv beta.
  assert (Hskip : forall st step, state_eqb (Zocl.state c) st = false ->
            ZoclWorker.when_state p st step d = Ok (tt, d)).
  { intros st step Hst. unfold ZoclWorker.when_state.
    rewrite (bind_Ok _ _ d d c (on_the_cmd d p c Hc)). rewrite Hst. reflexivity. }
  rewrite (bind_Ok _ _ d d tt)
    by (apply Hskip; unfold Zocl.CMD_STATE_QUEUED;
        destruct (Zocl.state c); try reflexivity; congruence).
  rewrite (bind_Ok _ _ d d tt)
    by (apply Hskip; unfold Zocl.CMD_STATE_RUNNING;
        destruct (Zocl.state c); try reflexivity; congruence).
  unfold ZoclWorker.when_state.
  rewrite (bind_Ok _ _ d d c (on_the_cmd d p c Hc)).
  unfold Zocl.CMD_STATE_COMPLETED.
  destruct (state_eqb (Zocl.state c) ERT_CMD_STATE_COMPLETED); [| reflexivity].
  unfold ZoclWorker.complete_to_free.
  rewrite (bind_Ok _ _ d d c (on_the_cmd d p c Hc)).
  rewrite (bind_Ok _ _ d _ 0 (zocl_recycle_cmd_run p d)). reflexivity.
Qed.

Lemma zocl_iterate_loop (l : list nat) :
  forall d : ZoclWorker.device,
    NoDup l ->
    (forall p, p ∈ l ->
       exists c, Zocl.cmds (ZoclWorker.sched d) !! p = Some c /\
                 Zocl.state c <> ERT_CMD_STATE_QUEUED /\
                 Zocl.state c <> ERT_CMD_STATE_RUNNING) ->
    for_each l iterate_one d
    = Ok (tt, zocl_recycled
                (filter (fun p => Is_true (zocl_completed_on (ZoclWorker.sched d) p)) l) d).
Proof.
  induction l as [| p l IH]; intros d Hnd Hcmds.
  - rewrite filter_nil. unfold zocl_recycled. rewrite !list_difference_nil_r, app_nil_r.
    destruct d as [[] ? ? ? ? ? ?]. reflexivity.
  - apply NoDup_cons in Hnd as [Hp Hnd].
    destruct (Hcmds p ltac:(left)) as (c & Hc & Hq & Hr).
    cbn [for_each].
    rewrite (bind_Ok _ _ d _ tt (zocl_iterate_one_settled p c d Hc Hq Hr)).
    assert (Hdone : zocl_completed_on (ZoclWorker.sched d) p
                    = state_eqb (Zocl.state c) ERT_CMD_STATE_COMPLETED)
      by (unfold zocl_completed_on; rewrite Hc; reflexivity).
    destruct (state_eqb (Zocl.state c) ERT_CMD_STATE_COMPLETED).
    + set (d1 := ZoclWorker.set_free_cmds _ _).
      rewrite (IH d1 Hnd) by (intros q Hq'; apply Hcmds; right; exact Hq').
      rewrite filter_cons_True by (rewrite Hdone; exact I).
      change (zocl_completed_on (ZoclWorker.sched d1))
        with (zocl_completed_on (ZoclWorker.sched d)).
      set (done := filter _ l).
      assert (Hpd : p ∉ done)
        by (intros Hin; apply list_elem_of_filter in Hin as [_ Hin]; exact (Hp Hin)).
      unfold zocl_recycled. subst d1. zocl_simpl.
      rewrite list_difference_app, !list_difference_remove.
      rewrite (list_difference_disjoint [p] done)
        by (intros x Hx; apply list_elem_of_singleton in Hx as ->; exact Hpd).
      rewrite <- app_assoc. reflexivity.
    + rewrite (IH d Hnd) by (intros q Hq'; apply Hcmds; right; exact Hq').
      rewrite filter_cons_False by (rewrite Hdone; intros []). reflexivity.
Qed.

Variable d : ZoclWorker.device.

Local Abbreviation w := (ZoclWorker.sched d).

Hypothesis lists_once :
  NoDup (Zocl.pending_cmds w ++ Zocl.command_queue w ++ ZoclWorker.free_cmds d).
Hypothesis settled :
  forall p, p ∈ Zocl.command_queue w ->
    exists c, Zocl.cmds w !! p = Some c /\
              Zocl.state c <> ERT_CMD_STATE_QUEUED /\
              Zocl.state c <> ERT_CMD_STATE_RUNNING.

(** X24.  The zocl scheduler_iterate_cmds() on a command queue whose
    commands are neither queued nor running, every command being on one
    list only: it returns, the completed commands of the queue are on the
    tail of the free list in the order they had on the queue, and the
    commands in another state (new, error, abort) are what is left of the
    queue, in their order.  The commands themselves, the pending list,
    the exec core, the counters and the register writes are as before. *)
Theorem zocl_iterate_retires_completed :
  exists d',
    ZoclWorker.scheduler_iterate_cmds ERT_STATUS_REG d = Ok (tt, d') /\
    Zocl.command_queue (ZoclWorker.sched d')
    = filter (fun p => ~ Is_true (zocl_completed_on w p)) (Zocl.command_queue w) /\
    ZoclWorker.free_cmds d'
    = ZoclWorker.free_cmds d ++
      filter (fun p => Is_true (zocl_completed_on w p)) (Zocl.command_queue w) /\
    zocl_obs_retiring d' = zocl_obs_retiring d.
Proof.
  apply NoDup_app in lists_once as (_ & Hpend & Hrest).
  apply NoDup_app in Hrest as (Hq & Hfree & _).
  eexists. split.
  { unfold ZoclWorker.scheduler_iterate_cmds.
    rewrite (bind_Ok _ _ d d (Zocl.command_queue w)) by apply on_gets.
    apply (zocl_iterate_loop (Zocl.command_queue w) d Hq settled). }
  set (done := filter (fun p => Is_true (zocl_completed_on w p)) (Zocl.command_queue w)).
  assert (Hin : forall x, x ∈ done -> x ∈ Zocl.command_queue w)
    by (intros x Hx; apply list_elem_of_filter in Hx as [_ Hx]; exact Hx).
  unfold zocl_recycled, zocl_obs_retiring. zocl_simpl.
  split; [apply list_difference_filter; intros x Hx; exact Hx |].
  split.
  - rewrite (list_difference_disjoint (ZoclWorker.free_cmds d) done); [reflexivity |].
    intros x Hx Hd. exact (Hfree x (Hin x Hd) Hx).
  - rewrite (list_difference_disjoint (Zocl.pending_cmds w) done); [reflexivity |].
    intros x Hx Hd. apply (Hpend x Hx). apply elem_of_app. left. exact (Hin x Hd).
Qed.

End ZoclRetiring.

Lemma zocl_iterate_retires_completed_witness :
  exists d',
    ZoclWorker.scheduler_iterate_cmds (abi := Zocl.sched_exec_h_2018_2) 64
      zocl_three_settled = Ok (tt, d') /\
    Zocl.command_queue (ZoclWorker.sched d') = [2%nat] /\
    ZoclWorker.free_cmds d' = [7%nat; 1%nat; 3%nat].
Proof.
  destruct (zocl_iterate_retires_completed (zabi := Zocl.sched_exec_h_2018_2) 64
              zocl_three_settled
              ltac:(apply (bool_decide_unpack _); vm_compute; exact I)
              ltac:(intros p Hp; apply list_elem_of_In in Hp; vm_compute in Hp;
                    destruct Hp as [<- | [<- | [<- | []]]]; vm_compute;
                    eexists; (split; [reflexivity | split; discriminate])))
    as (d' & Hrun & Hq & Hf & _).
  exists d'. split; [exact Hrun |]. split.
  - rewrite Hq. vm_compute. reflexivity.
  - rewrite Hf. vm_compute. reflexivity.
Defined.

(** ** A submission to the zocl scheduler *)

Lemma zocl_scheduler_queue_cmds_run (d : ZoclWorker.device) :
  NoDup (Zocl.pending_cmds (ZoclWorker.sched d)) ->
  (forall p, p ∈ Zocl.pending_cmds (ZoclWorker.sched d) ->
     is_Some (Zocl.cmds (ZoclWorker.sched d) !! p)) ->
  Z.of_nat (length (Zocl.pending_cmds (ZoclWorker.sched d)))
  <= ZoclWorker.num_pending d < 2 ^ 31 ->
  exists d',
    ZoclWorker.scheduler_queue_cmds d = Ok (tt, d') /\
    zocl_queued_in_order (Zocl.pending_cmds (ZoclWorker.sched d)) d d'.
Proof.
  intros Hnd Hheld Hnum.
  destruct (zocl_queue_loop (Zocl.pending_cmds (ZoclWorker.sched d)) d Hnd Hheld Hnum)
    as (d' & Hrun & Hq).
  exists d'. split; [| exact Hq].
  unfold ZoclWorker.scheduler_queue_cmds.
  rewrite (bind_Ok _ _ d d (Zocl.pending_cmds (ZoclWorker.sched d))) by apply on_gets.
  exact Hrun.
Qed.

Lemma zocl_add_cmd_run (p : nat) (c : Zocl.sched_cmd) (d : ZoclWorker.device) :
  Zocl.cmds (ZoclWorker.sched d) !! p = Some c ->
  ZoclWorker.add_cmd p d
  = Ok (0, ZoclWorker.set_num_pending (atomic_inc (ZoclWorker.num_pending d))
             (ZoclWorker.set_sched
                (ZoclWorker.with_lists (Zocl.command_queue (ZoclWorker.sched d))
                   (Zocl.pending_cmds (ZoclWorker.sched d) ++ [p])
                   (Zocl.with_cmds (<[p := zocl_added_cmd c]> (Zocl.cmds (ZoclWorker.sched d)))
                      (ZoclWorker.sched d))) d)).
Proof.
  intros Hc. unfold ZoclWorker.add_cmd.
  rewrite (bind_Ok _ _ d _ tt (on_upd_cmd d p c _ Hc)).
  set (d1 := ZoclWorker.set_sched _ d).
  assert (Hc1 : Zocl.cmds (ZoclWorker.sched d1) !! p = Some (Zocl.set_cu_idx (-1) c))
    by (subst d1; zocl_simpl; apply lookup_insert_eq).
  rewrite (bind_Ok _ _ d1 _ tt (on_upd_cmd d1 p _ _ Hc1)).
  set (d2 := ZoclWorker.set_sched _ d1).
  assert (Hc2 : Zocl.cmds (ZoclWorker.sched d2) !! p
                = Some (Zocl.set_slot_idx (-1) (Zocl.set_cu_idx (-1) c)))
    by (subst d2; zocl_simpl; apply lookup_insert_eq).
  unfold ZoclWorker.set_cmd_state.
  rewrite (bind_Ok _ _ d2 _ tt (on_upd_cmd d2 p _ _ Hc2)).
  rewrite (bind_Ok _ _ _ _ tt (on_modify _ _)).
  unfold bind, modify, ret. subst d2 d1. zocl_simpl.
  rewrite !insert_insert_eq. reflexivity.
Qed.

Section ZoclSubmission.
Variables (d : ZoclWorker.device) (p : nat) (c : Zocl.sched_cmd).

Local Abbreviation w := (ZoclWorker.sched d).

Hypothesis cmd_at : Zocl.cmds w !! p = Some c.
Hypothesis off_list : p ∉ Zocl.pending_cmds w.
Hypothesis pending_once : NoDup (Zocl.pending_cmds w).
Hypothesis pending_held : forall q, q ∈ Zocl.pending_cmds w -> is_Some (Zocl.cmds w !! q).
Hypothesis counted :
  Z.of_nat (length (Zocl.pending_cmds w)) <= ZoclWorker.num_pending d < 2 ^ 31 - 1.

(** X25.  The zocl add_cmd() for a command object that is not on the
    pending list, and then scheduler_queue_cmds(): both return, add_cmd
    with 0, and the command is the last one of the command queue, behind
    the commands that were pending before it, which are in their order.
    It is the command of [zocl_added_cmd] in the internal state queued:
    without compute unit and slot (-1), the state of its packet, which
    the host reads, new.  The
    pending list is empty and [num_pending] is less than at the start by
    the number of the commands that were pending then. *)
Theorem zocl_add_cmd_then_queue_is_fifo :
  exists d1 d2,
    ZoclWorker.add_cmd p d = Ok (0, d1) /\
    ZoclWorker.scheduler_queue_cmds d1 = Ok (tt, d2) /\
    Zocl.command_queue (ZoclWorker.sched d2)
    = Zocl.command_queue w ++ Zocl.pending_cmds w ++ [p] /\
    Zocl.pending_cmds (ZoclWorker.sched d2) = [] /\
    Zocl.cmds (ZoclWorker.sched d2) !! p
    = Some (Zocl.set_state ERT_CMD_STATE_QUEUED (zocl_added_cmd c)) /\
    ZoclWorker.num_pending d2
    = ZoclWorker.num_pending d - Z.of_nat (length (Zocl.pending_cmds w)).
Proof.
  eexists.
  set (d1 := ZoclWorker.set_num_pending (atomic_inc (ZoclWorker.num_pending d))
               (ZoclWorker.set_sched
                  (ZoclWorker.with_lists (Zocl.command_queue w)
                     (Zocl.pending_cmds w ++ [p])
                     (Zocl.with_cmds (<[p := zocl_added_cmd c]> (Zocl.cmds w)) w)) d)).
  assert (Hinc : atomic_inc (ZoclWorker.num_pending d) = ZoclWorker.num_pending d + 1)
    by (unfold atomic_inc; apply to_int_small; lia).
  destruct (zocl_scheduler_queue_cmds_run d1) as (d2 & Hrun & Hq & Hpend & Hn & Hc' & _).
  - subst d1. zocl_simpl. apply NoDup_app. split; [exact pending_once |].
    split; [| apply NoDup_singleton].
    intros x Hx Hp. apply list_elem_of_singleton in Hp as ->. exact (off_list Hx).
  - intros q Hq. subst d1. zocl_simpl.
    destruct (decide (q = p)) as [-> | Hne].
    + rewrite lookup_insert_eq. eexists; reflexivity.
    + rewrite lookup_insert_ne by congruence. apply pending_held.
      apply elem_of_app in Hq as [Hq | Hq]; [exact Hq |].
      apply list_elem_of_singleton in Hq. contradiction.
  - subst d1. zocl_simpl. rewrite Hinc, length_app. cbn [length]. lia.
  - exists d2. split; [exact (zocl_add_cmd_run p c d cmd_at) |].
    fold d1. split; [exact Hrun |].
    subst d1. zocl_simpl.
    split; [exact Hq |].
    split; [rewrite Hpend; apply list_difference_diag |].
    split.
    { rewrite Hc'. rewrite bool_decide_eq_true_2
        by (apply elem_of_app; right; apply list_elem_of_singleton; reflexivity).
      rewrite lookup_insert_eq. reflexivity. }
    rewrite Hn, Hinc, length_app. cbn [length]. lia.
Qed.

End ZoclSubmission.

Lemma zocl_add_cmd_then_queue_is_fifo_witness :
  exists d1 d2,
    ZoclWorker.add_cmd 5 zocl_two_pending_one_new = Ok (0, d1) /\
    ZoclWorker.scheduler_queue_cmds d1 = Ok (tt, d2) /\
    Zocl.command_queue (ZoclWorker.sched d2) = [1%nat; 2%nat; 5%nat] /\
    ZoclWorker.num_pending d2 = 0.
Proof.
  destruct (zocl_add_cmd_then_queue_is_fifo zocl_two_pending_one_new 5 zocl_started_cmd
              ltac:(vm_compute; reflexivity)
              ltac:(intros Hp; apply list_elem_of_In in Hp; vm_compute in Hp;
                    destruct Hp as [Hp | [Hp | []]]; discriminate Hp)
              ltac:(apply (bool_decide_unpack _); vm_compute; exact I)
              ltac:(intros q Hq; apply list_elem_of_In in Hq; vm_compute in Hq;
                    destruct Hq as [<- | [<- | []]]; vm_compute; eexists; reflexivity)
              ltac:(vm_compute; split; [discriminate | reflexivity]))
    as (d1 & d2 & Hadd & Hrun & Hq & _ & _ & Hn).
  exists d1, d2. split; [exact Hadd |]. split; [exact Hrun |].
  split; [rewrite Hq; reflexivity |]. rewrite Hn. reflexivity.
Defined.
